(** * FlowPrizeVault benchmark orchestrator: a shallow embedding

    The development embeds the measurement orchestrator of the repository
    (benchmark_computation.py, benchmark/benchmark_draw_computation.py,
    benchmark/benchmark_complete_draw.py, benchmark/benchmark_lazy_users.py)
    and states its specification over the embedding.

    Modelling conventions.
    - Python [int] is [Z]; Python [float] is IEEE binary64, embedded with
      the executable specification [SpecFloat] of the Standard Library
      ([prec = 53], [emax = 1024]).
    - [sum] over floats is modelled for both algorithms of CPython, the
      plain one and the compensated one of version 3.12 ([Py.float_sum]);
      what is proved of a sum holds for both.
    - Python [str] is [string]; only ASCII case folding is modelled.
    - An exception is a value of [exn]; code that can raise returns in
      [exn + A]; code that talks to the emulator or the Flow CLI runs in
      the monad [M W], a state monad over an arbitrary world [W] whose
      computations end in a value or in an exception.
    - The external operations themselves ([subprocess.run],
      [urllib.request.urlopen], [json.loads]) are parameters: every
      theorem holds for every behaviour of them.
    - [print] and [time.sleep] have no effect on any result and are left
      out. *)

From Stdlib Require Import ZArith List String Ascii Bool Lia DecimalString.
From Stdlib Require Import Floats.SpecFloat.
Import ListNotations.
Set Warnings "-register-all".
Open Scope string_scope.
Open Scope Z_scope.

(* ================================================================== *)
(** * Python values *)
(* ================================================================== *)

Module Py.

(** ** Exceptions *)

Inductive exn : Type :=
| ZeroDivisionError
| OverflowError
| ValueError
| AttributeError
| TypeError
| URLError            (* urllib.error.URLError *)
| HTTPError           (* urllib.error.HTTPError, a subclass of URLError *)
| JSONDecodeError     (* json.JSONDecodeError *)
| UnicodeDecodeError
| TimeoutExpired      (* subprocess.TimeoutExpired *)
| SocketTimeout       (* TimeoutError, alias socket.timeout *)
| ConnectionError_    (* ConnectionResetError, RemoteDisconnected, ... *)
| OSError_            (* FileNotFoundError and other OSError *)
| KeyboardInterrupt.

(** [except urllib.error.URLError] *)
Definition isinstance_URLError (e : exn) : bool :=
  match e with URLError | HTTPError => true | _ => false end.

(** [except json.JSONDecodeError] *)
Definition isinstance_JSONDecodeError (e : exn) : bool :=
  match e with JSONDecodeError => true | _ => false end.

(** [except subprocess.TimeoutExpired] *)
Definition isinstance_TimeoutExpired (e : exn) : bool :=
  match e with TimeoutExpired => true | _ => false end.

(** [except Exception]: everything but the [BaseException]-only classes. *)
Definition isinstance_Exception (e : exn) : bool :=
  match e with KeyboardInterrupt => false | _ => true end.

(** ** Strings *)

Definition ascii_lower (c : ascii) : ascii :=
  let n := nat_of_ascii c in
  if (Nat.leb 65 n && Nat.leb n 90)%bool then ascii_of_nat (n + 32) else c.

(** [s.lower()] *)
Fixpoint lower (s : string) : string :=
  match s with
  | EmptyString => EmptyString
  | String c t => String (ascii_lower c) (lower t)
  end.

(** [s.startswith(p)] *)
Definition startswith (p s : string) : bool := String.prefix p s.

(** [needle in hay] *)
Fixpoint contains (needle hay : string) : bool :=
  if String.prefix needle hay then true
  else match hay with
       | EmptyString => false
       | String _ t => contains needle t
       end.

(** [s[:n]] *)
Fixpoint take (n : nat) (s : string) : string :=
  match n, s with
  | O, _ => EmptyString
  | _, EmptyString => EmptyString
  | S k, String c t => String c (take k t)
  end.

(** The double-quote character, and a string put between double quotes. *)
Definition dquote : string := String (ascii_of_nat 34) EmptyString.
Definition quoted (s : string) : string := dquote ++ s ++ dquote.

(** [s.replace(' ', '')] *)
Fixpoint remove_spaces (s : string) : string :=
  match s with
  | EmptyString => EmptyString
  | String c t =>
      if Ascii.eqb c " "%char then remove_spaces t
      else String c (remove_spaces t)
  end.

Definition in_range (lo hi : nat) (c : ascii) : bool :=
  (Nat.leb lo (nat_of_ascii c) && Nat.leb (nat_of_ascii c) hi)%bool.

(** [[a-f0-9]] *)
Definition is_hex (c : ascii) : bool :=
  (in_range 48 57 c || in_range 97 102 c)%bool.

(** [[a-f0-9]] under [re.IGNORECASE] *)
Definition is_hex_ci (c : ascii) : bool := is_hex (ascii_lower c).

(** [\s] on ASCII text *)
Definition is_space (c : ascii) : bool :=
  (in_range 9 13 c || in_range 28 32 c)%bool.

(** The longest prefix of characters in a class, and what follows it. *)
Fixpoint span (p : ascii -> bool) (s : string) : string * string :=
  match s with
  | EmptyString => (EmptyString, EmptyString)
  | String c t =>
      if p c then let '(a, b) := span p t in (String c a, b)
      else (EmptyString, s)
  end.

(** [s] without the literal [p] in front, compared after [fold]. *)
Fixpoint strip_literal (fold : ascii -> ascii) (p s : string)
  : option string :=
  match p, s with
  | EmptyString, _ => Some s
  | String _ _, EmptyString => None
  | String a p', String b s' =>
      if Ascii.eqb a (fold b) then strip_literal fold p' s' else None
  end.

(** [re.search]: the match at the leftmost position that has one. *)
Fixpoint search (match_at : string -> option string) (s : string)
  : option string :=
  match match_at s with
  | Some g => Some g
  | None => match s with
            | EmptyString => None
            | String _ t => search match_at t
            end
  end.

(** [s.split(sep)] for a one-character separator *)
Fixpoint split_on (sep : ascii) (s : string) : list string :=
  match s with
  | EmptyString => [EmptyString]
  | String c t =>
      if Ascii.eqb c sep then EmptyString :: split_on sep t
      else match split_on sep t with
           | [] => [String c EmptyString]
           | w :: ws => String c w :: ws
           end
  end.

(** [s.split()]: the maximal runs of characters that are not white space *)
Fixpoint split_ws (s : string) : list string :=
  match s with
  | EmptyString => []
  | String c t =>
      if is_space c then split_ws t
      else match t with
           | EmptyString => [String c EmptyString]
           | String d _ =>
               if is_space d then String c EmptyString :: split_ws t
               else match split_ws t with
                    | [] => [String c EmptyString]
                    | w :: ws => String c w :: ws
                    end
           end
  end.

(** The line feed character. *)
Definition LF : ascii := ascii_of_nat 10.

(** ** Decoded JSON documents

    What [json.loads] returns: [None], [bool], [int], [float], [str],
    [list], [dict].  A [dict] is kept as the list of its items in
    iteration order; keys are distinct. *)

Inductive json : Type :=
| JNull
| JBool (b : bool)
| JInt (n : Z)
| JFloat (f : spec_float)
| JStr (s : string)
| JList (l : list json)
| JDict (d : list (string * json)).

(** Truth value of an object used as a condition. *)
Definition truthy (j : json) : bool :=
  match j with
  | JNull => false
  | JBool b => b
  | JInt n => negb (n =? 0)
  | JFloat (S754_zero _) => false
  | JFloat _ => true
  | JStr s => negb (String.eqb s "")
  | JList l => match l with [] => false | _ => true end
  | JDict d => match d with [] => false | _ => true end
  end.

Fixpoint assoc {A : Type} (k : string) (d : list (string * A)) : option A :=
  match d with
  | [] => None
  | (k', v) :: t => if String.eqb k k' then Some v else assoc k t
  end.

(** [k in d] for a dict [d] *)
Definition has_key {A : Type} (k : string) (d : list (string * A)) : bool :=
  match assoc k d with Some _ => true | None => false end.

(** [obj.get(k, default)]; an object that is no dict has no [get]. *)
Definition get (obj : json) (k : string) (default : json) : exn + json :=
  match obj with
  | JDict d => inr (match assoc k d with Some v => v | None => default end)
  | _ => inl AttributeError
  end.

(** A dict key has to be hashable. *)
Definition hashable_key (j : json) : bool :=
  match j with JList _ | JDict _ => false | _ => true end.

(** [j == 'literal'] for a string literal *)
Definition eq_str (j : json) (s : string) : bool :=
  match j with JStr s' => String.eqb s' s | _ => false end.

(** [str(n)] for an [int] *)
Definition str_of_int (n : Z) : string := NilZero.string_of_int (Z.to_int n).

(** [sum(l)] for a list of [int] *)
Definition sum (l : list Z) : Z := fold_left Z.add l 0.

(** [len(l)] *)
Definition len {A : Type} (l : list A) : Z := Z.of_nat (List.length l).

(** [min(l)] and [max(l)] for a list of [int]; the empty list has none
    (Python raises [ValueError]). *)
Definition min_list (l : list Z) : exn + Z :=
  match l with
  | [] => inl ValueError
  | x :: t => inr (fold_left Z.min t x)
  end.

Definition max_list (l : list Z) : exn + Z :=
  match l with
  | [] => inl ValueError
  | x :: t => inr (fold_left Z.max t x)
  end.

(** ** Binary64 floating point *)

Definition prec : Z := 53.
Definition emax : Z := 1024.

Definition float : Type := spec_float.

Definition fadd : float -> float -> float := SFadd prec emax.
Definition fsub : float -> float -> float := SFsub prec emax.
Definition fmul : float -> float -> float := SFmul prec emax.

(** [x / y] on floats: division by a zero raises. *)
Definition fdiv (x y : float) : exn + float :=
  match y with
  | S754_zero _ => inl ZeroDivisionError
  | _ => inr (SFdiv prec emax x y)
  end.

(** [float(n)], also the implicit conversion of an [int] operand in mixed
    arithmetic: correctly rounded, [OverflowError] beyond the range. *)
Definition float_of_int (n : Z) : exn + float :=
  match binary_normalize prec emax n 0 false with
  | S754_infinity _ => inl OverflowError
  | f => inr f
  end.

(** [int(x)]: truncation toward zero; no integer for infinities and NaN. *)
Definition int_of_float (x : float) : exn + Z :=
  match x with
  | S754_nan => inl ValueError
  | S754_infinity _ => inl OverflowError
  | S754_zero _ => inr 0
  | S754_finite s m e =>
      let a := match e with
               | Z0 => Zpos m
               | Zpos p => Zpos m * 2 ^ e
               | Zneg p => Zpos m / 2 ^ (- e)
               end in
      inr (if s then - a else a)
  end.

(** [a / b] on two [int]s (true division): the correctly rounded quotient. *)
Definition int_truediv (a b : Z) : exn + float :=
  match b with
  | Z0 => inl ZeroDivisionError
  | _ =>
      match a with
      | Z0 => inr (S754_zero (b <? 0))
      | _ =>
          match SFdiv prec emax
                  (S754_finite (a <? 0) (Z.to_pos (Z.abs a)) 0)
                  (S754_finite (b <? 0) (Z.to_pos (Z.abs b)) 0) with
          | S754_infinity _ => inl OverflowError
          | q => inr q
          end
      end
  end.

(** [x > 0] for a float [x] *)
Definition gt_zero (x : float) : bool := SFltb (S754_zero false) x.

(** The literals [0.9], [0.1], [1.0], [2.0], [100.0] and [9999.0]. *)
Definition f_0_9 : float := S754_finite false 8106479329266893 (-53).
Definition f_0_1 : float := S754_finite false 7205759403792794 (-56).
Definition f_1 : float := S754_finite false 4503599627370496 (-52).
Definition f_2 : float := S754_finite false 4503599627370496 (-51).

(** ** The computation report of the emulator

    A decoded report document, [{"transactions": {id: {"computation": int,
    "memory": int, ...}}}]: the items of its ["transactions"] entry in
    iteration order, [None] when the document has no such entry (as in
    [{}]).  A key missing from an item is [None]. *)

Record tx_entry : Type :=
  { entry_computation : option Z; entry_memory : option Z }.

Definition report : Type := option (list (string * tx_entry)).

Definition empty_report : report := None.

(** [report.get("transactions", {})] *)
Definition transactions_of (r : report) : list (string * tx_entry) :=
  match r with Some t => t | None => [] end.

(** Sequencing of pure computations that may raise. *)
Definition ebind {A B : Type} (c : exn + A) (k : A -> exn + B) : exn + B :=
  match c with inl e => inl e | inr a => k a end.

Definition f_100 : float :=
  Eval vm_compute in binary_normalize prec emax 100 0 false.
Definition f_9999 : float :=
  Eval vm_compute in binary_normalize prec emax 9999 0 false.

(** A number that is an [int] or a [float]. *)
Inductive num : Type :=
| NInt (n : Z)
| NFloat (x : float).

(** [x > k] for a number [x] and a small integer literal [k] *)
Definition num_gt (x : num) (k : Z) : bool :=
  match x with
  | NInt n => k <? n
  | NFloat f => SFltb (binary_normalize prec emax k 0 false) f
  end.

(** ** [sum(xs)] for floats

    [sum] starts at the int [0]; the first float [x] is added to it as
    [0 + x].  How the following floats are added depends on the
    interpreter: CPython up to 3.11 adds them from left to right, each
    addition rounded; CPython 3.12 and later keeps, next to the running
    sum, a compensation of the rounding errors (Neumaier's summation) and
    adds it at the end when it is finite and not zero. *)
Inductive float_sum : Type :=
| PlainSum
| CompensatedSum.

(** [fabs(x) >= fabs(y)] *)
Definition fabs_ge (x y : float) : bool := SFleb (SFabs y) (SFabs x).

(** One step of the compensated sum: [t = f_result + x], the rounding
    error of this addition goes to [c]. *)
Definition compensated_step (acc : float * float) (x : float)
  : float * float :=
  let '(f_result, c) := acc in
  let t := fadd f_result x in
  let c := if fabs_ge f_result x
           then fadd c (fadd (fsub f_result t) x)
           else fadd c (fadd (fsub x t) f_result) in
  (t, c).

(** [c && isfinite(c)] *)
Definition usable_compensation (c : float) : bool :=
  match c with S754_finite _ _ _ => true | _ => false end.

Definition fsum (alg : float_sum) (xs : list float) : float :=
  match alg with
  | PlainSum => fold_left fadd xs (S754_zero false)
  | CompensatedSum =>
      match xs with
      | [] => S754_zero false
      | x :: rest =>
          let '(f_result, c) :=
            fold_left compensated_step rest
              (fadd (S754_zero false) x, S754_zero false) in
          if usable_compensation c then fadd f_result c else f_result
      end
  end.

End Py.

(* ================================================================== *)
(** * The outside world *)
(* ================================================================== *)

Module Eff.
Import Py.

(** A request to the outside: a child process or an HTTP request. *)
Inductive call : Type :=
| Subprocess (argv : list string) (timeout : Z)
| UrlOpen (url method : string) (timeout : Z).

(** What comes back: an exit status with the captured text (for an HTTP
    request, the body is [stdout]), or an exception. *)
Inductive outcome : Type :=
| Returned (returncode : Z) (stdout stderr : string)
| Raised (e : exn).

Record CompletedProcess : Type :=
  { returncode : Z; stdout : string; stderr : string }.

(** The world: an environment state of any type, stepped by [exec], and
    the log of the requests made so far (most recent first). *)
Record world (S : Type) : Type := { env : S; trace : list call }.
Arguments env {S} _.
Arguments trace {S} _.

Definition M (S A : Type) : Type := world S -> (exn + A) * world S.

Definition ret {S A : Type} (a : A) : M S A := fun w => (inr a, w).

Definition raise {S A : Type} (e : exn) : M S A := fun w => (inl e, w).

Definition bind {S A B : Type} (c : M S A) (k : A -> M S B) : M S B :=
  fun w => match c w with
           | (inl e, w') => (inl e, w')
           | (inr a, w') => k a w'
           end.

(** A pure computation that may raise. *)
Definition lift {S A : Type} (r : exn + A) : M S A := fun w => (r, w).

(** [try: c  except <classes>: h] *)
Definition try_except {S A : Type} (c : M S A) (catches : exn -> bool)
    (h : exn -> M S A) : M S A :=
  fun w => match c w with
           | (inl e, w') => if catches e then h e w' else (inl e, w')
           | r => r
           end.

Section Primitives.
Variable S : Type.
Variable exec : S -> call -> outcome * S.

Definition request (c : call) : M S CompletedProcess :=
  fun w =>
    let '(o, s') := exec (env w) c in
    let w' := {| env := s'; trace := c :: trace w |} in
    match o with
    | Returned rc out err =>
        (inr {| returncode := rc; stdout := out; stderr := err |}, w')
    | Raised e => (inl e, w')
    end.

(** [subprocess.run(argv, capture_output=True, text=True, timeout=t)] *)
Definition subprocess_run (argv : list string) (t : Z)
  : M S CompletedProcess := request (Subprocess argv t).

(** [urlopen(url, timeout=t)] followed by [response.read().decode()] *)
Definition urlopen_read (url method : string) (t : Z) : M S string :=
  bind (request (UrlOpen url method t)) (fun r => ret (stdout r)).
End Primitives.

End Eff.

Declare Scope exn_scope.
Delimit Scope exn_scope with exn.
Notation "x <- c ;; k" := (Py.ebind c (fun x => k))
  (at level 100, c at next level, right associativity) : exn_scope.

Declare Scope eff_scope.
Delimit Scope eff_scope with eff.
Notation "x <- c ;; k" := (Eff.bind c (fun x => k))
  (at level 100, c at next level, right associativity) : eff_scope.
Notation "c ;;; k" := (Eff.bind c (fun _ => k))
  (at level 100, right associativity) : eff_scope.

(* ================================================================== *)
(** * benchmark_computation.py *)
(* ================================================================== *)

Module BenchmarkComputation.
Import Py Eff.
Local Open Scope eff_scope.

Definition DEPLOYER_ACCOUNT : string := "emulator-account".
Definition EMULATOR_ADMIN_URL : string := "http://localhost:8080".
Definition TX_PATH : string := "cadence/transactions/test".
Definition SCRIPT_PATH : string := "cadence/scripts/test".

(** ** Data classes *)

Record TransactionResult : Type :=
  { success : bool;
    computation : option Z;
    tx_id : option string;
    output : string;
    error : string }.

Record BenchmarkResult : Type :=
  { user_count : Z;
    batch_size : Z;
    create_pool_cu : Z;
    setup_users_total_cu : Z;
    deposit_cus : list Z;
    fund_lottery_cu : Z;
    start_draw_cu : Z;
    batch_cus : list Z;
    request_randomness_cu : Z;
    complete_draw_cu : Z }.

Definition total_deposit_cu (r : BenchmarkResult) : Z := sum (deposit_cus r).

Definition avg_deposit_cu (r : BenchmarkResult) : exn + num :=
  match deposit_cus r with
  | [] => inr (NInt 0)
  | _ => match int_truediv (total_deposit_cu r) (len (deposit_cus r)) with
         | inl e => inl e
         | inr q => inr (NFloat q)
         end
  end.

Definition total_batch_cu (r : BenchmarkResult) : Z := sum (batch_cus r).

Definition avg_batch_cu (r : BenchmarkResult) : exn + num :=
  match batch_cus r with
  | [] => inr (NInt 0)
  | _ => match int_truediv (total_batch_cu r) (len (batch_cus r)) with
         | inl e => inl e
         | inr q => inr (NFloat q)
         end
  end.

Definition per_user_batch_cu (r : BenchmarkResult) : exn + num :=
  if 0 <? user_count r then
    match int_truediv (total_batch_cu r) (user_count r) with
    | inl e => inl e
    | inr q => inr (NFloat q)
    end
  else inr (NInt 0).

Definition total_draw_cu (r : BenchmarkResult) : Z :=
  start_draw_cu r + total_batch_cu r + request_randomness_cu r
  + complete_draw_cu r.

(** ** Regular expressions of [parse_tx_id] *)

(** [Transaction ID:\s*([a-f0-9]+)], ignoring case, at the start of [s] *)
Definition match_transaction_id (s : string) : option string :=
  match strip_literal ascii_lower "transaction id:" s with
  | None => None
  | Some rest =>
      let '(_, rest') := span is_space rest in
      let '(g, _) := span is_hex_ci rest' in
      match g with EmptyString => None | _ => Some g end
  end.

(** ["id":\s*"([a-f0-9]+)"] at the start of [s] *)
Definition match_json_id (s : string) : option string :=
  match strip_literal (fun c => c) (quoted "id" ++ ":") s with
  | None => None
  | Some rest =>
      let '(_, rest') := span is_space rest in
      match strip_literal (fun c => c) dquote rest' with
      | None => None
      | Some rest'' =>
          let '(g, after) := span is_hex rest'' in
          match g, strip_literal (fun c => c) dquote after with
          | String _ _, Some _ => Some g
          | _, _ => None
          end
      end
  end.

Definition parse_tx_id (output : string) : option string :=
  match search match_transaction_id output with
  | Some g => Some g
  | None => search match_json_id output
  end.

Section WithWorld.
Variable S : Type.
Variable exec : S -> call -> outcome * S.
(** [json.loads] on a report document; [None] is a [JSONDecodeError]. *)
Variable json_loads : string -> option report.

Local Abbreviation M := (Eff.M S).

(** ** Computation reporting (HTTP API) *)

Definition get_computation_report : M report :=
  try_except
    (body <- urlopen_read S exec
               (EMULATOR_ADMIN_URL ++ "/emulator/computationReport")
               "GET" 5 ;;
     match json_loads body with
     | Some r => ret r
     | None => raise JSONDecodeError
     end)
    (fun e => (isinstance_URLError e || isinstance_JSONDecodeError e)%bool)
    (fun _ => ret empty_report).

(** The loop of the partial match: the first item whose key contains
    the id or is contained in it, ignoring case. *)
Fixpoint partial_match (tx : string) (items : list (string * tx_entry))
  : option tx_entry :=
  match items with
  | [] => None
  | (key, data) :: rest =>
      if (contains (lower tx) (lower key)
          || contains (lower key) (lower tx))%bool
      then Some data
      else partial_match tx rest
  end.

(** Resolution of an id in a fetched report. *)
Definition resolve_computation (tx : string) (r : report) : option Z :=
  let transactions := transactions_of r in
  match assoc tx transactions with
  | Some data => entry_computation data
  | None =>
      match partial_match tx transactions with
      | Some data => entry_computation data
      | None => None
      end
  end.

Definition get_transaction_computation (tx : option string)
  : M (option Z) :=
  match tx with
  | None => ret None
  | Some EmptyString => ret None
  | Some t =>
      r <- get_computation_report ;;
      ret (resolve_computation t r)
  end.

(** ** Flow CLI helpers *)

Definition run_command (cmd : list string) : M CompletedProcess :=
  subprocess_run S exec cmd 300.

(** The success flag of [run_transaction], from the exit status and
    the combined output. *)
Definition classify (rc : Z) (combined_output : string) : bool :=
  let success := rc =? 0 in
  let success :=
    if (contains "error" (lower combined_output)
        && contains "error:" (lower combined_output))%bool
    then false else success in
  let success :=
    if (contains "panic" (lower combined_output)
        || contains "revert" (lower combined_output))%bool
    then false else success in
  success.

Definition run_transaction (tx_path : string) (args : list string)
    (signer : option string) (compute_limit : Z) : M TransactionResult :=
  let signer := match signer with Some s => s | None => DEPLOYER_ACCOUNT end in
  let cmd := (["flow"; "transactions"; "send"; tx_path;
              "--signer"; signer;
              "--compute-limit"; str_of_int compute_limit] ++ args)%list in
  result <- run_command cmd ;;
  let combined_output := stdout result ++ stderr result in
  let tx := parse_tx_id combined_output in
  let success := classify (returncode result) combined_output in
  computation <-
    (match tx, success with
     | Some (String _ _), true => get_transaction_computation tx
     | _, _ => ret None
     end) ;;
  ret {| success := success;
         computation := computation;
         tx_id := tx;
         output := stdout result;
         error := stderr result |}.

Record script_result : Type :=
  { script_success : bool; script_output : string; script_error : string }.

Definition run_script (script_path : string) (args : list string)
  : M script_result :=
  let cmd := (["flow"; "scripts"; "execute"; script_path] ++ args)%list in
  result <- run_command cmd ;;
  ret {| script_success := returncode result =? 0;
         script_output := stdout result;
         script_error := stderr result |}.

(** The status dictionary; a key that was not set is [None]. *)
Record draw_status : Type :=
  { status_error : option string;
    canDrawNow : option bool;
    isBatchComplete : option bool;
    timeUntilNextDraw : option string }.

(** ["timeUntilNextDraw":\s*([\d.]+)] at the start of [s] *)
Definition match_time_until (s : string) : option string :=
  match strip_literal (fun c => c) (quoted "timeUntilNextDraw" ++ ":") s with
  | None => None
  | Some rest =>
      let '(_, rest') := span is_space rest in
      let '(g, _) :=
        span (fun c => (in_range 48 57 c || Ascii.eqb c "."%char)%bool) rest' in
      match g with EmptyString => None | _ => Some g end
  end.

Fixpoint count_char (c : ascii) (s : string) : nat :=
  match s with
  | EmptyString => O
  | String d t => if Ascii.eqb c d then Datatypes.S (count_char c t)
                  else count_char c t
  end.

(** [float(g)] accepts a run of digits and dots when it has at most one
    dot and at least one digit. *)
Definition is_float_literal (g : string) : bool :=
  (Nat.leb (count_char "."%char g) 1
   && Nat.ltb (count_char "."%char g) (String.length g))%bool.

Definition get_draw_status (pool_id : Z) : M draw_status :=
  result <- run_script (SCRIPT_PATH ++ "/get_draw_status.cdc")
              [str_of_int pool_id] ;;
  if negb (script_success result) then
    ret {| status_error := Some (script_error result);
           canDrawNow := None; isBatchComplete := None;
           timeUntilNextDraw := None |}
  else
    let output := script_output result in
    let can :=
      if contains (quoted "canDrawNow" ++ ": true") output then Some true
      else if contains (quoted "canDrawNow" ++ ": false") output
           then Some false else None in
    let complete :=
      if contains (quoted "isBatchComplete" ++ ": true") output
      then Some true
      else if contains (quoted "isBatchComplete" ++ ": false") output
           then Some false else None in
    match search match_time_until output with
    | Some g =>
        if is_float_literal g then
          ret {| status_error := None; canDrawNow := can;
                 isBatchComplete := complete;
                 timeUntilNextDraw := Some g |}
        else raise ValueError
    | None =>
        ret {| status_error := None; canDrawNow := can;
               isBatchComplete := complete; timeUntilNextDraw := None |}
    end.

Definition is_batch_complete (pool_id : Z) : M bool :=
  status <- get_draw_status pool_id ;;
  ret (match isBatchComplete status with Some b => b | None => false end).

Definition run_batch_test (pool_id batch_size : Z) : M TransactionResult :=
  run_transaction (TX_PATH ++ "/process_draw_batch.cdc")
    [str_of_int pool_id; str_of_int batch_size] None 9999.

(** ** Step 7 of [run_multi_user_benchmark]: process batches

    The loop [while batch_num < max_batches] runs at most
    [max_batches - batch_num] times; [remaining] is that difference.
    Besides the loop variables the model returns the exit taken. *)

Definition set_batch_cus (r : BenchmarkResult) (l : list Z)
  : BenchmarkResult :=
  {| user_count := user_count r; batch_size := batch_size r;
     create_pool_cu := create_pool_cu r;
     setup_users_total_cu := setup_users_total_cu r;
     deposit_cus := deposit_cus r;
     fund_lottery_cu := fund_lottery_cu r;
     start_draw_cu := start_draw_cu r;
     batch_cus := l;
     request_randomness_cu := request_randomness_cu r;
     complete_draw_cu := complete_draw_cu r |}.

Inductive loop_exit : Type :=
| ExitComplete      (* [break] after the completion predicate held *)
| ExitCeiling.      (* the loop condition became false *)

Fixpoint process_batches_loop (remaining : nat) (pool_id bsize : Z)
    (batch_num : Z) (result : BenchmarkResult)
  : M (loop_exit * Z * BenchmarkResult) :=
  match remaining with
  | O => ret (ExitCeiling, batch_num, result)
  | Datatypes.S k =>
      batch_result <-
        run_transaction (TX_PATH ++ "/process_draw_batch.cdc")
          [str_of_int pool_id; str_of_int bsize] None 9999 ;;
      let result :=
        match computation batch_result with
        | Some c => if c =? 0 then result
                    else set_batch_cus result (batch_cus result ++ [c])
        | None => result
        end in
      let batch_num := batch_num + 1 in
      complete <- is_batch_complete pool_id ;;
      if complete then ret (ExitComplete, batch_num, result)
      else process_batches_loop k pool_id bsize batch_num result
  end.

Definition floordiv (a b : Z) : exn + Z :=
  if b =? 0 then inl ZeroDivisionError else inr (a / b).

Definition process_batches (pool_id : Z) (result : BenchmarkResult)
  : M (loop_exit * Z * BenchmarkResult) :=
  q <- lift (floordiv (user_count result) (batch_size result)) ;;
  let max_batches := q + 10 in
  process_batches_loop (Z.to_nat max_batches) pool_id (batch_size result)
    0 result.

(** ** [find_batch_limit]: the probes and the summary *)

Record probe : Type :=
  { probe_batch_size : Z;
    probe_computation : Z;
    percent : float;
    per_user : float }.

(** [int(9999 / x) if x > 0 else 0] *)
Definition max_load_at (x : float) : exn + Z :=
  if gt_zero x then (q <- fdiv f_9999 x ;; int_of_float q)%exn
  else inr 0.

(** The loop [for batch_size in test_sizes] (lines 836-886). *)
Fixpoint test_batch_sizes (test_sizes : list Z) (pool_id : Z)
    (results : list probe) (total_processed : Z)
  : M (list probe * Z) :=
  match test_sizes with
  | [] => ret (results, total_processed)
  | bsize :: rest =>
      batch_result <- run_batch_test pool_id bsize ;;
      let measured :=
        match computation batch_result with
        | Some cu => if (0 <? cu)%Z && success batch_result
                     then Some cu else None
        | None => None
        end in
      match measured with
      | Some cu =>
          pct <- lift (q <- int_truediv cu 9999 ;; inr (fmul q f_100))%exn ;;
          pu <- lift (int_truediv cu bsize) ;;
          let results :=
            (results ++ [{| probe_batch_size := bsize;
                            probe_computation := cu;
                            percent := pct;
                            per_user := pu |}])%list in
          est_max <- lift (max_load_at pu) ;;
          test_batch_sizes rest pool_id results (total_processed + bsize)
      | None =>
          if negb (success batch_result)
          then ret (results, total_processed)
          else test_batch_sizes rest pool_id results total_processed
      end
  end.

(** The loop [while not is_batch_complete(pool_id)] (lines 889-898) has
    no bound of its own; [fuel] bounds its iterations in the model and
    [None] says that the fuel did not suffice. *)
Fixpoint process_remaining (fuel : nat) (pool_id : Z) : M (option unit) :=
  match fuel with
  | O => ret None
  | Datatypes.S k =>
      complete <- is_batch_complete pool_id ;;
      if complete then ret (Some tt)
      else
        batch_result <-
          run_transaction (TX_PATH ++ "/process_draw_batch.cdc")
            [str_of_int pool_id; "500"] None 9999 ;;
        if negb (success batch_result) then ret (Some tt)
        else process_remaining k pool_id
  end.

Record limit_estimate : Type :=
  { avg_per_user_cu : float;
    theoretical_max : Z;
    recommended_max : Z;
    limit_results : list probe }.

Inductive limit_info : Type :=
| LimitError (msg : string)
| LimitEstimate (e : limit_estimate).

(** The summary (lines 905-930). *)
Definition limit_summary (alg : float_sum) (results : list probe)
  : exn + limit_info :=
  match results with
  | [] => inr (LimitError "No successful batches")
  | _ =>
      (n <- float_of_int (len results) ;;
       avg_per_user <- fdiv (fsum alg (map per_user results)) n ;;
       tmax <- max_load_at avg_per_user ;;
       tmax_f <- float_of_int tmax ;;
       safe_max <- int_of_float (fmul tmax_f f_0_9) ;;
       inr (LimitEstimate
              {| avg_per_user_cu := avg_per_user;
                 theoretical_max := tmax;
                 recommended_max := safe_max;
                 limit_results := results |}))%exn
  end.

(** [if not is_batch_complete(pool_id): while ...] (lines 888-898) *)
Definition process_remaining_if_needed (fuel : nat) (pool_id : Z)
  : M (option unit) :=
  complete <- is_batch_complete pool_id ;;
  if complete then ret (Some tt) else process_remaining fuel pool_id.

(** [find_batch_limit] from the probes on (lines 826-930); the sizes to
    test are [test_sizes = [max_users]] (line 832). *)
Definition find_batch_limit_probing (alg : float_sum) (max_users : Z)
    (fuel : nat) (pool_id : Z) : M (option limit_info) :=
  status <- get_draw_status pool_id ;;
  let test_sizes := [max_users] in
  tested <- test_batch_sizes test_sizes pool_id [] 0 ;;
  let results := fst tested in
  drained <- process_remaining_if_needed fuel pool_id ;;
  match drained with
  | None => ret None
  | Some _ => info <- lift (limit_summary alg results) ;; ret (Some info)
  end.

End WithWorld.

(** ** The estimate of [print_benchmark_summary] (lines 469-476) *)

Definition num_float (x : num) : exn + float :=
  match x with NInt n => float_of_int n | NFloat f => inr f end.

(** [[r for r in results if r.per_user_batch_cu > 0]], as per-user costs *)
Fixpoint valid_per_user (results : list BenchmarkResult)
  : exn + list float :=
  match results with
  | [] => inr []
  | r :: rest =>
      (x <- per_user_batch_cu r ;;
       xs <- valid_per_user rest ;;
       if num_gt x 0 then (f <- num_float x ;; inr (f :: xs)) else inr xs)%exn
  end.

(** [None]: no valid result; otherwise the average and the estimated
    maximum, which is the string N/A ([None]) when the average is not
    positive. *)
Definition summary_estimate (alg : float_sum)
    (results : list BenchmarkResult)
  : exn + option (float * option Z) :=
  (xs <- valid_per_user results ;;
   match xs with
   | [] => inr None
   | _ =>
       n <- float_of_int (len xs) ;;
       avg_per_user <- fdiv (fsum alg xs) n ;;
       if gt_zero avg_per_user
       then (q <- fdiv f_9999 avg_per_user ;;
             m <- int_of_float q ;;
             inr (Some (avg_per_user, Some m)))
       else inr (Some (avg_per_user, None))
   end)%exn.

End BenchmarkComputation.

(* ================================================================== *)
(** * benchmark/benchmark_draw_computation.py *)
(* ================================================================== *)

Module DrawComputation.
Import Py Eff.
Local Open Scope eff_scope.

Definition NETWORK : string := "emulator".
Definition ADMIN_ACCOUNT : string := "emulator-account".
Definition FLOW_FLAGS : list string := ["--skip-version-check"].
Definition COMPUTE_LIMIT : Z := 9999.
Definition EMULATOR_PORT : Z := 8080.

Definition TX_FUND_LOTTERY : string :=
  "cadence/transactions/test/fund_lottery_pool.cdc".
Definition TX_START_DRAW : string :=
  "cadence/transactions/prize-linked-accounts/start_draw.cdc".
Definition TX_PROCESS_BATCH : string :=
  "cadence/transactions/test/process_draw_batch.cdc".
Definition TX_REQUEST_RANDOMNESS : string :=
  "cadence/transactions/test/request_draw_randomness.cdc".
Definition TX_COMPLETE_DRAW : string :=
  "cadence/transactions/prize-linked-accounts/complete_draw.cdc".
Definition SCRIPT_DRAW_STATUS : string :=
  "cadence/scripts/prize-linked-accounts/get_draw_status.cdc".

(** ** Data structures *)

Record ComputationResult : Type :=
  { tx_name : string;
    success : bool;
    computation : Z;
    memory : Z;
    tx_id : json;
    error : option string }.

Record PhaseResult : Type :=
  { phase_name : string;
    total_computation : Z;
    total_memory : Z;
    tx_count : Z;
    avg_computation_per_tx : num;
    items_processed : Z;
    computation_per_item : num }.

(** The field [timestamp] of [BenchmarkRun] ([datetime.now()]) plays no
    part in any result and is left out. *)
Record BenchmarkRun : Type :=
  { user_count : Z;
    batch_size : Z;
    phases : list PhaseResult;
    run_total_computation : Z;
    run_total_memory : Z;
    total_tx_count : Z }.

(** ** Text of a transaction: the id in free text *)

(** The first part that starts with [0x] or has 64 characters. *)
Fixpoint first_id_part (parts : list string) : option string :=
  match parts with
  | [] => None
  | part :: rest =>
      if (startswith "0x" part || Nat.eqb (String.length part) 64)%bool
      then Some part
      else first_id_part rest
  end.

(** The loop over the lines of the output; a later line overrides. *)
Definition text_tx_id (output : string) : json :=
  fold_left
    (fun tx line =>
       if (contains "ID" line && contains "0x" line)%bool then
         match first_id_part (split_ws line) with
         | Some part => JStr part
         | None => tx
         end
       else tx)
    (split_on LF output) JNull.

(** ** Correlation of a fetched report with an operation id
    (lines 853-869 of [execute_draw_phase]) *)

Definition entry_values (data : tx_entry) : Z * Z :=
  (match entry_computation data with Some c => c | None => 0 end,
   match entry_memory data with Some m => m | None => 0 end).

Fixpoint correlate_items (tx : json) (n : Z)
    (items : list (string * tx_entry)) : Z * Z :=
  match items with
  | [] => (0, 0)
  | (tid, data) :: rest =>
      if (truthy tx && eq_str tx tid)%bool then entry_values data
      else if n =? 1 then entry_values data
      else correlate_items tx n rest
  end.

Definition correlate (tx : json) (r : report) : Z * Z :=
  match r with
  | Some transactions =>
      correlate_items tx (len transactions) transactions
  | None => (0, 0)
  end.

(** ** Draw status documents *)

(** [for x in j] *)
Definition py_iter (j : json) : exn + list json :=
  match j with
  | JList l => inr l
  | JDict d => inr (map (fun kv => JStr (fst kv)) d)
  | JStr s =>
      inr (map (fun c => JStr (String c EmptyString)) (list_ascii_of_string s))
  | _ => inl TypeError
  end.

(** The status dictionary: its assignments in order; the last one to a
    key is its value. *)
Definition status : Type := list (json * json).

Definition status_get (st : status) (k : string) (default : json) : json :=
  fold_left (fun acc nv => if eq_str (fst nv) k then snd nv else acc)
    st default.

Fixpoint status_of_fields (fields : list json) (st : status)
  : exn + status :=
  match fields with
  | [] => inr st
  | field :: rest =>
      (name <- get field "name" JNull ;;
       value_obj <- get field "value" (JDict []) ;;
       value <- get value_obj "value" JNull ;;
       let value :=
         if eq_str value "true" then JBool true
         else if eq_str value "false" then JBool false
         else value in
       if hashable_key name
       then status_of_fields rest (st ++ [(name, value)])%list
       else inl TypeError)%exn
  end.

(** The structured form of a status, [result] being a dict. *)
Definition status_of_struct (result : json) : exn + status :=
  (v <- get result "value" (JDict []) ;;
   fields <- get v "fields" (JList []) ;;
   items <- py_iter fields ;;
   status_of_fields items [])%exn.

(** The free-text form. *)
Definition status_of_text (output_str : string) : status :=
  [ (JStr "isBatchComplete",
     JBool (contains "isBatchComplete: true" output_str));
    (JStr "isReadyForCompletion",
     JBool (contains "isReadyForCompletion: true" output_str));
    (JStr "canDrawNow", JBool (contains "canDrawNow: true" output_str));
    (JStr "isPendingDrawInProgress",
     JBool (contains "isPendingDrawInProgress: true" output_str)) ].

Section WithWorld.
Variable S : Type.
Variable exec : S -> call -> outcome * S.
(** [json.loads]; [None] is a [JSONDecodeError]. *)
Variable json_loads : string -> option json.
(** [json.loads] on a report document. *)
Variable json_loads_report : string -> option report.
(** [str(e)] for an exception, [str(x)] for an object that is not a
    string, and [str(x)] for a float. *)
Variable str_of_exn : exn -> string.
Variable repr : json -> string.
Variable str_of_float : float -> string.

Local Abbreviation M := (Eff.M S).

Definition py_str (j : json) : string :=
  match j with JStr s => s | _ => repr j end.

(** No request is made: the body of [reset_computation_profile] is
    commented out. *)
Definition reset_computation_profile : M unit := ret tt.

Definition get_computation_report : M report :=
  try_except
    (result <- subprocess_run S exec
                 ["curl"; "-s";
                  "http://localhost:" ++ str_of_int EMULATOR_PORT
                  ++ "/emulator/computationReport"] 10 ;;
     if ((returncode result =? 0)
         && negb (String.eqb (stdout result) ""))%bool
     then match json_loads_report (stdout result) with
          | Some r => ret r
          | None => raise JSONDecodeError
          end
     else ret empty_report)
    isinstance_Exception
    (fun _ => ret empty_report).

(** ** Flow CLI helpers *)

Definition run_command (cmd : list string) (timeout : Z)
  : M (Z * string * string) :=
  try_except
    (try_except
       (result <- subprocess_run S exec cmd timeout ;;
        ret (returncode result, stdout result, stderr result))
       isinstance_TimeoutExpired
       (fun _ => ret (-1, "", "Command timed out")))
    isinstance_Exception
    (fun e => ret (-1, "", str_of_exn e)).

(** The fourth component of the result of [run_flow_tx], a computation
    read from the output of the CLI, is used by no caller modelled here
    and is left out. *)
Definition run_flow_tx (tx_path : string) (args : list string)
    (signer : string) (compute_limit : Z) : M (bool * string * json) :=
  let cmd := (["flow"; "transactions"; "send"; tx_path] ++ args
              ++ ["--signer"; signer; "--network"; NETWORK;
                  "--compute-limit"; str_of_int compute_limit;
                  "--output"; "json"] ++ FLOW_FLAGS)%list in
  r <- run_command cmd 120 ;;
  let '(code, out, err) := r in
  match json_loads out with
  | Some result =>
      tx <- lift (d <- get result "transactionId" JNull ;;
                  get result "id" d)%exn ;;
      st <- lift (get result "status" JNull) ;;
      sealed <-
        (if eq_str st "SEALED" then ret true
         else (st' <- lift (get result "statusString" JNull) ;;
               ret (eq_str st' "SEALED"))) ;;
      if sealed then ret (true, out, tx)
      else
        error <- lift (d <- get result "errorMessage" (JStr "") ;;
                       get result "error" d)%exn ;;
        if truthy error then ret (false, py_str error, tx)
        else ret (true, out, tx)
  | None =>
      let output := out ++ err in
      let tx := text_tx_id output in
      let success :=
        ((code =? 0) && negb (contains "error" (lower output))
         && negb (contains "panic" (lower output)))%bool in
      ret (success, out ++ err, tx)
  end.

(** [run_flow_script(..., output_json=True)] *)
Definition run_flow_script_json (script_path : string)
    (args : list string) : M (bool * (json + string)) :=
  let cmd := (["flow"; "scripts"; "execute"; script_path] ++ args
              ++ ["--network"; NETWORK] ++ FLOW_FLAGS
              ++ ["--output"; "json"])%list in
  r <- run_command cmd 120 ;;
  let '(code, out, err) := r in
  match json_loads out with
  | Some result => ret (true, inl result)
  | None => ret (false, inr (out ++ err))
  end.

(** [run_flow_script(...)] *)
Definition run_flow_script (script_path : string) (args : list string)
  : M (bool * string) :=
  let cmd := (["flow"; "scripts"; "execute"; script_path] ++ args
              ++ ["--network"; NETWORK] ++ FLOW_FLAGS)%list in
  r <- run_command cmd 120 ;;
  let '(code, out, err) := r in
  let output := out ++ err in
  ret (((code =? 0) && negb (contains "error" (lower output))
        && negb (contains "panic" (lower output)))%bool, output).

(** ** Draw phase execution *)

Definition execute_draw_phase (phase : string) (tx_path : string)
    (pool_id : Z) (extra_args : list string) (compute_limit : Z)
  : M ComputationResult :=
  reset_computation_profile ;;;
  r <- run_flow_tx tx_path (str_of_int pool_id :: extra_args)
         ADMIN_ACCOUNT compute_limit ;;
  let '(ok, output, tx) := r in
  report <- get_computation_report ;;
  let '(comp, mem) := correlate tx report in
  ret {| tx_name := phase;
         success := ok;
         computation := comp;
         memory := mem;
         tx_id := if truthy tx then tx else JStr "";
         error := if ok then None else Some (take 200 output) |}.

Definition get_draw_status (pool_id : Z) : M status :=
  r <- run_flow_script_json SCRIPT_DRAW_STATUS [str_of_int pool_id] ;;
  structured <-
    (match r with
     | (true, inl (JDict d)) => lift (status_of_struct (JDict d))
     | _ => ret []
     end) ;;
  match structured with
  | _ :: _ => ret structured
  | [] =>
      r' <- run_flow_script SCRIPT_DRAW_STATUS [str_of_int pool_id] ;;
      ret (status_of_text (snd r'))
  end.

Definition fund_lottery_pool (pool_id : Z) (amount : string) : M bool :=
  r <- run_flow_tx TX_FUND_LOTTERY [str_of_int pool_id; amount]
         ADMIN_ACCOUNT COMPUTE_LIMIT ;;
  ret (fst (fst r)).

(** ** Phase 2 of [run_full_draw_benchmark] (lines 973-1003)

    [remaining] is [max_batches - batch_count].  Besides the loop
    variables the model returns the exit taken. *)

Inductive loop_exit : Type :=
| ExitFailed        (* [break] after a failed operation *)
| ExitComplete      (* [break] after the completion predicate held *)
| ExitCeiling.      (* the loop condition became false *)

Record batch_phase : Type :=
  { exit_taken : loop_exit;
    batch_count : Z;
    batch_computations : list Z;
    total_batch_computation : Z }.

Fixpoint process_batches_loop (remaining : nat) (pool_id bsize : Z)
    (count : Z) (comps : list Z) (total : Z) : M batch_phase :=
  match remaining with
  | O => ret {| exit_taken := ExitCeiling; batch_count := count;
                batch_computations := comps;
                total_batch_computation := total |}
  | Datatypes.S k =>
      let count := count + 1 in
      result <- execute_draw_phase
                  ("processDrawBatch_" ++ str_of_int count)
                  TX_PROCESS_BATCH pool_id [str_of_int bsize]
                  COMPUTE_LIMIT ;;
      if negb (success result) then
        ret {| exit_taken := ExitFailed; batch_count := count;
               batch_computations := comps;
               total_batch_computation := total |}
      else
        let comps := (comps ++ [computation result])%list in
        let total := total + computation result in
        st <- get_draw_status pool_id ;;
        if truthy (status_get st "isBatchComplete" (JBool false)) then
          ret {| exit_taken := ExitComplete; batch_count := count;
                 batch_computations := comps;
                 total_batch_computation := total |}
        else process_batches_loop k pool_id bsize count comps total
  end.

Definition floordiv (a b : Z) : exn + Z :=
  if b =? 0 then inl ZeroDivisionError else inr (a / b).

Definition process_batches (pool_id users bsize : Z) : M batch_phase :=
  q <- lift (floordiv users bsize) ;;
  let max_batches := q + 5 in
  process_batches_loop (Z.to_nat max_batches) pool_id bsize 0 [] 0.

(** [total / n if n > 0 else 0] (lines 1005-1006) *)
Definition average (total n : Z) : exn + num :=
  if 0 <? n then (q <- int_truediv total n ;; inr (NFloat q))%exn
  else inr (NInt 0).

Definition single_phase (name : string) (r : ComputationResult)
  : exn + PhaseResult :=
  (f <- float_of_int (computation r) ;;
   inr {| phase_name := name;
          total_computation := computation r;
          total_memory := memory r;
          tx_count := 1;
          avg_computation_per_tx := NFloat f;
          items_processed := 0;
          computation_per_item := NFloat (S754_zero false) |})%exn.

Definition f_10 : float :=
  Eval vm_compute in binary_normalize prec emax 10 0 false.

(** [None] is the [return None] after a failed first phase. *)
Definition run_full_draw_benchmark (pool_id users bsize winner_count : Z)
  : M (option BenchmarkRun) :=
  w <- lift (float_of_int winner_count) ;;
  let prize := fmul w f_10 in
  let prize_amount :=
    str_of_float (if SFltb f_100 prize then prize else f_100) in
  funded <- fund_lottery_pool pool_id prize_amount ;;
  st0 <- get_draw_status pool_id ;;
  result <- execute_draw_phase "startPoolDraw" TX_START_DRAW pool_id []
              COMPUTE_LIMIT ;;
  if negb (success result) then ret None
  else
    p1 <- lift (single_phase "startPoolDraw" result) ;;
    let phases := [p1] in
    b <- process_batches pool_id users bsize ;;
    avg_per_batch <-
      lift (average (total_batch_computation b) (batch_count b)) ;;
    avg_per_user <- lift (average (total_batch_computation b) users) ;;
    let phases :=
      (phases ++ [{| phase_name := "processDrawBatch";
                     total_computation := total_batch_computation b;
                     total_memory := 0;
                     tx_count := batch_count b;
                     avg_computation_per_tx := avg_per_batch;
                     items_processed := users;
                     computation_per_item := avg_per_user |}])%list in
    result <- execute_draw_phase "requestDrawRandomness"
                TX_REQUEST_RANDOMNESS pool_id [] COMPUTE_LIMIT ;;
    phases <-
      (if negb (success result) then ret phases
       else p <- lift (single_phase "requestDrawRandomness" result) ;;
            ret (phases ++ [p])%list) ;;
    st1 <- get_draw_status pool_id ;;
    result <- execute_draw_phase "completePoolDraw" TX_COMPLETE_DRAW
                pool_id [] COMPUTE_LIMIT ;;
    phases <-
      (if negb (success result) then ret phases
       else p <- lift (single_phase "completePoolDraw" result) ;;
            ret (phases ++ [p])%list) ;;
    ret (Some {| user_count := users;
                 batch_size := bsize;
                 phases := phases;
                 run_total_computation :=
                   sum (map total_computation phases);
                 run_total_memory := sum (map total_memory phases);
                 total_tx_count := sum (map tx_count phases) |}).

End WithWorld.

(** ** Variability analysis of [main] (lines 1294-1311)

    [None]: fewer than two runs, no analysis. *)

Record variability : Type :=
  { runs : Z;
    min_comp : Z;
    max_comp : Z;
    avg_comp : float;
    variance_ratio : num;
    high_variance : bool }.

Definition variability_analysis (all_computations : list Z)
  : exn + option variability :=
  if 1 <? len all_computations then
    (lo <- min_list all_computations ;;
     hi <- max_list all_computations ;;
     avg <- int_truediv (sum all_computations) (len all_computations) ;;
     ratio <- (if 0 <? lo then (q <- int_truediv hi lo ;; inr (NFloat q))
               else inr (NInt 0)) ;;
     inr (Some {| runs := len all_computations;
                  min_comp := lo;
                  max_comp := hi;
                  avg_comp := avg;
                  variance_ratio := ratio;
                  high_variance := num_gt ratio 2 |}))%exn
  else inr None.

End DrawComputation.

(* ================================================================== *)
(** * benchmark/benchmark_lazy_users.py *)
(* ================================================================== *)

Module LazyUsers.
Import Py Eff.
Local Open Scope eff_scope.

Definition TX_START_DRAW : string :=
  "cadence/transactions/prize-linked-accounts/start_draw.cdc".
Definition TX_PROCESS_BATCH : string :=
  "cadence/transactions/test/process_draw_batch.cdc".
Definition SCRIPT_GET_RECEIVER_COUNT : string :=
  "cadence/scripts/test/get_registered_receiver_count.cdc".
Definition EMULATOR_PORT : Z := 8080.
Definition COMPUTE_LIMIT : Z := 99999.

(** [ID\s+([a-f0-9]{64})] at the start of [s] *)
Definition match_id_64 (s : string) : option string :=
  match strip_literal (fun c => c) "ID" s with
  | None => None
  | Some rest =>
      let '(sp, rest') := span is_space rest in
      let '(g, _) := span is_hex rest' in
      match sp with
      | EmptyString => None
      | _ => if Nat.leb 64 (String.length g) then Some (take 64 g) else None
      end
  end.

Section WithWorld.
Variable S : Type.
Variable exec : S -> call -> outcome * S.
Variable json_loads : string -> option json.
Variable json_loads_report : string -> option report.

Local Abbreviation M := (Eff.M S).

Definition url (path : string) : string :=
  "http://localhost:" ++ str_of_int EMULATOR_PORT ++ path.

Definition run_flow_script (script_path : string) (args : list string)
  : M (bool * string) :=
  let cmd := (["flow"; "scripts"; "execute"; script_path;
               "--network"; "emulator"] ++ args)%list in
  result <- subprocess_run S exec cmd 30 ;;
  ret (returncode result =? 0, stdout result ++ stderr result).

(** The count is only printed by its callers. *)
Definition get_receiver_count (pool_id : Z) : M unit :=
  run_flow_script SCRIPT_GET_RECEIVER_COUNT [str_of_int pool_id] ;;;
  ret tt.

(** The profile that is written to a file is not modelled. *)
Definition download_profile (filename : string) : M unit :=
  try_except
    (subprocess_run S exec
       ["curl"; "-s"; url "/emulator/computationProfile"] 30 ;;;
     ret tt)
    isinstance_Exception
    (fun _ => ret tt).

Definition reset_profiler : M unit :=
  try_except
    (subprocess_run S exec
       ["curl"; "-s"; "-X"; "POST";
        url "/emulator/computationProfile/reset"] 10 ;;;
     ret tt)
    (fun _ => true)
    (fun _ => ret tt).

Definition get_computation_for_tx (tx : json) : M Z :=
  try_except
    (result <- subprocess_run S exec
                 ["curl"; "-s"; url "/emulator/computationReport"] 10 ;;
     if ((returncode result =? 0)
         && negb (String.eqb (stdout result) ""))%bool
     then
       match json_loads_report (stdout result) with
       | None => raise JSONDecodeError
       | Some report =>
           if hashable_key tx then
             match tx with
             | JStr t =>
                 match assoc t (transactions_of report) with
                 | Some data =>
                     ret (match entry_computation data with
                          | Some c => c
                          | None => 0
                          end)
                 | None => ret 0
                 end
             | _ => ret 0
             end
           else raise TypeError
       end
     else ret 0)
    (fun _ => true)
    (fun _ => ret 0).

Definition run_flow_tx (tx_path : string) (args : list string)
    (compute_limit : Z) : M (bool * string * json * Z) :=
  let cmd := (["flow"; "transactions"; "send"; tx_path;
               "--network"; "emulator";
               "--compute-limit"; str_of_int compute_limit;
               "--output"; "json"] ++ args)%list in
  result <- subprocess_run S exec cmd 120 ;;
  let output := stdout result ++ stderr result in
  parsed <-
    (match json_loads (stdout result) with
     | Some data =>
         id1 <- lift (get data "id" JNull) ;;
         tx <- (if truthy id1 then ret id1
                else lift (get data "transactionId" JNull)) ;;
         err <- lift (get data "error" JNull) ;;
         failed <- (if truthy err then ret true
                    else st <- lift (get data "status" JNull) ;;
                         ret (eq_str st "FAILED")) ;;
         ret (tx, failed)
     | None =>
         ret (match search match_id_64 output with
              | Some g => JStr g
              | None => JNull
              end, false)
     end) ;;
  let '(tx, failed) := parsed in
  if (failed : bool) then ret (false, output, tx, 0)
  else
    comp <- (if truthy tx then get_computation_for_tx tx else ret 0) ;;
    let success :=
      ((returncode result =? 0)
       && negb (contains (quoted "error") (lower output)))%bool in
    ret (success, output, tx, comp).

(** ** The batch loop of [benchmark_process_draw_batch]
    (lines 325-353): [for _ in range(100)]

    [remaining] counts the values of the range that are left.  Besides
    the loop variables the model returns the exit taken; [ExitError] is
    the [return None] inside the loop. *)

Inductive loop_exit : Type :=
| ExitAlreadyComplete   (* [break]: the failure says already complete *)
| ExitError             (* [return None]: any other failure *)
| ExitRemainingZero     (* [break]: the output reports nothing remaining *)
| ExitRange.            (* the range is used up *)

Fixpoint process_batches_loop (remaining : nat) (pool_id bsize : Z)
    (total_batch_comp batch_count : Z) : M (loop_exit * Z * Z) :=
  match remaining with
  | O => ret (ExitRange, total_batch_comp, batch_count)
  | Datatypes.S k =>
      r <- run_flow_tx TX_PROCESS_BATCH
             [str_of_int pool_id; str_of_int bsize] COMPUTE_LIMIT ;;
      let '(ok, output, tx, batch_comp) := r in
      if negb ok then
        if (contains "batch processing already complete" (lower output)
            || contains "already complete" (lower output))%bool
        then ret (ExitAlreadyComplete, total_batch_comp, batch_count)
        else ret (ExitError, total_batch_comp, batch_count)
      else
        let total_batch_comp := total_batch_comp + batch_comp in
        let batch_count := batch_count + 1 in
        if (contains (quoted "remaining" ++ ":0") (remove_spaces output)
            || contains "remaining: 0" (lower output))%bool
        then ret (ExitRemainingZero, total_batch_comp, batch_count)
        else process_batches_loop k pool_id bsize total_batch_comp
               batch_count
  end.

(** [None] is [return None]. *)
Definition benchmark_process_draw_batch (pool_id users bsize : Z)
    (debug profile : bool) (profile_name : string) : M (option Z) :=
  (if profile then reset_profiler else ret tt) ;;;
  (if debug then get_receiver_count pool_id else ret tt) ;;;
  r <- run_flow_tx TX_START_DRAW [str_of_int pool_id] COMPUTE_LIMIT ;;
  let '(ok, output, _, start_comp) := r in
  if negb ok then ret None
  else
    (if debug then get_receiver_count pool_id else ret tt) ;;;
    l <- process_batches_loop 100 pool_id bsize 0 0 ;;
    let '(ex, total_batch_comp, batch_count) := l in
    match ex with
    | ExitError => ret None
    | _ =>
        (if (profile && negb (String.eqb profile_name ""))%bool
         then download_profile (profile_name ++ ".pprof") else ret tt) ;;;
        ret (Some total_batch_comp)
    end.

End WithWorld.

End LazyUsers.

(* ================================================================== *)
(** * benchmark/benchmark_complete_draw.py *)
(* ================================================================== *)

Module CompleteDraw.
Import Py.

(** A result of [run_single_benchmark], as far as the summary reads it:
    [phases] with its entry [completePoolDraw], when they are there. *)
Record run_result : Type :=
  { run_phases : option (option Z) }.

(** [[r['phases'].get('completePoolDraw', 0) for r in results
      if 'phases' in r]] *)
Fixpoint computations_of (results : list run_result) : list Z :=
  match results with
  | [] => []
  | r :: rest =>
      match run_phases r with
      | Some (Some c) => c :: computations_of rest
      | Some None => 0 :: computations_of rest
      | None => computations_of rest
      end
  end.

(** What [print_variability_summary] prints under Statistics, and whether
    it prints its warning; [None]: no valid results. *)
Record statistics : Type :=
  { stat_min : Z;
    stat_max : Z;
    stat_mean : float;
    stat_range : Z;
    stat_ratio : float;
    low_count : Z;
    high_count : Z;
    warning : bool }.

Definition count_if (p : Z -> bool) (l : list Z) : Z :=
  len (filter p l).

Definition variability_statistics (computations : list Z)
  : exn + option statistics :=
  match computations with
  | [] => inr None
  | _ =>
      let low := count_if (fun c => c <? 1000) computations in
      let high := count_if (fun c => 5000 <? c) computations in
      (lo <- min_list computations ;;
       hi <- max_list computations ;;
       mean <- int_truediv (sum computations) (len computations) ;;
       ratio <- int_truediv hi (Z.max lo 1) ;;
       inr (Some {| stat_min := lo;
                    stat_max := hi;
                    stat_mean := mean;
                    stat_range := hi - lo;
                    stat_ratio := ratio;
                    low_count := low;
                    high_count := high;
                    warning := 0 <? high |}))%exn
  end.

Definition print_variability_summary (results : list run_result)
  : exn + option statistics :=
  variability_statistics (computations_of results).

End CompleteDraw.

(* ================================================================== *)
(** * More Python operations *)
(* ================================================================== *)

Module Builtins.
Import Py.

(** [range(stop)] *)
Definition range (stop : Z) : list Z :=
  map Z.of_nat (seq 0 (Z.to_nat stop)).

(** [range(0, stop, step)] for a positive [step] *)
Definition range_step (stop step : Z) : list Z :=
  map (fun i => i * step) (range ((stop + step - 1) / step)).

(** [s.lstrip()], [s.rstrip()] and [s.strip()] *)
Fixpoint lstrip (s : string) : string :=
  match s with
  | EmptyString => EmptyString
  | String c t => if is_space c then lstrip t else s
  end.

Fixpoint rstrip (s : string) : string :=
  match s with
  | EmptyString => EmptyString
  | String c t =>
      match rstrip t with
      | EmptyString => if is_space c then EmptyString
                       else String c EmptyString
      | r => String c r
      end
  end.

Definition strip (s : string) : string := rstrip (lstrip s).

(** [[0-9]] *)
Definition is_digit (c : ascii) : bool := in_range 48 57 c.

Fixpoint all_digits (s : string) : bool :=
  match s with
  | EmptyString => true
  | String c t => (is_digit c && all_digits t)%bool
  end.

Definition digit_value (c : ascii) : Z := Z.of_nat (nat_of_ascii c) - 48.

Fixpoint decimal_value (s : string) (acc : Z) : Z :=
  match s with
  | EmptyString => acc
  | String c t => decimal_value t (acc * 10 + digit_value c)
  end.

(** [int(s)] for a string [s] of digits and white space that neither
    begins nor ends with white space: the number written in [s], and a
    [ValueError] when [s] is empty or has white space inside.  (The limit
    that some interpreters put on the number of digits is not
    modelled.) *)
Definition int_of_str (s : string) : exn + Z :=
  match s with
  | EmptyString => inl ValueError
  | _ => if all_digits s then inr (decimal_value s 0) else inl ValueError
  end.

(** The digit of [n mod 16], in lower case. *)
Definition hex_digit (n : Z) : ascii :=
  let d := Z.to_nat (n mod 16) in
  if Nat.ltb d 10 then ascii_of_nat (48 + d) else ascii_of_nat (87 + d).

(** The hexadecimal digits of [n >= 0] in front of [acc]; [fuel] is
    above their number. *)
Fixpoint hex_digits (fuel : nat) (n : Z) (acc : string) : string :=
  match fuel with
  | O => acc
  | Datatypes.S k =>
      if n <? 16 then String (hex_digit n) acc
      else hex_digits k (n / 16) (String (hex_digit n) acc)
  end.

Fixpoint zeros (k : nat) (s : string) : string :=
  match k with
  | O => s
  | Datatypes.S k' => String "0"%char (zeros k' s)
  end.

(** [format(n, '064x')] for [n >= 0]: lower-case hexadecimal, filled with
    zeros on the left up to 64 characters. *)
Definition format_064x (n : Z) : string :=
  let d := hex_digits (Datatypes.S (Z.to_nat (Z.log2 n))) n EmptyString in
  zeros (64 - String.length d) d.

End Builtins.

(* ================================================================== *)
(** * benchmark_computation.py: the set-up loops *)
(* ================================================================== *)

Module BenchmarkSetup.
Import Py Eff Builtins BenchmarkComputation.
Local Open Scope eff_scope.

(** [str(DEFAULT_DEPOSIT_AMOUNT)], the text of the float [10.0] *)
Definition DEFAULT_DEPOSIT_AMOUNT : string := "10.0".

(** [format(i + 1, '064x') + format(i + 0x1000, '064x')]
    (line 754 of [find_batch_limit]) *)
Definition key_hex (i : Z) : string :=
  format_064x (i + 1) ++ format_064x (i + 4096).

Definition set_deposit_cus (r : BenchmarkResult) (l : list Z)
  : BenchmarkResult :=
  {| user_count := user_count r; batch_size := batch_size r;
     create_pool_cu := create_pool_cu r;
     setup_users_total_cu := setup_users_total_cu r;
     deposit_cus := l;
     fund_lottery_cu := fund_lottery_cu r;
     start_draw_cu := start_draw_cu r;
     batch_cus := batch_cus r;
     request_randomness_cu := request_randomness_cu r;
     complete_draw_cu := complete_draw_cu r |}.

Section WithWorld.
Variable S : Type.
Variable exec : S -> call -> outcome * S.
Variable json_loads : string -> option report.

Local Abbreviation M := (Eff.M S).
Local Abbreviation run_transaction := (run_transaction S exec json_loads).

Definition batch_deposit (pool_id : Z) (amount : string) (count : Z)
  : M TransactionResult :=
  run_transaction (TX_PATH ++ "/batch_deposit_to_pool.cdc")
    [str_of_int pool_id; amount; str_of_int count] None 9999.

(** ** Step 3 of [run_multi_user_benchmark] (lines 618-631)

    The loop [while remaining > 0].  [fuel] bounds the iterations of the
    model; [None] says that the fuel did not suffice. *)
Fixpoint deposit_loop (fuel : nat) (pool_id remaining : Z)
    (result : BenchmarkResult) (total_deposit_cu : Z)
  : M (option (BenchmarkResult * Z)) :=
  if remaining <=? 0 then ret (Some (result, total_deposit_cu))
  else
    match fuel with
    | O => ret None
    | Datatypes.S k =>
        let chunk := Z.min 50 remaining in
        deposit_result <- batch_deposit pool_id DEFAULT_DEPOSIT_AMOUNT chunk ;;
        let '(result, total_deposit_cu) :=
          match computation deposit_result with
          | Some c =>
              if c =? 0 then (result, total_deposit_cu)
              else (set_deposit_cus result (deposit_cus result ++ [c]),
                    total_deposit_cu + c)
          | None => (result, total_deposit_cu)
          end in
        deposit_loop k pool_id (remaining - chunk) result total_deposit_cu
    end.

(** ** The receiver accounts of [find_batch_limit] (lines 750-775)

    The loop [for i in range(max_users)], which is left after the fourth
    failure. *)
Fixpoint create_receivers_loop (indices : list Z) (pool_id : Z)
    (created failed : Z) : M (Z * Z) :=
  match indices with
  | [] => ret (created, failed)
  | i :: rest =>
      result <- run_transaction (TX_PATH ++ "/create_receiver_account.cdc")
                  [str_of_int pool_id; DEFAULT_DEPOSIT_AMOUNT; key_hex i]
                  None 9999 ;;
      if success result
      then create_receivers_loop rest pool_id (created + 1) failed
      else
        let failed := failed + 1 in
        if 3 <? failed then ret (created, failed)
        else create_receivers_loop rest pool_id created failed
  end.

Definition create_receivers (pool_id max_users : Z) : M (Z * Z) :=
  create_receivers_loop (range max_users) pool_id 0 0.

End WithWorld.

End BenchmarkSetup.

(* ================================================================== *)
(** * benchmark/benchmark_complete_draw.py: the benchmark run *)
(* ================================================================== *)

Module CompleteDrawRun.
Import Py Eff Builtins.
Local Open Scope eff_scope.

Definition NETWORK : string := "emulator".
Definition ADMIN_ACCOUNT : string := "emulator-account".
Definition FLOW_FLAGS : list string := ["--skip-version-check"].
Definition COMPUTE_LIMIT : Z := 9999.
Definition EMULATOR_PORT : Z := 8080.

Definition TX_CREATE_MULTI_WINNER_POOL : string :=
  "benchmark/transactions/create_multi_winner_pool.cdc".
Definition TX_START_DRAW : string :=
  "cadence/transactions/prize-linked-accounts/start_draw.cdc".
Definition TX_PROCESS_BATCH : string :=
  "cadence/transactions/test/process_draw_batch.cdc".
Definition TX_REQUEST_RANDOMNESS : string :=
  "cadence/transactions/test/request_draw_randomness.cdc".
Definition TX_COMPLETE_DRAW : string :=
  "cadence/transactions/prize-linked-accounts/complete_draw.cdc".
Definition TX_SETUP_USERS : string :=
  "benchmark/transactions/setup_benchmark_users.cdc".
Definition TX_FUND_LOTTERY : string :=
  "cadence/transactions/test/fund_prize_pool.cdc".
Definition SCRIPT_ALL_POOLS : string :=
  "cadence/scripts/prize-linked-accounts/get_all_pools.cdc".
Definition SCRIPT_DRAW_STATUS : string :=
  "cadence/scripts/prize-linked-accounts/get_draw_status.cdc".

(** ** The list of pools in the output of a script *)

(** [[0-9,\s]] *)
Definition is_pool_list_char (c : ascii) : bool :=
  (is_digit c || Ascii.eqb c ","%char || is_space c)%bool.

(** [\[([0-9,\s]+)\]] at the start of [s] *)
Definition match_pool_list (s : string) : option string :=
  match s with
  | String "["%char rest =>
      let '(g, after) := span is_pool_list_char rest in
      match g, after with
      | String _ _, String "]"%char _ => Some g
      | _, _ => None
      end
  | _ => None
  end.

(** [[int(x.strip()) for x in g.split(',') if x.strip()]] *)
Fixpoint ints_of (parts : list string) : exn + list Z :=
  match parts with
  | [] => inr []
  | x :: rest =>
      match strip x with
      | EmptyString => ints_of rest
      | t => (n <- int_of_str t ;;
              ns <- ints_of rest ;;
              inr (n :: ns))%exn
      end
  end.

(** The pool id read from the output of the script that lists the pools
    (lines 373-379); [inr None] when there is none to read. *)
Definition newest_pool (output : string) : exn + option Z :=
  match search match_pool_list output with
  | None => inr None
  | Some g =>
      (pools <- ints_of (split_on ","%char g) ;;
       match pools with
       | [] => inr None
       | _ => (m <- max_list pools ;; inr (Some m))
       end)%exn
  end.

(** ** The results of a benchmark *)

(** The dictionary of [run_draw_phases_1_to_3], and later the entry
    [phases] of a result; a key that is not set is [None]. *)
Record phase_results : Type :=
  { startPoolDraw : option Z;
    processDrawBatch : option Z;
    requestDrawRandomness : option Z;
    completePoolDraw : option Z }.

Definition no_phases : phase_results :=
  {| startPoolDraw := None; processDrawBatch := None;
     requestDrawRandomness := None; completePoolDraw := None |}.

(** [not phase_results]: the dictionary is empty. *)
Definition is_empty (p : phase_results) : bool :=
  match startPoolDraw p, processDrawBatch p, requestDrawRandomness p,
        completePoolDraw p with
  | None, None, None, None => true
  | _, _, _, _ => false
  end.

(** The result of [run_single_benchmark]; the entries [timestamp] and
    [profile_path] are left out, and an entry that is not set is
    [None]. *)
Record benchmark_result : Type :=
  { winner_count : Z;
    user_count : Z;
    pool_id : Z;
    run_number : Z;
    phases : phase_results;
    error : option string;
    computation_per_winner : option num;
    tx_id : option json;
    exceeded_limit : option bool;
    computation_level : option string }.

Section WithWorld.
Variable S : Type.
Variable exec : S -> call -> outcome * S.
Variable json_loads : string -> option json.
Variable json_loads_report : string -> option report.
Variable str_of_exn : exn -> string.
Variable repr : json -> string.
Variable str_of_float : float -> string.

Local Abbreviation M := (Eff.M S).

Definition py_str (j : json) : string :=
  match j with JStr s => s | _ => repr j end.

Definition get_computation_report : M report :=
  try_except
    (result <- subprocess_run S exec
                 ["curl"; "-s";
                  "http://localhost:" ++ str_of_int EMULATOR_PORT
                  ++ "/emulator/computationReport"] 10 ;;
     if ((returncode result =? 0)
         && negb (String.eqb (stdout result) ""))%bool
     then match json_loads_report (stdout result) with
          | Some r => ret r
          | None => raise JSONDecodeError
          end
     else ret empty_report)
    isinstance_Exception
    (fun _ => ret empty_report).

Definition run_command (cmd : list string) (timeout : Z)
  : M (Z * string * string) :=
  try_except
    (try_except
       (result <- subprocess_run S exec cmd timeout ;;
        ret (returncode result, stdout result, stderr result))
       isinstance_TimeoutExpired
       (fun _ => ret (-1, "", "Command timed out")))
    isinstance_Exception
    (fun e => ret (-1, "", str_of_exn e)).

(** [tx_id in report['transactions']] and the entry read there
    (lines 298-300) *)
Definition reported_computation (tx : json) (r : report) : exn + Z :=
  match r with
  | None => inr 0
  | Some transactions =>
      if hashable_key tx then
        match tx with
        | JStr t =>
            match assoc t transactions with
            | Some data =>
                inr (match entry_computation data with
                     | Some c => c
                     | None => 0
                     end)
            | None => inr 0
            end
        | _ => inr 0
        end
      else inl TypeError
  end.

Definition run_flow_tx (tx_path : string) (args : list string)
    (signer : string) (compute_limit : Z) (measure_computation : bool)
  : M (bool * string * json * Z) :=
  let cmd := (["flow"; "transactions"; "send"; tx_path] ++ args
              ++ ["--signer"; signer; "--network"; NETWORK;
                  "--compute-limit"; str_of_int compute_limit;
                  "--output"; "json"] ++ FLOW_FLAGS)%list in
  r <- run_command cmd 120 ;;
  let '(code, out, err) := r in
  match json_loads out with
  | Some result =>
      tx <- lift (d <- get result "transactionId" JNull ;;
                  get result "id" d)%exn ;;
      st <- lift (get result "status" JNull) ;;
      sealed <-
        (if eq_str st "SEALED" then ret true
         else (st' <- lift (get result "statusString" JNull) ;;
               ret (eq_str st' "SEALED"))) ;;
      failure <-
        (if (sealed : bool) then ret None
         else
           error <- lift (d <- get result "errorMessage" (JStr "") ;;
                          get result "error" d)%exn ;;
           if truthy error then ret (Some (py_str error)) else ret None) ;;
      match failure with
      | Some text => ret (false, text, tx, 0)
      | None =>
          if (measure_computation && truthy tx)%bool then
            report <- get_computation_report ;;
            computation <- lift (reported_computation tx report) ;;
            ret (true, out, tx, computation)
          else ret (true, out, tx, 0)
      end
  | None =>
      let output := out ++ err in
      let success :=
        ((code =? 0) && negb (contains "error" (lower output))
         && negb (contains "panic" (lower output)))%bool in
      ret (success, output, JNull, 0)
  end.

Definition run_flow_script (script_path : string) (args : list string)
  : M (bool * string) :=
  let cmd := (["flow"; "scripts"; "execute"; script_path] ++ args
              ++ ["--network"; NETWORK] ++ FLOW_FLAGS)%list in
  r <- run_command cmd 120 ;;
  let '(code, out, err) := r in
  let output := out ++ err in
  ret (((code =? 0) && negb (contains "error" (lower output))
        && negb (contains "panic" (lower output)))%bool, output).

(** ** Set-up *)

Definition create_multi_winner_pool (winners : Z) : M (option Z) :=
  r <- run_flow_tx TX_CREATE_MULTI_WINNER_POOL
         [str_of_int winners; "1.0"; "1.0"] ADMIN_ACCOUNT COMPUTE_LIMIT
         false ;;
  let '(ok, output, _, _) := r in
  if negb ok then ret None
  else
    r' <- run_flow_script SCRIPT_ALL_POOLS [] ;;
    let '(ok', output') := r' in
    if (ok' : bool) then lift (newest_pool output') else ret None.

(** The loop [for batch_start in range(0, user_count, batch_size)] of
    [create_users] (lines 397-416) *)
Fixpoint create_users_loop (batch_starts : list Z)
    (pool users start_index : Z) : M bool :=
  match batch_starts with
  | [] => ret true
  | batch_start :: rest =>
      let current_batch := Z.min 50 (users - batch_start) in
      let actual_start := start_index + batch_start in
      r <- run_flow_tx TX_SETUP_USERS
             [str_of_int pool; str_of_int current_batch; "10.0";
              str_of_int actual_start] ADMIN_ACCOUNT 99999 false ;;
      let '(ok, output, _, _) := r in
      if negb ok then ret false
      else create_users_loop rest pool users start_index
  end.

Definition create_users (pool users start_index : Z) : M bool :=
  create_users_loop (range_step users 50) pool users start_index.

(** The two entries of the status that [get_draw_status] returns. *)
Record draw_status : Type :=
  { isBatchComplete : bool; isReadyForCompletion : bool }.

Definition get_draw_status (pool : Z) : M draw_status :=
  r <- run_flow_script SCRIPT_DRAW_STATUS [str_of_int pool] ;;
  let output_str := snd r in
  ret {| isBatchComplete := contains "isBatchComplete: true" output_str;
         isReadyForCompletion :=
           contains "isReadyForCompletion: true" output_str |}.

Definition fund_lottery_pool (pool : Z) (amount : float) : M bool :=
  r <- run_flow_tx TX_FUND_LOTTERY [str_of_int pool; str_of_float amount]
         ADMIN_ACCOUNT COMPUTE_LIMIT false ;;
  ret (fst (fst (fst r))).

(** ** Phases 1 to 3 *)

(** The loop [while batch_count < 100] (lines 481-494); [remaining] is
    [100 - batch_count]. *)
Fixpoint process_batches_loop (remaining : nat) (pool users : Z)
    (batch_count batch_comp_total : Z) : M (Z * Z) :=
  match remaining with
  | O => ret (batch_count, batch_comp_total)
  | Datatypes.S k =>
      let batch_count := batch_count + 1 in
      r <- run_flow_tx TX_PROCESS_BATCH [str_of_int pool; str_of_int users]
             ADMIN_ACCOUNT COMPUTE_LIMIT true ;;
      let '(ok, output, tx, comp) := r in
      if negb ok then ret (batch_count, batch_comp_total)
      else
        let batch_comp_total := batch_comp_total + comp in
        status <- get_draw_status pool ;;
        if isBatchComplete status then ret (batch_count, batch_comp_total)
        else process_batches_loop k pool users batch_count batch_comp_total
  end.

Definition f_10 : float :=
  Eval vm_compute in binary_normalize prec emax 10 0 false.

Definition run_draw_phases_1_to_3 (pool users winners : Z)
  : M phase_results :=
  w <- lift (float_of_int winners) ;;
  let prize_amount := fmul w f_10 in
  funded <- fund_lottery_pool pool prize_amount ;;
  if negb funded then ret no_phases
  else
    r <- run_flow_tx TX_START_DRAW [str_of_int pool] ADMIN_ACCOUNT
           COMPUTE_LIMIT true ;;
    let '(ok, output, tx, comp) := r in
    if negb ok then ret no_phases
    else
      let start := comp in
      b <- process_batches_loop 100 pool users 0 0 ;;
      let batch_comp_total := snd b in
      r <- run_flow_tx TX_REQUEST_RANDOMNESS [str_of_int pool] ADMIN_ACCOUNT
             COMPUTE_LIMIT true ;;
      let '(ok, output, tx, comp) := r in
      if negb ok then
        ret {| startPoolDraw := Some start;
               processDrawBatch := Some batch_comp_total;
               requestDrawRandomness := None;
               completePoolDraw := None |}
      else
        ret {| startPoolDraw := Some start;
               processDrawBatch := Some batch_comp_total;
               requestDrawRandomness := Some comp;
               completePoolDraw := None |}.

(** ** Phase 4

    [run_complete_draw_with_profiling] with [save_profile=False], as
    [run_single_benchmark] calls it without [--profile]: the computation
    and the id. *)
Definition run_complete_draw_with_profiling (pool winners : Z)
  : M (Z * json) :=
  r <- run_flow_tx TX_COMPLETE_DRAW [str_of_int pool] ADMIN_ACCOUNT 99999
         true ;;
  let '(ok, output, tx, comp) := r in
  if negb ok then ret (0, tx)
  else
    (if 0 <? winners then lift (int_truediv comp winners) ;;; ret tt
     else ret tt) ;;;
    ret (comp, tx).

Definition with_phase_4 (p : phase_results) (comp : Z) : phase_results :=
  {| startPoolDraw := startPoolDraw p;
     processDrawBatch := processDrawBatch p;
     requestDrawRandomness := requestDrawRandomness p;
     completePoolDraw := Some comp |}.

(** [run_single_benchmark] with [enable_profiling=False] *)
Definition run_single_benchmark (winners users pool user_start_index : Z)
    (run : Z) : M benchmark_result :=
  let failed msg :=
    {| winner_count := winners; user_count := users; pool_id := pool;
       run_number := run; phases := no_phases; error := Some msg;
       computation_per_winner := None; tx_id := None;
       exceeded_limit := None; computation_level := None |} in
  created <- create_users pool users user_start_index ;;
  if negb created then ret (failed "Failed to create users")
  else
    phase_results <- run_draw_phases_1_to_3 pool users winners ;;
    if is_empty phase_results then ret (failed "Failed in phases 1-3")
    else
      c <- run_complete_draw_with_profiling pool winners ;;
      let '(comp, tx) := c in
      per_winner <-
        (if 0 <? winners
         then q <- lift (int_truediv comp winners) ;; ret (NFloat q)
         else ret (NInt 0)) ;;
      ret {| winner_count := winners; user_count := users; pool_id := pool;
             run_number := run;
             phases := with_phase_4 phase_results comp;
             error := None;
             computation_per_winner := Some per_winner;
             tx_id := Some tx;
             exceeded_limit := Some (9999 <? comp);
             computation_level :=
               Some (if 5000 <? comp then "HIGH"
                     else if 1000 <? comp then "MEDIUM" else "LOW") |}.

(** [run_variability_test] with [enable_profiling=False]: the loop
    [for run_num in range(1, num_runs + 1)] *)
Fixpoint variability_loop (run_nums : list Z) (winners users : Z)
    (all_results : list benchmark_result) : M (list benchmark_result) :=
  match run_nums with
  | [] => ret all_results
  | run_num :: rest =>
      pool <- create_multi_winner_pool winners ;;
      match pool with
      | None => variability_loop rest winners users all_results
      | Some pool =>
          let user_start_index := pool * 1000 in
          result <- run_single_benchmark winners users pool
                      user_start_index run_num ;;
          variability_loop rest winners users (all_results ++ [result])
      end
  end.

Definition run_variability_test (winners users num_runs : Z)
  : M (list benchmark_result) :=
  variability_loop (map (fun i => i + 1) (range num_runs)) winners users [].

End WithWorld.

(** What [print_variability_summary] reads in a result. *)
Definition summary_view (r : benchmark_result) : CompleteDraw.run_result :=
  {| CompleteDraw.run_phases := Some (completePoolDraw (phases r)) |}.

End CompleteDrawRun.

(* ================================================================== *)
(** * benchmark/benchmark_lazy_users.py: a complete draw *)
(* ================================================================== *)

Module LazyDraw.
Import Py Eff LazyUsers.
Local Open Scope eff_scope.

Definition TX_REQUEST_RANDOMNESS : string :=
  "cadence/transactions/test/request_draw_randomness.cdc".
Definition TX_COMPLETE_DRAW : string :=
  "cadence/transactions/test/complete_draw.cdc".

Section WithWorld.
Variable S : Type.
Variable exec : S -> call -> outcome * S.
Variable json_loads : string -> option json.
Variable json_loads_report : string -> option report.

Local Abbreviation M := (Eff.M S).
Local Abbreviation run_flow_tx :=
  (run_flow_tx S exec json_loads json_loads_report).

(** The loop [for _ in range(100)] of [run_complete_draw]
    (lines 285-290); [false] is its [return False], [true] that the loop
    was left by [break] or that the range is used up. *)
Fixpoint complete_batches_loop (remaining : nat) (pool_id : Z) : M bool :=
  match remaining with
  | O => ret true
  | Datatypes.S k =>
      r <- run_flow_tx TX_PROCESS_BATCH [str_of_int pool_id; "9999"]
             COMPUTE_LIMIT ;;
      let '(ok, output, _, _) := r in
      if negb ok then ret false
      else if (contains "remaining: 0" (lower output)
               || contains "batch complete" (lower output))%bool
           then ret true
           else complete_batches_loop k pool_id
  end.

(** [run_complete_draw] (lines 277-301); the pause before the last
    phase is not part of the model. *)
Definition run_complete_draw (pool_id : Z) : M bool :=
  r <- run_flow_tx TX_START_DRAW [str_of_int pool_id] COMPUTE_LIMIT ;;
  if negb (fst (fst (fst r))) then ret false
  else
    processed <- complete_batches_loop 100 pool_id ;;
    if negb processed then ret false
    else
      r <- run_flow_tx TX_REQUEST_RANDOMNESS [str_of_int pool_id]
             COMPUTE_LIMIT ;;
      if negb (fst (fst (fst r))) then ret false
      else
        r <- run_flow_tx TX_COMPLETE_DRAW [str_of_int pool_id]
               COMPUTE_LIMIT ;;
        ret (fst (fst (fst r))).

End WithWorld.

End LazyDraw.

(* ================================================================== *)
(** * Facts about the Python operations *)
(* ================================================================== *)

Module PyFacts.
Import Py.

Lemma int_truediv_zero_division (a b : Z) :
  int_truediv a b = inl ZeroDivisionError -> b = 0.
Proof.
  unfold int_truediv.
  destruct b as [|b|b]; [reflexivity | |]; intros H; exfalso;
    (destruct a as [|a|a]; [discriminate | |];
     match type of H with
     | match ?q with _ => _ end = _ => destruct q; discriminate
     end).
Qed.

Lemma int_truediv_by_zero (a : Z) : int_truediv a 0 = inl ZeroDivisionError.
Proof. reflexivity. Qed.

Lemma int_truediv_cases (a b : Z) :
  b <> 0 ->
  int_truediv a b = inl OverflowError \/ exists q, int_truediv a b = inr q.
Proof.
  intros Hb. unfold int_truediv.
  destruct b as [|b|b]; [congruence | |];
    (destruct a as [|a|a]; [right; eexists; reflexivity | |];
     match goal with
     | |- context [match ?q with _ => _ end] =>
         destruct q; (left; reflexivity) || (right; eexists; reflexivity)
     end).
Qed.

Lemma len_nonneg {A : Type} (l : list A) : 0 <= len l.
Proof. unfold len. lia. Qed.

Lemma len_cons_pos {A : Type} (x : A) (l : list A) : 0 < len (x :: l).
Proof. unfold len. cbn [List.length]. lia. Qed.

Lemma fold_min_le (l : list Z) (a : Z) :
  fold_left Z.min l a <= a /\ forall x, In x l -> fold_left Z.min l a <= x.
Proof.
  revert a. induction l as [|y l IH]; intros a; cbn [fold_left].
  - split; [lia | intros x []].
  - destruct (IH (Z.min a y)) as [H1 H2]. split; [lia |].
    intros x [<- | Hx]; [lia | auto].
Qed.

Lemma fold_min_in (l : list Z) (a : Z) :
  fold_left Z.min l a = a \/ In (fold_left Z.min l a) l.
Proof.
  revert a. induction l as [|y l IH]; intros a; cbn [fold_left].
  - left; reflexivity.
  - destruct (IH (Z.min a y)) as [H | H].
    + rewrite H. destruct (Z.min_spec a y) as [[_ E] | [_ E]]; rewrite E.
      * left; reflexivity.
      * right; left; reflexivity.
    + right; right; exact H.
Qed.

Lemma fold_max_ge (l : list Z) (a : Z) :
  a <= fold_left Z.max l a /\ forall x, In x l -> x <= fold_left Z.max l a.
Proof.
  revert a. induction l as [|y l IH]; intros a; cbn [fold_left].
  - split; [lia | intros x []].
  - destruct (IH (Z.max a y)) as [H1 H2]. split; [lia |].
    intros x [<- | Hx]; [lia | auto].
Qed.

Lemma fold_max_in (l : list Z) (a : Z) :
  fold_left Z.max l a = a \/ In (fold_left Z.max l a) l.
Proof.
  revert a. induction l as [|y l IH]; intros a; cbn [fold_left].
  - left; reflexivity.
  - destruct (IH (Z.max a y)) as [H | H].
    + rewrite H. destruct (Z.max_spec a y) as [[_ E] | [_ E]]; rewrite E.
      * right; left; reflexivity.
      * left; reflexivity.
    + right; right; exact H.
Qed.

(** [min(l)] is the least element of [l], [max(l)] the greatest. *)
Lemma min_list_spec (l : list Z) (m : Z) :
  min_list l = inr m -> In m l /\ forall x, In x l -> m <= x.
Proof.
  destruct l as [|a l]; [discriminate |]. cbn [min_list].
  intros [= <-]. split.
  - destruct (fold_min_in l a) as [-> | H]; [left; reflexivity | right; exact H].
  - destruct (fold_min_le l a) as [H1 H2].
    intros x [<- | Hx]; [exact H1 | exact (H2 x Hx)].
Qed.

Lemma max_list_spec (l : list Z) (m : Z) :
  max_list l = inr m -> In m l /\ forall x, In x l -> x <= m.
Proof.
  destruct l as [|a l]; [discriminate |]. cbn [max_list].
  intros [= <-]. split.
  - destruct (fold_max_in l a) as [-> | H]; [left; reflexivity | right; exact H].
  - destruct (fold_max_ge l a) as [H1 H2].
    intros x [<- | Hx]; [exact H1 | exact (H2 x Hx)].
Qed.

End PyFacts.

(* ================================================================== *)
(** * Derived metrics of a benchmark record *)
(* ================================================================== *)

Module Metrics.
Import Py PyFacts.
Import BenchmarkComputation.

Lemma guarded_quotient_no_zero_division (total n : Z) (r : exn + num) :
  0 < n ->
  r = match int_truediv total n with
      | inl e => inl e
      | inr q => inr (NFloat q)
      end ->
  r <> inl ZeroDivisionError.
Proof.
  intros Hn -> H.
  destruct (int_truediv total n) as [e|q] eqn:E; [|discriminate].
  injection H as ->. apply int_truediv_zero_division in E. lia.
Qed.

Lemma avg_deposit_cu_no_zero_division (r : BenchmarkResult) :
  avg_deposit_cu r <> inl ZeroDivisionError.
Proof.
  unfold avg_deposit_cu.
  destruct (deposit_cus r) as [|x l]; [discriminate |].
  eapply guarded_quotient_no_zero_division;
    [apply (len_cons_pos x l) | reflexivity].
Qed.

Lemma avg_batch_cu_no_zero_division (r : BenchmarkResult) :
  avg_batch_cu r <> inl ZeroDivisionError.
Proof.
  unfold avg_batch_cu.
  destruct (batch_cus r) as [|x l]; [discriminate |].
  eapply guarded_quotient_no_zero_division;
    [apply (len_cons_pos x l) | reflexivity].
Qed.

Lemma per_user_batch_cu_no_zero_division (r : BenchmarkResult) :
  per_user_batch_cu r <> inl ZeroDivisionError.
Proof.
  unfold per_user_batch_cu.
  destruct (0 <? user_count r) eqn:E; [|discriminate].
  apply Z.ltb_lt in E.
  eapply guarded_quotient_no_zero_division; [exact E | reflexivity].
Qed.

Lemma average_no_zero_division (total n : Z) :
  DrawComputation.average total n <> inl ZeroDivisionError.
Proof.
  unfold DrawComputation.average.
  destruct (0 <? n) eqn:E; [|discriminate].
  apply Z.ltb_lt in E. unfold ebind.
  destruct (int_truediv total n) as [e|q] eqn:Q; [|discriminate].
  intros [= ->]. apply int_truediv_zero_division in Q. lia.
Qed.

(** C10.  Every derived metric of a benchmark record is defined on every
    record: the average deposit cost is 0 when there is no deposit, the
    average batch cost is 0 when there is no batch, the per-user batch cost
    is 0 when the user count is 0 (or negative), and no derived metric
    divides by zero; the same holds for the two averages that
    [run_full_draw_benchmark] computes after its batch loop. *)
Theorem derived_metrics_never_divide_by_zero
    (r : BenchmarkResult) (total n : Z) :
  (deposit_cus r = [] -> avg_deposit_cu r = inr (NInt 0)) /\
  (batch_cus r = [] -> avg_batch_cu r = inr (NInt 0)) /\
  (user_count r <= 0 -> per_user_batch_cu r = inr (NInt 0)) /\
  (n <= 0 -> DrawComputation.average total n = inr (NInt 0)) /\
  avg_deposit_cu r <> inl ZeroDivisionError /\
  avg_batch_cu r <> inl ZeroDivisionError /\
  per_user_batch_cu r <> inl ZeroDivisionError /\
  DrawComputation.average total n <> inl ZeroDivisionError.
Proof.
  repeat split.
  - intros H. unfold avg_deposit_cu. rewrite H. reflexivity.
  - intros H. unfold avg_batch_cu. rewrite H. reflexivity.
  - intros H. unfold per_user_batch_cu.
    destruct (0 <? user_count r) eqn:E; [|reflexivity].
    apply Z.ltb_lt in E. lia.
  - intros H. unfold DrawComputation.average.
    destruct (0 <? n) eqn:E; [|reflexivity].
    apply Z.ltb_lt in E. lia.
  - apply avg_deposit_cu_no_zero_division.
  - apply avg_batch_cu_no_zero_division.
  - apply per_user_batch_cu_no_zero_division.
  - apply average_no_zero_division.
Qed.

Definition empty_result : BenchmarkResult :=
  {| user_count := 0; batch_size := 50; create_pool_cu := 0;
     setup_users_total_cu := 0; deposit_cus := []; fund_lottery_cu := 0;
     start_draw_cu := 0; batch_cus := []; request_randomness_cu := 0;
     complete_draw_cu := 0 |}.

Lemma derived_metrics_of_empty_result :
  avg_deposit_cu empty_result = inr (NInt 0) /\
  avg_batch_cu empty_result = inr (NInt 0) /\
  per_user_batch_cu empty_result = inr (NInt 0) /\
  DrawComputation.average 0 0 = inr (NInt 0).
Proof.
  destruct (derived_metrics_never_divide_by_zero empty_result 0 0)
    as (H1 & H2 & H3 & H4 & _).
  split; [apply H1; reflexivity |].
  split; [apply H2; reflexivity |].
  split; [apply H3; simpl; lia | apply H4; lia].
Defined.

(** A record with measurements: the metrics are the rounded quotients. *)
Example derived_metrics_of_measured_result :
  let r := {| user_count := 120; batch_size := 50; create_pool_cu := 0;
              setup_users_total_cu := 0; deposit_cus := [178; 178; 80];
              fund_lottery_cu := 0; start_draw_cu := 30;
              batch_cus := [170; 170; 50]; request_randomness_cu := 20;
              complete_draw_cu := 40 |} in
  avg_batch_cu r = inr (NFloat (S754_finite false 4573968371548160 (-45)))
  /\ per_user_batch_cu r
     = inr (NFloat (S754_finite false 7318349394477056 (-51)))
  /\ total_draw_cu r = 480.
Proof. vm_compute. repeat split. Qed.

End Metrics.

(* ================================================================== *)
(** * Variability analysis *)
(* ================================================================== *)

Module Variability.
Import Py PyFacts.

(** The costs of Scenario D. *)
Definition scenario_D : list Z := [320; 340; 9500; 330; 335].

(** The float 29.6875, which is 9500 / 320. *)
Definition f_29_6875 : float := S754_finite false 8356288371097600 (-48).

Lemma exists_above_count (p : Z -> bool) (l : list Z) :
  ((0 <? len (filter p l)) = true) <-> (exists c, In c l /\ p c = true).
Proof.
  rewrite Z.ltb_lt. split.
  - destruct (filter p l) as [|c f] eqn:E.
    + unfold len; cbn; lia.
    + intros _. exists c. apply filter_In. rewrite E. left; reflexivity.
  - intros (c & Hc & Hp).
    assert (H : In c (filter p l)) by (apply filter_In; split; assumption).
    destruct (filter p l) as [|d f]; [destruct H |]. apply len_cons_pos.
Qed.

(** C4, as the claim states it, fails: with a cheapest run of cost 0 the
    analysis of [main] reports the ratio 0 and no instability, although
    max / max(min, 1) is 340 and exceeds 2. *)
Lemma variability_ratio_zero_minimum :
  exists v q,
    DrawComputation.variability_analysis [0; 340] = inr (Some v)
    /\ DrawComputation.variance_ratio v = NInt 0
    /\ DrawComputation.high_variance v = false
    /\ int_truediv 340 (Z.max 0 1) = inr q
    /\ num_gt (NFloat q) 2 = true.
Proof.
  eexists. eexists. vm_compute. repeat split.
Qed.

(** C4, amended.  The analysis of [main] is made for at least two costs;
    it reports the least cost, the greatest cost and the mean, the ratio
    max / min when the least cost is positive (then max / max(min, 1) is
    the same quotient) and the ratio 0 otherwise, and it flags instability
    exactly when the reported ratio exceeds 2.  The summary of the
    completeDraw benchmark is made for every non-empty sequence; it reports
    the least cost, the greatest cost, the mean and the ratio
    max / max(min, 1), and it warns exactly when some cost exceeds 5000.
    On the costs [320, 340, 9500, 330, 335] both report the ratio
    9500 / 320 = 29.6875 and both flag. *)
Theorem variability_analysis_reports (costs : list Z) :
  (forall v,
      DrawComputation.variability_analysis costs = inr (Some v) ->
      let lo := DrawComputation.min_comp v in
      let hi := DrawComputation.max_comp v in
      1 < len costs
      /\ (In lo costs /\ forall x, In x costs -> lo <= x)
      /\ (In hi costs /\ forall x, In x costs -> x <= hi)
      /\ int_truediv (sum costs) (len costs)
         = inr (DrawComputation.avg_comp v)
      /\ (0 < lo ->
          exists q, int_truediv hi (Z.max lo 1) = inr q
                    /\ DrawComputation.variance_ratio v = NFloat q)
      /\ (lo <= 0 -> DrawComputation.variance_ratio v = NInt 0)
      /\ DrawComputation.high_variance v
         = num_gt (DrawComputation.variance_ratio v) 2)
  /\ (forall st,
      CompleteDraw.variability_statistics costs = inr (Some st) ->
      let lo := CompleteDraw.stat_min st in
      let hi := CompleteDraw.stat_max st in
      (In lo costs /\ forall x, In x costs -> lo <= x)
      /\ (In hi costs /\ forall x, In x costs -> x <= hi)
      /\ int_truediv (sum costs) (len costs)
         = inr (CompleteDraw.stat_mean st)
      /\ int_truediv hi (Z.max lo 1) = inr (CompleteDraw.stat_ratio st)
      /\ (CompleteDraw.warning st = true
          <-> exists c, In c costs /\ 5000 < c))
  /\ (exists v,
      DrawComputation.variability_analysis scenario_D = inr (Some v)
      /\ DrawComputation.variance_ratio v = NFloat f_29_6875
      /\ DrawComputation.high_variance v = true)
  /\ (exists st,
      CompleteDraw.variability_statistics scenario_D = inr (Some st)
      /\ CompleteDraw.stat_ratio st = f_29_6875
      /\ CompleteDraw.warning st = true).
Proof.
  split; [|split; [|split]].
  - intros v. unfold DrawComputation.variability_analysis.
    destruct (1 <? len costs) eqn:L; [|discriminate].
    apply Z.ltb_lt in L. unfold ebind.
    destruct (min_list costs) as [|lo] eqn:Hmin; [discriminate |].
    destruct (max_list costs) as [|hi] eqn:Hmax; [discriminate |].
    destruct (int_truediv (sum costs) (len costs)) as [|avg] eqn:Havg;
      [discriminate |].
    destruct (0 <? lo) eqn:Hlo.
    + apply Z.ltb_lt in Hlo.
      destruct (int_truediv hi lo) as [|q] eqn:Hq; [discriminate |].
      intros [= <-]; cbn.
      split; [exact L |].
      split; [apply min_list_spec; exact Hmin |].
      split; [apply max_list_spec; exact Hmax |].
      split; [reflexivity |].
      split; [intros _; exists q; rewrite Z.max_l by lia; auto |].
      split; [intros; lia | reflexivity].
    + apply Z.ltb_ge in Hlo.
      intros [= <-]; cbn.
      split; [exact L |].
      split; [apply min_list_spec; exact Hmin |].
      split; [apply max_list_spec; exact Hmax |].
      split; [reflexivity |].
      split; [intros; lia |].
      split; [intros; reflexivity | reflexivity].
  - intros st. unfold CompleteDraw.variability_statistics.
    destruct costs as [|c0 cs]; [discriminate |].
    set (costs := c0 :: cs). unfold ebind.
    destruct (min_list costs) as [|lo] eqn:Hmin; [discriminate |].
    destruct (max_list costs) as [|hi] eqn:Hmax; [discriminate |].
    destruct (int_truediv (sum costs) (len costs)) as [|avg] eqn:Havg;
      [discriminate |].
    destruct (int_truediv hi (Z.max lo 1)) as [|q] eqn:Hq; [discriminate |].
    intros [= <-]; cbv zeta.
    cbn [CompleteDraw.stat_min CompleteDraw.stat_max CompleteDraw.stat_mean
         CompleteDraw.stat_ratio CompleteDraw.warning].
    split; [apply min_list_spec; exact Hmin |].
    split; [apply max_list_spec; exact Hmax |].
    split; [reflexivity |].
    split; [first [reflexivity | exact Hq] |].
    unfold CompleteDraw.count_if. rewrite exists_above_count.
    split; intros (c & Hc & Hp); exists c; split; auto;
      [apply Z.ltb_lt | apply Z.ltb_lt]; exact Hp.
  - eexists. vm_compute. repeat split.
  - eexists. vm_compute. repeat split.
Qed.

Lemma variability_analysis_reports_witness :
  exists v q,
    DrawComputation.variability_analysis scenario_D = inr (Some v)
    /\ 0 < DrawComputation.min_comp v
    /\ int_truediv (DrawComputation.max_comp v)
         (Z.max (DrawComputation.min_comp v) 1) = inr q
    /\ DrawComputation.variance_ratio v = NFloat q.
Proof.
  destruct (variability_analysis_reports scenario_D) as (H & _).
  pose proof (H _ eq_refl) as H'. cbv zeta in H'.
  destruct H' as (_ & _ & _ & _ & Hq & _).
  assert (Hpos : 0 < 320) by lia.
  destruct (Hq Hpos) as (q & Hq1 & Hq2).
  eexists. exists q.
  split; [reflexivity |].
  split; [exact Hpos |].
  split; [exact Hq1 | exact Hq2].
Defined.

End Variability.

(* ================================================================== *)
(** * Correlation of a computation report with an operation id *)
(* ================================================================== *)

Module Correlation.
Import Py Eff.
Import BenchmarkComputation.

Definition entry (c m : Z) : tx_entry :=
  {| entry_computation := Some c; entry_memory := Some m |}.








(** What the fallback of [execute_draw_phase] does when an id is available
    but the only entry of the report belongs to another operation. *)
Example only_entry_taken_for_another_id :
  DrawComputation.correlate (JStr "abc") (Some [("xyz", entry 7 3)]) = (7, 3).
Proof. reflexivity. Qed.

End Correlation.

(* ================================================================== *)
(** * Fetching the computation report *)
(* ================================================================== *)

Module Reporting.
Import Py Eff.

(** An emulator that accepts the connection and then stalls: every request
    ends in a socket timeout. *)
Definition stalled (s : unit) (c : call) : outcome * unit :=
  (Raised SocketTimeout, s).

(** An emulator that refuses the connection. *)
Definition refusing (s : unit) (c : call) : outcome * unit :=
  match c with
  | UrlOpen _ _ _ => (Raised URLError, s)
  | Subprocess _ _ => (Returned 7 "" "", s)
  end.

Definition start : world unit := {| env := tt; trace := [] |}.

Section WithWorld.
Variable S : Type.
Variable exec : S -> call -> outcome * S.
Variable json_loads_report : string -> option report.

(** [get_computation_report] of benchmark_computation.py lets through
    exactly the exceptions that are neither a [URLError] nor a
    [JSONDecodeError]. *)
Lemma report_a_escapes (w : world S) (e : exn) (w' : world S) :
  BenchmarkComputation.get_computation_report S exec json_loads_report w
  = (inl e, w') ->
  isinstance_URLError e = false /\ isinstance_JSONDecodeError e = false.
Proof.
  unfold BenchmarkComputation.get_computation_report, try_except.
  match goal with
  | |- context [match ?c w with _ => _ end] => destruct (c w) as [[e0|r] w0]
  end; [|discriminate].
  destruct (isinstance_URLError e0 || isinstance_JSONDecodeError e0)%bool
    eqn:E; [discriminate |].
  intros [= <- <-]. apply orb_false_iff in E. exact E.
Qed.

Lemma report_a_network_failure (w : world S) (e : exn) (s' : S) :
  exec (env w)
    (UrlOpen (BenchmarkComputation.EMULATOR_ADMIN_URL
              ++ "/emulator/computationReport") "GET" 5)
  = (Raised e, s') ->
  isinstance_URLError e = true ->
  fst (BenchmarkComputation.get_computation_report S exec
         json_loads_report w) = inr empty_report.
Proof.
  intros H He.
  unfold BenchmarkComputation.get_computation_report, try_except,
    urlopen_read, bind, request.
  rewrite H. rewrite He. reflexivity.
Qed.

Lemma report_a_decoding_failure (w : world S) (rc : Z) (body err : string)
    (s' : S) :
  exec (env w)
    (UrlOpen (BenchmarkComputation.EMULATOR_ADMIN_URL
              ++ "/emulator/computationReport") "GET" 5)
  = (Returned rc body err, s') ->
  json_loads_report body = None ->
  fst (BenchmarkComputation.get_computation_report S exec
         json_loads_report w) = inr empty_report.
Proof.
  intros H Hj.
  unfold BenchmarkComputation.get_computation_report, try_except,
    urlopen_read, bind, request, ret.
  rewrite H. cbn. rewrite Hj. reflexivity.
Qed.

(** [get_computation_report] of benchmark_draw_computation.py lets
    through nothing that is an [Exception]. *)
Lemma report_b_no_exception (w : world S) (e : exn) (w' : world S) :
  DrawComputation.get_computation_report S exec json_loads_report w
  = (inl e, w') ->
  isinstance_Exception e = false.
Proof.
  unfold DrawComputation.get_computation_report, try_except.
  match goal with
  | |- context [match ?c w with _ => _ end] => destruct (c w) as [[e0|r] w0]
  end; [|discriminate].
  destruct (isinstance_Exception e0) eqn:E; [discriminate |].
  intros [= <- <-]. exact E.
Qed.

(** [get_computation_for_tx] of benchmark_lazy_users.py always returns. *)
Lemma report_c_total (tx : json) (w : world S) :
  exists n w',
    LazyUsers.get_computation_for_tx S exec json_loads_report tx w
    = (inr n, w').
Proof.
  unfold LazyUsers.get_computation_for_tx, try_except.
  match goal with
  | |- context [match ?c w with _ => _ end] => destruct (c w) as [[e0|r] w0]
  end; eexists; eexists; reflexivity.
Qed.
End WithWorld.

(** C9, at the failing input: a socket timeout raised while the response
    is awaited or read is not a [URLError]; [get_computation_report] of
    benchmark_computation.py lets it through to its caller, while the two
    sibling queries answer the same failure with no data (the empty report,
    and 0). *)
Theorem report_read_timeout_escapes (loads : string -> option report) :
  BenchmarkComputation.get_computation_report unit stalled loads start
  = (inl SocketTimeout,
     {| env := tt;
        trace := [UrlOpen "http://localhost:8080/emulator/computationReport"
                    "GET" 5] |})
  /\ fst (BenchmarkComputation.get_transaction_computation unit stalled loads
            (Some "ab") start) = inl SocketTimeout
  /\ fst (DrawComputation.get_computation_report unit stalled loads start)
     = inr empty_report
  /\ fst (LazyUsers.get_computation_for_tx unit stalled loads (JStr "ab")
            start) = inr 0.
Proof. repeat split. Qed.

(** A refused connection is answered with no data by all three. *)
Example report_connection_refused (loads : string -> option report) :
  fst (BenchmarkComputation.get_computation_report unit refusing loads start)
  = inr empty_report
  /\ fst (BenchmarkComputation.get_transaction_computation unit refusing
            loads (Some "ab") start) = inr None
  /\ fst (DrawComputation.get_computation_report unit refusing loads start)
     = inr empty_report
  /\ fst (LazyUsers.get_computation_for_tx unit refusing loads (JStr "ab")
            start) = inr 0.
Proof. repeat split. Qed.

End Reporting.

(* ================================================================== *)
(** * Classification of the outcome of an operation *)
(* ================================================================== *)

Module Classification.
Import Py Eff.
Local Open Scope eff_scope.




(** The status and the declared error of a structured response. *)
Definition field (d : list (string * json)) (k : string) (default : json)
  : json :=
  match assoc k d with Some v => v | None => default end.

Definition sealed (d : list (string * json)) : bool :=
  (eq_str (field d "status" JNull) "SEALED"
   || eq_str (field d "statusString" JNull) "SEALED")%bool.



(** The command line of [run_flow_tx]. *)
Definition flow_tx_command (tx_path : string) (args : list string)
    (signer : string) (compute_limit : Z) : list string :=
  (["flow"; "transactions"; "send"; tx_path] ++ args
   ++ ["--signer"; signer; "--network"; DrawComputation.NETWORK;
       "--compute-limit"; str_of_int compute_limit;
       "--output"; "json"] ++ DrawComputation.FLOW_FLAGS)%list.

Section WithWorld.
Variable S : Type.
Variable exec : S -> call -> outcome * S.
Variable json_loads : string -> option json.
Variable str_of_exn : exn -> string.
Variable repr : json -> string.



(** [run_command] of benchmark_draw_computation.py turns every
    [Exception] of the child process into the exit status -1. *)
Lemma run_command_no_exception (cmd : list string) (t : Z) (w w' : world S)
    (e : exn) :
  DrawComputation.run_command S exec str_of_exn cmd t w = (inl e, w') ->
  isinstance_Exception e = false.
Proof.
  unfold DrawComputation.run_command, try_except, subprocess_run, bind,
    request, ret.
  destruct (exec (env w) (Subprocess cmd t)) as [[rc out err|e0] s'].
  - discriminate.
  - destruct (isinstance_TimeoutExpired e0); [discriminate |].
    destruct (isinstance_Exception e0) eqn:E; [discriminate |].
    intros [= <- <-]. exact E.
Qed.
End WithWorld.

(** The text of a sealed transaction whose payload mentions a panic. *)
Definition sealed_doc : string :=
  "{" ++ quoted "status" ++ ": " ++ quoted "SEALED" ++ ", "
  ++ quoted "note" ++ ": " ++ quoted "panic" ++ "}".









End Classification.

(* ================================================================== *)
(** * Counting the batch operations of a run *)
(* ================================================================== *)

Module Ops.
Import Py Eff.

(** A request that sends the batch-processing transaction. *)
Definition is_batch_call (c : call) : bool :=
  match c with
  | Subprocess (_ :: _ :: verb :: path :: _) _ =>
      (String.eqb verb "send"
       && String.eqb path DrawComputation.TX_PROCESS_BATCH)%bool
  | _ => false
  end.

(** The number of batch operations in a log of requests. *)
Definition batch_ops (t : list call) : nat :=
  List.length (filter is_batch_call t).

Section WithWorld.
Variable S : Type.
Variable exec : S -> call -> outcome * S.

(** [c] issues exactly [k] batch operations, whether it returns or
    raises. *)
Definition issues {A : Type} (c : M S A) (k : nat) : Prop :=
  forall w, batch_ops (trace (snd (c w))) = (batch_ops (trace w) + k)%nat.

(** [c] issues at most [k] batch operations. *)
Definition issues_at_most {A : Type} (c : M S A) (k : nat) : Prop :=
  forall w, (batch_ops (trace w) <= batch_ops (trace (snd (c w)))
             <= batch_ops (trace w) + k)%nat.

Lemma issues_ret {A : Type} (a : A) : issues (@ret S A a) 0.
Proof. intros w. cbn. lia. Qed.

Lemma issues_raise {A : Type} (e : exn) : issues (@raise S A e) 0.
Proof. intros w. cbn. lia. Qed.

Lemma issues_lift {A : Type} (r : exn + A) : issues (@lift S A r) 0.
Proof. intros w. cbn. lia. Qed.

Lemma issues_request (c : call) :
  issues (request S exec c) (if is_batch_call c then 1 else 0).
Proof.
  intros w. unfold request.
  destruct (exec (env w) c) as [[rc out err|e] s']; cbn [snd trace];
    unfold batch_ops; cbn [filter];
    destruct (is_batch_call c); cbn [List.length]; lia.
Qed.

(** A computation followed by one that issues nothing. *)
Lemma issues_bind {A B : Type} (c : M S A) (f : A -> M S B) (k : nat) :
  issues c k -> (forall a, issues (f a) 0) -> issues (bind c f) k.
Proof.
  intros Hc Hf w. unfold bind. specialize (Hc w).
  destruct (c w) as [[e|a] w1]; cbn [snd] in *; [exact Hc |].
  rewrite (Hf a w1). lia.
Qed.

Lemma issues_try {A : Type} (c : M S A) (p : exn -> bool)
    (h : exn -> M S A) (k : nat) :
  issues c k -> (forall e, issues (h e) 0) -> issues (try_except c p h) k.
Proof.
  intros Hc Hh w. unfold try_except. specialize (Hc w).
  destruct (c w) as [[e|a] w1]; cbn [snd] in *; [|exact Hc].
  destruct (p e); cbn [snd]; [|exact Hc].
  rewrite (Hh e w1). lia.
Qed.

Lemma issues_at_most_of {A : Type} (c : M S A) (k : nat) :
  issues c k -> issues_at_most c k.
Proof. intros H w. rewrite (H w). lia. Qed.

Lemma at_most_bind {A B : Type} (c : M S A) (f : A -> M S B) (a b : nat) :
  issues_at_most c a -> (forall x, issues_at_most (f x) b) ->
  issues_at_most (bind c f) (a + b).
Proof.
  intros Hc Hf w. unfold bind. specialize (Hc w).
  destruct (c w) as [[e|x] w1]; cbn [snd] in *; [lia |].
  specialize (Hf x w1). lia.
Qed.

Lemma at_most_weaken {A : Type} (c : M S A) (a b : nat) :
  issues_at_most c a -> (a <= b)%nat -> issues_at_most c b.
Proof. intros H L w. specialize (H w). lia. Qed.
End WithWorld.

End Ops.

(* ================================================================== *)
(** * The batch loop of run_full_draw_benchmark *)
(* ================================================================== *)

Module DrawLoop.
Import Py Eff Ops.
Import DrawComputation.

(** Computations that issue no batch operation. *)
Ltac issues_nothing :=
  repeat (intros;
          first
            [ apply issues_ret
            | apply issues_lift
            | apply issues_raise
            | apply issues_bind; [|intros]
            | match goal with
              | |- issues _ (match ?x with _ => _ end) _ => destruct x
              | |- issues _ (if ?x then _ else _) _ => destruct x
              end ]).

Section WithWorld.
Variable S : Type.
Variable exec : S -> call -> outcome * S.
Variable json_loads : string -> option json.
Variable json_loads_report : string -> option report.
Variable str_of_exn : exn -> string.
Variable repr : json -> string.

Local Abbreviation M := (Eff.M S).

Lemma issues_ret_bind {A B : Type} (a : A) (f : A -> M B) (k : nat) :
  issues S (f a) k -> issues S (bind (ret a) f) k.
Proof. intros H w. exact (H w). Qed.

Lemma run_command_issues (cmd : list string) (t : Z) :
  issues S (run_command S exec str_of_exn cmd t)
    (if is_batch_call (Subprocess cmd t) then 1 else 0).
Proof.
  unfold run_command.
  apply issues_try; [|intros; apply issues_ret].
  apply issues_try; [|intros; apply issues_ret].
  apply issues_bind; [|intros; apply issues_ret].
  apply issues_request.
Qed.

Lemma draw_run_flow_tx_issues (tx_path : string) (args : list string)
    (signer : string) (limit : Z) :
  issues S
    (run_flow_tx S exec json_loads str_of_exn repr tx_path args signer limit)
    (if String.eqb tx_path TX_PROCESS_BATCH then 1 else 0).
Proof.
  unfold run_flow_tx.
  apply issues_bind.
  - intros w. rewrite (run_command_issues _ 120 w). reflexivity.
  - issues_nothing.
Qed.

Lemma draw_report_issues :
  issues S (get_computation_report S exec json_loads_report) 0.
Proof.
  unfold get_computation_report.
  apply issues_try; [|intros; apply issues_ret].
  apply issues_bind.
  - intros w. unfold subprocess_run.
    rewrite (issues_request S exec (Subprocess _ 10) w). reflexivity.
  - issues_nothing.
Qed.

Lemma execute_draw_phase_issues (phase : string) (pool_id : Z)
    (extra : list string) (limit : Z) :
  issues S
    (execute_draw_phase S exec json_loads json_loads_report str_of_exn repr
       phase TX_PROCESS_BATCH pool_id extra limit) 1.
Proof.
  unfold execute_draw_phase, reset_computation_profile.
  apply issues_ret_bind.
  apply issues_bind.
  - intros w. rewrite (draw_run_flow_tx_issues TX_PROCESS_BATCH _ _ _ w).
    reflexivity.
  - intros [[ok output] tx].
    apply issues_bind; [apply draw_report_issues |].
    intros report. destruct (correlate tx report). apply issues_ret.
Qed.

Lemma run_flow_script_json_issues (path : string) (args : list string) :
  issues S (run_flow_script_json S exec json_loads str_of_exn path args) 0.
Proof.
  unfold run_flow_script_json.
  apply issues_bind.
  - intros w. rewrite (run_command_issues _ 120 w). reflexivity.
  - issues_nothing.
Qed.

Lemma run_flow_script_issues (path : string) (args : list string) :
  issues S (run_flow_script S exec str_of_exn path args) 0.
Proof.
  unfold run_flow_script.
  apply issues_bind.
  - intros w. rewrite (run_command_issues _ 120 w). reflexivity.
  - issues_nothing.
Qed.

Lemma get_draw_status_issues (pool_id : Z) :
  issues S (get_draw_status S exec json_loads str_of_exn pool_id) 0.
Proof.
  unfold get_draw_status.
  apply issues_bind; [apply run_flow_script_json_issues |].
  intros r. apply issues_bind.
  - issues_nothing.
  - intros [|x st]; [|apply issues_ret].
    apply issues_bind; [apply run_flow_script_issues | intros; apply issues_ret].
Qed.

Local Abbreviation exec_phase :=
  (execute_draw_phase S exec json_loads json_loads_report str_of_exn repr).
Local Abbreviation status_of :=
  (get_draw_status S exec json_loads str_of_exn).
Local Abbreviation loop :=
  (process_batches_loop S exec json_loads json_loads_report str_of_exn repr).

(** The exception [e] was raised inside a batch operation or inside a
    status query, which left the world [w']. *)
Definition raised_inside (pool_id bsize : Z) (e : exn) (w' : world S)
  : Prop :=
  (exists phase w1,
      exec_phase phase TX_PROCESS_BATCH pool_id [str_of_int bsize]
        COMPUTE_LIMIT w1 = (inl e, w'))
  \/ (exists w1, status_of pool_id w1 = (inl e, w')).

(** The last thing done was a batch operation that reported a failure. *)
Definition operation_failed (pool_id bsize : Z) (w' : world S) : Prop :=
  exists phase w1 res,
    exec_phase phase TX_PROCESS_BATCH pool_id [str_of_int bsize]
      COMPUTE_LIMIT w1 = (inr res, w')
    /\ success res = false.

(** The last thing done was a status query that reported completion. *)
Definition completion_seen (pool_id : Z) (w' : world S) : Prop :=
  exists w1 st,
    status_of pool_id w1 = (inr st, w')
    /\ truthy (status_get st "isBatchComplete" (JBool false)) = true.

Definition exit_justified (pool_id bsize : Z) (bp : batch_phase)
    (w' : world S) (count : Z) (remaining : nat) : Prop :=
  match exit_taken bp with
  | ExitCeiling => batch_count bp = count + Z.of_nat remaining
  | ExitFailed => count < batch_count bp /\ operation_failed pool_id bsize w'
  | ExitComplete => count < batch_count bp /\ completion_seen pool_id w'
  end.

Lemma draw_loop_spec (remaining : nat) :
  forall (pool_id bsize count : Z) (comps : list Z) (total : Z)
         (w : world S),
    match loop remaining pool_id bsize count comps total w with
    | (inr bp, w') =>
        batch_ops (trace w')
        = (batch_ops (trace w) + Z.to_nat (batch_count bp - count))%nat
        /\ count <= batch_count bp <= count + Z.of_nat remaining
        /\ exit_justified pool_id bsize bp w' count remaining
    | (inl e, w') =>
        (batch_ops (trace w') <= batch_ops (trace w) + remaining)%nat
        /\ raised_inside pool_id bsize e w'
    end.
Proof.
  induction remaining as [|k IH]; intros pool_id bsize count comps total w.
  - cbn. rewrite Z.sub_diag. cbn. unfold exit_justified; cbn. lia.
  - cbn [process_batches_loop]. unfold bind at 1.
    pose proof (execute_draw_phase_issues
                  ("processDrawBatch_" ++ str_of_int (count + 1))
                  pool_id [str_of_int bsize] COMPUTE_LIMIT w) as Hops.
    destruct (exec_phase ("processDrawBatch_" ++ str_of_int (count + 1))
                TX_PROCESS_BATCH pool_id [str_of_int bsize]
                COMPUTE_LIMIT w) as [[e|res] w1] eqn:E1;
      cbn [snd] in Hops.
    + split; [lia |]. left. eauto.
    + destruct (success res) eqn:Hs; cbn [negb].
      * unfold bind at 1.
        pose proof (get_draw_status_issues pool_id w1) as Hst.
        destruct (status_of pool_id w1) as [[e|st] w2] eqn:E2;
          cbn [snd] in Hst.
        -- split; [lia |]. right. eauto.
        -- destruct (truthy (status_get st "isBatchComplete" (JBool false)))
             eqn:Ht.
           ++ cbn [ret batch_count exit_taken].
              unfold exit_justified; cbn [exit_taken batch_count].
              replace (count + 1 - count) with 1 by lia.
              split; [cbn; lia |]. split; [lia |].
              split; [lia |]. exists w1, st. auto.
           ++ specialize (IH pool_id bsize (count + 1)
                            (comps ++ [computation res])%list
                            (total + computation res) w2).
              destruct (loop k pool_id bsize (count + 1)
                          (comps ++ [computation res])%list
                          (total + computation res) w2)
                as [[e|bp] w3].
              ** destruct IH as [IH1 IH2]. split; [lia | exact IH2].
              ** destruct IH as (IH1 & IH2 & IH3).
                 split; [|split; [lia |]].
                 --- rewrite IH1, Hst, Hops.
                     replace (batch_count bp - count)
                       with (1 + (batch_count bp - (count + 1))) by lia.
                     rewrite Z2Nat.inj_add by lia. cbn. lia.
                 --- unfold exit_justified in *.
                     destruct (exit_taken bp); [| |lia];
                       (split; [lia | tauto]).
      * cbn [ret batch_count exit_taken].
        unfold exit_justified; cbn [exit_taken batch_count].
        replace (count + 1 - count) with 1 by lia.
        split; [cbn; lia |]. split; [lia |].
        split; [lia |].
        exists ("processDrawBatch_" ++ str_of_int (count + 1)), w, res. auto.
Qed.

End WithWorld.

End DrawLoop.

(* ================================================================== *)
(** * The batch loop of run_multi_user_benchmark *)
(* ================================================================== *)

Module MultiUserLoop.
Import Py Eff Ops.
Import BenchmarkComputation.
Import DrawLoop.

Definition BATCH_TX : string := TX_PATH ++ "/process_draw_batch.cdc".

Section WithWorld.
Variable S : Type.
Variable exec : S -> call -> outcome * S.
Variable json_loads : string -> option report.

Local Abbreviation M := (Eff.M S).

Lemma multi_user_report_issues :
  issues S (get_computation_report S exec json_loads) 0.
Proof.
  unfold get_computation_report.
  apply issues_try; [|intros; apply issues_ret].
  apply issues_bind; [|issues_nothing].
  unfold urlopen_read.
  apply issues_bind; [|intros; apply issues_ret].
  intros w. rewrite (issues_request S exec (UrlOpen _ _ _) w). reflexivity.
Qed.

Lemma get_transaction_computation_issues (tx : option string) :
  issues S (get_transaction_computation S exec json_loads tx) 0.
Proof.
  unfold get_transaction_computation.
  destruct tx as [[|c t]|]; try apply issues_ret.
  apply issues_bind; [apply multi_user_report_issues |].
  intros; apply issues_ret.
Qed.

Lemma run_transaction_issues (tx_path : string) (args : list string)
    (signer : option string) (limit : Z) :
  issues S (run_transaction S exec json_loads tx_path args signer limit)
    (if String.eqb tx_path BATCH_TX then 1 else 0).
Proof.
  unfold run_transaction.
  apply issues_bind.
  - intros w. unfold run_command, subprocess_run.
    rewrite (issues_request S exec (Subprocess _ 300) w). reflexivity.
  - intros result. apply issues_bind; [|intros; apply issues_ret].
    destruct (parse_tx_id (stdout result ++ stderr result)) as [[|c t]|];
      try apply issues_ret.
    destruct (classify (returncode result) (stdout result ++ stderr result));
      [apply get_transaction_computation_issues | apply issues_ret].
Qed.

Lemma is_batch_complete_issues (pool_id : Z) :
  issues S (is_batch_complete S exec pool_id) 0.
Proof.
  unfold is_batch_complete, get_draw_status, run_script.
  apply issues_bind; [|intros; apply issues_ret].
  apply issues_bind; [|issues_nothing].
  apply issues_bind; [|intros; apply issues_ret].
  intros w. unfold run_command, subprocess_run.
  rewrite (issues_request S exec (Subprocess _ 300) w). reflexivity.
Qed.

Local Abbreviation batch_tx pool_id bsize :=
  (run_transaction S exec json_loads BATCH_TX
     [str_of_int pool_id; str_of_int bsize] None 9999).
Local Abbreviation loop := (process_batches_loop S exec json_loads).

Definition raised_inside (pool_id bsize : Z) (e : exn) (w' : world S)
  : Prop :=
  (exists w1, batch_tx pool_id bsize w1 = (inl e, w'))
  \/ (exists w1, is_batch_complete S exec pool_id w1 = (inl e, w')).

Definition completion_seen (pool_id : Z) (w' : world S) : Prop :=
  exists w1, is_batch_complete S exec pool_id w1 = (inr true, w').

Definition exit_justified (pool_id : Z) (ex : loop_exit) (num' : Z)
    (w' : world S) (num : Z) (remaining : nat) : Prop :=
  match ex with
  | ExitCeiling => num' = num + Z.of_nat remaining
  | ExitComplete => num < num' /\ completion_seen pool_id w'
  end.

Lemma multi_user_loop_spec (remaining : nat) :
  forall (pool_id bsize num : Z) (result : BenchmarkResult) (w : world S),
    match loop remaining pool_id bsize num result w with
    | (inr (ex, num', result'), w') =>
        batch_ops (trace w')
        = (batch_ops (trace w) + Z.to_nat (num' - num))%nat
        /\ num <= num' <= num + Z.of_nat remaining
        /\ exit_justified pool_id ex num' w' num remaining
    | (inl e, w') =>
        (batch_ops (trace w') <= batch_ops (trace w) + remaining)%nat
        /\ raised_inside pool_id bsize e w'
    end.
Proof.
  induction remaining as [|k IH]; intros pool_id bsize num result w.
  - cbn. rewrite Z.sub_diag. cbn. lia.
  - cbn [process_batches_loop]. unfold bind at 1.
    pose proof (run_transaction_issues BATCH_TX
                  [str_of_int pool_id; str_of_int bsize] None 9999 w)
      as Hops.
    change (TX_PATH ++ "/process_draw_batch.cdc") with BATCH_TX.
    destruct (batch_tx pool_id bsize w) as [[e|res] w1] eqn:E1;
      cbn [snd] in Hops; change (if (BATCH_TX =? BATCH_TX)%string
                                 then 1%nat else 0%nat) with 1%nat in Hops.
    + split; [lia |]. left. eauto.
    + unfold bind at 1.
      pose proof (is_batch_complete_issues pool_id w1) as Hst.
      destruct (is_batch_complete S exec pool_id w1) as [[e|[|]] w2] eqn:E2;
        cbn [snd] in Hst.
      * split; [lia |]. right. eauto.
      * cbn [ret]. unfold exit_justified.
        replace (num + 1 - num) with 1 by lia.
        split; [cbn; lia |]. split; [lia |].
        split; [lia |]. exists w1. exact E2.
      * match goal with
        | |- context [loop k pool_id bsize (num + 1) ?r w2] =>
            specialize (IH pool_id bsize (num + 1) r w2);
            destruct (loop k pool_id bsize (num + 1) r w2)
              as [[e|[[ex num'] result']] w3]
        end.
        -- destruct IH as [IH1 IH2]. split; [lia | exact IH2].
        -- destruct IH as (IH1 & IH2 & IH3).
           split; [|split; [lia |]].
           ++ rewrite IH1, Hst, Hops.
              replace (num' - num) with (1 + (num' - (num + 1))) by lia.
              rewrite Z2Nat.inj_add by lia. cbn. lia.
           ++ unfold exit_justified in *.
              destruct ex; [split; [lia | tauto] | lia].
Qed.

End WithWorld.

End MultiUserLoop.

(* ================================================================== *)
(** * The batch loop of benchmark_process_draw_batch *)
(* ================================================================== *)

Module LazyLoop.
Import Py Eff Ops.
Import LazyUsers.
Import DrawLoop.

(** The message of a failure says that the batch is already complete. *)
Definition already_complete (output : string) : bool :=
  (contains "batch processing already complete" (lower output)
   || contains "already complete" (lower output))%bool.

(** The output of a success reports that nothing remains. *)
Definition nothing_remaining (output : string) : bool :=
  (contains (quoted "remaining" ++ ":0") (remove_spaces output)
   || contains "remaining: 0" (lower output))%bool.

Section WithWorld.
Variable S : Type.
Variable exec : S -> call -> outcome * S.
Variable json_loads : string -> option json.
Variable json_loads_report : string -> option report.

Local Abbreviation M := (Eff.M S).

Lemma get_computation_for_tx_issues (tx : json) :
  issues S (get_computation_for_tx S exec json_loads_report tx) 0.
Proof.
  unfold get_computation_for_tx.
  apply issues_try; [|intros; apply issues_ret].
  apply issues_bind; [|issues_nothing].
  intros w. unfold subprocess_run.
  rewrite (issues_request S exec (Subprocess _ 10) w). reflexivity.
Qed.

Lemma lazy_run_flow_tx_issues (tx_path : string) (args : list string)
    (limit : Z) :
  issues S
    (run_flow_tx S exec json_loads json_loads_report tx_path args limit)
    (if String.eqb tx_path TX_PROCESS_BATCH then 1 else 0).
Proof.
  unfold run_flow_tx.
  apply issues_bind.
  - intros w. unfold subprocess_run.
    rewrite (issues_request S exec (Subprocess _ 120) w). reflexivity.
  - intros result. apply issues_bind; [issues_nothing |].
    intros [tx [|]]; [apply issues_ret |].
    apply issues_bind; [|intros; apply issues_ret].
    destruct (truthy tx);
      [apply get_computation_for_tx_issues | apply issues_ret].
Qed.

Local Abbreviation batch_tx pool_id bsize :=
  (run_flow_tx S exec json_loads json_loads_report TX_PROCESS_BATCH
     [str_of_int pool_id; str_of_int bsize] COMPUTE_LIMIT).
Local Abbreviation loop :=
  (process_batches_loop S exec json_loads json_loads_report).

(** The last batch operation, which left the world [w'], returned the
    success flag [ok] and the output [output]. *)
Definition last_operation (pool_id bsize : Z) (ok : bool)
    (output : string) (w' : world S) : Prop :=
  exists w1 tx comp,
    batch_tx pool_id bsize w1 = (inr (ok, output, tx, comp), w').

Definition exit_justified (pool_id bsize : Z) (ex : loop_exit)
    (w w' : world S) (remaining : nat) : Prop :=
  match ex with
  | ExitRange =>
      batch_ops (trace w') = (batch_ops (trace w) + remaining)%nat
  | ExitAlreadyComplete =>
      exists output, last_operation pool_id bsize false output w'
                     /\ already_complete output = true
  | ExitError =>
      exists output, last_operation pool_id bsize false output w'
                     /\ already_complete output = false
  | ExitRemainingZero =>
      exists output, last_operation pool_id bsize true output w'
                     /\ nothing_remaining output = true
  end.

Lemma lazy_loop_spec (remaining : nat) :
  forall (pool_id bsize total count : Z) (w : world S),
    match loop remaining pool_id bsize total count w with
    | (inr (ex, total', count'), w') =>
        (batch_ops (trace w) <= batch_ops (trace w')
         <= batch_ops (trace w) + remaining)%nat
        /\ count <= count' <= count + Z.of_nat remaining
        /\ exit_justified pool_id bsize ex w w' remaining
    | (inl e, w') =>
        (batch_ops (trace w') <= batch_ops (trace w) + remaining)%nat
        /\ exists w1, batch_tx pool_id bsize w1 = (inl e, w')
    end.
Proof.
  induction remaining as [|k IH]; intros pool_id bsize total count w.
  - cbn. lia.
  - cbn [process_batches_loop]. unfold bind at 1.
    pose proof (lazy_run_flow_tx_issues TX_PROCESS_BATCH
                  [str_of_int pool_id; str_of_int bsize] COMPUTE_LIMIT w)
      as Hops.
    destruct (batch_tx pool_id bsize w)
      as [[e|[[[ok output] tx] comp]] w1] eqn:E1;
      cbn [snd] in Hops;
      change (if (TX_PROCESS_BATCH =? TX_PROCESS_BATCH)%string
              then 1%nat else 0%nat) with 1%nat in Hops.
    + split; [lia |]. eauto.
    + destruct ok; cbn [negb].
      * fold (nothing_remaining output).
        destruct (nothing_remaining output) eqn:Hr.
        -- cbn [ret]. split; [lia |]. split; [lia |].
           exists output. split; [|exact Hr]. exists w, tx, comp. exact E1.
        -- specialize (IH pool_id bsize (total + comp) (count + 1) w1).
           destruct (loop k pool_id bsize (total + comp) (count + 1) w1)
             as [[e|[[ex total'] count']] w2].
           ++ destruct IH as [IH1 IH2]. split; [lia | exact IH2].
           ++ destruct IH as (IH1 & IH2 & IH3).
              split; [lia |]. split; [lia |].
              unfold exit_justified in *. destruct ex; try exact IH3. lia.
      * fold (already_complete output).
        destruct (already_complete output) eqn:Ha; cbn [ret];
          (split; [lia |]; split; [lia |];
           exists output; split; [|exact Ha]; exists w, tx, comp; exact E1).
Qed.

End WithWorld.

End LazyLoop.

(* ================================================================== *)
(** * Termination and bounds of the batch loops *)
(* ================================================================== *)

Module BatchLoops.
Import Py Eff Ops.

(** A CLI and emulator that answer every request with exit status 0 and no
    text. *)
Definition silent (s : unit) (c : call) : outcome * unit :=
  (Returned 0 "" "", s).

Definition no_json (s : string) : option json := None.
Definition no_report (s : string) : option report := None.
Definition no_text {A : Type} (a : A) : string := "".

Definition result_for (users bsize : Z) : BenchmarkComputation.BenchmarkResult :=
  {| BenchmarkComputation.user_count := users;
     BenchmarkComputation.batch_size := bsize;
     BenchmarkComputation.create_pool_cu := 0;
     BenchmarkComputation.setup_users_total_cu := 0;
     BenchmarkComputation.deposit_cus := [];
     BenchmarkComputation.fund_lottery_cu := 0;
     BenchmarkComputation.start_draw_cu := 0;
     BenchmarkComputation.batch_cus := [];
     BenchmarkComputation.request_randomness_cu := 0;
     BenchmarkComputation.complete_draw_cu := 0 |}.

(** C2, as the claim states it, fails: with the batch size 0 the ceiling
    itself cannot be computed and a [ZeroDivisionError] leaves phase 2,
    in [run_full_draw_benchmark] and in [run_multi_user_benchmark]. *)
Lemma zero_batch_size_raises :
  DrawComputation.process_batches unit silent no_json no_report
    no_text no_text 0 100 0 Reporting.start
  = (inl ZeroDivisionError, Reporting.start)
  /\ BenchmarkComputation.process_batches unit silent no_report 0
       (result_for 100 0) Reporting.start
     = (inl ZeroDivisionError, Reporting.start).
Proof. split; reflexivity. Qed.

(** C2, amended.  For every participant count, every batch size and every
    behaviour of the CLI and the emulator, each batch loop ends.
    [run_full_draw_benchmark] issues exactly [batch_count] batch
    operations, at most max(0, users // batch_size + 5);
    [run_multi_user_benchmark] issues exactly [batch_num] of them, at most
    max(0, users // batch_size + 10); [benchmark_process_draw_batch] issues
    at most 100.  A loop that returns has left through one of its exits:
    the completion predicate held after the last operation, the last
    operation reported a failure (the loop of [run_multi_user_benchmark]
    has no such exit), or the ceiling was reached.  A loop that raises
    raises [ZeroDivisionError] before any operation when the batch size is
    0, and otherwise passes on an exception raised inside a batch
    operation or a status query. *)
Theorem batch_loops_bounded
    (S : Type) (exec : S -> call -> outcome * S)
    (json_loads : string -> option json)
    (json_loads_report : string -> option report)
    (str_of_exn : exn -> string) (repr : json -> string)
    (pool_id users bsize : Z) (w : world S) :
  match DrawComputation.process_batches S exec json_loads json_loads_report
          str_of_exn repr pool_id users bsize w with
  | (inr bp, w') =>
      bsize <> 0
      /\ batch_ops (trace w')
         = (batch_ops (trace w)
            + Z.to_nat (DrawComputation.batch_count bp))%nat
      /\ 0 <= DrawComputation.batch_count bp <= Z.max 0 (users / bsize + 5)
      /\ DrawLoop.exit_justified S exec json_loads json_loads_report
           str_of_exn repr pool_id bsize bp w' 0
           (Z.to_nat (users / bsize + 5))
  | (inl e, w') =>
      (bsize = 0 /\ e = ZeroDivisionError /\ w' = w)
      \/ (bsize <> 0
          /\ (batch_ops (trace w')
              <= batch_ops (trace w) + Z.to_nat (users / bsize + 5))%nat
          /\ DrawLoop.raised_inside S exec json_loads json_loads_report
               str_of_exn repr pool_id bsize e w')
  end
  /\ match BenchmarkComputation.process_batches S exec json_loads_report
             pool_id (result_for users bsize) w with
     | (inr (ex, batch_num, result), w') =>
         bsize <> 0
         /\ batch_ops (trace w')
            = (batch_ops (trace w) + Z.to_nat batch_num)%nat
         /\ 0 <= batch_num <= Z.max 0 (users / bsize + 10)
         /\ MultiUserLoop.exit_justified S exec pool_id ex batch_num w' 0
              (Z.to_nat (users / bsize + 10))
     | (inl e, w') =>
         (bsize = 0 /\ e = ZeroDivisionError /\ w' = w)
         \/ (bsize <> 0
             /\ (batch_ops (trace w')
                 <= batch_ops (trace w) + Z.to_nat (users / bsize + 10))%nat
             /\ MultiUserLoop.raised_inside S exec json_loads_report
                  pool_id bsize e w')
     end
  /\ match LazyUsers.process_batches_loop S exec json_loads
             json_loads_report 100 pool_id bsize 0 0 w with
     | (inr (ex, total, count), w') =>
         (batch_ops (trace w) <= batch_ops (trace w')
          <= batch_ops (trace w) + 100)%nat
         /\ 0 <= count <= 100
         /\ LazyLoop.exit_justified S exec json_loads json_loads_report
              pool_id bsize ex w w' 100
     | (inl e, w') =>
         (batch_ops (trace w') <= batch_ops (trace w) + 100)%nat
         /\ exists w1,
             LazyUsers.run_flow_tx S exec json_loads json_loads_report
               LazyUsers.TX_PROCESS_BATCH
               [str_of_int pool_id; str_of_int bsize]
               LazyUsers.COMPUTE_LIMIT w1 = (inl e, w')
     end.
Proof.
  split; [|split].
  - unfold DrawComputation.process_batches, DrawComputation.floordiv.
    destruct (Z.eqb_spec bsize 0) as [E|E].
    + cbn. left. auto.
    + cbn [lift bind].
      pose proof (DrawLoop.draw_loop_spec S exec json_loads json_loads_report
                    str_of_exn repr (Z.to_nat (users / bsize + 5))
                    pool_id bsize 0 [] 0 w) as H.
      destruct (DrawComputation.process_batches_loop S exec json_loads
                  json_loads_report str_of_exn repr
                  (Z.to_nat (users / bsize + 5)) pool_id bsize 0 [] 0 w)
        as [[e|bp] w'].
      * right. tauto.
      * destruct H as (H1 & H2 & H3). rewrite Z.sub_0_r in H1.
        split; [exact E |]. split; [exact H1 |]. split; [lia | exact H3].
  - unfold BenchmarkComputation.process_batches,
      BenchmarkComputation.floordiv.
    cbn [result_for BenchmarkComputation.user_count
           BenchmarkComputation.batch_size].
    destruct (Z.eqb_spec bsize 0) as [E|E].
    + cbn. left. auto.
    + cbn [lift bind].
      pose proof (MultiUserLoop.multi_user_loop_spec S exec json_loads_report
                    (Z.to_nat (users / bsize + 10)) pool_id bsize 0
                    (result_for users bsize) w) as H.
      destruct (BenchmarkComputation.process_batches_loop S exec
                  json_loads_report (Z.to_nat (users / bsize + 10))
                  pool_id bsize 0 (result_for users bsize) w)
        as [[e|[[ex num] result]] w'].
      * right. tauto.
      * destruct H as (H1 & H2 & H3). rewrite Z.sub_0_r in H1.
        split; [exact E |]. split; [exact H1 |]. split; [lia | exact H3].
  - pose proof (LazyLoop.lazy_loop_spec S exec json_loads json_loads_report
                  100 pool_id bsize 0 0 w) as H.
    destruct (LazyUsers.process_batches_loop S exec json_loads
                json_loads_report 100 pool_id bsize 0 0 w)
      as [[e|[[ex total] count]] w'].
    + exact H.
    + destruct H as (H1 & H2 & H3). split; [exact H1 |].
      split; [lia | exact H3].
Qed.

End BatchLoops.

(* ================================================================== *)
(** * A model emulator and the number of batch iterations *)
(* ================================================================== *)

Module Scenarios.
Import Py Eff Ops.

(** What the CLI prints for a sealed transaction. *)
Definition sealed_doc : string :=
  "{" ++ quoted "status" ++ ": " ++ quoted "SEALED" ++ "}".

Definition loads_sealed (s : string) : option json :=
  if String.eqb s sealed_doc then Some (JDict [("status", JStr "SEALED")])
  else None.

(** What the status script prints, in the two forms the benchmarks look
    for. *)
Definition status_text (complete : bool) : string :=
  if complete
  then quoted "isBatchComplete" ++ ": true, isBatchComplete: true"
  else quoted "isBatchComplete" ++ ": false, isBatchComplete: false".

(** An emulator with [n] participants and a pool whose draw runs with the
    batch size [b]; its state is the number of participants processed so
    far.  Every transaction is sealed, a batch transaction processes the
    next [b] participants, and the completion predicate holds exactly when
    all participants have been processed. *)
Definition emulator (n b : Z) (processed : Z) (c : call) : outcome * Z :=
  match c with
  | Subprocess (_ :: _ :: verb :: path :: _) _ =>
      if String.eqb verb "send" then
        if String.eqb path DrawComputation.TX_PROCESS_BATCH
        then (Returned 0 sealed_doc "", processed + b)
        else (Returned 0 sealed_doc "", processed)
      else if String.eqb verb "execute"
           then (Returned 0 (status_text (n <=? processed)) "", processed)
           else (Returned 0 "" "", processed)
  | _ => (Returned 0 "" "", processed)
  end.

(** The completion predicate after [k] batches. *)
Definition complete_after (n b k : Z) : bool := n <=? k * b.

Definition fresh : world Z := {| env := 0; trace := [] |}.

(** ceil(n / b) for a positive [b] *)
Definition ceil_div (n b : Z) : Z := (n + b - 1) / b.

Lemma ceil_div_one (m b : Z) : 1 <= m <= b -> ceil_div m b = 1.
Proof.
  intros H. unfold ceil_div. symmetry.
  apply (Z.div_unique (m + b - 1) b 1 (m - 1)); lia.
Qed.

Lemma ceil_div_step (m b : Z) :
  0 < b -> ceil_div m b = 1 + ceil_div (m - b) b.
Proof.
  intros H. unfold ceil_div.
  replace (m + b - 1) with ((m - b + b - 1) + 1 * b) by lia.
  rewrite Z.div_add by lia. lia.
Qed.

Lemma ceil_div_pos (m b : Z) : 0 < b -> 1 <= m -> 1 <= ceil_div m b.
Proof.
  intros Hb Hm. unfold ceil_div.
  apply Z.div_le_lower_bound; lia.
Qed.

Lemma ceil_div_le_floor (n b : Z) : 0 < b -> ceil_div n b <= n / b + 1.
Proof.
  intros Hb. unfold ceil_div.
  replace (n / b + 1) with ((n + 1 * b) / b) by (rewrite Z.div_add; lia).
  apply Z.div_le_mono; lia.
Qed.

Lemma complete_after_iff (n b k : Z) :
  0 < b -> complete_after n b k = true <-> ceil_div n b <= k.
Proof.
  intros Hb. unfold complete_after, ceil_div. rewrite Z.leb_le. split.
  - intros H.
    apply Z.lt_succ_r. apply Z.div_lt_upper_bound; nia.
  - intros H.
    pose proof (Z.mul_div_le (n + b - 1) b Hb).
    pose proof (Z.mod_pos_bound (n + b - 1) b Hb).
    pose proof (Z.div_mod (n + b - 1) b ltac:(lia)). nia.
Qed.

(** The iterations of the batch loops: ceil(n / b), and one at least,
    because the completion predicate is tested only after a batch
    operation. *)
Definition iterations (n b : Z) : Z := Z.max 1 (ceil_div n b).

Lemma iterations_last (m b : Z) : 1 <= b -> m <= b -> iterations m b = 1.
Proof.
  intros Hb Hm. unfold iterations, ceil_div.
  assert ((m + b - 1) / b < 2); [| lia].
  apply Z.div_lt_upper_bound; lia.
Qed.

Lemma iterations_step (m b : Z) :
  1 <= b -> b < m -> iterations m b = 1 + iterations (m - b) b.
Proof.
  intros Hb Hm. unfold iterations.
  rewrite (ceil_div_step m b) by lia.
  pose proof (ceil_div_pos (m - b) b). lia.
Qed.

Lemma iterations_ceil (n b : Z) :
  1 <= b -> 1 <= n -> iterations n b = ceil_div n b.
Proof.
  intros Hb Hn. unfold iterations. pose proof (ceil_div_pos n b). lia.
Qed.

Lemma iterations_within (n b c : Z) :
  0 <= n -> 1 <= b -> 1 <= c -> iterations n b <= n / b + c.
Proof.
  intros Hn Hb Hc. unfold iterations.
  pose proof (ceil_div_le_floor n b).
  assert (0 <= n / b) by (apply Z.div_pos; lia). lia.
Qed.

(** ** The loops in any environment

    [covered] measures an environment: the participants that its batch
    operations have covered so far, [b] with each operation.  The
    completion predicate holds exactly when all [n] participants are
    covered. *)
Section AnyEnvironment.
Variable S : Type.
Variable exec : S -> call -> outcome * S.
Variables n b pool_id : Z.
Variable covered : S -> Z.
Hypothesis Hb : 1 <= b.

Section DrawComputationLoop.
Variable json_loads : string -> option json.
Variable json_loads_report : string -> option report.
Variable str_of_exn : exn -> string.
Variable repr : json -> string.

Hypothesis batch_operation :
  forall phase w, exists r w',
    DrawComputation.execute_draw_phase S exec json_loads json_loads_report
      str_of_exn repr phase DrawComputation.TX_PROCESS_BATCH pool_id
      [str_of_int b] DrawComputation.COMPUTE_LIMIT w = (inr r, w')
    /\ DrawComputation.success r = true
    /\ covered (env w') = covered (env w) + b.

Hypothesis completion_predicate :
  forall w, exists st w',
    DrawComputation.get_draw_status S exec json_loads str_of_exn pool_id w
    = (inr st, w')
    /\ covered (env w') = covered (env w)
    /\ truthy (DrawComputation.status_get st "isBatchComplete" (JBool false))
       = (n <=? covered (env w)).

Lemma draw_loop_iterations (fuel : nat) :
  forall (count : Z) (comps : list Z) (total : Z) (w : world S),
    iterations (n - covered (env w)) b <= Z.of_nat fuel ->
    exists bp w',
      DrawComputation.process_batches_loop S exec json_loads
        json_loads_report str_of_exn repr fuel pool_id b count comps total w
      = (inr bp, w')
      /\ DrawComputation.exit_taken bp = DrawComputation.ExitComplete
      /\ DrawComputation.batch_count bp
         = count + iterations (n - covered (env w)) b.
Proof.
  induction fuel as [|k IH]; intros count comps total w Hfuel.
  - unfold iterations in Hfuel. lia.
  - cbn [DrawComputation.process_batches_loop]. unfold bind at 1.
    destruct (batch_operation
                ("processDrawBatch_" ++ str_of_int (count + 1)) w)
      as (r & w1 & -> & Sr & C1).
    rewrite Sr. cbn [negb]. unfold bind at 1.
    destruct (completion_predicate w1) as (st & w2 & -> & C2 & ->).
    destruct (n <=? covered (env w1)) eqn:E.
    + apply Z.leb_le in E.
      eexists. eexists. split; [reflexivity |]. split; [reflexivity |].
      cbn [DrawComputation.batch_count].
      rewrite iterations_last by lia. reflexivity.
    + apply Z.leb_gt in E.
      assert (St : iterations (n - covered (env w)) b
                   = 1 + iterations (n - covered (env w2)) b).
      { rewrite (iterations_step (n - covered (env w)) b) by lia.
        do 2 f_equal. lia. }
      destruct (IH (count + 1)
                  (comps ++ [DrawComputation.computation r])%list
                  (total + DrawComputation.computation r) w2)
        as (bp & w' & H1 & H2 & H3); [lia |].
      exists bp, w'. split; [exact H1 |]. split; [exact H2 |].
      rewrite H3, St. lia.
Qed.

Lemma draw_batches_iterations (w : world S) :
  0 <= n ->
  covered (env w) = 0 ->
  exists bp w',
    DrawComputation.process_batches S exec json_loads json_loads_report
      str_of_exn repr pool_id n b w = (inr bp, w')
    /\ DrawComputation.batch_count bp = iterations n b
    /\ DrawComputation.exit_taken bp = DrawComputation.ExitComplete
    /\ batch_ops (trace w')
       = (batch_ops (trace w) + Z.to_nat (iterations n b))%nat.
Proof.
  intros Hn C0.
  unfold DrawComputation.process_batches, DrawComputation.floordiv.
  destruct (Z.eqb_spec b 0) as [E|E]; [lia |].
  cbn [lift bind].
  destruct (draw_loop_iterations (Z.to_nat (n / b + 5)) 0 [] 0 w)
    as (bp & w' & H1 & H2 & H3).
  { rewrite C0, Z.sub_0_r. pose proof (iterations_within n b 5). lia. }
  rewrite C0, Z.sub_0_r, Z.add_0_l in H3.
  exists bp, w'. split; [exact H1 |]. split; [exact H3 |].
  split; [exact H2 |].
  pose proof (DrawLoop.draw_loop_spec S exec json_loads json_loads_report
                str_of_exn repr (Z.to_nat (n / b + 5)) pool_id b 0 [] 0 w)
    as Sp.
  rewrite H1 in Sp. destruct Sp as (Ops & _).
  rewrite Ops, H3, Z.sub_0_r. reflexivity.
Qed.
End DrawComputationLoop.

Section MultiUserBenchmarkLoop.
Variable json_loads : string -> option report.

Hypothesis batch_transaction :
  forall w, exists res w',
    BenchmarkComputation.run_transaction S exec json_loads
      MultiUserLoop.BATCH_TX [str_of_int pool_id; str_of_int b] None 9999 w
    = (inr res, w')
    /\ covered (env w') = covered (env w) + b.

Hypothesis completion_check :
  forall w, exists w',
    BenchmarkComputation.is_batch_complete S exec pool_id w
    = (inr (n <=? covered (env w)), w')
    /\ covered (env w') = covered (env w).

Lemma multi_user_loop_iterations (fuel : nat) :
  forall (num : Z) (result : BenchmarkComputation.BenchmarkResult)
         (w : world S),
    iterations (n - covered (env w)) b <= Z.of_nat fuel ->
    exists result' w',
      BenchmarkComputation.process_batches_loop S exec json_loads fuel
        pool_id b num result w
      = (inr (BenchmarkComputation.ExitComplete,
              num + iterations (n - covered (env w)) b, result'), w').
Proof.
  induction fuel as [|k IH]; intros num result w Hfuel.
  - unfold iterations in Hfuel. lia.
  - cbn [BenchmarkComputation.process_batches_loop]. unfold bind at 1.
    change (BenchmarkComputation.TX_PATH ++ "/process_draw_batch.cdc")
      with MultiUserLoop.BATCH_TX.
    destruct (batch_transaction w) as (res & w1 & -> & C1).
    unfold bind at 1.
    destruct (completion_check w1) as (w2 & -> & C2).
    destruct (n <=? covered (env w1)) eqn:E.
    + apply Z.leb_le in E. eexists. eexists. cbn [ret].
      rewrite iterations_last by lia. reflexivity.
    + apply Z.leb_gt in E.
      assert (St : iterations (n - covered (env w)) b
                   = 1 + iterations (n - covered (env w2)) b).
      { rewrite (iterations_step (n - covered (env w)) b) by lia.
        do 2 f_equal. lia. }
      match goal with
      | |- context [BenchmarkComputation.process_batches_loop _ _ _ k _ _
                      (num + 1) ?r w2] =>
          destruct (IH (num + 1) r w2) as (result' & w' & H1); [lia |]
      end.
      exists result', w'. rewrite H1, St.
      rewrite Z.add_assoc. reflexivity.
Qed.

Lemma multi_user_batches_iterations
    (result : BenchmarkComputation.BenchmarkResult) (w : world S) :
  0 <= n ->
  BenchmarkComputation.user_count result = n ->
  BenchmarkComputation.batch_size result = b ->
  covered (env w) = 0 ->
  exists result' w',
    BenchmarkComputation.process_batches S exec json_loads pool_id result w
    = (inr (BenchmarkComputation.ExitComplete, iterations n b, result'), w')
    /\ batch_ops (trace w')
       = (batch_ops (trace w) + Z.to_nat (iterations n b))%nat.
Proof.
  intros Hn Un Ub C0.
  unfold BenchmarkComputation.process_batches,
    BenchmarkComputation.floordiv.
  rewrite Un, Ub.
  destruct (Z.eqb_spec b 0) as [E|E]; [lia |].
  cbn [lift bind].
  destruct (multi_user_loop_iterations (Z.to_nat (n / b + 10)) 0 result w)
    as (result' & w' & H1).
  { rewrite C0, Z.sub_0_r. pose proof (iterations_within n b 10). lia. }
  rewrite C0, Z.sub_0_r, Z.add_0_l in H1.
  exists result', w'. split; [exact H1 |].
  pose proof (MultiUserLoop.multi_user_loop_spec S exec json_loads
                (Z.to_nat (n / b + 10)) pool_id b 0 result w) as Sp.
  rewrite H1 in Sp. destruct Sp as (Ops & _).
  rewrite Ops, Z.sub_0_r. reflexivity.
Qed.
End MultiUserBenchmarkLoop.
End AnyEnvironment.

(** ** The emulator is such an environment *)
Section Emulated.
Variables n b pool_id : Z.

Local Abbreviation exec := (emulator n b).

Lemma draw_phase_on_emulator (phase : string) (p : Z) (t : list call) :
  exists t',
    DrawComputation.execute_draw_phase Z exec loads_sealed
      BatchLoops.no_report BatchLoops.no_text BatchLoops.no_text
      phase DrawComputation.TX_PROCESS_BATCH pool_id [str_of_int b]
      DrawComputation.COMPUTE_LIMIT {| env := p; trace := t |}
    = (inr {| DrawComputation.tx_name := phase;
              DrawComputation.success := true;
              DrawComputation.computation := 0;
              DrawComputation.memory := 0;
              DrawComputation.tx_id := JStr "";
              DrawComputation.error := None |},
       {| env := p + b; trace := t' |}).
Proof. eexists. reflexivity. Qed.

Lemma draw_status_on_emulator (p : Z) (t : list call) :
  exists t',
    DrawComputation.get_draw_status Z exec loads_sealed
      BatchLoops.no_text pool_id {| env := p; trace := t |}
    = (inr (DrawComputation.status_of_text (status_text (n <=? p))),
       {| env := p; trace := t' |}).
Proof.
  destruct (n <=? p) eqn:E; eexists;
    unfold DrawComputation.get_draw_status,
      DrawComputation.run_flow_script_json, DrawComputation.run_flow_script,
      DrawComputation.run_command, try_except, subprocess_run, request,
      bind, ret, emulator;
    cbn -[Z.leb]; rewrite ?E; cbn -[Z.leb]; rewrite ?E; reflexivity.
Qed.

Lemma transaction_on_emulator (p : Z) (t : list call) :
  exists t',
    BenchmarkComputation.run_transaction Z exec BatchLoops.no_report
      MultiUserLoop.BATCH_TX [str_of_int pool_id; str_of_int b] None 9999
      {| env := p; trace := t |}
    = (inr {| BenchmarkComputation.success := true;
              BenchmarkComputation.computation := None;
              BenchmarkComputation.tx_id := None;
              BenchmarkComputation.output := sealed_doc;
              BenchmarkComputation.error := "" |},
       {| env := p + b; trace := t' |}).
Proof. eexists. reflexivity. Qed.

Lemma complete_on_emulator (p : Z) (t : list call) :
  exists t',
    BenchmarkComputation.is_batch_complete Z exec pool_id
      {| env := p; trace := t |}
    = (inr (n <=? p), {| env := p; trace := t' |}).
Proof.
  destruct (n <=? p) eqn:E; eexists;
    unfold BenchmarkComputation.is_batch_complete,
      BenchmarkComputation.get_draw_status, BenchmarkComputation.run_script,
      BenchmarkComputation.run_command, subprocess_run, request,
      bind, ret, emulator;
    cbn -[Z.leb]; rewrite ?E; cbn -[Z.leb]; rewrite ?E; reflexivity.
Qed.

(** The state of the emulator is its measure. *)
Lemma emulator_batch_operation (phase : string) (w : world Z) :
  exists r w',
    DrawComputation.execute_draw_phase Z exec loads_sealed
      BatchLoops.no_report BatchLoops.no_text BatchLoops.no_text
      phase DrawComputation.TX_PROCESS_BATCH pool_id [str_of_int b]
      DrawComputation.COMPUTE_LIMIT w = (inr r, w')
    /\ DrawComputation.success r = true
    /\ env w' = env w + b.
Proof.
  destruct w as [p t]. destruct (draw_phase_on_emulator phase p t) as [t' E].
  eexists. eexists. split; [exact E |]. split; reflexivity.
Qed.

Lemma emulator_completion_predicate (w : world Z) :
  exists st w',
    DrawComputation.get_draw_status Z exec loads_sealed BatchLoops.no_text
      pool_id w = (inr st, w')
    /\ env w' = env w
    /\ truthy (DrawComputation.status_get st "isBatchComplete" (JBool false))
       = (n <=? env w).
Proof.
  destruct w as [p t]. destruct (draw_status_on_emulator p t) as [t' E].
  eexists. eexists. split; [exact E |]. split; [reflexivity |].
  cbn [env]. destruct (n <=? p); reflexivity.
Qed.

Lemma emulator_batch_transaction (w : world Z) :
  exists res w',
    BenchmarkComputation.run_transaction Z exec BatchLoops.no_report
      MultiUserLoop.BATCH_TX [str_of_int pool_id; str_of_int b] None 9999 w
    = (inr res, w')
    /\ env w' = env w + b.
Proof.
  destruct w as [p t]. destruct (transaction_on_emulator p t) as [t' E].
  eexists. eexists. split; [exact E | reflexivity].
Qed.

Lemma emulator_is_batch_complete (w : world Z) :
  exists w',
    BenchmarkComputation.is_batch_complete Z exec pool_id w
    = (inr (n <=? env w), w')
    /\ env w' = env w.
Proof.
  destruct w as [p t]. destruct (complete_on_emulator p t) as [t' E].
  eexists. split; [exact E | reflexivity].
Qed.
End Emulated.

(** C6, as the claim states it, fails without participants: the
    completion predicate holds from the start, that is after
    ceil(0 / 50) = 0 batches, and the loops of [run_full_draw_benchmark]
    and of [run_multi_user_benchmark] still perform one iteration and issue
    one batch operation, because they test the predicate only after an
    operation. *)
Example no_participants_one_iteration :
  complete_after 0 50 0 = true
  /\ ceil_div 0 50 = 0
  /\ (let '(r, w') :=
        DrawComputation.process_batches Z (emulator 0 50) loads_sealed
          BatchLoops.no_report BatchLoops.no_text BatchLoops.no_text
          0 0 50 fresh in
      match r with
      | inr bp => DrawComputation.batch_count bp = 1
                  /\ DrawComputation.exit_taken bp
                     = DrawComputation.ExitComplete
                  /\ batch_ops (trace w') = 1%nat
      | inl _ => False
      end)
  /\ (let '(r, w') :=
        BenchmarkComputation.process_batches Z (emulator 0 50)
          BatchLoops.no_report 0 (BatchLoops.result_for 0 50) fresh in
      match r with
      | inr (ex, num, _) => num = 1 /\ ex = BenchmarkComputation.ExitComplete
                            /\ batch_ops (trace w') = 1%nat
      | inl _ => False
      end).
Proof. vm_compute. repeat split. Qed.

(** C6, amended.  Take any environment with a measure [covered] of the
    participants that its batch operations have covered: a batch operation
    succeeds and covers [b] more, and the completion predicate holds
    exactly when all [n] participants are covered, which is after
    ceil(n / b) batches and not before.  For a positive batch size and a
    participant count that is not negative, starting with nobody covered,
    the batch loops of [run_full_draw_benchmark] and of
    [run_multi_user_benchmark] leave through the completion exit after
    exactly max(1, ceil(n / b)) iterations, having issued exactly that
    many batch operations.  That is ceil(n / b) whenever there is a
    participant; 1 for 50 participants and 3 for 120 participants with
    the batch size 50. *)
Theorem batch_iterations_exact
    (S : Type) (exec : S -> call -> outcome * S) (covered : S -> Z)
    (n b pool_id : Z) :
  0 <= n -> 1 <= b ->
  (forall k, complete_after n b k = true <-> ceil_div n b <= k)
  /\ (forall (json_loads : string -> option json)
             (json_loads_report : string -> option report)
             (str_of_exn : exn -> string) (repr : json -> string),
         (forall phase w, exists r w',
             DrawComputation.execute_draw_phase S exec json_loads
               json_loads_report str_of_exn repr phase
               DrawComputation.TX_PROCESS_BATCH pool_id [str_of_int b]
               DrawComputation.COMPUTE_LIMIT w = (inr r, w')
             /\ DrawComputation.success r = true
             /\ covered (env w') = covered (env w) + b) ->
         (forall w, exists st w',
             DrawComputation.get_draw_status S exec json_loads str_of_exn
               pool_id w = (inr st, w')
             /\ covered (env w') = covered (env w)
             /\ truthy (DrawComputation.status_get st "isBatchComplete"
                          (JBool false))
                = (n <=? covered (env w))) ->
         forall w,
           covered (env w) = 0 ->
           exists bp w',
             DrawComputation.process_batches S exec json_loads
               json_loads_report str_of_exn repr pool_id n b w
             = (inr bp, w')
             /\ DrawComputation.batch_count bp = Z.max 1 (ceil_div n b)
             /\ DrawComputation.exit_taken bp = DrawComputation.ExitComplete
             /\ batch_ops (trace w')
                = (batch_ops (trace w)
                   + Z.to_nat (Z.max 1 (ceil_div n b)))%nat)
  /\ (forall (json_loads : string -> option report),
         (forall w, exists res w',
             BenchmarkComputation.run_transaction S exec json_loads
               MultiUserLoop.BATCH_TX [str_of_int pool_id; str_of_int b]
               None 9999 w = (inr res, w')
             /\ covered (env w') = covered (env w) + b) ->
         (forall w, exists w',
             BenchmarkComputation.is_batch_complete S exec pool_id w
             = (inr (n <=? covered (env w)), w')
             /\ covered (env w') = covered (env w)) ->
         forall result w,
           BenchmarkComputation.user_count result = n ->
           BenchmarkComputation.batch_size result = b ->
           covered (env w) = 0 ->
           exists result' w',
             BenchmarkComputation.process_batches S exec json_loads pool_id
               result w
             = (inr (BenchmarkComputation.ExitComplete,
                     Z.max 1 (ceil_div n b), result'), w')
             /\ batch_ops (trace w')
                = (batch_ops (trace w)
                   + Z.to_nat (Z.max 1 (ceil_div n b)))%nat)
  /\ (1 <= n -> Z.max 1 (ceil_div n b) = ceil_div n b)
  /\ Z.max 1 (ceil_div 50 50) = 1
  /\ Z.max 1 (ceil_div 120 50) = 3.
Proof.
  intros Hn Hb.
  split; [intros k; apply complete_after_iff; lia |].
  split; [| split; [| split; [| split; reflexivity]]].
  - intros json_loads json_loads_report str_of_exn repr Hop Hst w C0.
    exact (draw_batches_iterations S exec n b pool_id covered Hb json_loads
             json_loads_report str_of_exn repr Hop Hst w Hn C0).
  - intros json_loads Hop Hst result w Un Ub C0.
    exact (multi_user_batches_iterations S exec n b pool_id covered Hb
             json_loads Hop Hst result w Hn Un Ub C0).
  - intros H1. exact (iterations_ceil n b Hb H1).
Qed.

(** Scenario B: 120 participants, batch size 50, on the emulator. *)
Lemma scenario_B_three_iterations :
  complete_after 120 50 1 = false
  /\ complete_after 120 50 2 = false
  /\ complete_after 120 50 3 = true
  /\ (exists bp w',
         DrawComputation.process_batches Z (emulator 120 50) loads_sealed
           BatchLoops.no_report BatchLoops.no_text BatchLoops.no_text
           0 120 50 fresh = (inr bp, w')
         /\ DrawComputation.batch_count bp = 3
         /\ DrawComputation.exit_taken bp = DrawComputation.ExitComplete
         /\ batch_ops (trace w') = 3%nat)
  /\ (exists result' w',
         BenchmarkComputation.process_batches Z (emulator 120 50)
           BatchLoops.no_report 0 (BatchLoops.result_for 120 50) fresh
         = (inr (BenchmarkComputation.ExitComplete, 3, result'), w')
         /\ batch_ops (trace w') = 3%nat).
Proof.
  assert (H1 : 0 <= 120) by lia.
  assert (H2 : 1 <= 50) by lia.
  destruct (batch_iterations_exact Z (emulator 120 50) (fun p => p)
              120 50 0 H1 H2) as (_ & Draw & Multi & _).
  split; [reflexivity |]. split; [reflexivity |]. split; [reflexivity |].
  split.
  - exact (Draw loads_sealed BatchLoops.no_report BatchLoops.no_text
             BatchLoops.no_text
             (emulator_batch_operation 120 50 0)
             (emulator_completion_predicate 120 50 0)
             fresh eq_refl).
  - exact (Multi BatchLoops.no_report
             (emulator_batch_transaction 120 50 0)
             (emulator_is_batch_complete 120 50 0)
             (BatchLoops.result_for 120 50) fresh eq_refl eq_refl eq_refl).
Defined.

(** Scenario A: 50 participants, batch size 50, evaluated. *)
Example scenario_A_one_iteration :
  complete_after 50 50 1 = true
  /\ (let '(r, w') :=
        DrawComputation.process_batches Z (emulator 50 50) loads_sealed
          BatchLoops.no_report BatchLoops.no_text BatchLoops.no_text
          0 50 50 fresh in
      match r with
      | inr bp => DrawComputation.batch_count bp = 1
                  /\ DrawComputation.exit_taken bp
                     = DrawComputation.ExitComplete
                  /\ batch_ops (trace w') = 1%nat
                  /\ env w' = 50
      | inl _ => False
      end)
  /\ (let '(r, w') :=
        BenchmarkComputation.process_batches Z (emulator 50 50)
          BatchLoops.no_report 0 (BatchLoops.result_for 50 50) fresh in
      match r with
      | inr (ex, num, _) => num = 1 /\ ex = BenchmarkComputation.ExitComplete
                            /\ batch_ops (trace w') = 1%nat
      | inl _ => False
      end).
Proof. vm_compute. repeat split. Qed.

End Scenarios.

(* ================================================================== *)
(** * The steps of run_full_draw_benchmark *)
(* ================================================================== *)

Module DrawRun.
Import Py Eff DrawComputation.

(** What the transaction of a phase adds to the list of phases: the phase
    when it succeeded, nothing when it failed. *)
Definition listed (name : string) (r : ComputationResult)
  : exn + list PhaseResult :=
  if success r then (p <- single_phase name r ;; inr [p])%exn else inr [].

(** The phase [processDrawBatch], from what the batch loop left. *)
Definition batch_phase_result (users : Z) (bp : batch_phase)
    (avg_per_batch avg_per_user : num) : PhaseResult :=
  {| phase_name := "processDrawBatch";
     total_computation := total_batch_computation bp;
     total_memory := 0;
     tx_count := batch_count bp;
     avg_computation_per_tx := avg_per_batch;
     items_processed := users;
     computation_per_item := avg_per_user |}.

(** The run record over a list of phases. *)
Definition run_of (users bsize : Z) (ps : list PhaseResult) : BenchmarkRun :=
  {| user_count := users;
     batch_size := bsize;
     phases := ps;
     run_total_computation := sum (map total_computation ps);
     run_total_memory := sum (map total_memory ps);
     total_tx_count := sum (map tx_count ps) |}.

(** [max(100.0, winner_count * 10.0)] *)
Definition prize_of (winners : float) : float :=
  if SFltb f_100 (fmul winners f_10) then fmul winners f_10 else f_100.

Lemma listed_cases (name : string) (r : ComputationResult)
    (t : list PhaseResult) :
  listed name r = inr t ->
  (success r = false /\ t = [])
  \/ (success r = true
      /\ exists p, t = [p] /\ single_phase name r = inr p).
Proof.
  unfold listed. destruct (success r).
  - destruct (single_phase name r) as [e|p]; [discriminate |].
    intros [= <-]. right. split; [reflexivity |]. exists p. auto.
  - intros [= <-]. left. auto.
Qed.

Section WithWorld.
Variable S : Type.
Variable exec : S -> call -> outcome * S.
Variable json_loads : string -> option json.
Variable json_loads_report : string -> option report.
Variable str_of_exn : exn -> string.
Variable repr : json -> string.
Variable str_of_float : float -> string.

Local Abbreviation phase_of :=
  (execute_draw_phase S exec json_loads json_loads_report str_of_exn repr).
Local Abbreviation status_of :=
  (get_draw_status S exec json_loads str_of_exn).
Local Abbreviation run :=
  (run_full_draw_benchmark S exec json_loads json_loads_report str_of_exn
     repr str_of_float).

Lemma optional_listed (name : string) (r : ComputationResult)
    (ps : list PhaseResult) (w0 : world S) :
  (if negb (success r) then ret ps
   else bind (lift (single_phase name r)) (fun p => ret (ps ++ [p])%list)) w0
  = match listed name r with
    | inl e => (inl e, w0)
    | inr t => (inr (ps ++ t)%list, w0)
    end.
Proof.
  unfold listed. destruct (success r); cbn [negb].
  - unfold bind, lift. destruct (single_phase name r); reflexivity.
  - cbn. rewrite app_nil_r. reflexivity.
Qed.

(** The run, step by step: what it returns when every step returns. *)
Lemma full_run_forward (pool_id users bsize winner_count : Z)
    (w w1 w2 w3 w4 w5 w6 w7 : world S)
    (winners : float) (funded : bool) (st0 st1 : status)
    (r1 r3 r4 : ComputationResult) (p1 : PhaseResult) (bp : batch_phase)
    (avg_per_batch avg_per_user : num) (t3 t4 : list PhaseResult) :
  float_of_int winner_count = inr winners ->
  fund_lottery_pool S exec json_loads str_of_exn repr pool_id
    (str_of_float (prize_of winners)) w = (inr funded, w1) ->
  status_of pool_id w1 = (inr st0, w2) ->
  phase_of "startPoolDraw" TX_START_DRAW pool_id [] COMPUTE_LIMIT w2
  = (inr r1, w3) ->
  success r1 = true ->
  single_phase "startPoolDraw" r1 = inr p1 ->
  process_batches S exec json_loads json_loads_report str_of_exn repr
    pool_id users bsize w3 = (inr bp, w4) ->
  average (total_batch_computation bp) (batch_count bp)
  = inr avg_per_batch ->
  average (total_batch_computation bp) users = inr avg_per_user ->
  phase_of "requestDrawRandomness" TX_REQUEST_RANDOMNESS pool_id []
    COMPUTE_LIMIT w4 = (inr r3, w5) ->
  listed "requestDrawRandomness" r3 = inr t3 ->
  status_of pool_id w5 = (inr st1, w6) ->
  phase_of "completePoolDraw" TX_COMPLETE_DRAW pool_id [] COMPUTE_LIMIT w6
  = (inr r4, w7) ->
  listed "completePoolDraw" r4 = inr t4 ->
  run pool_id users bsize winner_count w
  = (inr (Some (run_of users bsize
                  (p1 :: batch_phase_result users bp avg_per_batch
                           avg_per_user :: t3 ++ t4))), w7).
Proof.
  intros H1 H2 H3 H4 Hs H5 H6 H7 H8 H9 H10 H11 H12 H13.
  unfold run_full_draw_benchmark.
  unfold bind at 1. unfold lift at 1. rewrite H1.
  fold (prize_of winners).
  unfold bind at 1. rewrite H2.
  unfold bind at 1. rewrite H3.
  unfold bind at 1. rewrite H4. rewrite Hs. cbn [negb].
  unfold bind at 1. unfold lift at 1. rewrite H5.
  unfold bind at 1. rewrite H6.
  unfold bind at 1. unfold lift at 1. rewrite H7.
  unfold bind at 1. unfold lift at 1. rewrite H8.
  unfold bind at 1. rewrite H9.
  unfold bind at 1. rewrite optional_listed, H10.
  unfold bind at 1. rewrite H11.
  unfold bind at 1. rewrite H12.
  unfold bind at 1. rewrite optional_listed, H13.
  unfold ret, run_of, batch_phase_result.
  rewrite <- app_assoc. reflexivity.
Qed.

(** The steps behind a result of the run. *)
Lemma full_run_steps (pool_id users bsize winner_count : Z)
    (w w' : world S) (res : option BenchmarkRun) :
  run pool_id users bsize winner_count w = (inr res, w') ->
  exists winners funded w1 st0 w2 r1 w3,
    float_of_int winner_count = inr winners
    /\ fund_lottery_pool S exec json_loads str_of_exn repr pool_id
         (str_of_float (prize_of winners)) w = (inr funded, w1)
    /\ status_of pool_id w1 = (inr st0, w2)
    /\ phase_of "startPoolDraw" TX_START_DRAW pool_id [] COMPUTE_LIMIT w2
       = (inr r1, w3)
    /\ ((success r1 = false /\ res = None /\ w' = w3)
        \/ (success r1 = true
            /\ exists p1 bp w4 avg_per_batch avg_per_user r3 w5 t3 st1 w6
                      r4 t4,
                single_phase "startPoolDraw" r1 = inr p1
                /\ process_batches S exec json_loads json_loads_report
                     str_of_exn repr pool_id users bsize w3 = (inr bp, w4)
                /\ average (total_batch_computation bp) (batch_count bp)
                   = inr avg_per_batch
                /\ average (total_batch_computation bp) users
                   = inr avg_per_user
                /\ phase_of "requestDrawRandomness" TX_REQUEST_RANDOMNESS
                     pool_id [] COMPUTE_LIMIT w4 = (inr r3, w5)
                /\ listed "requestDrawRandomness" r3 = inr t3
                /\ status_of pool_id w5 = (inr st1, w6)
                /\ phase_of "completePoolDraw" TX_COMPLETE_DRAW pool_id []
                     COMPUTE_LIMIT w6 = (inr r4, w')
                /\ listed "completePoolDraw" r4 = inr t4
                /\ res = Some (run_of users bsize
                                 (p1 :: batch_phase_result users bp
                                          avg_per_batch avg_per_user
                                        :: t3 ++ t4)))).
Proof.
  intros H. unfold run_full_draw_benchmark in H.
  unfold bind at 1 in H. unfold lift at 1 in H.
  destruct (float_of_int winner_count) as [?|winners] eqn:H1;
    [discriminate |].
  fold (prize_of winners) in H.
  unfold bind at 1 in H.
  destruct (fund_lottery_pool S exec json_loads str_of_exn repr pool_id
              (str_of_float (prize_of winners)) w)
    as [[?|funded] w1] eqn:H2; [discriminate |].
  unfold bind at 1 in H.
  destruct (status_of pool_id w1) as [[?|st0] w2] eqn:H3; [discriminate |].
  unfold bind at 1 in H.
  destruct (phase_of "startPoolDraw" TX_START_DRAW pool_id [] COMPUTE_LIMIT
              w2) as [[?|r1] w3] eqn:H4; [discriminate |].
  exists winners, funded, w1, st0, w2, r1, w3.
  split; [reflexivity |]. split; [exact H2 |]. split; [exact H3 |].
  split; [exact H4 |].
  destruct (success r1) eqn:Hs; cbn [negb] in H.
  2:{ left. unfold ret in H. injection H as <- <-. auto. }
  right. split; [reflexivity |].
  unfold bind at 1 in H. unfold lift at 1 in H.
  destruct (single_phase "startPoolDraw" r1) as [?|p1] eqn:H5;
    [discriminate |].
  unfold bind at 1 in H.
  destruct (process_batches S exec json_loads json_loads_report str_of_exn
              repr pool_id users bsize w3) as [[?|bp] w4] eqn:H6;
    [discriminate |].
  unfold bind at 1 in H. unfold lift at 1 in H.
  destruct (average (total_batch_computation bp) (batch_count bp))
    as [?|avg_per_batch] eqn:H7; [discriminate |].
  unfold bind at 1 in H. unfold lift at 1 in H.
  destruct (average (total_batch_computation bp) users)
    as [?|avg_per_user] eqn:H8; [discriminate |].
  unfold bind at 1 in H.
  destruct (phase_of "requestDrawRandomness" TX_REQUEST_RANDOMNESS pool_id
              [] COMPUTE_LIMIT w4) as [[?|r3] w5] eqn:H9; [discriminate |].
  unfold bind at 1 in H. rewrite optional_listed in H.
  destruct (listed "requestDrawRandomness" r3) as [?|t3] eqn:H10;
    [discriminate |].
  unfold bind at 1 in H.
  destruct (status_of pool_id w5) as [[?|st1] w6] eqn:H11; [discriminate |].
  unfold bind at 1 in H.
  destruct (phase_of "completePoolDraw" TX_COMPLETE_DRAW pool_id []
              COMPUTE_LIMIT w6) as [[?|r4] w7] eqn:H12; [discriminate |].
  unfold bind at 1 in H. rewrite optional_listed in H.
  destruct (listed "completePoolDraw" r4) as [?|t4] eqn:H13;
    [discriminate |].
  unfold ret in H. injection H as <- <-.
  exists p1, bp, w4, avg_per_batch, avg_per_user, r3, w5, t3, st1, w6, r4, t4.
  repeat (split; [first [reflexivity | assumption] |]).
  reflexivity.
Qed.

End WithWorld.

End DrawRun.

(* ================================================================== *)
(** * Failures of a batch operation *)
(* ================================================================== *)

Module Absorption.
Import Py Eff Ops.

(** A CLI on which every transaction is sealed except the batch
    transaction, which exits with status 1 and the message [msg]; the
    status script reports that the batch is not complete. *)
Definition failing_batch (msg : string) (s : unit) (c : call)
  : outcome * unit :=
  match c with
  | Subprocess (_ :: _ :: verb :: path :: _) _ =>
      if String.eqb verb "send" then
        if String.eqb path DrawComputation.TX_PROCESS_BATCH
        then (Returned 1 "" msg, s)
        else (Returned 0 Scenarios.sealed_doc "", s)
      else (Returned 0 "isBatchComplete: false" "", s)
  | _ => (Returned 0 "" "", s)
  end.

Definition msg_already_complete : string :=
  "error: Batch processing already complete".
Definition msg_other : string := "error: storage capacity exceeded".

(** C3, as the claim states it, fails: in [run_full_draw_benchmark] a
    failure whose message does not say that the batch is already complete
    ends the loop exactly as one whose message says so; in both cases the
    run goes on with the remaining phases and the same complete run record
    is returned. *)
Lemma failures_not_told_apart :
  LazyLoop.already_complete msg_already_complete = true
  /\ LazyLoop.already_complete msg_other = false
  /\ exists run,
      fst (DrawComputation.run_full_draw_benchmark unit
             (failing_batch msg_other) Scenarios.loads_sealed
             BatchLoops.no_report BatchLoops.no_text BatchLoops.no_text
             BatchLoops.no_text 0 100 50 1 Reporting.start)
      = inr (Some run)
      /\ fst (DrawComputation.run_full_draw_benchmark unit
                (failing_batch msg_already_complete) Scenarios.loads_sealed
                BatchLoops.no_report BatchLoops.no_text BatchLoops.no_text
                BatchLoops.no_text 0 100 50 1 Reporting.start)
         = inr (Some run)
      /\ map DrawComputation.phase_name (DrawComputation.phases run)
         = ["startPoolDraw"; "processDrawBatch"; "requestDrawRandomness";
            "completePoolDraw"]
      /\ DrawComputation.exit_taken
           (match fst (DrawComputation.process_batches unit
                         (failing_batch msg_other) Scenarios.loads_sealed
                         BatchLoops.no_report BatchLoops.no_text
                         BatchLoops.no_text 0 100 50 Reporting.start) with
            | inr bp => bp
            | inl _ =>
                {| DrawComputation.exit_taken := DrawComputation.ExitCeiling;
                   DrawComputation.batch_count := 0;
                   DrawComputation.batch_computations := [];
                   DrawComputation.total_batch_computation := 0 |}
            end)
         = DrawComputation.ExitFailed.
Proof.
  split; [reflexivity |]. split; [reflexivity |].
  eexists. vm_compute. repeat split.
Qed.

Section WithWorld.
Variable S : Type.
Variable exec : S -> call -> outcome * S.
Variable json_loads : string -> option json.
Variable json_loads_report : string -> option report.
Variable str_of_exn : exn -> string.
Variable repr : json -> string.

(** One iteration of the loop of [benchmark_process_draw_batch] whose
    operation fails. *)
Lemma lazy_loop_on_failure (k : nat) (pool_id bsize total count : Z)
    (w w1 : world S) (output : string) (tx : json) (comp : Z) :
  LazyUsers.run_flow_tx S exec json_loads json_loads_report
    LazyUsers.TX_PROCESS_BATCH [str_of_int pool_id; str_of_int bsize]
    LazyUsers.COMPUTE_LIMIT w = (inr (false, output, tx, comp), w1) ->
  LazyUsers.process_batches_loop S exec json_loads json_loads_report
    (Datatypes.S k) pool_id bsize total count w
  = (inr (if LazyLoop.already_complete output
          then LazyUsers.ExitAlreadyComplete
          else LazyUsers.ExitError, total, count), w1).
Proof.
  intros H. cbn [LazyUsers.process_batches_loop]. unfold bind at 1.
  rewrite H. cbn [negb]. fold (LazyLoop.already_complete output).
  destruct (LazyLoop.already_complete output); reflexivity.
Qed.

(** The result of [benchmark_process_draw_batch] (without debugging and
    profiling) after a successful [startDraw]. *)
Lemma lazy_result_of_exit (pool_id users bsize : Z) (name : string)
    (w w1 : world S) (out0 : string) (tx0 : json) (c0 : Z) :
  LazyUsers.run_flow_tx S exec json_loads json_loads_report
    LazyUsers.TX_START_DRAW [str_of_int pool_id] LazyUsers.COMPUTE_LIMIT w
  = (inr (true, out0, tx0, c0), w1) ->
  LazyUsers.benchmark_process_draw_batch S exec json_loads
    json_loads_report pool_id users bsize false false name w
  = match LazyUsers.process_batches_loop S exec json_loads
            json_loads_report 100 pool_id bsize 0 0 w1 with
    | (inr (LazyUsers.ExitError, _, _), w2) => (inr None, w2)
    | (inr (_, total, _), w2) => (inr (Some total), w2)
    | (inl e, w2) => (inl e, w2)
    end.
Proof.
  intros H. unfold LazyUsers.benchmark_process_draw_batch, bind, ret.
  cbv beta iota. rewrite H. cbn [negb andb].
  destruct (LazyUsers.process_batches_loop S exec json_loads
              json_loads_report 100 pool_id bsize 0 0 w1)
    as [[e|[[ex total] count]] w2]; [reflexivity |].
  destruct ex; reflexivity.
Qed.

(** One iteration of the loop of [run_full_draw_benchmark] whose
    operation fails. *)
Lemma draw_loop_on_failure (k : nat) (pool_id bsize count : Z)
    (comps : list Z) (total : Z) (w w1 : world S)
    (res : DrawComputation.ComputationResult) :
  DrawComputation.execute_draw_phase S exec json_loads json_loads_report
    str_of_exn repr ("processDrawBatch_" ++ str_of_int (count + 1))
    DrawComputation.TX_PROCESS_BATCH pool_id [str_of_int bsize]
    DrawComputation.COMPUTE_LIMIT w = (inr res, w1) ->
  DrawComputation.success res = false ->
  DrawComputation.process_batches_loop S exec json_loads json_loads_report
    str_of_exn repr (Datatypes.S k) pool_id bsize count comps total w
  = (inr {| DrawComputation.exit_taken := DrawComputation.ExitFailed;
            DrawComputation.batch_count := count + 1;
            DrawComputation.batch_computations := comps;
            DrawComputation.total_batch_computation := total |}, w1).
Proof.
  intros H Hs. cbn [DrawComputation.process_batches_loop].
  unfold bind at 1. rewrite H, Hs. reflexivity.
Qed.
(** [benchmark_process_draw_batch], whatever its debugging and profiling
    flags, once the draw has started and the loop has run: the exit of the
    loop decides between [None] and the computation of the batches. *)
Lemma lazy_result_any_flags (pool_id users bsize : Z) (debug profile : bool)
    (name : string) (w wa wb w1 w2 w3 : world S)
    (out0 : string) (tx0 : json) (c0 : Z)
    (ex : LazyUsers.loop_exit) (total count : Z) :
  (if profile then LazyUsers.reset_profiler S exec else ret tt) w
  = (inr tt, wa) ->
  (if debug then LazyUsers.get_receiver_count S exec pool_id else ret tt) wa
  = (inr tt, wb) ->
  LazyUsers.run_flow_tx S exec json_loads json_loads_report
    LazyUsers.TX_START_DRAW [str_of_int pool_id] LazyUsers.COMPUTE_LIMIT wb
  = (inr (true, out0, tx0, c0), w1) ->
  (if debug then LazyUsers.get_receiver_count S exec pool_id else ret tt) w1
  = (inr tt, w2) ->
  LazyUsers.process_batches_loop S exec json_loads json_loads_report 100
    pool_id bsize 0 0 w2 = (inr (ex, total, count), w3) ->
  LazyUsers.benchmark_process_draw_batch S exec json_loads
    json_loads_report pool_id users bsize debug profile name w
  = match ex with
    | LazyUsers.ExitError => (inr None, w3)
    | _ =>
        match (if (profile && negb (String.eqb name ""))%bool
               then LazyUsers.download_profile S exec (name ++ ".pprof")
               else ret tt) w3 with
        | (inl e, w4) => (inl e, w4)
        | (inr _, w4) => (inr (Some total), w4)
        end
    end.
Proof.
  intros H1 H2 H3 H4 H5. unfold LazyUsers.benchmark_process_draw_batch.
  unfold bind at 1. rewrite H1.
  unfold bind at 1. rewrite H2.
  unfold bind at 1. rewrite H3. cbn [negb].
  unfold bind at 1. rewrite H4.
  unfold bind at 1. rewrite H5.
  destruct ex; try reflexivity.
Qed.

(** What is behind a result of [benchmark_process_draw_batch]: [None]
    comes from a failed [startDraw] or from a loop left by a failure that
    is not an already-complete one ([LazyLoop.exit_justified] says of each
    exit which operation led to it). *)
Lemma lazy_result_origin (pool_id users bsize : Z) (debug profile : bool)
    (name : string) (w w' : world S) (r : option Z) :
  LazyUsers.benchmark_process_draw_batch S exec json_loads
    json_loads_report pool_id users bsize debug profile name w
  = (inr r, w') ->
  (exists wb out0 tx0 c0,
      LazyUsers.run_flow_tx S exec json_loads json_loads_report
        LazyUsers.TX_START_DRAW [str_of_int pool_id]
        LazyUsers.COMPUTE_LIMIT wb = (inr (false, out0, tx0, c0), w')
      /\ r = None)
  \/ (exists w2 w3 ex total count,
         LazyUsers.process_batches_loop S exec json_loads
           json_loads_report 100 pool_id bsize 0 0 w2
         = (inr (ex, total, count), w3)
         /\ LazyLoop.exit_justified S exec json_loads json_loads_report
              pool_id bsize ex w2 w3 100
         /\ r = match ex with
                | LazyUsers.ExitError => None
                | _ => Some total
                end).
Proof.
  unfold LazyUsers.benchmark_process_draw_batch. intros H.
  unfold bind at 1 in H.
  destruct ((if profile then LazyUsers.reset_profiler S exec else ret tt) w)
    as [[?|u0] wa]; [discriminate |].
  unfold bind at 1 in H.
  destruct ((if debug then LazyUsers.get_receiver_count S exec pool_id
             else ret tt) wa) as [[?|u1] wb]; [discriminate |].
  unfold bind at 1 in H.
  destruct (LazyUsers.run_flow_tx S exec json_loads json_loads_report
              LazyUsers.TX_START_DRAW [str_of_int pool_id]
              LazyUsers.COMPUTE_LIMIT wb)
    as [[?|[[[ok out0] tx0] c0]] w1] eqn:St; [discriminate |].
  destruct ok; cbn [negb] in H.
  - right. unfold bind at 1 in H.
    destruct ((if debug then LazyUsers.get_receiver_count S exec pool_id
               else ret tt) w1) as [[?|u2] w2]; [discriminate |].
    unfold bind at 1 in H.
    destruct (LazyUsers.process_batches_loop S exec json_loads
                json_loads_report 100 pool_id bsize 0 0 w2)
      as [[?|[[ex total] count]] w3] eqn:L; [discriminate |].
    exists w2, w3, ex, total, count. split; [exact L |].
    split.
    { pose proof (LazyLoop.lazy_loop_spec S exec json_loads
                    json_loads_report 100 pool_id bsize 0 0 w2) as Sp.
      rewrite L in Sp. destruct Sp as (_ & _ & J). exact J. }
    destruct ex;
      try (unfold bind at 1 in H;
           destruct ((if (profile && negb (String.eqb name ""))%bool
                      then LazyUsers.download_profile S exec
                             (name ++ ".pprof")
                      else ret tt) w3) as [[?|u3] w4]; [discriminate |]);
      unfold ret in H; congruence.
  - left. unfold ret in H. injection H as <- <-.
    exists wb, out0, tx0, c0. split; [exact St | reflexivity].
Qed.
End WithWorld.

(** C3, amended.  In [benchmark_process_draw_batch] a failed batch
    operation whose output contains the words already complete (case
    ignored) ends the loop and the function returns the computation
    accumulated so far; a failed batch operation whose output does not
    contain them makes the function return [None]; this holds whatever
    the debugging and profiling flags are, and [None] is returned only
    after such a failure or after a failed [startDraw].  In
    [run_full_draw_benchmark] every failed batch operation ends the loop,
    whatever its message, after the failed operation was counted and
    without adding its computation; the run then continues with the next
    phase: however the loop was left, [requestDrawRandomness] is executed
    from the state that the loop left, and the run record that is
    returned lists the phase [processDrawBatch] with the count and the
    computation of the loop. *)
Theorem failure_handling
    (S : Type) (exec : S -> call -> outcome * S)
    (json_loads : string -> option json)
    (json_loads_report : string -> option report)
    (str_of_exn : exn -> string) (repr : json -> string)
    (k : nat) (pool_id users bsize total count : Z) (comps : list Z)
    (name : string) (w : world S) :
  (forall w1 output tx comp,
      LazyUsers.run_flow_tx S exec json_loads json_loads_report
        LazyUsers.TX_PROCESS_BATCH [str_of_int pool_id; str_of_int bsize]
        LazyUsers.COMPUTE_LIMIT w = (inr (false, output, tx, comp), w1) ->
      LazyUsers.process_batches_loop S exec json_loads json_loads_report
        (Datatypes.S k) pool_id bsize total count w
      = (inr (if LazyLoop.already_complete output
              then LazyUsers.ExitAlreadyComplete
              else LazyUsers.ExitError, total, count), w1))
  /\ (forall w1 out0 tx0 c0,
      LazyUsers.run_flow_tx S exec json_loads json_loads_report
        LazyUsers.TX_START_DRAW [str_of_int pool_id]
        LazyUsers.COMPUTE_LIMIT w = (inr (true, out0, tx0, c0), w1) ->
      LazyUsers.benchmark_process_draw_batch S exec json_loads
        json_loads_report pool_id users bsize false false name w
      = match LazyUsers.process_batches_loop S exec json_loads
                json_loads_report 100 pool_id bsize 0 0 w1 with
        | (inr (LazyUsers.ExitError, _, _), w2) => (inr None, w2)
        | (inr (_, total, _), w2) => (inr (Some total), w2)
        | (inl e, w2) => (inl e, w2)
        end)
  /\ (forall w1 res,
      DrawComputation.execute_draw_phase S exec json_loads json_loads_report
        str_of_exn repr ("processDrawBatch_" ++ str_of_int (count + 1))
        DrawComputation.TX_PROCESS_BATCH pool_id [str_of_int bsize]
        DrawComputation.COMPUTE_LIMIT w = (inr res, w1) ->
      DrawComputation.success res = false ->
      DrawComputation.process_batches_loop S exec json_loads
        json_loads_report str_of_exn repr (Datatypes.S k) pool_id bsize
        count comps total w
      = (inr {| DrawComputation.exit_taken := DrawComputation.ExitFailed;
                DrawComputation.batch_count := count + 1;
                DrawComputation.batch_computations := comps;
                DrawComputation.total_batch_computation := total |}, w1))
  /\ (forall (debug profile : bool) (wa wb w1 w2 w3 : world S)
             (out0 : string) (tx0 : json) (c0 : Z)
             (ex : LazyUsers.loop_exit) (total' count' : Z),
      (if profile then LazyUsers.reset_profiler S exec else ret tt) w
      = (inr tt, wa) ->
      (if debug then LazyUsers.get_receiver_count S exec pool_id
       else ret tt) wa = (inr tt, wb) ->
      LazyUsers.run_flow_tx S exec json_loads json_loads_report
        LazyUsers.TX_START_DRAW [str_of_int pool_id]
        LazyUsers.COMPUTE_LIMIT wb = (inr (true, out0, tx0, c0), w1) ->
      (if debug then LazyUsers.get_receiver_count S exec pool_id
       else ret tt) w1 = (inr tt, w2) ->
      LazyUsers.process_batches_loop S exec json_loads json_loads_report
        100 pool_id bsize 0 0 w2 = (inr (ex, total', count'), w3) ->
      LazyUsers.benchmark_process_draw_batch S exec json_loads
        json_loads_report pool_id users bsize debug profile name w
      = match ex with
        | LazyUsers.ExitError => (inr None, w3)
        | _ =>
            match (if (profile && negb (String.eqb name ""))%bool
                   then LazyUsers.download_profile S exec
                          (name ++ ".pprof")
                   else ret tt) w3 with
            | (inl e, w4) => (inl e, w4)
            | (inr _, w4) => (inr (Some total'), w4)
            end
        end)
  /\ (forall (debug profile : bool) (r : option Z) (w' : world S),
      LazyUsers.benchmark_process_draw_batch S exec json_loads
        json_loads_report pool_id users bsize debug profile name w
      = (inr r, w') ->
      (exists wb out0 tx0 c0,
          LazyUsers.run_flow_tx S exec json_loads json_loads_report
            LazyUsers.TX_START_DRAW [str_of_int pool_id]
            LazyUsers.COMPUTE_LIMIT wb = (inr (false, out0, tx0, c0), w')
          /\ r = None)
      \/ (exists w2 w3 ex total' count',
             LazyUsers.process_batches_loop S exec json_loads
               json_loads_report 100 pool_id bsize 0 0 w2
             = (inr (ex, total', count'), w3)
             /\ LazyLoop.exit_justified S exec json_loads
                  json_loads_report pool_id bsize ex w2 w3 100
             /\ r = match ex with
                    | LazyUsers.ExitError => None
                    | _ => Some total'
                    end))
  /\ (forall (str_of_float : float -> string) (winner_count : Z)
             (w1 w2 w3 w4 w5 w6 w7 : world S)
             (winners : float) (funded : bool)
             (st0 st1 : DrawComputation.status)
             (r1 r3 r4 : DrawComputation.ComputationResult)
             (p1 : DrawComputation.PhaseResult)
             (bp : DrawComputation.batch_phase)
             (avg_per_batch avg_per_user : num)
             (t3 t4 : list DrawComputation.PhaseResult),
      float_of_int winner_count = inr winners ->
      DrawComputation.fund_lottery_pool S exec json_loads str_of_exn repr
        pool_id (str_of_float (DrawRun.prize_of winners)) w
      = (inr funded, w1) ->
      DrawComputation.get_draw_status S exec json_loads str_of_exn pool_id
        w1 = (inr st0, w2) ->
      DrawComputation.execute_draw_phase S exec json_loads
        json_loads_report str_of_exn repr "startPoolDraw"
        DrawComputation.TX_START_DRAW pool_id []
        DrawComputation.COMPUTE_LIMIT w2 = (inr r1, w3) ->
      DrawComputation.success r1 = true ->
      DrawComputation.single_phase "startPoolDraw" r1 = inr p1 ->
      DrawComputation.process_batches S exec json_loads json_loads_report
        str_of_exn repr pool_id users bsize w3 = (inr bp, w4) ->
      DrawComputation.average (DrawComputation.total_batch_computation bp)
        (DrawComputation.batch_count bp) = inr avg_per_batch ->
      DrawComputation.average (DrawComputation.total_batch_computation bp)
        users = inr avg_per_user ->
      DrawComputation.execute_draw_phase S exec json_loads
        json_loads_report str_of_exn repr "requestDrawRandomness"
        DrawComputation.TX_REQUEST_RANDOMNESS pool_id []
        DrawComputation.COMPUTE_LIMIT w4 = (inr r3, w5) ->
      DrawRun.listed "requestDrawRandomness" r3 = inr t3 ->
      DrawComputation.get_draw_status S exec json_loads str_of_exn pool_id
        w5 = (inr st1, w6) ->
      DrawComputation.execute_draw_phase S exec json_loads
        json_loads_report str_of_exn repr "completePoolDraw"
        DrawComputation.TX_COMPLETE_DRAW pool_id []
        DrawComputation.COMPUTE_LIMIT w6 = (inr r4, w7) ->
      DrawRun.listed "completePoolDraw" r4 = inr t4 ->
      DrawComputation.run_full_draw_benchmark S exec json_loads
        json_loads_report str_of_exn repr str_of_float pool_id users bsize
        winner_count w
      = (inr (Some (DrawRun.run_of users bsize
                      (p1 :: DrawRun.batch_phase_result users bp
                               avg_per_batch avg_per_user
                          :: t3 ++ t4))), w7)).
Proof.
  split; [| split; [| split; [| split; [| split]]]].
  - intros w1 output tx comp. apply lazy_loop_on_failure.
  - intros w1 out0 tx0 c0. apply lazy_result_of_exit.
  - intros w1 res. apply draw_loop_on_failure.
  - intros debug profile wa wb w1 w2 w3 out0 tx0 c0 ex total' count'.
    apply lazy_result_any_flags.
  - intros debug profile r w'. apply lazy_result_origin.
  - intros str_of_float winner_count w1 w2 w3 w4 w5 w6 w7 winners funded
      st0 st1 r1 r3 r4 p1 bp avg_per_batch avg_per_user t3 t4.
    apply DrawRun.full_run_forward.
Qed.

Lemma failure_handling_witness :
  fst (LazyUsers.benchmark_process_draw_batch unit
         (failing_batch msg_already_complete) Scenarios.loads_sealed
         BatchLoops.no_report 0 100 50 false false "" Reporting.start)
  = inr (Some 0)
  /\ fst (LazyUsers.benchmark_process_draw_batch unit
            (failing_batch msg_other) Scenarios.loads_sealed
            BatchLoops.no_report 0 100 50 false false "" Reporting.start)
     = inr None
  /\ fst (LazyUsers.process_batches_loop unit (failing_batch msg_other)
            Scenarios.loads_sealed BatchLoops.no_report 100 0 50 0 0
            Reporting.start)
     = inr (LazyUsers.ExitError, 0, 0)
  /\ (let '(r, _) :=
        DrawComputation.process_batches_loop unit (failing_batch msg_other)
          Scenarios.loads_sealed BatchLoops.no_report BatchLoops.no_text
          BatchLoops.no_text 7 0 50 0 [] 0 Reporting.start in
      match r with
      | inr bp => DrawComputation.exit_taken bp = DrawComputation.ExitFailed
                  /\ DrawComputation.batch_count bp = 1
      | inl _ => False
      end)
  /\ fst (LazyUsers.benchmark_process_draw_batch unit
            (failing_batch msg_already_complete) Scenarios.loads_sealed
            BatchLoops.no_report 0 100 50 true true "p" Reporting.start)
     = inr (Some 0)
  /\ fst (LazyUsers.benchmark_process_draw_batch unit
            (failing_batch msg_other) Scenarios.loads_sealed
            BatchLoops.no_report 0 100 50 true true "p" Reporting.start)
     = inr None
  /\ exists run,
      fst (DrawComputation.run_full_draw_benchmark unit
             (failing_batch msg_other) Scenarios.loads_sealed
             BatchLoops.no_report BatchLoops.no_text BatchLoops.no_text
             BatchLoops.no_text 0 100 50 1 Reporting.start)
      = inr (Some run)
      /\ map DrawComputation.phase_name (DrawComputation.phases run)
         = ["startPoolDraw"; "processDrawBatch"; "requestDrawRandomness";
            "completePoolDraw"]
      /\ map DrawComputation.tx_count (DrawComputation.phases run)
         = [1; 1; 1; 1]
      /\ map DrawComputation.total_computation (DrawComputation.phases run)
         = [0; 0; 0; 0].
Proof.
  split; [| split; [| split; [| split; [| split; [| split]]]]].
  - destruct (failure_handling unit (failing_batch msg_already_complete)
                Scenarios.loads_sealed BatchLoops.no_report
                BatchLoops.no_text BatchLoops.no_text
                99 0 100 50 0 0 [] "" Reporting.start) as (_ & H & _).
    rewrite (H _ _ _ _ eq_refl). reflexivity.
  - destruct (failure_handling unit (failing_batch msg_other)
                Scenarios.loads_sealed BatchLoops.no_report
                BatchLoops.no_text BatchLoops.no_text
                99 0 100 50 0 0 [] "" Reporting.start) as (_ & H & _).
    rewrite (H _ _ _ _ eq_refl). reflexivity.
  - destruct (failure_handling unit (failing_batch msg_other)
                Scenarios.loads_sealed BatchLoops.no_report
                BatchLoops.no_text BatchLoops.no_text
                99 0 100 50 0 0 [] "" Reporting.start) as (H & _).
    rewrite (H _ _ _ _ eq_refl). reflexivity.
  - destruct (failure_handling unit (failing_batch msg_other)
                Scenarios.loads_sealed BatchLoops.no_report
                BatchLoops.no_text BatchLoops.no_text
                6 0 100 50 0 0 [] "" Reporting.start) as (_ & _ & H & _).
    rewrite (H _ _ eq_refl eq_refl). split; reflexivity.
  - destruct (failure_handling unit (failing_batch msg_already_complete)
                Scenarios.loads_sealed BatchLoops.no_report
                BatchLoops.no_text BatchLoops.no_text
                99 0 100 50 0 0 [] "p" Reporting.start)
      as (_ & _ & _ & H & _).
    erewrite (H true true); [| vm_compute; reflexivity ..].
    vm_compute. reflexivity.
  - destruct (failure_handling unit (failing_batch msg_other)
                Scenarios.loads_sealed BatchLoops.no_report
                BatchLoops.no_text BatchLoops.no_text
                99 0 100 50 0 0 [] "p" Reporting.start)
      as (_ & _ & _ & H & _).
    erewrite (H true true); [| vm_compute; reflexivity ..].
    vm_compute. reflexivity.
  - destruct (failure_handling unit (failing_batch msg_other)
                Scenarios.loads_sealed BatchLoops.no_report
                BatchLoops.no_text BatchLoops.no_text
                99 0 100 50 0 0 [] "" Reporting.start)
      as (_ & _ & _ & _ & _ & H).
    eexists. split.
    + erewrite (H BatchLoops.no_text 1); [| vm_compute; reflexivity ..].
      reflexivity.
    + vm_compute. repeat split.
Defined.

End Absorption.

(* ================================================================== *)
(** * Probing for the batch limit *)
(* ================================================================== *)

Module Probing.
Import Py Eff.
Import BenchmarkComputation.

(** A probe recorded in [results] is a successful measurement at one of
    the tested sizes. *)
Definition measured_at (sizes : list Z) (p : probe) : Prop :=
  In (probe_batch_size p) sizes
  /\ 0 < probe_computation p
  /\ int_truediv (probe_computation p) (probe_batch_size p)
     = inr (per_user p).

Section WithWorld.
Variable S : Type.
Variable exec : S -> call -> outcome * S.
Variable json_loads : string -> option report.


(** What the probing adds to the results are measurements of successful
    probes. *)
Lemma results_are_measurements (sizes : list Z) :
  forall (pool_id : Z) (results : list probe) (total : Z) (w w' : world S)
         (results' : list probe) (total' : Z),
    test_batch_sizes S exec json_loads sizes pool_id results total w
    = (inr (results', total'), w') ->
    exists added,
      results' = (results ++ added)%list
      /\ Forall (measured_at sizes) added.
Proof.
  induction sizes as [|bsize rest IH];
    intros pool_id results total w w' results' total'.
  - cbn. intros [= <- <- <-]. exists []. rewrite app_nil_r. auto.
  - cbn [test_batch_sizes]. unfold bind at 1.
    destruct (run_batch_test S exec json_loads pool_id bsize w)
      as [[e|res] w1]; [discriminate |].
    assert (Hmono : forall added,
               Forall (measured_at rest) added ->
               Forall (measured_at (bsize :: rest)) added).
    { intros added. apply Forall_impl. intros p (H1 & H2 & H3).
      split; [right; exact H1 | auto]. }
    destruct (match computation res with
              | Some cu => if (0 <? cu) && success res then Some cu else None
              | None => None
              end) as [cu|] eqn:Hm.
    + assert (Hcu : 0 < cu).
      { destruct (computation res) as [c|]; [|discriminate].
        destruct (0 <? c) eqn:E; [|discriminate].
        destruct (success res); [|discriminate].
        injection Hm as <-. apply Z.ltb_lt. exact E. }
      unfold bind at 1.
      destruct (int_truediv cu 9999) as [e|q]; [discriminate |].
      cbn [lift ebind]. unfold bind at 1.
      destruct (int_truediv cu bsize) as [e|pu] eqn:Hpu; [discriminate |].
      cbn [lift]. unfold bind at 1.
      destruct (max_load_at pu) as [e|m]; [discriminate |].
      intros H. apply IH in H. destruct H as (added & -> & Hall).
      eexists. rewrite <- app_assoc. split; [reflexivity |].
      constructor.
      * split; [left; reflexivity |]. split; [exact Hcu | exact Hpu].
      * apply Hmono. exact Hall.
    + destruct (success res); cbn [negb].
      * intros H. apply IH in H. destruct H as (added & -> & Hall).
        exists added. split; [reflexivity | apply Hmono; exact Hall].
      * intros [= <- <- <-]. exists []. rewrite app_nil_r. auto.
Qed.

(** The probing of [find_batch_limit] tests the one size [max_users]: it
    leaves no result, or the one measurement of a probe that succeeded
    with a positive computation. *)
Lemma single_probe (pool_id bsize : Z) (w w1 : world S)
    (results : list probe) (total : Z) :
  test_batch_sizes S exec json_loads [bsize] pool_id [] 0 w
  = (inr (results, total), w1) ->
  exists res,
    run_batch_test S exec json_loads pool_id bsize w = (inr res, w1)
    /\ ((results = [] /\ total = 0
         /\ (success res = false
             \/ forall cu, computation res = Some cu -> cu <= 0))
        \/ (exists p,
              success res = true
              /\ computation res = Some (probe_computation p)
              /\ 0 < probe_computation p
              /\ results = [p] /\ total = bsize
              /\ probe_batch_size p = bsize
              /\ int_truediv (probe_computation p) bsize
                 = inr (per_user p))).
Proof.
  cbn [test_batch_sizes]. unfold bind at 1.
  destruct (run_batch_test S exec json_loads pool_id bsize w)
    as [[e|res] wr]; [discriminate |].
  intros H. exists res.
  destruct (computation res) as [cu|] eqn:Ec.
  - destruct (0 <? cu) eqn:Epos; destruct (success res) eqn:Es;
      cbn [andb negb] in H.
    + unfold bind at 1 in H.
      destruct (int_truediv cu 9999) as [e|q]; [discriminate |].
      cbn [lift ebind] in H. unfold bind at 1 in H.
      destruct (int_truediv cu bsize) as [e|pu] eqn:Hpu; [discriminate |].
      cbn [lift] in H. unfold bind at 1 in H.
      destruct (max_load_at pu) as [e|m]; [discriminate |].
      cbn in H. injection H as <- <- <-.
      split; [reflexivity |]. right.
      exists {| probe_batch_size := bsize; probe_computation := cu;
                percent := fmul q f_100; per_user := pu |}.
      split; [reflexivity |]. split; [reflexivity |].
      cbn. split; [apply Z.ltb_lt; exact Epos |].
      split; [reflexivity |]. split; [reflexivity |].
      split; [reflexivity | exact Hpu].
    + injection H as <- <- <-. split; [reflexivity |]. left. auto.
    + cbn in H. injection H as <- <- <-. split; [reflexivity |]. left.
      split; [reflexivity |]. split; [reflexivity |]. right.
      intros c [= <-]. apply Z.ltb_ge. exact Epos.
    + injection H as <- <- <-. split; [reflexivity |]. left. auto.
  - destruct (success res) eqn:Es; cbn [negb] in H.
    + cbn in H. injection H as <- <- <-. split; [reflexivity |]. left.
      split; [reflexivity |]. split; [reflexivity |]. right.
      intros c. discriminate.
    + injection H as <- <- <-. split; [reflexivity |]. left. auto.
Qed.

(** The steps of [find_batch_limit]: the status, the probing, the rest of
    the draw, the summary. *)
Lemma probing_steps (alg : float_sum) (max_users : Z) (fuel : nat)
    (pool_id : Z) (w : world S) :
  find_batch_limit_probing S exec json_loads alg max_users fuel pool_id w
  = match get_draw_status S exec pool_id w with
    | (inl e, w0) => (inl e, w0)
    | (inr _, w0) =>
        match test_batch_sizes S exec json_loads [max_users] pool_id [] 0 w0
        with
        | (inl e, w1) => (inl e, w1)
        | (inr tested, w1) =>
            match process_remaining_if_needed S exec json_loads fuel
                    pool_id w1 with
            | (inl e, w2) => (inl e, w2)
            | (inr None, w2) => (inr None, w2)
            | (inr (Some _), w2) =>
                match limit_summary alg (fst tested) with
                | inl e => (inl e, w2)
                | inr info => (inr (Some info), w2)
                end
            end
        end
    end.
Proof.
  unfold find_batch_limit_probing. unfold bind at 1.
  destruct (get_draw_status S exec pool_id w) as [[e|status] w0];
    [reflexivity |].
  unfold bind at 1.
  destruct (test_batch_sizes S exec json_loads [max_users] pool_id [] 0 w0)
    as [[e|tested] w1]; [reflexivity |].
  unfold bind at 1.
  destruct (process_remaining_if_needed S exec json_loads fuel pool_id w1)
    as [[e|[u|]] w2]; try reflexivity.
Qed.

(** An estimate that [find_batch_limit] reports comes from its one probe,
    which succeeded. *)
Lemma estimate_from_one_probe (alg : float_sum) (max_users : Z) (fuel : nat)
    (pool_id : Z) (w w' : world S) (e : limit_estimate) :
  find_batch_limit_probing S exec json_loads alg max_users fuel pool_id w
  = (inr (Some (LimitEstimate e)), w') ->
  exists status w0 res w1 p,
    get_draw_status S exec pool_id w = (inr status, w0)
    /\ run_batch_test S exec json_loads pool_id max_users w0 = (inr res, w1)
    /\ success res = true
    /\ computation res = Some (probe_computation p)
    /\ 0 < probe_computation p
    /\ probe_batch_size p = max_users
    /\ int_truediv (probe_computation p) max_users = inr (per_user p)
    /\ limit_summary alg [p] = inr (LimitEstimate e).
Proof.
  rewrite probing_steps.
  destruct (get_draw_status S exec pool_id w) as [[x|status] w0];
    [discriminate |].
  destruct (test_batch_sizes S exec json_loads [max_users] pool_id [] 0 w0)
    as [[x|[results total]] w1] eqn:T; [discriminate |].
  destruct (process_remaining_if_needed S exec json_loads fuel pool_id w1)
    as [[x|[u|]] w2]; try discriminate.
  cbn [fst].
  destruct (limit_summary alg results) as [x|info] eqn:L; [discriminate |].
  intros [= -> <-].
  destruct (single_probe _ _ _ _ _ _ T) as (res & R & [(-> & _)|P]).
  - discriminate.
  - destruct P as (p & Hs & Hc & Hpos & -> & _ & Hb & Hpu).
    exists status, w0, res, w1, p. split; [reflexivity |].
    repeat (split; [assumption |]). exact L.
Qed.

End WithWorld.

(** A CLI and emulator on which the first batch transaction is sealed
    with the id abc1, for which the report records the computation [cu];
    every later one exceeds the computation limit.  The state counts the
    batch transactions. *)
Definition two_probes (cu : Z) (sent : nat) (c : call) : outcome * nat :=
  match c with
  | Subprocess (_ :: _ :: verb :: path :: _) _ =>
      if (String.eqb verb "send"
          && String.eqb path MultiUserLoop.BATCH_TX)%bool then
        match sent with
        | O => (Returned 0 "Transaction ID: abc1" "", Datatypes.S sent)
        | _ => (Returned 1 "" "error: computation limit exceeded",
                Datatypes.S sent)
        end
      else (Returned 0 (quoted "isBatchComplete" ++ ": true") "", sent)
  | Subprocess _ _ => (Returned 0 "" "", sent)
  | UrlOpen _ _ _ => (Returned 0 (str_of_int cu) "", sent)
  end.

(** What [json.loads] makes of the report of [two_probes]. *)
Definition loads_two (cu : Z) (s : string) : option report :=
  if String.eqb s (str_of_int cu)
  then Some (Some [("abc1", Correlation.entry cu 10)])
  else None.

Definition begin : world nat := {| env := O; trace := [] |}.





End Probing.

(* ================================================================== *)
(** * Binary64 rounding *)
(* ================================================================== *)

(** Facts about the rounding of [SpecFloat] at [prec = 53], [emax = 1024]:
    what a finite result of [binary_round_aux] is made of, and from it that
    the integer part of a float converts back to a float exactly and that a
    product with [0.9] is not above its first factor. *)

Module Binary64.
Import Py.

Lemma digits2_pos_bounds (m : positive) :
  2 ^ (Zpos (digits2_pos m) - 1) <= Zpos m < 2 ^ Zpos (digits2_pos m).
Proof.
  induction m as [m IH|m IH|]; cbn [digits2_pos].
  - rewrite Pos2Z.inj_succ.
    replace (Z.succ (Zpos (digits2_pos m)) - 1) with (Zpos (digits2_pos m) - 1 + 1) by lia.
    rewrite Z.pow_succ_r by lia. rewrite Z.pow_add_r by lia.
    change (2 ^ 1) with 2. lia.
  - rewrite Pos2Z.inj_succ.
    replace (Z.succ (Zpos (digits2_pos m)) - 1) with (Zpos (digits2_pos m) - 1 + 1) by lia.
    rewrite Z.pow_succ_r by lia. rewrite Z.pow_add_r by lia.
    change (2 ^ 1) with 2. lia.
  - cbn. lia.
Qed.

(** One shift to the right halves the mantissa; nothing is lost on an
    even mantissa. *)
Lemma shr_1_m (mrs : shr_record) :
  0 <= shr_m mrs -> shr_m (shr_1 mrs) = shr_m mrs / 2.
Proof.
  destruct mrs as [m r s]. cbn [shr_m]. intros H.
  destruct m as [|p|p]; [reflexivity | | lia].
  destruct p as [p|p|]; cbn [shr_1 shr_m].
  - rewrite Pos2Z.inj_xI. apply (Z.div_unique _ 2 _ 1); lia.
  - rewrite Pos2Z.inj_xO. apply (Z.div_unique _ 2 _ 0); lia.
  - reflexivity.
Qed.

Definition no_remainder (mrs : shr_record) : Prop :=
  shr_r mrs = false /\ shr_s mrs = false.

Lemma shr_1_no_remainder (mrs : shr_record) :
  0 <= shr_m mrs -> no_remainder mrs -> shr_m mrs mod 2 = 0 -> no_remainder (shr_1 mrs).
Proof.
  destruct mrs as [m r s]. unfold no_remainder. cbn [shr_m shr_r shr_s].
  intros H [-> ->] Hm.
  destruct m as [|p|p]; [split; reflexivity | | lia].
  destruct p as [p|p|]; cbn [shr_1 shr_r shr_s orb].
  - rewrite Pos2Z.inj_xI in Hm.
    replace (2 * Z.pos p + 1) with (1 + Z.pos p * 2) in Hm by lia.
    rewrite Z.mod_add in Hm by lia. discriminate.
  - split; reflexivity.
  - discriminate.
Qed.

Lemma iter_shr_1 (p : positive) :
  forall mrs,
    0 <= shr_m mrs ->
    shr_m (iter_pos shr_1 p mrs) = shr_m mrs / 2 ^ Zpos p
    /\ (no_remainder mrs -> shr_m mrs mod 2 ^ Zpos p = 0 ->
        no_remainder (iter_pos shr_1 p mrs)).
Proof.
  induction p as [p IH|p IH|]; intros mrs H; cbn [iter_pos].
  - assert (H1 : 0 <= shr_m (shr_1 mrs))
      by (rewrite shr_1_m by exact H; apply Z.div_pos; lia).
    destruct (IH (shr_1 mrs) H1) as [A1 A2].
    assert (H2 : 0 <= shr_m (iter_pos shr_1 p (shr_1 mrs)))
      by (rewrite A1; apply Z.div_pos; [exact H1 | apply Z.pow_pos_nonneg; lia]).
    destruct (IH _ H2) as [B1 B2].
    assert (E : 2 ^ Z.pos p~1 = 2 * 2 ^ Z.pos p * 2 ^ Z.pos p).
    { assert (D : Z.pos p~1 = 1 + (Z.pos p + Z.pos p)) by lia.
      rewrite D. rewrite !Z.pow_add_r by lia. change (2 ^ 1) with 2. lia. }
    assert (P : 0 < 2 ^ Z.pos p) by (apply Z.pow_pos_nonneg; lia).
    split.
    + rewrite B1, A1, shr_1_m by exact H. rewrite E.
      rewrite !Z.div_div by lia. f_equal. lia.
    + intros Hx Hm. rewrite E in Hm.
      apply Z.mod_divide in Hm; [|lia]. destruct Hm as [c Hc].
      apply B2.
      * apply A2.
        -- apply shr_1_no_remainder; [exact H | exact Hx |].
           rewrite Hc. replace (c * (2 * 2 ^ Z.pos p * 2 ^ Z.pos p)) with ((c * 2 ^ Z.pos p * 2 ^ Z.pos p) * 2) by lia.
           apply Z.mod_mul. lia.
        -- rewrite shr_1_m by exact H. rewrite Hc.
           replace (c * (2 * 2 ^ Z.pos p * 2 ^ Z.pos p)) with ((c * 2 ^ Z.pos p * 2 ^ Z.pos p) * 2) by lia.
           rewrite Z.div_mul by lia.
           apply Z.mod_mul. lia.
      * rewrite A1, shr_1_m by exact H. rewrite Hc.
        replace (c * (2 * 2 ^ Z.pos p * 2 ^ Z.pos p)) with ((c * 2 ^ Z.pos p * 2 ^ Z.pos p) * 2) by lia.
        rewrite Z.div_mul by lia. rewrite Z.div_mul by lia.
        apply Z.mod_mul. lia.
  - destruct (IH mrs H) as [A1 A2].
    assert (P : 0 < 2 ^ Z.pos p) by (apply Z.pow_pos_nonneg; lia).
    assert (H2 : 0 <= shr_m (iter_pos shr_1 p mrs))
      by (rewrite A1; apply Z.div_pos; [exact H | exact P]).
    destruct (IH _ H2) as [B1 B2].
    assert (E : 2 ^ Z.pos p~0 = 2 ^ Z.pos p * 2 ^ Z.pos p).
    { assert (D : Z.pos p~0 = Z.pos p + Z.pos p) by lia.
      rewrite D. rewrite Z.pow_add_r by lia. reflexivity. }
    split.
    + rewrite B1, A1. rewrite E. rewrite Z.div_div by lia. reflexivity.
    + intros Hx Hm. rewrite E in Hm.
      apply Z.mod_divide in Hm; [|lia]. destruct Hm as [c Hc].
      apply B2.
      * apply A2; [exact Hx |]. rewrite Hc.
        rewrite Z.mul_assoc. apply Z.mod_mul. lia.
      * rewrite A1. rewrite Hc. rewrite Z.mul_assoc.
        rewrite Z.div_mul by lia. apply Z.mod_mul. lia.
  - split.
    + rewrite shr_1_m by exact H. reflexivity.
    + intros Hx Hm. apply shr_1_no_remainder; assumption.
Qed.

Lemma shr_spec (mrs : shr_record) (e n : Z) :
  0 <= shr_m mrs ->
  snd (shr mrs e n) = e + Z.max 0 n
  /\ shr_m (fst (shr mrs e n)) = shr_m mrs / 2 ^ Z.max 0 n
  /\ (no_remainder mrs -> shr_m mrs mod 2 ^ Z.max 0 n = 0 -> no_remainder (fst (shr mrs e n))).
Proof.
  intros H. unfold shr. destruct n as [|p|p]; cbn [fst snd].
  - rewrite Z.max_id. change (2 ^ 0) with 1. rewrite Z.div_1_r.
    split; [lia |]. split; [reflexivity | auto].
  - replace (Z.max 0 (Z.pos p)) with (Z.pos p) by lia.
    destruct (iter_shr_1 p mrs H) as [A B].
    split; [reflexivity |]. split; [exact A | exact B].
  - replace (Z.max 0 (Z.neg p)) with 0 by lia.
    change (2 ^ 0) with 1. rewrite Z.div_1_r.
    split; [lia |]. split; [reflexivity | auto].
Qed.

Lemma record_of_loc_m (m : Z) (l : location) :
  shr_m (shr_record_of_loc m l) = m.
Proof. destruct l as [|[| |]]; reflexivity. Qed.

Lemma record_of_loc_exact (m : Z) : no_remainder (shr_record_of_loc m loc_Exact).
Proof. split; reflexivity. Qed.

Lemma round_nearest_even_bounds (mrs : shr_record) :
  shr_m mrs
  <= round_nearest_even (shr_m mrs) (loc_of_shr_record mrs)
  <= shr_m mrs + 1
  /\ (no_remainder mrs ->
      round_nearest_even (shr_m mrs) (loc_of_shr_record mrs) = shr_m mrs).
Proof.
  destruct mrs as [m [|] [|]]; unfold no_remainder; cbn;
    try destruct (Z.even m); split; try lia; intros []; congruence.
Qed.

(** The shift of the first rounding step. *)
Definition shift_of (m e : Z) : Z :=
  Z.max 0 (fexp prec emax (Zdigits2 m + e) - e).

(** What a finite result of [binary_round_aux] is made of. *)
Lemma binary_round_aux_finite (s : bool) (m e : Z) (l : location)
    (s' : bool) (m' : positive) (e' : Z) :
  0 <= m ->
  binary_round_aux prec emax s m e l = S754_finite s' m' e' ->
  exists m2,
    let n := shift_of m e in
    let n2 := shift_of m2 (e + n) in
    m / 2 ^ n <= m2 <= m / 2 ^ n + 1
    /\ (l = loc_Exact -> m mod 2 ^ n = 0 -> m2 = m / 2 ^ n)
    /\ Zpos m' = m2 / 2 ^ n2
    /\ e' = e + n + n2
    /\ s' = s.
Proof.
  intros Hm. unfold binary_round_aux, shr_fexp.
  pose proof (shr_spec (shr_record_of_loc m l) e
                (fexp prec emax (Zdigits2 m + e) - e)) as H1.
  rewrite record_of_loc_m in H1. specialize (H1 Hm).
  destruct (shr (shr_record_of_loc m l) e
              (fexp prec emax (Zdigits2 m + e) - e)) as [mrs1 e1].
  cbn [fst snd] in H1. destruct H1 as (E1 & M1 & X1).
  pose proof (round_nearest_even_bounds mrs1) as [R1 R2].
  set (m2 := round_nearest_even (shr_m mrs1) (loc_of_shr_record mrs1)) in *.
  assert (Hm2 : 0 <= m2).
  { assert (0 <= shr_m mrs1); [|lia].
    rewrite M1. apply Z.div_pos; [exact Hm | apply Z.pow_pos_nonneg; lia]. }
  pose proof (shr_spec (shr_record_of_loc m2 loc_Exact) e1
                (fexp prec emax (Zdigits2 m2 + e1) - e1)) as H2.
  rewrite record_of_loc_m in H2. specialize (H2 Hm2).
  destruct (shr (shr_record_of_loc m2 loc_Exact) e1
              (fexp prec emax (Zdigits2 m2 + e1) - e1)) as [mrs2 e2].
  cbn [fst snd] in H2. destruct H2 as (E2 & M2 & _).
  destruct (shr_m mrs2) as [|p|p] eqn:Ep; [discriminate | | discriminate].
  destruct (e2 <=? emax - prec); [|discriminate].
  intros [= <- <- <-].
  exists m2. cbv zeta. fold (shift_of m e) in *. subst e1.
  fold (shift_of m2 (e + shift_of m e)) in *.
  split; [rewrite <- M1; exact R1 |].
  split.
  - intros -> Hx. rewrite <- M1. apply R2. apply X1; [apply record_of_loc_exact | exact Hx].
  - split; [exact M2 |]. split; [exact E2 | reflexivity].
Qed.

Lemma fexp_eq (x : Z) : fexp prec emax x = Z.max (x - 53) (-1074).
Proof. reflexivity. Qed.

Lemma digits2_le (m : positive) (k : Z) :
  Zpos m < 2 ^ k -> 0 <= k -> Zpos (digits2_pos m) <= k.
Proof.
  intros H Hk. destruct (digits2_pos_bounds m) as [L _].
  destruct (Z_le_gt_dec (Zpos (digits2_pos m)) k) as [|G]; [assumption|].
  exfalso.
  assert (2 ^ k <= 2 ^ (Zpos (digits2_pos m) - 1))
    by (apply Z.pow_le_mono_r; lia).
  lia.
Qed.

Lemma shift_of_nonneg (m e : Z) : 0 <= shift_of m e.
Proof. unfold shift_of. lia. Qed.

Lemma binary_round_aux_mantissa (s : bool) (m e : Z) (l : location)
    (s' : bool) (m' : positive) (e' : Z) :
  0 <= m ->
  binary_round_aux prec emax s m e l = S754_finite s' m' e' ->
  s' = s /\ Zpos m' < 2 ^ 53.
Proof.
  intros Hm H.
  destruct (binary_round_aux_finite _ _ _ _ _ _ _ Hm H)
    as (m2 & _ & _ & HM & _ & Hs).
  split; [exact Hs|].
  cbv zeta in HM.
  set (n2 := shift_of m2 (e + shift_of m e)) in *.
  assert (Hn2 : 0 <= n2) by apply shift_of_nonneg.
  assert (P2 : 0 < 2 ^ n2) by (apply Z.pow_pos_nonneg; lia).
  destruct m2 as [|p|p].
  - rewrite Z.div_0_l in HM; lia.
  - rewrite HM. apply Z.div_lt_upper_bound; [exact P2|].
    destruct (digits2_pos_bounds p) as [_ U].
    assert (D : Zpos (digits2_pos p) <= 53 + n2).
    { unfold n2, shift_of. rewrite fexp_eq. cbn [Zdigits2]. lia. }
    assert (Q : 2 ^ Zpos (digits2_pos p) <= 2 ^ (53 + n2))
      by (apply Z.pow_le_mono_r; lia).
    rewrite Z.pow_add_r in Q by lia. lia.
  - assert (Z.neg p / 2 ^ n2 <= 0); [|lia].
    apply Z.div_le_upper_bound; [exact P2 | lia].
Qed.

Lemma iter_xO (d m : positive) :
  Zpos (Pos.iter xO m d) = Zpos m * 2 ^ Zpos d.
Proof.
  induction d as [|d IH] using Pos.peano_ind.
  - cbn [Pos.iter]. change (2 ^ 1) with 2. lia.
  - rewrite Pos.iter_succ, Pos2Z.inj_succ, Z.pow_succ_r by lia.
    rewrite Pos2Z.inj_xO, IH. lia.
Qed.

Lemma shl_align_spec (mx : positive) (ex ex' : Z) :
  (ex' < ex /\ snd (shl_align mx ex ex') = ex'
   /\ Zpos (fst (shl_align mx ex ex')) = Zpos mx * 2 ^ (ex - ex'))
  \/ (ex <= ex' /\ shl_align mx ex ex' = (mx, ex)).
Proof.
  unfold shl_align. destruct (ex' - ex) as [|d|d] eqn:E.
  - right. split; [lia | reflexivity].
  - right. split; [lia | reflexivity].
  - left. cbn [fst snd]. split; [lia|]. split; [reflexivity|].
    rewrite iter_xO. f_equal. f_equal. lia.
Qed.

(** [m * 2^e <= t], on integers. *)
Definition le_val (m e t : Z) : Prop :=
  exists J, 0 <= J /\ 0 <= e + J /\ m * 2 ^ (e + J) <= t * 2 ^ J.

Lemma int_of_float_le (m : positive) (e t s : Z) :
  le_val (Zpos m) e t ->
  int_of_float (S754_finite false m e) = inr s -> s <= t.
Proof.
  intros (J & HJ & HeJ & H) [= <-].
  assert (PJ : 0 < 2 ^ J) by (apply Z.pow_pos_nonneg; lia).
  destruct e as [|p|p].
  - rewrite Z.add_0_l in H.
    apply (Z.mul_le_mono_pos_r _ _ (2 ^ J)); [exact PJ | exact H].
  - rewrite Z.pow_add_r in H by lia.
    rewrite Z.mul_assoc in H.
    apply (Z.mul_le_mono_pos_r _ _ (2 ^ J)); [exact PJ | exact H].
  - change (- Z.neg p) with (Z.pos p).
    assert (Pp : 0 < 2 ^ Z.pos p) by (apply Z.pow_pos_nonneg; lia).
    assert (PeJ : 0 < 2 ^ (Z.neg p + J)) by (apply Z.pow_pos_nonneg; lia).
    assert (EJ : 2 ^ J = 2 ^ Z.pos p * 2 ^ (Z.neg p + J)).
    { rewrite <- Z.pow_add_r by lia. f_equal. lia. }
    rewrite EJ in H.
    assert (B : Z.pos m <= t * 2 ^ Z.pos p).
    { rewrite Z.mul_assoc in H.
      apply (Z.mul_le_mono_pos_r _ _ (2 ^ (Z.neg p + J))); [exact PeJ | exact H]. }
    apply Z.div_le_upper_bound; [exact Pp | lia].
Qed.

Lemma binary_round_aux_not_nan (s : bool) (m e : Z) (l : location) :
  0 <= m -> binary_round_aux prec emax s m e l <> S754_nan.
Proof.
  intros Hm. unfold binary_round_aux, shr_fexp.
  pose proof (shr_spec (shr_record_of_loc m l) e
                (fexp prec emax (Zdigits2 m + e) - e)) as H1.
  rewrite record_of_loc_m in H1. specialize (H1 Hm).
  destruct (shr (shr_record_of_loc m l) e
              (fexp prec emax (Zdigits2 m + e) - e)) as [mrs1 e1].
  cbn [fst snd] in H1. destruct H1 as (E1 & M1 & X1).
  pose proof (round_nearest_even_bounds mrs1) as [R1 R2].
  set (m2 := round_nearest_even (shr_m mrs1) (loc_of_shr_record mrs1)) in *.
  assert (Hm2 : 0 <= m2).
  { assert (0 <= shr_m mrs1); [|lia].
    rewrite M1. apply Z.div_pos; [exact Hm | apply Z.pow_pos_nonneg; lia]. }
  pose proof (shr_spec (shr_record_of_loc m2 loc_Exact) e1
                (fexp prec emax (Zdigits2 m2 + e1) - e1)) as H2.
  rewrite record_of_loc_m in H2. specialize (H2 Hm2).
  destruct (shr (shr_record_of_loc m2 loc_Exact) e1
              (fexp prec emax (Zdigits2 m2 + e1) - e1)) as [mrs2 e2].
  cbn [fst snd] in H2. destruct H2 as (E2 & M2 & _).
  assert (0 <= shr_m mrs2).
  { rewrite M2. apply Z.div_pos; [exact Hm2 | apply Z.pow_pos_nonneg; lia]. }
  destruct (shr_m mrs2) as [|p|p]; [discriminate | | lia].
  destruct (e2 <=? emax - prec); discriminate.
Qed.

(** A float that is a zero or positive with a 53-bit mantissa, and worth
    at most the integer [t]. *)
Definition below (x : float) (t : Z) : Prop :=
  match x with
  | S754_zero _ => True
  | S754_finite false M E =>
      Zpos M < 2 ^ 53 /\ -1074 <= E /\ le_val (Zpos M) E t
  | _ => False
  end.

Lemma pow2_pos (n : Z) : 0 <= n -> 0 < 2 ^ n.
Proof. intros H. apply Z.pow_pos_nonneg; lia. Qed.

Lemma pow2_split (a b : Z) : 0 <= b <= a -> 2 ^ a = 2 ^ b * 2 ^ (a - b).
Proof. intros H. rewrite <- Z.pow_add_r by lia. f_equal. lia. Qed.

Lemma float_of_int_below (t k : Z) (x : float) :
  0 <= t -> 0 <= k -> t mod 2 ^ k = 0 -> t < 2 ^ (53 + k) ->
  float_of_int t = inr x -> below x t.
Proof.
  intros Ht Hk Hmod Hlt H. destruct t as [|p|p]; [| |lia].
  { cbn in H. injection H as <-. exact I. }
  unfold float_of_int in H. cbn [binary_normalize] in H.
  unfold binary_round in H.
  set (ex' := fexp prec emax (Zpos (digits2_pos p) + 0)) in *.
  pose proof (shl_align_spec p 0 ex') as SA.
  destruct (shl_align p 0 ex') as [mz ez]. cbn [fst snd] in SA.
  assert (Ex : ex' = Z.max (Zpos (digits2_pos p) - 53) (-1074)).
  { unfold ex'. rewrite fexp_eq. lia. }
  destruct (digits2_pos_bounds p) as [DL DU].
  destruct (binary_round_aux prec emax false (Zpos mz) ez loc_Exact)
    as [s|s| |s M E] eqn:B.
  - injection H as <-. exact I.
  - discriminate.
  - exfalso. revert B. apply binary_round_aux_not_nan. lia.
  - injection H as <-.
    destruct (binary_round_aux_mantissa _ _ _ _ _ _ _ (Pos2Z.is_nonneg mz) B)
      as [-> HM].
    destruct (binary_round_aux_finite _ _ _ _ _ _ _ (Pos2Z.is_nonneg mz) B)
      as (m2 & _ & X & HM2 & HE & _).
    cbv zeta in X, HM2, HE. cbn [below]. split; [exact HM|].
    destruct SA as [(Hneg & -> & Hmz) | (Hpos & [= -> ->])].
    + (* fewer than 53 digits: aligned to 53, nothing is rounded away *)
      assert (P : 2 ^ Zpos (digits2_pos p) * 2 ^ (0 - ex') = 2 ^ 53).
      { rewrite <- Z.pow_add_r by lia. f_equal. lia. }
      assert (Q : 0 < 2 ^ (0 - ex')) by (apply pow2_pos; lia).
      assert (Lz : Zpos mz < 2 ^ 53) by (rewrite Hmz; nia).
      assert (Dz : Zpos (digits2_pos mz) <= 53) by (apply digits2_le; lia).
      assert (N : shift_of (Zpos mz) ex' = 0).
      { unfold shift_of. rewrite fexp_eq. cbn [Zdigits2]. lia. }
      rewrite N in *. rewrite Z.add_0_r in *.
      change (2 ^ 0) with 1 in X. rewrite Z.mod_1_r, Z.div_1_r in X.
      specialize (X eq_refl eq_refl). subst m2.
      rewrite N in *. change (2 ^ 0) with 1 in HM2. rewrite Z.div_1_r in HM2.
      rewrite Z.add_0_r in HE. subst E.
      split; [lia|]. exists (0 - ex').
      split; [lia|]. split; [lia|].
      replace (ex' + (0 - ex')) with 0 by lia.
      change (2 ^ 0) with 1. rewrite HM2, Hmz. lia.
    + (* 53 digits or more: the digits rounded away are zeros *)
      set (n := shift_of (Zpos p) 0) in *.
      assert (N : n = Zpos (digits2_pos p) - 53).
      { unfold n, shift_of. rewrite fexp_eq. cbn [Zdigits2]. lia. }
      assert (Dk : Zpos (digits2_pos p) <= 53 + k) by (apply digits2_le; lia).
      assert (Hn : 0 <= n <= k) by lia.
      assert (Pn : 0 < 2 ^ n) by (apply pow2_pos; lia).
      assert (Dv : Zpos p mod 2 ^ n = 0).
      { apply Z.mod_divide; [lia|].
        apply Z.divide_trans with (2 ^ k).
        - exists (2 ^ (k - n)). rewrite (pow2_split k n) by lia. lia.
        - apply Z.mod_divide; [pose proof (pow2_pos k Hk); lia | exact Hmod]. }
      specialize (X eq_refl Dv).
      set (n2 := shift_of m2 (0 + n)) in *.
      assert (Hn2 : 0 <= n2) by apply shift_of_nonneg.
      assert (Pn2 : 0 < 2 ^ n2) by (apply pow2_pos; lia).
      split; [lia|]. exists 0.
      split; [lia|]. split; [lia|].
      rewrite Z.add_0_r, HE.
      replace (0 + n + n2) with (n2 + n) by lia.
      rewrite Z.pow_add_r by lia.
      pose proof (Z.mul_div_le m2 (2 ^ n2) Pn2) as A1.
      pose proof (Z.mul_div_le (Zpos p) (2 ^ n) Pn) as A2.
      rewrite <- HM2 in A1. rewrite <- X in A2.
      change (2 ^ 0) with 1. rewrite Z.mul_1_r.
      apply Z.le_trans with (m2 * 2 ^ n); [|lia].
      rewrite Z.mul_assoc. apply Z.mul_le_mono_nonneg_r; lia.
Qed.

Lemma fmul_0_9_trunc (x : float) (t s : Z) :
  0 <= t -> below x t ->
  int_of_float (fmul x f_0_9) = inr s -> s <= t.
Proof.
  intros Ht Hx H. destruct x as [s0|s0| |[|] M E]; try contradiction.
  { cbn in H. injection H as <-. exact Ht. }
  destruct Hx as (HM & HE & J & HJ & HEJ & Hle).
  unfold fmul, f_0_9 in H. cbn [SFmul xorb] in H.
  set (m9 := 8106479329266893%positive) in *.
  assert (C53 : 2 ^ 53 = 9007199254740992) by reflexivity.
  assert (H9 : Zpos m9 < 2 ^ 53) by (unfold m9; lia).
  pose proof (Pos2Z.is_nonneg (M * m9)) as Hnn.
  destruct (binary_round_aux prec emax false (Zpos (M * m9)) (E + -53)
              loc_Exact) as [s1|s1| |s1 M' E'] eqn:B.
  - cbn in H. injection H as <-. exact Ht.
  - discriminate.
  - discriminate.
  - destruct (binary_round_aux_mantissa _ _ _ _ _ _ _ Hnn B) as [-> _].
    destruct (binary_round_aux_finite _ _ _ _ _ _ _ Hnn B)
      as (m2 & [_ U] & _ & HM2 & HE' & _).
    cbv zeta in U, HM2, HE'.
    apply (int_of_float_le M' E'); [|exact H]. clear H B.
    set (n := shift_of (Zpos (M * m9)) (E + -53)) in *.
    set (n2 := shift_of m2 (E + -53 + n)) in *.
    assert (Hn2 : 0 <= n2) by apply shift_of_nonneg.
    assert (Lp : Zpos (M * m9) < Zpos M * 2 ^ 53).
    { rewrite Pos2Z.inj_mul. apply Z.mul_lt_mono_pos_l; lia. }
    assert (L106 : Zpos (M * m9) < 2 ^ 106).
    { change (2 ^ 106) with (2 ^ 53 * 2 ^ 53).
      apply Z.lt_trans with (Zpos M * 2 ^ 53); [exact Lp|].
      apply Z.mul_lt_mono_pos_r; lia. }
    assert (D : Zpos (digits2_pos (M * m9)) <= 106)
      by (apply digits2_le; [exact L106 | lia]).
    assert (Hn : 0 <= n <= 53).
    { unfold n, shift_of. rewrite fexp_eq. cbn [Zdigits2]. lia. }
    assert (Pn : 0 < 2 ^ n) by (apply pow2_pos; lia).
    assert (Pn2 : 0 < 2 ^ n2) by (apply pow2_pos; lia).
    assert (PEJ : 0 < 2 ^ (E + J)) by (apply pow2_pos; lia).
    assert (Pd : 0 < 2 ^ (53 - n)) by (apply pow2_pos; lia).
    pose proof (pow2_split 53 n Hn) as S53.
    assert (Q : Zpos (M * m9) / 2 ^ n < Zpos M * 2 ^ (53 - n)).
    { apply Z.div_lt_upper_bound; [exact Pn|].
      replace (2 ^ n * (Zpos M * 2 ^ (53 - n)))
        with (Zpos M * (2 ^ n * 2 ^ (53 - n))) by ring.
      rewrite <- S53. exact Lp. }
    pose proof (Z.mul_div_le m2 (2 ^ n2) Pn2) as A1. rewrite <- HM2 in A1.
    assert (A2 : Zpos M' * 2 ^ n2 * 2 ^ n <= Zpos M * 2 ^ 53).
    { rewrite S53.
      replace (Zpos M * (2 ^ n * 2 ^ (53 - n)))
        with (Zpos M * 2 ^ (53 - n) * 2 ^ n) by ring.
      apply Z.mul_le_mono_nonneg_r; lia. }
    exists (J + 53). split; [lia|]. split; [lia|].
    replace (E' + (J + 53)) with (n2 + n + (E + J)) by lia.
    rewrite (Z.pow_add_r 2 J 53), !Z.pow_add_r by lia.
    apply Z.le_trans with (Zpos M * 2 ^ 53 * 2 ^ (E + J)).
    + rewrite Z.mul_assoc. apply Z.mul_le_mono_nonneg_r; [lia|].
      apply Z.le_trans with (2 := A2). apply Z.eq_le_incl. ring.
    + replace (Zpos M * 2 ^ 53 * 2 ^ (E + J))
        with (Zpos M * 2 ^ (E + J) * 2 ^ 53) by ring.
      rewrite Z.mul_assoc. apply Z.mul_le_mono_nonneg_r; lia.
Qed.

(** A float that is not negative and has a 53-bit mantissa. *)
Definition sound (q : float) : Prop :=
  match q with
  | S754_finite s m _ => s = false /\ Zpos m < 2 ^ 53
  | _ => True
  end.

Lemma SFdiv_sound (m1 : positive) (e1 : Z) (m2 : positive) (e2 : Z) :
  sound (SFdiv prec emax (S754_finite false m1 e1) (S754_finite false m2 e2)).
Proof.
  cbn [SFdiv xorb].
  assert (N : 0 <= fst (fst (SFdiv_core_binary prec emax
                               (Zpos m1) e1 (Zpos m2) e2))).
  { unfold SFdiv_core_binary. cbv zeta.
    set (m' := match _ with Z0 => Zpos m1 | Zpos _ => Z.shiftl (Zpos m1) _
                       | Zneg _ => 0 end).
    assert (Hm' : 0 <= m').
    { unfold m'. destruct (_ - _); [lia | | lia].
      apply Z.shiftl_nonneg. lia. }
    pose proof (Z_div_mod m' (Zpos m2) eq_refl) as DM.
    destruct (Z.div_eucl m' (Zpos m2)) as [q r]. cbn [fst]. nia. }
  destruct (SFdiv_core_binary prec emax (Zpos m1) e1 (Zpos m2) e2)
    as [[mz ez] lz]. cbn [fst] in N.
  destruct (binary_round_aux prec emax false mz ez lz) as [| | |s m e] eqn:B;
    try exact I.
  cbn [sound]. exact (binary_round_aux_mantissa _ _ _ _ _ _ _ N B).
Qed.

(** The integer part of a positive finite float. *)
Definition trunc (m : positive) (e : Z) : Z :=
  match e with
  | Z0 => Zpos m
  | Zpos p => Zpos m * 2 ^ e
  | Zneg p => Zpos m / 2 ^ (- e)
  end.

Lemma int_of_float_finite (m : positive) (e : Z) :
  int_of_float (S754_finite false m e) = inr (trunc m e).
Proof. reflexivity. Qed.

Lemma trunc_nonneg (m : positive) (e : Z) : 0 <= trunc m e.
Proof.
  destruct e as [|p|p]; unfold trunc.
  - lia.
  - apply Z.mul_nonneg_nonneg; [lia | apply Z.pow_nonneg; lia].
  - apply Z.div_pos; [lia | apply pow2_pos; lia].
Qed.

Lemma int_of_float_nonneg (q : float) (t : Z) :
  sound q -> int_of_float q = inr t -> 0 <= t.
Proof.
  intros Hq Ht. destruct q as [s0|s0| |s0 m e]; try discriminate.
  - injection Ht as <-. lia.
  - destruct Hq as [-> _]. rewrite int_of_float_finite in Ht.
    assert (T : trunc m e = t) by congruence.
    rewrite <- T. apply trunc_nonneg.
Qed.

(** The integer part of a sound float converts back without rounding up. *)
Lemma float_of_trunc_below (q : float) (t : Z) (x : float) :
  sound q ->
  int_of_float q = inr t ->
  float_of_int t = inr x ->
  below x t.
Proof.
  intros Hq Ht Hx.
  pose proof (int_of_float_nonneg q t Hq Ht) as H0.
  assert (K : exists k, 0 <= k /\ t mod 2 ^ k = 0 /\ t < 2 ^ (53 + k)).
  { destruct q as [s0|s0| |s0 m e]; try discriminate.
    - injection Ht as <-. exists 0. repeat split; try lia; reflexivity.
    - destruct Hq as [-> Hm]. rewrite int_of_float_finite in Ht.
      assert (T : trunc m e = t) by congruence.
      clear Ht. subst t. clear Hx H0.
      destruct e as [|p|p]; unfold trunc.
      + exists 0. rewrite Z.add_0_r. change (2 ^ 0) with 1.
        rewrite Z.mod_1_r. lia.
      + exists (Zpos p).
        assert (0 < 2 ^ Zpos p) by (apply pow2_pos; lia).
        split; [lia|].
        split; [apply Z.mod_mul; lia|].
        rewrite Z.pow_add_r by lia. apply Z.mul_lt_mono_pos_r; lia.
      + exists 0. change (- Z.neg p) with (Zpos p).
        assert (P : 0 < 2 ^ Zpos p) by (apply pow2_pos; lia).
        rewrite Z.add_0_r. change (2 ^ 0) with 1. rewrite Z.mod_1_r.
        split; [lia|]. split; [reflexivity|].
        apply Z.div_lt_upper_bound; [exact P|]. nia. }
  destruct K as (k & Hk & Hmod & Hlt).
  exact (float_of_int_below t k x H0 Hk Hmod Hlt Hx).
Qed.

Lemma fmul_0_9_sound (x : float) (t : Z) :
  below x t -> sound (fmul x f_0_9).
Proof.
  intros Hx. destruct x as [s0|s0| |[|] M E]; try contradiction.
  { exact I. }
  unfold fmul, f_0_9. cbn [SFmul xorb].
  destruct (binary_round_aux prec emax false _ _ loc_Exact)
    as [| | |s m e] eqn:B; try exact I.
  cbn [sound].
  exact (binary_round_aux_mantissa _ _ _ _ _ _ _ (Pos2Z.is_nonneg _) B).
Qed.

(** [int(float(t) * 0.9) <= t] for the integer part [t] of a sound float. *)
Lemma margin_le (q : float) (t : Z) (x : float) (s : Z) :
  sound q ->
  int_of_float q = inr t ->
  float_of_int t = inr x ->
  int_of_float (fmul x f_0_9) = inr s ->
  0 <= s <= t.
Proof.
  intros Hq Ht Hx Hs.
  pose proof (float_of_trunc_below q t x Hq Ht Hx) as Hb.
  split.
  - exact (int_of_float_nonneg _ _ (fmul_0_9_sound x t Hb) Hs).
  - apply (fmul_0_9_trunc x t s); [|exact Hb|exact Hs].
    exact (int_of_float_nonneg q t Hq Ht).
Qed.

Lemma fdiv_9999_sound (avg q : float) :
  gt_zero avg = true -> fdiv f_9999 avg = inr q -> sound q.
Proof.
  intros G H. destruct avg as [s|s| |s m e]; try discriminate.
  - injection H as <-. exact I.
  - destruct s; [discriminate|].
    unfold fdiv, f_9999 in H. injection H as <-. apply SFdiv_sound.
Qed.

End Binary64.

(* ================================================================== *)
(** * Sums and means that do not round *)
(* ================================================================== *)

Module ExactSums.
Import Py Binary64.

Lemma digits2_unique (q : positive) (k : Z) :
  2 ^ (k - 1) <= Zpos q < 2 ^ k -> Zpos (digits2_pos q) = k.
Proof.
  intros [L U]. destruct (digits2_pos_bounds q) as [DL DU].
  set (d := Zpos (digits2_pos q)) in *.
  assert (Hk : 0 < k).
  { destruct (Z_lt_le_dec 0 k) as [|N]; [assumption |].
    exfalso. destruct (Z.eq_dec k 0) as [->|]; [cbn in U; lia |].
    rewrite Z.pow_neg_r in U by lia. lia. }
  destruct (Z_lt_le_dec d k) as [A|A].
  - exfalso. assert (2 ^ d <= 2 ^ (k - 1)) by (apply Z.pow_le_mono_r; lia).
    lia.
  - destruct (Z_lt_le_dec k d) as [B|B]; [|lia].
    exfalso. assert (2 ^ k <= 2 ^ (d - 1)) by (apply Z.pow_le_mono_r; lia).
    lia.
Qed.

(** [binary_round_aux] on a mantissa whose digits to be shifted out are
    all zero. *)
Lemma bra_exact (s : bool) (m : positive) (e n : Z) :
  n = fexp prec emax (Zpos (digits2_pos m) + e) - e ->
  0 <= n -> Zpos m mod 2 ^ n = 0 -> e + n <= emax - prec ->
  binary_round_aux prec emax s (Zpos m) e loc_Exact
  = S754_finite s (Z.to_pos (Zpos m / 2 ^ n)) (e + n).
Proof.
  intros Hn Hn0 Hmod Hmax.
  assert (Pn : 0 < 2 ^ n) by (apply pow2_pos; lia).
  pose proof (Z.div_mod (Zpos m) (2 ^ n) ltac:(lia)) as DM.
  rewrite Hmod, Z.add_0_r in DM.
  set (m1 := Zpos m / 2 ^ n) in *.
  assert (P1 : 0 < m1) by nia.
  destruct (digits2_pos_bounds m) as [DL DU].
  set (d := Zpos (digits2_pos m)) in *.
  assert (Hd : n < d).
  { destruct (Z_lt_le_dec n d) as [|N]; [assumption |].
    exfalso. assert (2 ^ d <= 2 ^ n) by (apply Z.pow_le_mono_r; lia). nia. }
  assert (D1 : Zdigits2 m1 = d - n).
  { destruct m1 as [|q|q] eqn:Em; try lia. cbn [Zdigits2].
    apply digits2_unique.
    rewrite (pow2_split d n) in DU by lia.
    rewrite (pow2_split (d - 1) n) in DL by lia.
    replace (d - 1 - n) with (d - n - 1) in DL by lia.
    split; nia. }
  unfold binary_round_aux, shr_fexp. cbn [Zdigits2]. fold d. rewrite <- Hn.
  pose proof (shr_spec (shr_record_of_loc (Zpos m) loc_Exact) e n) as H1.
  rewrite record_of_loc_m in H1. specialize (H1 ltac:(lia)).
  destruct (shr (shr_record_of_loc (Zpos m) loc_Exact) e n) as [mrs1 e1].
  cbn [fst snd] in H1. destruct H1 as (E1 & M1 & X1).
  rewrite Z.max_r in E1, M1, X1 by lia. fold m1 in M1.
  pose proof (round_nearest_even_bounds mrs1) as [_ R2].
  rewrite (R2 (X1 (record_of_loc_exact _) Hmod)), M1, E1.
  replace (fexp prec emax (Zdigits2 m1 + (e + n)) - (e + n)) with 0
    by (rewrite D1; replace (d - n + (e + n)) with (d + e) by lia; lia).
  cbn [shr shr_record_of_loc shr_m].
  destruct m1 as [|q|q]; try lia.
  apply Z.leb_le in Hmax. rewrite Hmax. reflexivity.
Qed.

(** [float(z)] for an integer below 2^53 in size, which is exact. *)
Definition int_float (z : Z) : float := binary_normalize prec emax z 0 false.

(** The binary64 number of sign [s] and size [v], for [v] below 2^53. *)
Definition pos_float (s : bool) (v : positive) : float :=
  S754_finite s
    (Z.to_pos (Zpos v * 2 ^ (53 - Zpos (digits2_pos v))))
    (Zpos (digits2_pos v) - 53).

Lemma round_int_exact (s : bool) (p : positive) (e : Z) (v : positive) :
  e <= 0 -> Zpos p = Zpos v * 2 ^ (- e) -> Zpos v < 2 ^ 53 ->
  binary_round prec emax s p e = pos_float s v.
Proof.
  intros He Hp Hv.
  destruct (digits2_pos_bounds v) as [VL VU].
  set (dv := Zpos (digits2_pos v)) in *.
  assert (Hdv : 1 <= dv <= 53).
  { split; [unfold dv; lia | apply digits2_le; lia]. }
  assert (Pe : 0 < 2 ^ (- e)) by (apply pow2_pos; lia).
  assert (Dp : Zpos (digits2_pos p) = dv - e).
  { apply digits2_unique. rewrite Hp.
    replace (dv - e) with (dv + - e) by lia.
    replace (dv + - e - 1) with (dv - 1 + - e) by lia.
    rewrite !Z.pow_add_r by lia. split; nia. }
  unfold binary_round. rewrite Dp.
  replace (dv - e + e) with dv by lia.
  assert (Fe : fexp prec emax dv = dv - 53) by (rewrite fexp_eq; lia).
  rewrite Fe.
  assert (P53 : 0 < 2 ^ (53 - dv)) by (apply pow2_pos; lia).
  unfold pos_float. fold dv.
  destruct (shl_align_spec p e (dv - 53)) as [(Hlt & E2 & E1)|(Hle & E)].
  - destruct (shl_align p e (dv - 53)) as [mz ez]. cbn [fst snd] in *.
    subst ez.
    assert (Mz : Zpos mz = Zpos v * 2 ^ (53 - dv)).
    { rewrite E1, Hp, <- Z.mul_assoc, <- Z.pow_add_r by lia.
      f_equal. f_equal. lia. }
    assert (Dz : Zpos (digits2_pos mz) = 53).
    { apply digits2_unique. rewrite Mz.
      rewrite (pow2_split 53 dv) by lia.
      rewrite (pow2_split (53 - 1) (dv - 1)) by lia.
      replace (53 - 1 - (dv - 1)) with (53 - dv) by lia. split; nia. }
    rewrite (bra_exact s mz (dv - 53) 0).
    + change (2 ^ 0) with 1. rewrite Z.div_1_r, Z.add_0_r, Mz. reflexivity.
    + rewrite Dz, fexp_eq. lia.
    + lia.
    + change (2 ^ 0) with 1. apply Z.mod_1_r.
    + unfold emax, prec. lia.
  - rewrite E.
    assert (Q : Zpos p = Zpos v * 2 ^ (53 - dv) * 2 ^ (dv - 53 - e)).
    { rewrite Hp, <- Z.mul_assoc, <- Z.pow_add_r by lia.
      f_equal. f_equal. lia. }
    assert (Pq : 0 < 2 ^ (dv - 53 - e)) by (apply pow2_pos; lia).
    rewrite (bra_exact s p e (dv - 53 - e)).
    + replace (e + (dv - 53 - e)) with (dv - 53) by lia.
      rewrite Q, Z.div_mul by lia. reflexivity.
    + rewrite Dp. replace (dv - e + e) with dv by lia. rewrite Fe. lia.
    + lia.
    + rewrite Q. apply Z.mod_mul. lia.
    + unfold emax, prec. lia.
Qed.

Lemma round_int_self (s : bool) (q : positive) :
  Zpos q < 2 ^ 53 -> binary_round prec emax s q 0 = pos_float s q.
Proof.
  intros H. apply round_int_exact; [lia | | exact H].
  change (2 ^ (- 0)) with 1. lia.
Qed.

(** Rounding a value that is an integer below 2^53 in size gives
    [float] of that integer. *)
Lemma normalize_int (m e : Z) :
  e <= 0 -> m mod 2 ^ (- e) = 0 -> Z.abs (m / 2 ^ (- e)) < 2 ^ 53 ->
  binary_normalize prec emax m e false = int_float (m / 2 ^ (- e)).
Proof.
  intros He Hmod Hlt.
  assert (Pe : 0 < 2 ^ (- e)) by (apply pow2_pos; lia).
  pose proof (Z.div_mod m (2 ^ (- e)) ltac:(lia)) as DM.
  rewrite Hmod, Z.add_0_r in DM.
  set (v := m / 2 ^ (- e)) in *. unfold int_float.
  destruct m as [|p|p].
  - assert (V : v = 0) by nia. rewrite V. reflexivity.
  - destruct v as [|q|q]; try nia. cbn [binary_normalize].
    rewrite (round_int_exact false p e q) by lia.
    rewrite round_int_self by lia. reflexivity.
  - destruct v as [|q|q]; try nia. cbn [binary_normalize].
    rewrite (round_int_exact true p e q) by lia.
    rewrite round_int_self by lia. reflexivity.
Qed.

Lemma pos_float_parts (s : bool) (q : positive) :
  Zpos q < 2 ^ 53 ->
  exists m e,
    pos_float s q = S754_finite s m e /\ e <= 0
    /\ Zpos m = Zpos q * 2 ^ (- e).
Proof.
  intros Hlt. unfold pos_float.
  destruct (digits2_pos_bounds q) as [VL VU].
  set (dv := Zpos (digits2_pos q)) in *.
  assert (Hdv : 1 <= dv <= 53)
    by (split; [unfold dv; lia | apply digits2_le; lia]).
  assert (P53 : 0 < 2 ^ (53 - dv)) by (apply pow2_pos; lia).
  eexists. eexists. split; [reflexivity |]. split; [lia |].
  rewrite Z2Pos.id by nia.
  replace (- (dv - 53)) with (53 - dv) by lia. reflexivity.
Qed.

Lemma int_float_finite (z : Z) :
  z <> 0 -> Z.abs z < 2 ^ 53 ->
  exists m e,
    int_float z = S754_finite (z <? 0) m e /\ e <= 0
    /\ Zpos m = Z.abs z * 2 ^ (- e).
Proof.
  intros Hz Hlt. unfold int_float.
  destruct z as [|q|q]; [contradiction | |]; cbn [binary_normalize];
    rewrite round_int_self by exact Hlt; apply pos_float_parts; exact Hlt.
Qed.

Lemma int_float_opp (z : Z) :
  Z.abs z < 2 ^ 53 -> z <> 0 -> int_float (- z) = SFopp (int_float z).
Proof.
  intros Hlt Hz. unfold int_float.
  destruct z as [|q|q]; [contradiction | |];
    cbn [binary_normalize Z.opp]; rewrite !round_int_self by exact Hlt;
    reflexivity.
Qed.

Lemma aligned (m : positive) (e ez : Z) (a : Z) :
  ez <= e -> e <= 0 -> Zpos m = a * 2 ^ (- e) ->
  Zpos (fst (shl_align m e ez)) = a * 2 ^ (- ez).
Proof.
  intros H1 H2 Hm.
  destruct (shl_align_spec m e ez) as [(Hlt & _ & E)|(Hle & E)].
  - rewrite E, Hm, <- Z.mul_assoc, <- Z.pow_add_r by lia.
    f_equal. f_equal. lia.
  - rewrite E. cbn [fst]. replace ez with e by lia. exact Hm.
Qed.

Lemma signed (z : Z) : cond_Zopp (z <? 0) (Z.abs z) = z.
Proof.
  unfold cond_Zopp. destruct (z <? 0) eqn:E.
  - apply Z.ltb_lt in E. lia.
  - apply Z.ltb_ge in E. lia.
Qed.

Lemma signed_scaled (z k : Z) :
  cond_Zopp (z <? 0) (Z.abs z * k) = z * k.
Proof.
  unfold cond_Zopp. destruct (z <? 0) eqn:E.
  - apply Z.ltb_lt in E. lia.
  - apply Z.ltb_ge in E. lia.
Qed.

(** Additions and subtractions of integers are exact as long as the
    operands and the result stay below 2^53 in size. *)
Lemma fadd_int_float (a b : Z) :
  Z.abs a < 2 ^ 53 -> Z.abs b < 2 ^ 53 -> Z.abs (a + b) < 2 ^ 53 ->
  fadd (int_float a) (int_float b) = int_float (a + b).
Proof.
  intros Ha Hb Hab.
  destruct (Z.eq_dec a 0) as [->|Na].
  { rewrite Z.add_0_l. change (int_float 0) with (S754_zero false).
    destruct (Z.eq_dec b 0) as [->|Nb]; [reflexivity |].
    destruct (int_float_finite b Nb Hb) as (m & e & -> & _). reflexivity. }
  destruct (Z.eq_dec b 0) as [->|Nb].
  { rewrite Z.add_0_r. change (int_float 0) with (S754_zero false).
    destruct (int_float_finite a Na Ha) as (m & e & -> & _). reflexivity. }
  destruct (int_float_finite a Na Ha) as (ma & ea & -> & Ea & Ma).
  destruct (int_float_finite b Nb Hb) as (mb & eb & -> & Eb & Mb).
  unfold fadd. cbn [SFadd].
  set (ez := Z.min ea eb).
  rewrite (aligned ma ea ez (Z.abs a)) by (unfold ez; lia || exact Ma).
  rewrite (aligned mb eb ez (Z.abs b)) by (unfold ez; lia || exact Mb).
  rewrite !signed_scaled, <- Z.mul_add_distr_r.
  assert (Pe : 0 < 2 ^ (- ez)) by (apply pow2_pos; unfold ez; lia).
  rewrite normalize_int.
  - rewrite Z.div_mul by lia. reflexivity.
  - unfold ez. lia.
  - apply Z.mod_mul. lia.
  - rewrite Z.div_mul by lia. exact Hab.
Qed.

Lemma fsub_int_float (a b : Z) :
  Z.abs a < 2 ^ 53 -> Z.abs b < 2 ^ 53 -> Z.abs (a - b) < 2 ^ 53 ->
  fsub (int_float a) (int_float b) = int_float (a - b).
Proof.
  intros Ha Hb Hab.
  destruct (Z.eq_dec b 0) as [->|Nb].
  { rewrite Z.sub_0_r. change (int_float 0) with (S754_zero false).
    destruct (Z.eq_dec a 0) as [->|Na]; [reflexivity |].
    destruct (int_float_finite a Na Ha) as (m & e & -> & _). reflexivity. }
  destruct (int_float_finite b Nb Hb) as (mb & eb & Fb & Eb & Mb).
  destruct (Z.eq_dec a 0) as [->|Na].
  { rewrite Z.sub_0_l. change (int_float 0) with (S754_zero false).
    rewrite (int_float_opp b Hb Nb), Fb. reflexivity. }
  destruct (int_float_finite a Na Ha) as (ma & ea & -> & Ea & Ma).
  rewrite Fb. unfold fsub. cbn [SFsub].
  set (ez := Z.min ea eb).
  rewrite (aligned ma ea ez (Z.abs a)) by (unfold ez; lia || exact Ma).
  rewrite (aligned mb eb ez (Z.abs b)) by (unfold ez; lia || exact Mb).
  rewrite !signed_scaled, <- Z.mul_sub_distr_r.
  assert (Pe : 0 < 2 ^ (- ez)) by (apply pow2_pos; unfold ez; lia).
  rewrite normalize_int.
  - rewrite Z.div_mul by lia. reflexivity.
  - unfold ez. lia.
  - apply Z.mod_mul. lia.
  - rewrite Z.div_mul by lia. exact Hab.
Qed.

Lemma sum_shift (l : list Z) (a : Z) : fold_left Z.add l a = a + sum l.
Proof.
  unfold sum. revert a. induction l as [|x l IH]; intros a; cbn [fold_left].
  - lia.
  - rewrite (IH (a + x)), (IH (0 + x)). lia.
Qed.

Lemma sum_cons_eq (x : Z) (l : list Z) : sum (x :: l) = x + sum l.
Proof. unfold sum at 1. cbn [fold_left]. rewrite sum_shift. lia. Qed.

Lemma sum_nonneg (l : list Z) : Forall (fun z => 0 <= z) l -> 0 <= sum l.
Proof.
  induction 1 as [|x l Hx _ IH]; [cbn; lia |].
  rewrite sum_cons_eq. lia.
Qed.

Lemma plain_exact (zs : list Z) :
  forall a,
    0 <= a -> Forall (fun z => 0 <= z) zs -> a + sum zs < 2 ^ 53 ->
    fold_left fadd (map int_float zs) (int_float a) = int_float (a + sum zs).
Proof.
  induction zs as [|z zs IH]; intros a Ha Hz Hs.
  - cbn. f_equal. lia.
  - inversion Hz as [|? ? Hz0 Hzs]; subst.
    rewrite sum_cons_eq in *. pose proof (sum_nonneg zs Hzs).
    cbn [map fold_left]. rewrite fadd_int_float by lia.
    rewrite IH by (assumption || lia). f_equal. lia.
Qed.

Lemma compensated_step_exact (a z : Z) :
  0 <= a -> 0 <= z -> a + z < 2 ^ 53 ->
  compensated_step (int_float a, S754_zero false) (int_float z)
  = (int_float (a + z), S754_zero false).
Proof.
  intros Ha Hz Hs. unfold compensated_step.
  rewrite fadd_int_float by lia. f_equal.
  destruct (fabs_ge (int_float a) (int_float z)).
  - rewrite fsub_int_float by lia. rewrite fadd_int_float by lia.
    replace (a - (a + z) + z) with 0 by lia. reflexivity.
  - rewrite fsub_int_float by lia. rewrite fadd_int_float by lia.
    replace (z - (a + z) + a) with 0 by lia. reflexivity.
Qed.

Lemma compensated_exact (zs : list Z) :
  forall a,
    0 <= a -> Forall (fun z => 0 <= z) zs -> a + sum zs < 2 ^ 53 ->
    fold_left compensated_step (map int_float zs) (int_float a, S754_zero false)
    = (int_float (a + sum zs), S754_zero false).
Proof.
  induction zs as [|z zs IH]; intros a Ha Hz Hs.
  - cbn. do 2 f_equal. lia.
  - inversion Hz as [|? ? Hz0 Hzs]; subst.
    rewrite sum_cons_eq in *. pose proof (sum_nonneg zs Hzs).
    cbn [map fold_left]. rewrite compensated_step_exact by lia.
    rewrite IH by (assumption || lia). do 2 f_equal. lia.
Qed.

(** Both ways of adding give the exact sum of floats that are integers,
    as long as the sum stays below 2^53: no addition rounds. *)
Lemma fsum_exact (alg : float_sum) (zs : list Z) :
  Forall (fun z => 0 <= z) zs -> sum zs < 2 ^ 53 ->
  fsum alg (map int_float zs) = int_float (sum zs).
Proof.
  intros Hz Hs. destruct alg; unfold fsum.
  - change (S754_zero false) with (int_float 0).
    rewrite plain_exact by (assumption || lia). reflexivity.
  - destruct zs as [|z zs]; [reflexivity |].
    inversion Hz as [|? ? Hz0 Hzs]; subst.
    rewrite sum_cons_eq in *. pose proof (sum_nonneg zs Hzs).
    cbn [map]. change (S754_zero false) with (int_float 0) at 1.
    rewrite fadd_int_float by (cbn; lia). rewrite Z.add_0_l.
    rewrite compensated_exact by (assumption || lia). reflexivity.
Qed.

(** A sum of one float is that float, but for the sign of a zero. *)
Lemma fsum_single (alg : float_sum) (x : float) :
  fsum alg [x] = fadd (S754_zero false) x.
Proof. destruct alg; reflexivity. Qed.

Lemma digits2_scaled (m : positive) (k : Z) (q : positive) :
  0 <= k -> Zpos q = Zpos m * 2 ^ k ->
  Zpos (digits2_pos q) = Zpos (digits2_pos m) + k.
Proof.
  intros Hk Hq. destruct (digits2_pos_bounds m) as [L U].
  set (d := Zpos (digits2_pos m)) in *.
  assert (Pk : 0 < 2 ^ k) by (apply pow2_pos; lia).
  apply digits2_unique. rewrite Hq.
  replace (d + k - 1) with (d - 1 + k) by lia.
  rewrite !Z.pow_add_r by (unfold d; lia). split; nia.
Qed.

Lemma bounded_parts (m : positive) (e : Z) :
  bounded prec emax m e = true ->
  fexp prec emax (Zpos (digits2_pos m) + e) = e /\ e <= emax - prec.
Proof.
  unfold bounded, canonical_mantissa. intros H.
  apply andb_prop in H. destruct H as [H1 H2].
  apply Z.eqb_eq in H1. apply Z.leb_le in H2. auto.
Qed.

(** Dividing a binary64 number by [1.0] gives the number. *)
Lemma fdiv_one (s : bool) (m : positive) (e : Z) :
  bounded prec emax m e = true ->
  SFdiv prec emax (S754_finite s m e) f_1 = S754_finite s m e.
Proof.
  intros B. destruct (bounded_parts m e B) as [C M].
  set (d := Zpos (digits2_pos m)) in *.
  assert (Hd : 1 <= d) by (unfold d; lia).
  rewrite fexp_eq in C.
  unfold f_1. cbn [SFdiv]. unfold SFdiv_core_binary.
  cbn [Zdigits2]. fold d.
  change (Zpos (digits2_pos 4503599627370496)) with 53.
  set (e' := Z.min (fexp prec emax (d + e - (53 + -52))) (e - -52)).
  assert (E' : e' = Z.max (d + e - 54) (-1074)).
  { unfold e'. rewrite fexp_eq. lia. }
  assert (S0 : 52 <= e - -52 - e' <= 53) by lia.
  set (sh := e - -52 - e') in *.
  assert (Msh : Z.shiftl (Zpos m) sh = Zpos m * 2 ^ (e - e') * 2 ^ 52).
  { rewrite Z.shiftl_mul_pow2 by lia. rewrite <- Z.mul_assoc.
    rewrite <- Z.pow_add_r by lia. f_equal. f_equal. unfold sh. lia. }
  assert (P : 0 < 2 ^ (e - e')) by (apply pow2_pos; lia).
  destruct sh as [|psh|psh] eqn:Esh; try lia.
  rewrite Msh.
  change (Zpos 4503599627370496) with (2 ^ 52).
  pose proof (Z.div_mul (Zpos m * 2 ^ (e - e')) (2 ^ 52) ltac:(lia)) as Dq.
  pose proof (Z.mod_mul (Zpos m * 2 ^ (e - e')) (2 ^ 52) ltac:(lia)) as Dr.
  unfold Z.div, Z.modulo in Dq, Dr.
  destruct (Z.div_eucl (Zpos m * 2 ^ (e - e') * 2 ^ 52) (2 ^ 52)) as [q r].
  subst q r.
  change (new_location (2 ^ 52) 0) with loc_Exact.
  rewrite xorb_false_r.
  destruct (Zpos m * 2 ^ (e - e')) as [|q|q] eqn:Eq; try lia.
  assert (Dg : Zpos (digits2_pos q) = d + (e - e')).
  { apply digits2_scaled; [lia | symmetry; exact Eq]. }
  rewrite (bra_exact s q e' (e - e')).
  - replace (e' + (e - e')) with e by lia.
    rewrite <- Eq, Z.div_mul by lia. reflexivity.
  - rewrite Dg. replace (d + (e - e') + e') with (d + e) by lia.
    rewrite fexp_eq. lia.
  - lia.
  - rewrite <- Eq. apply Z.mod_mul. lia.
  - lia.
Qed.

Lemma binary_round_aux_exponent (s : bool) (m e : Z) (l : location)
    (s' : bool) (m' : positive) (e' : Z) :
  0 <= m ->
  binary_round_aux prec emax s m e l = S754_finite s' m' e' ->
  e' <= emax - prec.
Proof.
  intros Hm. unfold binary_round_aux, shr_fexp.
  destruct (shr (shr_record_of_loc m l) e
              (fexp prec emax (Zdigits2 m + e) - e)) as [mrs1 e1].
  destruct (shr _ e1 _) as [mrs2 e2].
  destruct (shr_m mrs2) as [|p|p]; [discriminate | | discriminate].
  destruct (e2 <=? emax - prec) eqn:Le; [|discriminate].
  intros [= <- <- <-]. apply Z.leb_le. exact Le.
Qed.

(** A rounding that starts with enough digits ends in a canonical float. *)
Lemma binary_round_aux_valid (s : bool) (m e : Z) (l : location) :
  0 <= m ->
  e <= fexp prec emax (Zdigits2 m + e) ->
  valid_binary prec emax (binary_round_aux prec emax s m e l) = true.
Proof.
  intros Hm He.
  destruct (binary_round_aux prec emax s m e l) as [| | |s' m' e'] eqn:B;
    try reflexivity.
  pose proof (binary_round_aux_exponent _ _ _ _ _ _ _ Hm B) as Le.
  destruct (binary_round_aux_finite _ _ _ _ _ _ _ Hm B)
    as (m2 & R & _ & HM & HE & _).
  cbv zeta in R, HM, HE.
  set (n := shift_of m e) in *.
  set (e1 := e + n) in *.
  set (n2 := shift_of m2 e1) in *.
  assert (Hn : e1 = fexp prec emax (Zdigits2 m + e))
    by (unfold e1, n, shift_of; lia).
  assert (N0 : 0 <= n) by apply shift_of_nonneg.
  assert (N2 : 0 <= n2) by apply shift_of_nonneg.
  assert (Pn : 0 < 2 ^ n) by (apply pow2_pos; lia).
  assert (Pn2 : 0 < 2 ^ n2) by (apply pow2_pos; lia).
  rewrite fexp_eq in Hn.
  (* the first shift leaves at most 53 bits, and 53 of a normal number *)
  assert (A : m / 2 ^ n < 2 ^ 53
              /\ (-1074 < e1 -> 2 ^ 52 <= m / 2 ^ n)).
  { destruct m as [|p|p]; [| | lia].
    - rewrite Z.div_0_l by lia. split; [lia |].
      cbn [Zdigits2] in Hn. lia.
    - cbn [Zdigits2] in Hn. destruct (digits2_pos_bounds p) as [L U].
      set (d := Zpos (digits2_pos p)) in *.
      assert (Hd : 1 <= d) by (unfold d; lia).
      split.
      + apply Z.div_lt_upper_bound; [lia |].
        assert (Q : 2 ^ d <= 2 ^ (n + 53))
          by (apply Z.pow_le_mono_r; unfold e1 in Hn; lia).
        rewrite Z.pow_add_r in Q by lia. lia.
      + intros G. assert (Dn : d - 1 = 52 + n) by (unfold e1 in *; lia).
        rewrite Dn in L. rewrite Z.pow_add_r in L by lia.
        apply Z.div_le_lower_bound; lia. }
  destruct A as [A1 A2].
  assert (P2 : 0 < m2).
  { destruct (Z_lt_le_dec 0 m2) as [|G]; [assumption |]. exfalso.
    assert (m2 / 2 ^ n2 <= 0); [| lia].
    apply Z.div_le_upper_bound; lia. }
  destruct m2 as [|p2|p2]; try lia.
  assert (V : fexp prec emax (Zpos (digits2_pos m') + e') = e').
  { rewrite fexp_eq.
    destruct (Z.eq_dec (Zpos p2) (2 ^ 53)) as [Top|NTop].
    - assert (T : p2 = 9007199254740992%positive) by (apply Pos2Z.inj; exact Top).
      subst p2.
      assert (En2 : n2 = 1).
      { unfold n2, shift_of. rewrite fexp_eq. cbn [Zdigits2].
        change (Zpos (digits2_pos 9007199254740992)) with 54. lia. }
      rewrite En2 in HM, HE.
      change (Zpos 9007199254740992 / 2 ^ 1) with (Zpos 4503599627370496) in HM.
      apply Pos2Z.inj in HM. subst m'.
      change (Zpos (digits2_pos 4503599627370496)) with 53. lia.
    - assert (Lt : Zpos p2 < 2 ^ 53) by lia.
      pose proof (digits2_le p2 53 Lt ltac:(lia)) as D2.
      assert (En2 : n2 = 0).
      { unfold n2, shift_of. rewrite fexp_eq. cbn [Zdigits2]. lia. }
      rewrite En2 in HM, HE. change (2 ^ 0) with 1 in HM.
      rewrite Z.div_1_r in HM. apply Pos2Z.inj in HM. subst m'.
      destruct (Z_lt_le_dec (-1074) e1) as [G|G].
      + specialize (A2 G).
        assert (D3 : Zpos (digits2_pos p2) = 53)
          by (apply digits2_unique; change (53 - 1) with 52; lia).
        lia.
      + lia. }
  cbn [valid_binary]. unfold bounded, canonical_mantissa.
  rewrite V, Z.eqb_refl. cbn [andb]. apply Z.leb_le. exact Le.
Qed.

Lemma digits2_ge (q : Z) (k : Z) :
  0 <= q -> (0 <= k - 1 -> 2 ^ (k - 1) <= q) -> k <= Z.max 0 (Zdigits2 q) .
Proof.
  intros Hq H. destruct (Z_lt_le_dec (k - 1) 0) as [|G]; [lia |].
  specialize (H G).
  assert (0 < 2 ^ (k - 1)) by (apply pow2_pos; lia).
  destruct q as [|p|p]; try lia. cbn [Zdigits2].
  destruct (digits2_pos_bounds p) as [_ U].
  assert (k - 1 < Zpos (digits2_pos p)); [| lia].
  apply (Z.pow_lt_mono_r_iff 2); lia.
Qed.

Lemma Zdigits2_nonneg (q : Z) : 0 <= q -> 0 <= Zdigits2 q.
Proof. destruct q; cbn [Zdigits2]; lia. Qed.

Lemma fexp_mono (x y : Z) : x <= y -> fexp prec emax x <= fexp prec emax y.
Proof. rewrite !fexp_eq. lia. Qed.

(** The quotient of [SFdiv_core_binary] has enough digits to be rounded. *)
Lemma div_core_digits (m1 : positive) (e1 : Z) (m2 : positive) (e2 : Z) :
  let '(q, e', _) := SFdiv_core_binary prec emax (Zpos m1) e1 (Zpos m2) e2 in
  0 <= q /\ e' <= fexp prec emax (Zdigits2 q + e').
Proof.
  unfold SFdiv_core_binary. cbn [Zdigits2].
  destruct (digits2_pos_bounds m1) as [L1 U1].
  destruct (digits2_pos_bounds m2) as [L2 U2].
  set (d1 := Zpos (digits2_pos m1)) in *.
  set (d2 := Zpos (digits2_pos m2)) in *.
  assert (Hd1 : 1 <= d1) by (unfold d1; lia).
  assert (Hd2 : 1 <= d2) by (unfold d2; lia).
  set (e' := Z.min (fexp prec emax (d1 + e1 - (d2 + e2))) (e1 - e2)).
  set (sh := e1 - e2 - e').
  assert (Hs : 0 <= sh) by (unfold sh, e'; lia).
  set (m' := match sh with Z0 => Zpos m1 | Zpos _ => Z.shiftl (Zpos m1) sh
                      | Zneg _ => 0 end).
  assert (Hm' : m' = Zpos m1 * 2 ^ sh).
  { unfold m'. destruct sh as [|p|p] eqn:E; [| | lia].
    - change (2 ^ 0) with 1. lia.
    - apply Z.shiftl_mul_pow2. lia. }
  assert (Ps : 0 < 2 ^ sh) by (apply pow2_pos; lia).
  pose proof (Z_div_mod m' (Zpos m2) eq_refl) as DM.
  destruct (Z.div_eucl m' (Zpos m2)) as [q r].
  destruct DM as [DM R].
  assert (Hq : 0 <= q) by nia.
  split; [exact Hq |].
  assert (G : d1 + sh - d2 <= Z.max 0 (Zdigits2 q)).
  { apply digits2_ge; [exact Hq |]. intros K.
    destruct (Z_le_gt_dec (2 ^ (d1 + sh - d2 - 1)) q) as [|Lt]; [assumption |].
    exfalso.
    assert (B1 : m' < 2 ^ (d1 + sh - d2 - 1) * Zpos m2) by nia.
    assert (0 < 2 ^ (d1 + sh - d2 - 1)) by (apply pow2_pos; lia).
    assert (B2 : 2 ^ (d1 + sh - d2 - 1) * Zpos m2
                 < 2 ^ (d1 + sh - d2 - 1) * 2 ^ d2) by nia.
    rewrite <- Z.pow_add_r in B2 by lia.
    replace (d1 + sh - d2 - 1 + d2) with (d1 - 1 + sh) in B2 by lia.
    rewrite Z.pow_add_r in B2 by lia. nia. }
  pose proof (Zdigits2_nonneg q Hq) as Dq.
  assert (F : fexp prec emax (d1 + e1 - (d2 + e2))
              <= fexp prec emax (Zdigits2 q + e')).
  { apply fexp_mono. unfold sh in G. lia. }
  unfold e' at 1. lia.
Qed.

(** [a / b] of two ints is a canonical binary64 number. *)
Lemma int_truediv_valid (a b : Z) (x : float) :
  int_truediv a b = inr x -> valid_binary prec emax x = true.
Proof.
  unfold int_truediv. intros H.
  assert (D : forall s1 m1 s2 m2,
             valid_binary prec emax
               (SFdiv prec emax (S754_finite s1 m1 0) (S754_finite s2 m2 0))
             = true).
  { intros s1 m1 s2 m2. cbn [SFdiv].
    pose proof (div_core_digits m1 0 m2 0) as C.
    destruct (SFdiv_core_binary prec emax (Zpos m1) 0 (Zpos m2) 0)
      as [[q e'] l].
    destruct C as [C1 C2]. apply binary_round_aux_valid; assumption. }
  destruct b as [|b|b]; [discriminate | |];
    (destruct a as [|a|a];
     [injection H as <-; reflexivity | |]);
    match type of H with
    | match ?d with _ => _ end = _ =>
        pose proof (D _ _ _ _ : valid_binary prec emax d = true) as V;
        destruct d; try discriminate; injection H as <-; exact V
    end.
Qed.

(** [float(z)] of an int below 2^53 in size is exact. *)
Lemma float_of_int_exact (z : Z) :
  Z.abs z < 2 ^ 53 -> float_of_int z = inr (int_float z).
Proof.
  intros H. unfold float_of_int. fold (int_float z).
  destruct (Z.eq_dec z 0) as [->|N]; [reflexivity |].
  destruct (int_float_finite z N H) as (m & e & -> & _). reflexivity.
Qed.

(** The mean of one sample is the sample: the sum [0 + x] is [x] and the
    division by [1.0] does not round.  Only the zero with a sign loses
    it. *)
Lemma mean_of_one (alg : float_sum) (x : float) :
  valid_binary prec emax x = true ->
  x <> S754_zero true ->
  fdiv (fsum alg [x]) f_1 = inr x.
Proof.
  intros V N. rewrite fsum_single.
  destruct x as [[|]|s| |s m e].
  - exfalso. apply N. reflexivity.
  - reflexivity.
  - cbn. rewrite xorb_false_r. reflexivity.
  - reflexivity.
  - change (fdiv (fadd (S754_zero false) (S754_finite s m e)) f_1)
      with (@inr exn _ (SFdiv prec emax (S754_finite s m e) f_1)).
    rewrite fdiv_one by exact V. reflexivity.
Qed.

End ExactSums.

(* ================================================================== *)
(** * The estimate of the batch limit *)
(* ================================================================== *)

Module Estimate.
Import Py Eff BenchmarkComputation Binary64 ExactSums.

(** [math.floor(x)] for a finite float [x]: the greatest integer that is
    not above it. *)
Definition spec_floor (x : float) : option Z :=
  match x with
  | S754_zero _ => Some 0
  | S754_finite s m e =>
      let v := if s then Zneg m else Zpos m in
      Some (match e with
            | Zneg p => v / 2 ^ Zpos p
            | _ => v * 2 ^ e
            end)
  | _ => None
  end.

(** On a float that is not negative, [int] is the floor. *)
Lemma int_is_floor (x : float) (t : Z) :
  sound x -> int_of_float x = inr t -> spec_floor x = Some t.
Proof.
  intros Hx Ht. destruct x as [s|s| |s m e]; try discriminate.
  - injection Ht as <-. reflexivity.
  - destruct Hx as [-> _]. rewrite int_of_float_finite in Ht.
    assert (T : trunc m e = t) by congruence. rewrite <- T.
    unfold spec_floor, trunc. destruct e as [|p|p].
    + change (2 ^ 0) with 1. rewrite Z.mul_1_r. reflexivity.
    + reflexivity.
    + reflexivity.
Qed.

(** The literal [0.9] is the binary64 value of [1 - 0.1]. *)
Lemma safety_margin_factor : fsub f_1 f_0_1 = f_0_9.
Proof. vm_compute. reflexivity. Qed.

Lemma max_load_at_sound (avg : float) (t : Z) :
  max_load_at avg = inr t ->
  exists q, sound q /\ int_of_float q = inr t.
Proof.
  unfold max_load_at, ebind. intros H.
  destruct (gt_zero avg) eqn:G.
  - destruct (fdiv f_9999 avg) as [?|q] eqn:Eq; [discriminate|].
    exists q. split; [exact (fdiv_9999_sound avg q G Eq) | exact H].
  - exists (S754_zero false). split; [exact I | exact H].
Qed.

Definition float_3090 : float :=
  Eval vm_compute in binary_normalize prec emax 3090 0 false.

(** Scenario C: one probe, 9948 CU at 3075 users. *)
Definition per_user_C : float :=
  Eval vm_compute in
    match int_truediv 9948 3075 with inr x => x | inl _ => S754_nan end.

Definition percent_C : float :=
  Eval vm_compute in
    match int_truediv 9948 9999 with
    | inr x => fmul x f_100
    | inl _ => S754_nan
    end.

Definition probe_C : probe :=
  {| probe_batch_size := 3075;
     probe_computation := 9948;
     percent := percent_C;
     per_user := per_user_C |}.

Definition estimate_C : limit_estimate :=
  {| avg_per_user_cu := per_user_C;
     theoretical_max := 3090;
     recommended_max := 2781;
     limit_results := [probe_C] |}.

(** A result of a benchmark with [users] users whose batches cost
    [cus]. *)
Definition measured (users : Z) (cus : list Z) : BenchmarkResult :=
  {| user_count := users; batch_size := 50; create_pool_cu := 0;
     setup_users_total_cu := 0; deposit_cus := []; fund_lottery_cu := 0;
     start_draw_cu := 0; batch_cus := cus; request_randomness_cu := 0;
     complete_draw_cu := 0 |}.

(** Five results with the per-user costs 20, 30, 0 (no users), 0 (no
    computation) and 40. *)
Definition five_results : list BenchmarkResult :=
  [measured 10 [200]; measured 20 [300; 300]; measured 0 [70];
   measured 5 []; measured 50 [2000]].

Lemma float_of_int_one {A : Type} (x : A) : float_of_int (len [x]) = inr f_1.
Proof. reflexivity. Qed.

Lemma len_map {A B : Type} (f : A -> B) (l : list A) : len (map f l) = len l.
Proof. unfold len. rewrite length_map. reflexivity. Qed.

(** The mean of integer costs is the quotient of their exact sum. *)
Lemma mean_of_ints (alg : float_sum) (xs : list float) (n avg : float)
    (zs : list Z) :
  fdiv (fsum alg xs) n = inr avg ->
  xs = map int_float zs ->
  Forall (fun z => 0 <= z) zs ->
  sum zs < 2 ^ 53 ->
  exists total,
    float_of_int (sum zs) = inr total /\ fdiv total n = inr avg.
Proof.
  intros Ea -> Hz Hs. rewrite fsum_exact in Ea by assumption.
  exists (int_float (sum zs)). split; [| exact Ea].
  apply float_of_int_exact. pose proof (sum_nonneg zs Hz). lia.
Qed.

(** The mean of one cost is that cost. *)
Lemma mean_of_sample (alg : float_sum) (x n avg : float) :
  float_of_int (len [x]) = inr n ->
  fdiv (fsum alg [x]) n = inr avg ->
  valid_binary prec emax x = true ->
  avg = x \/ x = S754_zero true.
Proof.
  intros En Ea V. rewrite float_of_int_one in En. injection En as <-.
  destruct x as [[|]|s| |s m e] eqn:Ex; [right; reflexivity | | | |];
    left; rewrite mean_of_one in Ea by (assumption || discriminate);
    congruence.
Qed.

(** The formulas of the summary of [find_batch_limit]. *)
Lemma limit_summary_formulas (alg : float_sum) (results : list probe)
    (e : limit_estimate) :
  limit_summary alg results = inr (LimitEstimate e) ->
  results <> []
  /\ limit_results e = results
  /\ (exists n,
        float_of_int (len results) = inr n
        /\ fdiv (fsum alg (map per_user results)) n
           = inr (avg_per_user_cu e)
        /\ (forall zs,
              map per_user results = map int_float zs ->
              Forall (fun z => 0 <= z) zs ->
              sum zs < 2 ^ 53 ->
              exists total,
                float_of_int (sum zs) = inr total
                /\ fdiv total n = inr (avg_per_user_cu e)))
  /\ (forall p,
        results = [p] ->
        valid_binary prec emax (per_user p) = true ->
        avg_per_user_cu e = per_user p \/ per_user p = S754_zero true)
  /\ (if gt_zero (avg_per_user_cu e)
      then exists q,
             fdiv f_9999 (avg_per_user_cu e) = inr q
             /\ spec_floor q = Some (theoretical_max e)
      else theoretical_max e = 0)
  /\ (exists x,
        float_of_int (theoretical_max e) = inr x
        /\ spec_floor (fmul x (fsub f_1 f_0_1)) = Some (recommended_max e))
  /\ 0 <= recommended_max e <= theoretical_max e.
Proof.
  intros H. unfold limit_summary in H.
  destruct results as [|p0 rest]; [discriminate|].
  cbv beta iota in H. unfold ebind in H.
  destruct (float_of_int (len (p0 :: rest))) as [?|n] eqn:En;
    [discriminate|].
  destruct (fdiv (fsum alg (map per_user (p0 :: rest))) n) as [?|avg] eqn:Ea;
    [discriminate|].
  destruct (max_load_at avg) as [?|tmax] eqn:Et; [discriminate|].
  destruct (float_of_int tmax) as [?|x] eqn:Ex; [discriminate|].
  destruct (int_of_float (fmul x f_0_9)) as [?|safe] eqn:Es;
    [discriminate|].
  assert (He : e = {| avg_per_user_cu := avg; theoretical_max := tmax;
                      recommended_max := safe;
                      limit_results := p0 :: rest |}) by congruence.
  subst e. cbn [avg_per_user_cu theoretical_max recommended_max limit_results].
  destruct (max_load_at_sound avg tmax Et) as (q & Hq & Hqt).
  split; [discriminate|]. split; [reflexivity|].
  split.
  { exists n. split; [reflexivity |]. split; [exact Ea |].
    intros zs Hm Hz Hs. exact (mean_of_ints alg _ n avg zs Ea Hm Hz Hs). }
  split.
  { intros p [= -> ->] V. exact (mean_of_sample alg _ n avg En Ea V). }
  split.
  - unfold max_load_at, ebind in Et. destruct (gt_zero avg) eqn:G.
    + destruct (fdiv f_9999 avg) as [?|q'] eqn:Eq; [discriminate|].
      exists q'. split; [reflexivity|].
      apply int_is_floor; [exact (fdiv_9999_sound avg q' G Eq) | exact Et].
    + congruence.
  - split.
    + exists x. split; [exact Ex|].
      rewrite safety_margin_factor. apply int_is_floor; [|exact Es].
      apply (fmul_0_9_sound x tmax).
      exact (float_of_trunc_below q tmax x Hq Hqt Ex).
    + exact (margin_le q tmax x safe Hq Hqt Ex Es).
Qed.

(** The per-user costs that [print_benchmark_summary] averages are
    canonical floats above zero. *)
Lemma valid_per_user_positive (results : list BenchmarkResult) :
  forall xs,
    valid_per_user results = inr xs ->
    Forall (fun x => valid_binary prec emax x = true /\ gt_zero x = true) xs.
Proof.
  induction results as [|r rest IH]; intros xs.
  - intros [= <-]. constructor.
  - cbn [valid_per_user]. unfold per_user_batch_cu.
    destruct (0 <? user_count r).
    + destruct (int_truediv (total_batch_cu r) (user_count r))
        as [?|q] eqn:Eq; [discriminate |].
      cbn [ebind].
      destruct (valid_per_user rest) as [?|ys]; [discriminate |].
      cbn [ebind]. specialize (IH ys eq_refl).
      destruct (num_gt (NFloat q) 0) eqn:G.
      * cbn. intros [= <-]. constructor; [| exact IH].
        split; [exact (int_truediv_valid _ _ _ Eq) | exact G].
      * intros [= <-]. exact IH.
    + cbn [ebind].
      destruct (valid_per_user rest) as [?|ys]; [discriminate |].
      cbn. intros [= <-]. exact (IH ys eq_refl).
Qed.

(** The per-user batch cost of a result ([per_user_batch_cu], line 109):
    the computation of the batches divided by the users, and zero without
    users. *)
Definition cost_of (r : BenchmarkResult) (c : float) : Prop :=
  (0 < user_count r
   /\ int_truediv (total_batch_cu r) (user_count r) = inr c)
  \/ (user_count r <= 0 /\ c = S754_zero false).

(** The costs that [print_benchmark_summary] averages are the per-user
    costs of the results, in order, without those that are not positive. *)
Lemma valid_per_user_filter (results : list BenchmarkResult) :
  forall xs,
    valid_per_user results = inr xs ->
    exists costs,
      Forall2 cost_of results costs /\ xs = filter gt_zero costs.
Proof.
  induction results as [|r rest IH]; intros xs.
  - intros [= <-]. exists []. split; [constructor | reflexivity].
  - cbn [valid_per_user]. unfold per_user_batch_cu.
    destruct (0 <? user_count r) eqn:U.
    + apply Z.ltb_lt in U.
      destruct (int_truediv (total_batch_cu r) (user_count r))
        as [?|q] eqn:Eq; [discriminate |].
      cbn [ebind].
      destruct (valid_per_user rest) as [?|ys]; [discriminate |].
      cbn [ebind]. destruct (IH ys eq_refl) as (costs & F & ->).
      intros H. exists (q :: costs).
      split; [constructor; [left; auto | exact F] |].
      cbn [filter]. change (gt_zero q) with (num_gt (NFloat q) 0).
      destruct (num_gt (NFloat q) 0); cbn in H; congruence.
    + apply Z.ltb_ge in U. cbn [ebind].
      destruct (valid_per_user rest) as [?|ys]; [discriminate |].
      cbn [ebind]. destruct (IH ys eq_refl) as (costs & F & ->).
      cbn. intros [= <-]. exists (S754_zero false :: costs).
      split; [constructor; [right; auto | exact F] | reflexivity].
Qed.

(** The formulas of the estimate of [print_benchmark_summary], over the
    results with a positive per-user cost. *)
Lemma summary_estimate_formulas (alg : float_sum)
    (results : list BenchmarkResult) (avg : float) (m : option Z) :
  summary_estimate alg results = inr (Some (avg, m)) ->
  exists xs,
    valid_per_user results = inr xs
    /\ (exists costs,
          Forall2 cost_of results costs /\ xs = filter gt_zero costs)
    /\ xs <> []
    /\ (exists n,
          float_of_int (len xs) = inr n
          /\ fdiv (fsum alg xs) n = inr avg
          /\ (forall zs,
                xs = map int_float zs ->
                Forall (fun z => 0 <= z) zs ->
                sum zs < 2 ^ 53 ->
                exists total,
                  float_of_int (sum zs) = inr total
                  /\ fdiv total n = inr avg))
    /\ (forall x, xs = [x] -> avg = x)
    /\ match m with
       | Some t =>
           gt_zero avg = true
           /\ exists q, fdiv f_9999 avg = inr q /\ spec_floor q = Some t
       | None => gt_zero avg = false
       end.
Proof.
  unfold summary_estimate, ebind. intros H.
  destruct (valid_per_user results) as [?|xs] eqn:V; [discriminate|].
  pose proof (valid_per_user_positive results xs V) as P.
  destruct xs as [|x0 xs]; [discriminate|].
  destruct (float_of_int (len (x0 :: xs))) as [?|n] eqn:En; [discriminate|].
  destruct (fdiv (fsum alg (x0 :: xs)) n) as [?|a] eqn:Ea; [discriminate|].
  exists (x0 :: xs). split; [reflexivity |].
  split; [exact (valid_per_user_filter results _ V) |].
  split; [discriminate |].
  assert (M : forall x, x0 :: xs = [x] -> a = x).
  { intros x [= -> ->]. inversion P as [|? ? [Vx Gx] _]; subst.
    destruct (mean_of_sample alg x n a En Ea Vx) as [|Z]; [assumption |].
    rewrite Z in Gx. discriminate. }
  destruct (gt_zero a) eqn:G.
  - destruct (fdiv f_9999 a) as [?|q] eqn:Eq; [discriminate|].
    destruct (int_of_float q) as [?|t] eqn:Et; [discriminate|].
    injection H as <- <-.
    split.
    { exists n. split; [exact En |]. split; [exact Ea |].
      intros zs Hm Hz Hs. exact (mean_of_ints alg _ n a zs Ea Hm Hz Hs). }
    split; [exact M |]. split; [exact G |].
    exists q. split; [exact Eq |].
    apply int_is_floor; [exact (fdiv_9999_sound _ _ G Eq) | exact Et].
  - injection H as <- <-.
    split.
    { exists n. split; [exact En |]. split; [exact Ea |].
      intros zs Hm Hz Hs. exact (mean_of_ints alg _ n a zs Ea Hm Hz Hs). }
    split; [exact M | exact G].
Qed.

(** C1.  The estimate of a limit-finding run, in binary64 arithmetic and
    for both ways in which an interpreter adds the floats of [sum].

    The summary of [find_batch_limit]: whenever it yields an estimate there
    is at least one successful probe, and the estimate holds the arithmetic
    mean of the per-user costs of the probes, that is their sum divided by
    their number, where the sum is the exact sum when the costs are
    integers (no addition rounds, and the mean is the quotient of the
    exact sum by the number), and the mean of one cost is this cost; as
    theoretical maximum the floor of 9999 divided by the mean when the
    mean is positive, and 0 otherwise; as recommended maximum the floor of
    the theoretical maximum times [1 - 0.1].  The recommended maximum is
    never negative and never above the theoretical maximum.

    A run of [find_batch_limit] that reports an estimate has exactly one
    successful probe, at the load [max_users]; its per-user cost is the
    computation divided by [max_users] and the reported mean is this cost.

    [print_benchmark_summary]: the costs averaged are the per-user costs
    of the results, in order, without those that are not positive; the
    average is the same mean over them, and the estimated maximum is the
    floor of 9999 divided by it (N/A when the average is not positive). *)
Theorem limit_estimate_formulas (alg : float_sum) :
  (forall (results : list probe) (e : limit_estimate),
      limit_summary alg results = inr (LimitEstimate e) ->
      results <> []
      /\ limit_results e = results
      /\ (exists n,
            float_of_int (len results) = inr n
            /\ fdiv (fsum alg (map per_user results)) n
               = inr (avg_per_user_cu e)
            /\ (forall zs,
                  map per_user results = map int_float zs ->
                  Forall (fun z => 0 <= z) zs ->
                  sum zs < 2 ^ 53 ->
                  exists total,
                    float_of_int (sum zs) = inr total
                    /\ fdiv total n = inr (avg_per_user_cu e)))
      /\ (forall p,
            results = [p] ->
            valid_binary prec emax (per_user p) = true ->
            avg_per_user_cu e = per_user p \/ per_user p = S754_zero true)
      /\ (if gt_zero (avg_per_user_cu e)
          then exists q,
                 fdiv f_9999 (avg_per_user_cu e) = inr q
                 /\ spec_floor q = Some (theoretical_max e)
          else theoretical_max e = 0)
      /\ (exists x,
            float_of_int (theoretical_max e) = inr x
            /\ spec_floor (fmul x (fsub f_1 f_0_1))
               = Some (recommended_max e))
      /\ 0 <= recommended_max e <= theoretical_max e)
  /\ (forall (S : Type) (exec : S -> call -> outcome * S)
             (json_loads : string -> option report)
             (max_users : Z) (fuel : nat) (pool_id : Z) (w w' : world S)
             (e : limit_estimate),
         find_batch_limit_probing S exec json_loads alg max_users fuel
           pool_id w
         = (inr (Some (LimitEstimate e)), w') ->
         exists p,
           limit_results e = [p]
           /\ probe_batch_size p = max_users
           /\ 0 < probe_computation p
           /\ int_truediv (probe_computation p) max_users = inr (per_user p)
           /\ (avg_per_user_cu e = per_user p
               \/ per_user p = S754_zero true))
  /\ (forall (results : list BenchmarkResult) (avg : float) (m : option Z),
         summary_estimate alg results = inr (Some (avg, m)) ->
         exists xs,
           valid_per_user results = inr xs
           /\ (exists costs,
                 Forall2 cost_of results costs
                 /\ xs = filter gt_zero costs)
           /\ xs <> []
           /\ (exists n,
                 float_of_int (len xs) = inr n
                 /\ fdiv (fsum alg xs) n = inr avg
                 /\ (forall zs,
                       xs = map int_float zs ->
                       Forall (fun z => 0 <= z) zs ->
                       sum zs < 2 ^ 53 ->
                       exists total,
                         float_of_int (sum zs) = inr total
                         /\ fdiv total n = inr avg))
           /\ (forall x, xs = [x] -> avg = x)
           /\ match m with
              | Some t =>
                  gt_zero avg = true
                  /\ exists q,
                      fdiv f_9999 avg = inr q /\ spec_floor q = Some t
              | None => gt_zero avg = false
              end).
Proof.
  split; [| split].
  - intros results e. apply limit_summary_formulas.
  - intros S exec json_loads max_users fuel pool_id w w' e H.
    destruct (Probing.estimate_from_one_probe S exec json_loads _ _ _ _ _ _
                _ H)
      as (status & w0 & res & w1 & p & _ & _ & _ & _ & Hpos & Hb & Hpu & L).
    destruct (limit_summary_formulas alg [p] e L)
      as (_ & R & _ & One & _).
    exists p. split; [exact R |]. split; [exact Hb |].
    split; [exact Hpos |]. split; [exact Hpu |].
    apply (One p eq_refl). exact (int_truediv_valid _ _ _ Hpu).
  - intros results avg m. apply summary_estimate_formulas.
Qed.

(** Two probes with the per-user costs 2 and 4. *)
Definition two_results : list probe :=
  [{| probe_batch_size := 100; probe_computation := 200;
      percent := S754_zero false; per_user := int_float 2 |};
   {| probe_batch_size := 100; probe_computation := 400;
      percent := S754_zero false; per_user := int_float 4 |}].

Definition estimate_of_two : limit_estimate :=
  {| avg_per_user_cu := int_float 3;
     theoretical_max := 3333;
     recommended_max := 2999;
     limit_results := two_results |}.

(** Scenario C: theoretical maximum 3090, recommended maximum 2781, and
    the mean of the one probe is its per-user cost.  Two probes with the
    per-user costs 2 and 4: the mean is 6 / 2 = 3, the maxima 3333 and
    2999.  Five results with the per-user costs 20, 30, 0, 0 and 40: the
    average is taken over the three positive ones, 90 / 3 = 30, and the
    estimated maximum is 333. *)
Lemma scenario_C_estimate :
  limit_summary PlainSum [probe_C] = inr (LimitEstimate estimate_C)
  /\ spec_floor (fmul (float_3090) (fsub f_1 f_0_1)) = Some 2781
  /\ 0 <= recommended_max estimate_C <= theoretical_max estimate_C
  /\ avg_per_user_cu estimate_C = per_user probe_C
  /\ limit_summary CompensatedSum two_results
     = inr (LimitEstimate estimate_of_two)
  /\ (exists total n,
         float_of_int 6 = inr total
         /\ float_of_int 2 = inr n
         /\ fdiv total n = inr (int_float 3))
  /\ summary_estimate CompensatedSum five_results
     = inr (Some (int_float 30, Some 333))
  /\ valid_per_user five_results = inr (map int_float [20; 30; 40])
  /\ exists total n,
      float_of_int 90 = inr total
      /\ float_of_int 3 = inr n
      /\ fdiv total n = inr (int_float 30).
Proof.
  assert (H : limit_summary PlainSum [probe_C]
              = inr (LimitEstimate estimate_C))
    by (vm_compute; reflexivity).
  assert (H2 : limit_summary CompensatedSum two_results
               = inr (LimitEstimate estimate_of_two))
    by (vm_compute; reflexivity).
  assert (H' : summary_estimate CompensatedSum five_results
               = inr (Some (int_float 30, Some 333)))
    by (vm_compute; reflexivity).
  assert (V' : valid_per_user five_results
               = inr (map int_float [20; 30; 40]))
    by (vm_compute; reflexivity).
  split; [exact H|].
  destruct (limit_estimate_formulas PlainSum) as (F & _).
  destruct (F [probe_C] estimate_C H)
    as (_ & _ & _ & One & _ & (x & Ex & Hx) & Hle).
  split.
  { assert (X : x = float_3090).
    { cbn [theoretical_max estimate_C] in Ex.
      assert (F3 : float_of_int 3090 = inr (float_3090))
        by (vm_compute; reflexivity).
      congruence. }
    rewrite <- X. exact Hx. }
  split; [exact Hle |].
  split.
  { destruct (One probe_C eq_refl eq_refl) as [E|Z];
      [exact E | discriminate Z]. }
  split; [exact H2 |].
  destruct (limit_estimate_formulas CompensatedSum) as (F2 & _ & G).
  split.
  { destruct (F2 two_results estimate_of_two H2)
      as (_ & _ & (n & En & _ & Ints) & _).
    destruct (Ints [2; 4] eq_refl) as (total & T & D).
    { repeat constructor; lia. }
    { vm_compute. reflexivity. }
    exists total, n. split; [exact T |]. split; [exact En | exact D]. }
  split; [exact H' |]. split; [exact V' |].
  destruct (G five_results _ _ H')
    as (xs & V & _ & _ & (n & En & _ & Ints) & _).
  assert (Vx : xs = map int_float [20; 30; 40]) by congruence.
  destruct (Ints [20; 30; 40] Vx) as (total & T & D).
  { repeat constructor; lia. }
  { vm_compute. reflexivity. }
  exists total, n. split; [exact T |]. split; [| exact D].
  rewrite Vx in En. exact En.
Defined.

End Estimate.

(* ================================================================== *)
(** * Identifiers read from text *)
(* ================================================================== *)

Module TextForms.
Import Py BenchmarkComputation.

(** Every character of [s] is in the class [p]. *)
Fixpoint all_chars (p : ascii -> bool) (s : string) : bool :=
  match s with
  | EmptyString => true
  | String c t => (p c && all_chars p t)%bool
  end.

(** [s] does not begin with a character of the class [p]. *)
Definition stops (p : ascii -> bool) (s : string) : Prop :=
  match s with
  | EmptyString => True
  | String c _ => p c = false
  end.

Lemma span_spec (p : ascii -> bool) (s : string) :
  s = fst (span p s) ++ snd (span p s)
  /\ all_chars p (fst (span p s)) = true
  /\ stops p (snd (span p s)).
Proof.
  induction s as [|c s IH]; cbn [span].
  - repeat split.
  - destruct (p c) eqn:E.
    + destruct (span p s) as [a b]. cbn [fst snd] in *.
      destruct IH as (H1 & H2 & H3).
      split; [cbn; congruence |]. split; [cbn; rewrite E, H2; reflexivity |].
      exact H3.
    + cbn [fst snd]. repeat split. exact E.
Qed.

Lemma span_app (p : ascii -> bool) (a b : string) :
  all_chars p a = true -> stops p b -> span p (a ++ b) = (a, b).
Proof.
  intros Ha Hb. induction a as [|c a IH]; cbn [append].
  - destruct b as [|d b]; [reflexivity |]. cbn [span]. cbn in Hb.
    rewrite Hb. reflexivity.
  - cbn [all_chars] in Ha. apply andb_prop in Ha. destruct Ha as [Hc Ha].
    cbn [span]. rewrite Hc, (IH Ha). reflexivity.
Qed.

Lemma strip_literal_spec (fold : ascii -> ascii) (p s rest : string) :
  strip_literal fold p s = Some rest ->
  exists h, s = h ++ rest /\ String.length h = String.length p.
Proof.
  revert s. induction p as [|a p IH]; intros s; cbn [strip_literal].
  - intros [= <-]. exists "". split; reflexivity.
  - destruct s as [|b s]; [discriminate |].
    destruct (Ascii.eqb a (fold b)); [|discriminate].
    intros H. destruct (IH _ H) as (h & -> & L).
    exists (String b h). split; [reflexivity | cbn; congruence].
Qed.

(** A header that folds to the literal is stripped. *)
Lemma strip_literal_app (fold : ascii -> ascii) (p h rest : string) :
  String.length h = String.length p ->
  (forall n, option_map fold (String.get n h) = String.get n p) ->
  strip_literal fold p (h ++ rest) = Some rest.
Proof.
  revert h. induction p as [|a p IH]; intros h L Hf.
  - destruct h; [reflexivity | discriminate].
  - destruct h as [|b h]; [discriminate |]. cbn [append strip_literal].
    pose proof (Hf O) as H0. cbn in H0. injection H0 as H0.
    rewrite <- H0, Ascii.eqb_refl. apply IH.
    + cbn in L. congruence.
    + intros n. exact (Hf (Datatypes.S n)).
Qed.

Lemma search_some (f : string -> option string) (s g : string) :
  search f s = Some g ->
  exists pre t, s = pre ++ t /\ f t = Some g.
Proof.
  induction s as [|c s IH]; cbn [search].
  - destruct (f "") eqn:E; [|discriminate].
    intros [= <-]. exists "", "". split; [reflexivity | exact E].
  - destruct (f (String c s)) eqn:E.
    + intros [= <-]. exists "", (String c s). split; [reflexivity | exact E].
    + intros H. destruct (IH H) as (pre & t & -> & Ht).
      exists (String c pre), t. split; [reflexivity | exact Ht].
Qed.

Lemma search_here (f : string -> option string) (s g : string) :
  f s = Some g -> search f s = Some g.
Proof. intros H. destruct s; cbn [search]; rewrite H; reflexivity. Qed.

Lemma append_assoc (a b c : string) : (a ++ b) ++ c = a ++ (b ++ c).
Proof. induction a as [|x a IH]; cbn; congruence. Qed.

Lemma all_chars_weaken (p q : ascii -> bool) (s : string) :
  (forall c, p c = true -> q c = true) ->
  all_chars p s = true -> all_chars q s = true.
Proof.
  intros H. induction s as [|c s IH]; cbn [all_chars]; [reflexivity |].
  intros E. apply andb_prop in E. destruct E as [E1 E2].
  rewrite (H _ E1), (IH E2). reflexivity.
Qed.

Lemma is_hex_is_hex_ci (c : ascii) : is_hex c = true -> is_hex_ci c = true.
Proof.
  unfold is_hex_ci, is_hex, ascii_lower, in_range.
  destruct (Nat.leb 65 (nat_of_ascii c) && Nat.leb (nat_of_ascii c) 90)%bool
    eqn:U; [|auto].
  intros H. exfalso.
  apply andb_prop in U. destruct U as [U1 U2].
  apply Nat.leb_le in U1. apply Nat.leb_le in U2.
  apply orb_prop in H.
  destruct H as [H|H]; apply andb_prop in H; destruct H as [H1 H2];
    apply Nat.leb_le in H1; apply Nat.leb_le in H2; lia.
Qed.

Lemma match_transaction_id_shape (s g : string) :
  match_transaction_id s = Some g ->
  g <> "" /\ all_chars is_hex_ci g = true
  /\ exists pre post, s = pre ++ g ++ post.
Proof.
  unfold match_transaction_id.
  destruct (strip_literal ascii_lower "transaction id:" s) as [rest|] eqn:E;
    [|discriminate].
  destruct (strip_literal_spec _ _ _ _ E) as (h & -> & _).
  pose proof (span_spec is_space rest) as (S1 & _ & _).
  destruct (span is_space rest) as [sp rest'].
  pose proof (span_spec is_hex_ci rest') as (S2 & S3 & _).
  destruct (span is_hex_ci rest') as [g' post]. cbn [fst snd] in *.
  destruct g' as [|c g']; [discriminate |].
  intros [= <-]. split; [discriminate |]. split; [exact S3 |].
  exists (h ++ sp), post. rewrite S1, S2.
  rewrite append_assoc. reflexivity.
Qed.

Lemma match_json_id_shape (s g : string) :
  match_json_id s = Some g ->
  g <> "" /\ all_chars is_hex g = true
  /\ exists pre post, s = pre ++ g ++ post.
Proof.
  unfold match_json_id.
  destruct (strip_literal (fun c => c) (quoted "id" ++ ":") s) as [rest|]
    eqn:E; [|discriminate].
  destruct (strip_literal_spec _ _ _ _ E) as (h & -> & _).
  pose proof (span_spec is_space rest) as (S1 & _ & _).
  destruct (span is_space rest) as [sp rest']. cbn [fst snd] in S1.
  destruct (strip_literal (fun c => c) dquote rest') as [rest''|] eqn:E2;
    [|discriminate].
  destruct (strip_literal_spec _ _ _ _ E2) as (q & -> & _).
  pose proof (span_spec is_hex rest'') as (S2 & S3 & _).
  destruct (span is_hex rest'') as [g' after]. cbn [fst snd] in *.
  destruct g' as [|c g']; [discriminate |].
  destruct (strip_literal (fun c => c) dquote after); [|discriminate].
  intros [= <-]. split; [discriminate |]. split; [exact S3 |].
  exists (h ++ sp ++ q), after. rewrite S1, S2.
  rewrite !append_assoc. reflexivity.
Qed.

(** X1.  An id that [parse_tx_id] reads from the output of the CLI is a
    piece of that output, is not empty and consists of hexadecimal digits
    only (in either case of the letters, as the first pattern ignores
    case). *)
Theorem parse_tx_id_hex (output id : string) :
  parse_tx_id output = Some id ->
  id <> ""
  /\ all_chars is_hex_ci id = true
  /\ exists pre post, output = pre ++ id ++ post.
Proof.
  unfold parse_tx_id. intros H.
  destruct (search match_transaction_id output) as [g|] eqn:E.
  - injection H as <-.
    destruct (search_some _ _ _ E) as (pre & t & -> & Ht).
    destruct (match_transaction_id_shape _ _ Ht) as (N & A & p1 & post & ->).
    split; [exact N |]. split; [exact A |].
    exists (pre ++ p1), post. rewrite append_assoc. reflexivity.
  - destruct (search_some _ _ _ H) as (pre & t & -> & Ht).
    destruct (match_json_id_shape _ _ Ht) as (N & A & p1 & post & ->).
    split; [exact N |].
    split; [exact (all_chars_weaken _ _ _ is_hex_is_hex_ci A) |].
    exists (pre ++ p1), post. rewrite append_assoc. reflexivity.
Qed.

Definition sample_id : string := "a1b2c3".

Lemma parse_tx_id_hex_witness :
  sample_id <> ""
  /\ all_chars is_hex_ci sample_id = true
  /\ exists pre post,
      "Transaction ID: a1b2c3" ++ String LF "Status: SEALED"
      = pre ++ sample_id ++ post.
Proof.
  apply (parse_tx_id_hex
           ("Transaction ID: a1b2c3" ++ String LF "Status: SEALED")).
  vm_compute. reflexivity.
Defined.

(** X2.  A line of the form [Transaction ID: <id>] is read back: whatever
    the case of the letters of the header, however much white space
    follows the colon, and whatever follows the id as long as it does not
    go on with a hexadecimal digit, [parse_tx_id] returns the id. *)
Theorem parse_tx_id_reads_header (header ws id rest : string) :
  lower header = "transaction id:" ->
  all_chars is_space ws = true ->
  id <> "" ->
  all_chars is_hex_ci id = true ->
  stops is_hex_ci rest ->
  parse_tx_id (header ++ ws ++ id ++ rest) = Some id.
Proof.
  intros Hh Hws Hne Hid Hrest.
  unfold parse_tx_id.
  assert (M : match_transaction_id (header ++ ws ++ id ++ rest) = Some id).
  { unfold match_transaction_id.
    rewrite (strip_literal_app ascii_lower "transaction id:" header).
    - rewrite (span_app is_space ws (id ++ rest) Hws).
      + rewrite (span_app is_hex_ci id rest Hid Hrest).
        destruct id; [congruence | reflexivity].
      + destruct id as [|c id]; [congruence |]. cbn [append stops].
        cbn [all_chars] in Hid. apply andb_prop in Hid. destruct Hid as [Hc _].
        revert Hc. unfold is_hex_ci, is_hex, is_space, in_range, ascii_lower.
        destruct (Nat.leb 65 (nat_of_ascii c) && Nat.leb (nat_of_ascii c) 90)%bool
          eqn:U.
        * apply andb_prop in U. destruct U as [U1 U2].
          apply Nat.leb_le in U1. apply Nat.leb_le in U2. intros _.
          apply orb_false_iff. split; apply andb_false_iff;
            rewrite !Nat.leb_gt; lia.
        * intros H. apply orb_prop in H.
          apply orb_false_iff.
          destruct H as [H|H]; apply andb_prop in H; destruct H as [H1 H2];
            apply Nat.leb_le in H1; apply Nat.leb_le in H2;
            split; apply andb_false_iff; rewrite !Nat.leb_gt; lia.
    - rewrite <- Hh. clear. induction header; cbn; congruence.
    - intros n. rewrite <- Hh. clear. revert n.
      induction header as [|c h IH]; intros n; [reflexivity |].
      destruct n; cbn; [reflexivity | apply IH]. }
  rewrite (search_here _ _ _ M). reflexivity.
Qed.

Lemma parse_tx_id_reads_header_witness :
  parse_tx_id ("TRANSACTION id:" ++ "  " ++ "0Fa9" ++ " sealed")
  = Some "0Fa9".
Proof.
  apply parse_tx_id_reads_header;
    [reflexivity | reflexivity | discriminate | reflexivity | reflexivity].
Defined.

End TextForms.

(* ================================================================== *)
(** * run_transaction and the status queries of benchmark_computation.py *)
(* ================================================================== *)

Module Transactions.
Import Py Eff BenchmarkComputation.

(** The command line of [run_transaction]. *)
Definition send_command (tx_path : string) (args : list string)
    (signer : option string) (compute_limit : Z) : list string :=
  (["flow"; "transactions"; "send"; tx_path;
    "--signer"; match signer with Some s => s | None => DEPLOYER_ACCOUNT end;
    "--compute-limit"; str_of_int compute_limit] ++ args)%list.

(** The request for the computation report. *)
Definition report_request : call :=
  UrlOpen (EMULATOR_ADMIN_URL ++ "/emulator/computationReport") "GET" 5.

(** The command line of the status script. *)
Definition status_command (pool_id : Z) : list string :=
  ["flow"; "scripts"; "execute"; SCRIPT_PATH ++ "/get_draw_status.cdc";
   str_of_int pool_id].

Definition batch_complete_marker : string :=
  quoted "isBatchComplete" ++ ": true".

Section WithWorld.
Variable S : Type.
Variable exec : S -> call -> outcome * S.
Variable json_loads : string -> option report.

Lemma report_logged (w : world S) :
  trace (snd (get_computation_report S exec json_loads w))
  = report_request :: trace w.
Proof.
  unfold get_computation_report, try_except, urlopen_read, bind, request, ret,
    raise.
  fold report_request.
  destruct (exec (env w) report_request) as [[rc out err|e] s']; cbn.
  - destruct (json_loads out); reflexivity.
  - destruct (isinstance_URLError e || isinstance_JSONDecodeError e)%bool;
      reflexivity.
Qed.

(** X3.  [run_transaction] runs the CLI exactly once.  It asks the emulator
    for the computation report at most once, after the CLI, and only for a
    transaction that it classified as successful and whose id it could
    read: a transaction reported as failed, or without an id, makes no
    request for the report and carries no computation. *)
Theorem run_transaction_lookup (tx_path : string) (args : list string)
    (signer : option string) (limit : Z) (w : world S)
    (res : TransactionResult) (w' : world S) :
  run_transaction S exec json_loads tx_path args signer limit w
  = (inr res, w') ->
  let cli := Subprocess (send_command tx_path args signer limit) 300 in
  (exists rc s',
      exec (env w) cli = (Returned rc (output res) (error res), s'))
  /\ (trace w' = cli :: trace w
      \/ trace w' = report_request :: cli :: trace w)
  /\ (success res = false \/ tx_id res = None ->
      trace w' = cli :: trace w /\ computation res = None)
  /\ (trace w' = report_request :: cli :: trace w ->
      success res = true /\ exists id, tx_id res = Some id /\ id <> "").
Proof.
  intros H. cbv zeta. unfold run_transaction in H.
  fold (send_command tx_path args signer limit) in H.
  unfold bind at 1 in H. unfold run_command, subprocess_run, request in H.
  set (cli := Subprocess (send_command tx_path args signer limit) 300) in *.
  destruct (exec (env w) cli) as [[rc out err|e] s'] eqn:E;
    cbv beta iota zeta in H; [|discriminate].
  cbn [stdout stderr returncode] in H.
  set (w1 := {| env := s'; trace := cli :: trace w |}) in *.
  destruct (parse_tx_id (out ++ err)) as [[|c t]|] eqn:P.
  - unfold bind, ret in H. cbn in H. injection H as <- <-. cbn.
    split; [eauto |]. split; [auto |]. split; [auto |].
    intros C. exfalso. apply (f_equal (@List.length call)) in C.
    cbn in C. lia.
  - destruct (classify rc (out ++ err)) eqn:C.
    + unfold bind at 1 in H.
      unfold get_transaction_computation in H. unfold bind at 1 in H.
      pose proof (report_logged w1) as L.
      destruct (get_computation_report S exec json_loads w1) as [[e|r] w2];
        [discriminate |].
      unfold ret in H. cbn in H. injection H as <- <-. cbn in L. cbn.
      split; [eauto |]. split; [auto |].
      split.
      * intros [F|F]; discriminate.
      * intros _. split; [reflexivity |]. eexists. split; [reflexivity |].
        discriminate.
    + unfold bind, ret in H. cbn in H. injection H as <- <-. cbn.
      split; [eauto |]. split; [auto |]. split; [auto |].
      intros K. exfalso. apply (f_equal (@List.length call)) in K.
      cbn in K. lia.
  - unfold bind, ret in H. cbn in H. injection H as <- <-. cbn.
    split; [eauto |]. split; [auto |]. split; [auto |].
    intros K. exfalso. apply (f_equal (@List.length call)) in K.
    cbn in K. lia.
Qed.

(** X4.  [is_batch_complete] answers from the exit status and the standard
    output of the status script alone.  With a non-zero exit status the
    answer is [False].  The answer is [True] only for exit status 0 and an
    output that holds the text ["isBatchComplete": true] with exactly this
    spacing.  The only exception it raises once the script has run is a
    [ValueError], for an output whose [timeUntilNextDraw] is followed by
    dots and digits that make no number. *)
Theorem is_batch_complete_reads_marker (pool_id : Z) (w : world S)
    (rc : Z) (out err : string) (s' : S) :
  exec (env w) (Subprocess (status_command pool_id) 300)
  = (Returned rc out err, s') ->
  let answer := fst (is_batch_complete S exec pool_id w) in
  (rc <> 0 -> answer = inr false)
  /\ (answer = inr true ->
      rc = 0 /\ contains batch_complete_marker out = true)
  /\ (forall e, answer = inl e ->
      e = ValueError /\ rc = 0
      /\ exists g, search match_time_until out = Some g
                   /\ is_float_literal g = false)
  /\ (rc = 0 -> contains batch_complete_marker out = true ->
      search match_time_until out = None ->
      answer = inr true).
Proof.
  intros E answer. subst answer.
  unfold is_batch_complete, get_draw_status, run_script, run_command,
    subprocess_run, request, bind, ret, raise.
  cbn [app]. fold (status_command pool_id). rewrite E.
  cbn [returncode stdout stderr script_success script_output script_error].
  fold batch_complete_marker.
  destruct (rc =? 0) eqn:R; cbn [negb].
  - apply Z.eqb_eq in R. subst rc.
    destruct (search match_time_until out) as [g|] eqn:G.
    + destruct (is_float_literal g) eqn:F; cbn [fst isBatchComplete].
      * split; [congruence |]. split.
        -- destruct (contains batch_complete_marker out) eqn:C.
           ++ auto.
           ++ destruct (contains (quoted "isBatchComplete" ++ ": false") out);
                discriminate.
        -- split; [discriminate |]. discriminate.
      * split; [congruence |]. split; [discriminate |].
        split; [|discriminate].
        intros e [= <-]. split; [reflexivity |]. split; [reflexivity |].
        exists g. auto.
    + cbn [fst isBatchComplete].
      split; [congruence |]. split.
      * destruct (contains batch_complete_marker out) eqn:C.
        -- auto.
        -- destruct (contains (quoted "isBatchComplete" ++ ": false") out);
             discriminate.
      * split; [discriminate |]. intros _ -> _. reflexivity.
  - apply Z.eqb_neq in R. cbn [fst isBatchComplete].
    split; [reflexivity |]. split; [discriminate |].
    split; [discriminate |]. intros ->. congruence.
Qed.

(** X5.  In the batch loop of [run_multi_user_benchmark] the list
    [batch_cus] only grows at its end, by at most one entry per batch
    transaction, and every entry added is a computation that is not zero;
    no other field of the result is touched. *)
Theorem batch_cus_grow (remaining : nat) :
  forall (pool_id bsize num : Z) (result : BenchmarkResult) (w : world S)
         (ex : loop_exit) (num' : Z) (result' : BenchmarkResult)
         (w' : world S),
    process_batches_loop S exec json_loads remaining pool_id bsize num
      result w = (inr (ex, num', result'), w') ->
    exists added,
      batch_cus result' = (batch_cus result ++ added)%list
      /\ Forall (fun c => c <> 0) added
      /\ len added <= num' - num
      /\ set_batch_cus result' [] = set_batch_cus result [].
Proof.
  induction remaining as [|k IH];
    intros pool_id bsize num result w ex num' result' w' H.
  - cbn in H. injection H as <- <- <- <-. exists [].
    rewrite app_nil_r. split; [reflexivity |]. split; [constructor |].
    split; [cbn; lia | reflexivity].
  - cbn [process_batches_loop] in H. unfold bind at 1 in H.
    destruct (run_transaction S exec json_loads _ _ None 9999 w)
      as [[e|res] w1]; [discriminate |].
    unfold bind at 1 in H.
    destruct (is_batch_complete S exec pool_id w1) as [[e|done] w2];
      [discriminate |].
    set (result1 :=
           match computation res with
           | Some c => if c =? 0 then result
                       else set_batch_cus result (batch_cus result ++ [c])
           | None => result
           end) in *.
    assert (G : exists a1,
               batch_cus result1 = (batch_cus result ++ a1)%list
               /\ Forall (fun c => c <> 0) a1 /\ len a1 <= 1
               /\ set_batch_cus result1 [] = set_batch_cus result []).
    { unfold result1. destruct (computation res) as [c|].
      - destruct (c =? 0) eqn:Z0.
        + exists []. rewrite app_nil_r. repeat split; [constructor | cbn; lia].
        + exists [c]. apply Z.eqb_neq in Z0.
          repeat split; [constructor; [exact Z0 | constructor] | cbn; lia].
      - exists []. rewrite app_nil_r. repeat split; [constructor | cbn; lia]. }
    destruct G as (a1 & G1 & G2 & G3 & G4).
    destruct done.
    + cbn in H. injection H as <- <- <- <-. exists a1.
      split; [exact G1 |]. split; [exact G2 |]. split; [lia | exact G4].
    + destruct (IH _ _ _ _ _ _ _ _ _ H) as (a2 & I1 & I2 & I3 & I4).
      exists (a1 ++ a2)%list. split.
      * rewrite I1, G1, app_assoc. reflexivity.
      * split; [apply Forall_app; auto |]. split.
        -- unfold len in *. rewrite length_app, Nat2Z.inj_add. lia.
        -- congruence.
Qed.

(** An emulator under which a draw never completes: every request is
    answered with exit status 0 and a text that neither reports a failure
    nor says that the batch is complete. *)
Definition never_complete : Prop :=
  forall (s : S) (c : call),
    exists out err s',
      exec s c = (Returned 0 out err, s')
      /\ classify 0 (out ++ err) = true
      /\ contains batch_complete_marker out = false
      /\ search match_time_until out = None.

Lemma pending_status (pool_id : Z) (w : world S) :
  never_complete ->
  exists w1, is_batch_complete S exec pool_id w = (inr false, w1)
             /\ trace w1 = Subprocess (status_command pool_id) 300 :: trace w.
Proof.
  intros N.
  destruct (N (env w) (Subprocess (status_command pool_id) 300))
    as (out & err & s' & E & _ & C & T).
  unfold is_batch_complete, get_draw_status, run_script, run_command,
    subprocess_run, request, bind, ret.
  cbn [app]. fold (status_command pool_id). rewrite E.
  cbn [returncode stdout stderr script_success script_output script_error].
  cbn [Z.eqb negb]. rewrite T. fold batch_complete_marker. rewrite C.
  eexists. split.
  - destruct (contains (quoted "isBatchComplete" ++ ": false") out);
      reflexivity.
  - reflexivity.
Qed.

Lemma pending_transaction (tx_path : string) (args : list string)
    (w : world S) :
  never_complete ->
  exists res w1,
    run_transaction S exec json_loads tx_path args None 9999 w
    = (inr res, w1)
    /\ success res = true.
Proof.
  intros N.
  destruct (N (env w) (Subprocess (send_command tx_path args None 9999) 300))
    as (out & err & s' & E & C & _).
  unfold run_transaction. fold (send_command tx_path args None 9999).
  unfold bind at 1. unfold run_command, subprocess_run, request.
  rewrite E. cbn [stdout stderr returncode]. rewrite C.
  destruct (parse_tx_id (out ++ err)) as [[|c t]|].
  - eexists. eexists. split; [reflexivity | reflexivity].
  - unfold bind at 1. unfold get_transaction_computation. unfold bind at 1.
    unfold get_computation_report, try_except, urlopen_read, bind, request,
      ret, raise.
    match goal with
    | |- context [exec ?s ?c] => destruct (N s c) as (o2 & e2 & s2 & E2 & _)
    end.
    rewrite E2. cbn [stdout].
    destruct (json_loads o2); eexists; eexists; split; reflexivity.
  - eexists. eexists. split; [reflexivity | reflexivity].
Qed.

(** X6.  The loop of [find_batch_limit] that processes the remaining
    receivers has no bound of its own.  Take an emulator that answers
    every request with the exit status 0 and with an output that
    [run_transaction] takes for a success (output and error stream
    together do not contain both error and error:, and contain neither
    panic nor revert, case ignored), in which the text
    ["isBatchComplete": true] does not occur and in which no value of
    timeUntilNextDraw is found.
    Then the loop goes on: for every number [k], it is still running
    after [k] iterations, in which it has sent [k] batch transactions. *)
Theorem process_remaining_unbounded (pool_id : Z) (k : nat) :
  never_complete ->
  forall w : world S,
    fst (process_remaining S exec json_loads k pool_id w) = inr None
    /\ Ops.batch_ops (trace (snd (process_remaining S exec json_loads k
                                    pool_id w)))
       = (Ops.batch_ops (trace w) + k)%nat.
Proof.
  intros N. induction k as [|k IH]; intros w.
  - cbn. split; [reflexivity | lia].
  - cbn [process_remaining]. unfold bind at 1. unfold bind at 2.
    destruct (pending_status pool_id w N) as (w1 & E1 & T1).
    rewrite E1.
    unfold bind at 1. unfold bind at 1.
    pose proof (MultiUserLoop.run_transaction_issues S exec json_loads
                  (TX_PATH ++ "/process_draw_batch.cdc")
                  [str_of_int pool_id; "500"] None 9999 w1) as I.
    destruct (pending_transaction (TX_PATH ++ "/process_draw_batch.cdc")
                [str_of_int pool_id; "500"] w1 N) as (res & w2 & E2 & Hs).
    rewrite E2 in *. rewrite Hs. cbn [negb snd] in *.
    destruct (IH w2) as [IH1 IH2]. split; [exact IH1 |].
    rewrite IH2, I, T1.
    change (if (TX_PATH ++ "/process_draw_batch.cdc"
                =? MultiUserLoop.BATCH_TX)%string then 1%nat else 0%nat)
      with 1%nat.
    unfold Ops.batch_ops at 2. cbn [filter Ops.is_batch_call]. 
    unfold status_command. cbn. unfold Ops.batch_ops. lia.
Qed.

End WithWorld.

Lemma silent_never_complete : never_complete unit BatchLoops.silent.
Proof.
  intros s c. exists "", "", s. repeat split.
Qed.

Lemma run_transaction_lookup_witness :
  exists res w',
    run_transaction nat (Probing.two_probes 1000) (Probing.loads_two 1000)
      MultiUserLoop.BATCH_TX ["0"; "50"] None 9999 Probing.begin
    = (inr res, w')
    /\ computation res = Some 1000
    /\ success res = true
    /\ exists id, tx_id res = Some id /\ id <> "".
Proof.
  eexists. eexists. split; [vm_compute; reflexivity |].
  split; [reflexivity |].
  eapply (run_transaction_lookup nat (Probing.two_probes 1000)
            (Probing.loads_two 1000) MultiUserLoop.BATCH_TX ["0"; "50"] None
            9999 Probing.begin).
  - vm_compute. reflexivity.
  - reflexivity.
Defined.

Lemma is_batch_complete_reads_marker_witness :
  fst (is_batch_complete nat (Probing.two_probes 1000) 0 Probing.begin)
  = inr true.
Proof.
  destruct (is_batch_complete_reads_marker nat (Probing.two_probes 1000) 0
              Probing.begin 0 (quoted "isBatchComplete" ++ ": true") "" O
              eq_refl) as (_ & _ & _ & H).
  apply H; reflexivity.
Defined.

Lemma batch_cus_grow_witness :
  exists added,
    [1000] = (@nil Z ++ added)%list
    /\ Forall (fun c => c <> 0) added
    /\ len added <= 1 - 0
    /\ set_batch_cus
         (set_batch_cus (BatchLoops.result_for 3 2) [1000]) []
       = set_batch_cus (BatchLoops.result_for 3 2) [].
Proof.
  apply (batch_cus_grow nat (Probing.two_probes 1000) (Probing.loads_two 1000)
           11 0 2 0 (BatchLoops.result_for 3 2) Probing.begin ExitComplete
           1 (set_batch_cus (BatchLoops.result_for 3 2) [1000])
           (snd (process_batches_loop nat (Probing.two_probes 1000)
                   (Probing.loads_two 1000) 11 0 2 0
                   (BatchLoops.result_for 3 2) Probing.begin))).
  vm_compute. reflexivity.
Defined.

Lemma process_remaining_unbounded_witness :
  fst (process_remaining unit BatchLoops.silent BatchLoops.no_report 25 0
         Reporting.start) = inr None.
Proof.
  apply (process_remaining_unbounded unit BatchLoops.silent
           BatchLoops.no_report 0 25 silent_never_complete Reporting.start).
Defined.

End Transactions.

(* ================================================================== *)
(** * The draw of benchmark_draw_computation.py: accounting *)
(* ================================================================== *)

Module DrawAccounting.
Import Py Eff DrawComputation.

Lemma sum_acc (l : list Z) (a : Z) : fold_left Z.add l a = a + sum l.
Proof.
  unfold sum. revert a. induction l as [|x l IH]; intros a; cbn [fold_left].
  - lia.
  - rewrite (IH (a + x)), (IH (0 + x)). lia.
Qed.

Lemma sum_cons (x : Z) (l : list Z) : sum (x :: l) = x + sum l.
Proof. unfold sum at 1. cbn [fold_left]. rewrite sum_acc. lia. Qed.

Lemma sum_app (a b : list Z) : sum (a ++ b) = sum a + sum b.
Proof.
  induction a as [|x a IH]; [reflexivity |].
  cbn [app]. rewrite !sum_cons, IH. lia.
Qed.

Lemma len_cons {A : Type} (x : A) (l : list A) : len (x :: l) = 1 + len l.
Proof. unfold len. cbn [List.length]. lia. Qed.

Lemma len_app {A : Type} (a b : list A) : len (a ++ b) = len a + len b.
Proof. unfold len. rewrite length_app. lia. Qed.

Lemma take_length (n : nat) (s : string) :
  (String.length (take n s) <= n)%nat.
Proof.
  revert n. induction s as [|c s IH]; intros n.
  - destruct n; cbn; lia.
  - destruct n; cbn [take String.length]; [lia |]. specialize (IH n). lia.
Qed.

Lemma single_phase_fields (name : string) (r : ComputationResult)
    (p : PhaseResult) :
  single_phase name r = inr p ->
  phase_name p = name /\ tx_count p = 1
  /\ total_computation p = computation r
  /\ total_memory p = memory r.
Proof.
  unfold single_phase, ebind.
  destruct (float_of_int (computation r)); [discriminate |].
  intros [= <-]. repeat split.
Qed.

(** The command line of [run_flow_tx]. *)
Definition flow_tx_command (tx_path : string) (args : list string)
    (signer : string) (compute_limit : Z) : list string :=
  (["flow"; "transactions"; "send"; tx_path] ++ args
   ++ ["--signer"; signer; "--network"; NETWORK;
       "--compute-limit"; str_of_int compute_limit;
       "--output"; "json"] ++ FLOW_FLAGS)%list.

Section WithWorld.
Variable S : Type.
Variable exec : S -> call -> outcome * S.
Variable json_loads : string -> option json.
Variable json_loads_report : string -> option report.
Variable str_of_exn : exn -> string.
Variable repr : json -> string.
Variable str_of_float : float -> string.

Local Abbreviation loop :=
  (process_batches_loop S exec json_loads json_loads_report str_of_exn repr).

(** X7.  The batch loop of [run_full_draw_benchmark] keeps its three
    counters in step: the computations recorded are those of the batches
    that succeeded, in order; the total is their sum; and the batch count
    is their number, plus one when the loop was left because a batch
    failed - the failed attempt is counted as a batch although nothing is
    recorded for it. *)
Theorem draw_batch_accounting (remaining : nat) :
  forall (pool_id bsize count : Z) (comps : list Z) (total : Z)
         (w : world S) (bp : batch_phase) (w' : world S),
    loop remaining pool_id bsize count comps total w = (inr bp, w') ->
    exists added,
      batch_computations bp = (comps ++ added)%list
      /\ total_batch_computation bp = total + sum added
      /\ batch_count bp
         = count + len added
           + match exit_taken bp with ExitFailed => 1 | _ => 0 end.
Proof.
  induction remaining as [|k IH];
    intros pool_id bsize count comps total w bp w' H.
  - cbn in H. injection H as <- <-. exists []. cbn.
    rewrite app_nil_r. repeat split; lia.
  - cbn [process_batches_loop] in H. unfold bind at 1 in H.
    destruct (execute_draw_phase S exec json_loads json_loads_report
                str_of_exn repr _ TX_PROCESS_BATCH pool_id _ COMPUTE_LIMIT w)
      as [[e|res] w1]; [discriminate |].
    destruct (success res); cbn [negb] in H.
    + unfold bind at 1 in H.
      destruct (get_draw_status S exec json_loads str_of_exn pool_id w1)
        as [[e|st] w2]; [discriminate |].
      destruct (truthy (status_get st "isBatchComplete" (JBool false))).
      * cbn in H. injection H as <- <-. exists [computation res].
        cbn [batch_computations total_batch_computation batch_count
               exit_taken].
        rewrite sum_cons, len_cons. cbn. repeat split; lia.
      * destruct (IH _ _ _ _ _ _ _ _ H) as (added & I1 & I2 & I3).
        exists (computation res :: added).
        rewrite I1, I2, I3, sum_cons, len_cons, <- app_assoc.
        repeat split; lia.
    + cbn in H. injection H as <- <-. exists []. cbn.
      rewrite app_nil_r. repeat split; lia.
Qed.

Ltac run_step H :=
  unfold bind at 1 in H;
  match type of H with
  | match ?x with _ => _ end = _ =>
      let e := fresh "e" in
      let a := fresh "a" in
      let w := fresh "w" in
      destruct x as [[e|a] w]; [discriminate |]
  end.

(** The phases that a transaction adds to the list. *)
Lemma listed_phase (name : string) (r : ComputationResult)
    (t : list PhaseResult) :
  DrawRun.listed name r = inr t ->
  (if success r
   then exists p, t = [p] /\ phase_name p = name /\ tx_count p = 1
                  /\ total_computation p = computation r
                  /\ total_memory p = memory r
   else t = []).
Proof.
  intros L. destruct (DrawRun.listed_cases name r t L) as [[F ->]|[T P]].
  - rewrite F. reflexivity.
  - rewrite T. destruct P as (p & -> & P).
    destruct (single_phase_fields _ _ _ P) as (N & C & Tc & Tm).
    exists p. auto.
Qed.

(** X8.  A run that [run_full_draw_benchmark] returns lists its phases in
    the order of the draw: first [startPoolDraw], one transaction; then
    [processDrawBatch], which is always there, covers all the users and
    has no memory figure; then [requestDrawRandomness] and
    [completePoolDraw], each one transaction and each left out when its
    transaction failed: the rest of the list is what the transaction of
    [requestDrawRandomness] added followed by what the transaction of
    [completePoolDraw] added, and each added its phase, with its
    computation and memory, when it succeeded and nothing when it failed.
    The totals of the run are the sums over the phases listed, so a failed
    last phase is missing from them. *)
Theorem full_draw_run_shape (pool_id users bsize winner_count : Z)
    (w : world S) (run : BenchmarkRun) (w' : world S) :
  run_full_draw_benchmark S exec json_loads json_loads_report str_of_exn
    repr str_of_float pool_id users bsize winner_count w
  = (inr (Some run), w') ->
  user_count run = users /\ batch_size run = bsize
  /\ exists p1 p2 tail,
      phases run = p1 :: p2 :: tail
      /\ phase_name p1 = "startPoolDraw" /\ tx_count p1 = 1
      /\ phase_name p2 = "processDrawBatch"
      /\ items_processed p2 = users /\ total_memory p2 = 0
      /\ (map phase_name tail = []
          \/ map phase_name tail = ["requestDrawRandomness"]
          \/ map phase_name tail = ["completePoolDraw"]
          \/ map phase_name tail
             = ["requestDrawRandomness"; "completePoolDraw"])
      /\ Forall (fun p => tx_count p = 1) tail
      /\ run_total_computation run
         = total_computation p1 + total_computation p2
           + sum (map total_computation tail)
      /\ run_total_memory run
         = total_memory p1 + sum (map total_memory tail)
      /\ total_tx_count run = 1 + tx_count p2 + len tail
      /\ exists w4 r3 w5 t3 w6 r4 t4,
          execute_draw_phase S exec json_loads json_loads_report str_of_exn
            repr "requestDrawRandomness" TX_REQUEST_RANDOMNESS pool_id []
            COMPUTE_LIMIT w4 = (inr r3, w5)
          /\ execute_draw_phase S exec json_loads json_loads_report
               str_of_exn repr "completePoolDraw" TX_COMPLETE_DRAW pool_id
               [] COMPUTE_LIMIT w6 = (inr r4, w')
          /\ tail = (t3 ++ t4)%list
          /\ (if success r3
              then exists p,
                     t3 = [p] /\ phase_name p = "requestDrawRandomness"
                     /\ tx_count p = 1
                     /\ total_computation p = computation r3
                     /\ total_memory p = memory r3
              else t3 = [])
          /\ (if success r4
              then exists p,
                     t4 = [p] /\ phase_name p = "completePoolDraw"
                     /\ tx_count p = 1
                     /\ total_computation p = computation r4
                     /\ total_memory p = memory r4
              else t4 = []).
Proof.
  intros H.
  destruct (DrawRun.full_run_steps S exec json_loads json_loads_report
              str_of_exn repr str_of_float _ _ _ _ _ _ _ H)
    as (winners & funded & w1 & st0 & w2 & r1 & w3 & _ & _ & _ & _ & C).
  destruct C as [(_ & N & _) | (Hs & C)]; [discriminate |].
  destruct C as (p1 & bp & w4 & avg_b & avg_u & r3 & w5 & t3 & st1 & w6 & r4
                 & t4 & P1 & _ & _ & _ & E3 & L3 & _ & E4 & L4 & R).
  injection R as ->.
  destruct (single_phase_fields _ _ _ P1) as (N1 & C1 & _).
  pose proof (listed_phase _ _ _ L3) as Ht3.
  pose proof (listed_phase _ _ _ L4) as Ht4.
  cbn [DrawRun.run_of user_count batch_size phases run_total_computation
         run_total_memory total_tx_count].
  split; [reflexivity |]. split; [reflexivity |].
  exists p1, (DrawRun.batch_phase_result users bp avg_b avg_u),
    (t3 ++ t4)%list.
  split; [reflexivity |]. split; [exact N1 |]. split; [exact C1 |].
  split; [reflexivity |]. split; [reflexivity |]. split; [reflexivity |].
  assert (T3 : t3 = []
               \/ exists q, t3 = [q]
                            /\ phase_name q = "requestDrawRandomness"
                            /\ tx_count q = 1).
  { destruct (success r3); [| auto].
    destruct Ht3 as (q & -> & Q1 & Q2 & _). right. exists q. auto. }
  assert (T4 : t4 = []
               \/ exists q, t4 = [q]
                            /\ phase_name q = "completePoolDraw"
                            /\ tx_count q = 1).
  { destruct (success r4); [| auto].
    destruct Ht4 as (q & -> & Q1 & Q2 & _). right. exists q. auto. }
  split.
  { destruct T3 as [-> | (q3 & -> & Q3 & _)];
      destruct T4 as [-> | (q4 & -> & Q4 & _)]; cbn [app map];
        rewrite ?Q3, ?Q4; auto. }
  split.
  { apply Forall_app. split.
    - destruct T3 as [-> | (q3 & -> & _ & Q3)]; repeat constructor; auto.
    - destruct T4 as [-> | (q4 & -> & _ & Q4)]; repeat constructor; auto. }
  assert (L : sum (map tx_count (t3 ++ t4)) = len (t3 ++ t4)).
  { destruct T3 as [-> | (q3 & -> & _ & Q3)];
      destruct T4 as [-> | (q4 & -> & _ & Q4)]; cbn [app map];
        rewrite ?sum_cons, ?Q3, ?Q4; reflexivity. }
  cbn [map]. rewrite !sum_cons.
  cbn [DrawRun.batch_phase_result total_computation total_memory tx_count].
  rewrite L, C1.
  split; [lia |]. split; [lia |]. split; [lia |].
  exists w4, r3, w5, t3, w6, r4, t4.
  split; [exact E3 |]. split; [exact E4 |]. split; [reflexivity |].
  split; [exact Ht3 | exact Ht4].
Qed.

(** X9.  What [execute_draw_phase] returns is named after the phase; it
    carries an error text exactly when the transaction failed, and that
    text has at most 200 characters; its id is never [None]: a missing id
    is the empty string. *)
Theorem execute_draw_phase_result (phase tx_path : string) (pool_id : Z)
    (extra : list string) (limit : Z) (w : world S)
    (r : ComputationResult) (w' : world S) :
  execute_draw_phase S exec json_loads json_loads_report str_of_exn repr
    phase tx_path pool_id extra limit w = (inr r, w') ->
  tx_name r = phase
  /\ (success r = true <-> error r = None)
  /\ (forall msg, error r = Some msg -> (String.length msg <= 200)%nat)
  /\ (tx_id r = JStr "" \/ truthy (tx_id r) = true).
Proof.
  unfold execute_draw_phase, reset_computation_profile.
  unfold bind at 1. unfold ret at 1. intros H.
  run_step H. destruct a as [[ok output] tx].
  run_step H. destruct (correlate tx a) as [comp mem].
  unfold ret in H.
  match type of H with
  | (inr ?x, _) = _ => assert (R : x = r) by congruence
  end.
  subst r. clear H.
  cbn [tx_name success error tx_id].
  split; [reflexivity |]. split.
  - destruct ok; split; congruence.
  - split.
    + destruct ok; [discriminate |]. intros msg E.
      assert (M : msg = take 200 output) by congruence.
      rewrite M. apply take_length.
    + destruct (truthy tx) eqn:T; auto.
Qed.


End WithWorld.

(** A CLI that never answers in time. *)
Definition hanging (s : unit) (c : call) : outcome * unit :=
  (Raised TimeoutExpired, s).

Lemma draw_batch_accounting_witness :
  exists added,
    @nil Z = (@nil Z ++ added)%list
    /\ 0 = 0 + sum added
    /\ 1 = 0 + len added + 1.
Proof.
  apply (draw_batch_accounting unit hanging BatchLoops.no_json
           BatchLoops.no_report BatchLoops.no_text BatchLoops.no_text
           3 0 50 0 [] 0 Reporting.start
           {| exit_taken := ExitFailed; batch_count := 1;
              batch_computations := []; total_batch_computation := 0 |}
           (snd (process_batches_loop unit hanging BatchLoops.no_json
                   BatchLoops.no_report BatchLoops.no_text BatchLoops.no_text
                   3 0 50 0 [] 0 Reporting.start))).
  vm_compute. reflexivity.
Defined.


Lemma full_draw_run_shape_witness :
  exists run w',
    run_full_draw_benchmark Z (Scenarios.emulator 120 50)
      Scenarios.loads_sealed BatchLoops.no_report BatchLoops.no_text
      BatchLoops.no_text BatchLoops.no_text 0 120 50 1 Scenarios.fresh
    = (inr (Some run), w')
    /\ total_tx_count run = 6
    /\ user_count run = 120 /\ batch_size run = 50.
Proof.
  eexists. eexists. split; [vm_compute; reflexivity |].
  split; [reflexivity |].
  refine ((fun H => conj (proj1 H) (proj1 (proj2 H))) _).
  eapply (full_draw_run_shape Z (Scenarios.emulator 120 50)
            Scenarios.loads_sealed BatchLoops.no_report BatchLoops.no_text
            BatchLoops.no_text BatchLoops.no_text 0 120 50 1
            Scenarios.fresh).
  vm_compute. reflexivity.
Defined.

Lemma execute_draw_phase_result_witness :
  exists r w',
    execute_draw_phase Z (Scenarios.emulator 120 50) Scenarios.loads_sealed
      BatchLoops.no_report BatchLoops.no_text BatchLoops.no_text
      "startPoolDraw" TX_START_DRAW 0 [] 9999 Scenarios.fresh
    = (inr r, w')
    /\ tx_name r = "startPoolDraw"
    /\ (success r = true <-> error r = None).
Proof.
  eexists. eexists. split; [vm_compute; reflexivity |].
  refine ((fun H => conj (proj1 H) (proj1 (proj2 H))) _).
  eapply (execute_draw_phase_result Z (Scenarios.emulator 120 50)
            Scenarios.loads_sealed BatchLoops.no_report BatchLoops.no_text
            BatchLoops.no_text "startPoolDraw" TX_START_DRAW 0 [] 9999
            Scenarios.fresh).
  vm_compute. reflexivity.
Defined.

End DrawAccounting.

(* ================================================================== *)
(** * Batches of users *)
(* ================================================================== *)

Module Schedules.
Import Py Eff Builtins.

(** The sizes of the batches in which [users] users are created, fifty at
    a time: [min(50, users - batch_start)] for [batch_start] in
    [range(0, users, 50)]. *)
Definition batch_sizes (users : Z) : list Z :=
  map (fun batch_start => Z.min 50 (users - batch_start))
    (range_step users 50).

Lemma range_nonpos (n : Z) : n <= 0 -> range n = [].
Proof.
  intros H. unfold range. replace (Z.to_nat n) with O by lia. reflexivity.
Qed.

Lemma range_succ (n : Z) :
  0 <= n -> range (1 + n) = 0 :: map (fun i => i + 1) (range n).
Proof.
  intros H. unfold range.
  replace (Z.to_nat (1 + n)) with (Datatypes.S (Z.to_nat n)) by lia.
  cbn [seq map]. f_equal.
  rewrite <- seq_shift, !map_map.
  apply map_ext. intros i. lia.
Qed.

Lemma range_length (n : Z) : 0 <= n -> len (range n) = n.
Proof.
  intros H. unfold len, range. rewrite length_map, length_seq. lia.
Qed.

Lemma range_step_nonpos (n : Z) : n <= 0 -> range_step n 50 = [].
Proof.
  intros H. unfold range_step. rewrite range_nonpos; [reflexivity |].
  assert ((n + 50 - 1) / 50 < 1); [|lia].
  apply Z.div_lt_upper_bound; lia.
Qed.

Lemma range_step_unfold (n : Z) :
  0 < n ->
  range_step n 50 = 0 :: map (fun x => x + 50) (range_step (n - 50) 50).
Proof.
  intros H. unfold range_step.
  fold (Scenarios.ceil_div n 50). fold (Scenarios.ceil_div (n - 50) 50).
  rewrite (Scenarios.ceil_div_step n 50) by lia.
  assert (C : 0 <= Scenarios.ceil_div (n - 50) 50).
  { unfold Scenarios.ceil_div. apply Z.div_pos; lia. }
  rewrite (range_succ _ C). cbn [map]. f_equal.
  rewrite !map_map. apply map_ext. intros i. lia.
Qed.

Lemma batch_sizes_nonpos (n : Z) : n <= 0 -> batch_sizes n = [].
Proof.
  intros H. unfold batch_sizes. rewrite range_step_nonpos by exact H.
  reflexivity.
Qed.

Lemma batch_sizes_unfold (n : Z) :
  0 < n -> batch_sizes n = Z.min 50 n :: batch_sizes (n - 50).
Proof.
  intros H. unfold batch_sizes. rewrite (range_step_unfold n H).
  cbn [map]. rewrite Z.sub_0_r. f_equal.
  rewrite map_map. apply map_ext. intros x. f_equal. lia.
Qed.

(** Induction along the batches. *)
Lemma batch_induction (P : Z -> Prop) :
  (forall n, n <= 0 -> P n) ->
  (forall n, 0 < n -> P (n - 50) -> P n) ->
  forall n, P n.
Proof.
  intros H0 Hs n.
  assert (G : forall k : nat, forall m, m <= Z.of_nat k -> P m).
  { induction k as [|k IH]; intros m Hm.
    - apply H0. lia.
    - destruct (Z_le_gt_dec m 0) as [L|L]; [apply H0; exact L |].
      apply Hs; [lia |]. apply IH. lia. }
  apply (G (Z.to_nat n)). lia.
Qed.

Lemma batch_sizes_sum (n : Z) : 0 <= n -> sum (batch_sizes n) = n.
Proof.
  pattern n. apply batch_induction; clear n.
  - intros n L H. rewrite batch_sizes_nonpos by lia. cbn. lia.
  - intros n L IH _. rewrite (batch_sizes_unfold n L).
    rewrite DrawAccounting.sum_cons.
    destruct (Z_le_gt_dec n 50) as [S|S].
    + rewrite (batch_sizes_nonpos (n - 50)) by lia. cbn. lia.
    + rewrite IH by lia. lia.
Qed.

Lemma batch_sizes_bounds (n : Z) :
  Forall (fun c => 1 <= c <= 50) (batch_sizes n).
Proof.
  pattern n. apply batch_induction; clear n.
  - intros n L. rewrite batch_sizes_nonpos by lia. constructor.
  - intros n L IH. rewrite (batch_sizes_unfold n L).
    constructor; [lia | exact IH].
Qed.

Lemma batch_sizes_length (n : Z) :
  0 <= n -> len (batch_sizes n) = Scenarios.ceil_div n 50.
Proof.
  intros H. unfold batch_sizes, len. rewrite length_map.
  unfold range_step. rewrite length_map.
  fold (len (range ((n + 50 - 1) / 50))).
  rewrite range_length; [reflexivity |].
  apply Z.div_pos; lia.
Qed.

Lemma seq_from (a n : nat) :
  seq a n = map (fun i => (i + a)%nat) (seq 0 n).
Proof.
  revert a. induction n as [|n IH]; intros a; [reflexivity |].
  cbn [seq map]. f_equal. rewrite (IH (Datatypes.S a)).
  rewrite <- seq_shift, map_map. apply map_ext. intros i. lia.
Qed.

Lemma range_app (a b : Z) :
  0 <= a -> 0 <= b ->
  range (a + b) = (range a ++ map (fun i => i + a) (range b))%list.
Proof.
  intros Ha Hb. unfold range.
  replace (Z.to_nat (a + b)) with (Z.to_nat a + Z.to_nat b)%nat by lia.
  rewrite seq_app, map_app. f_equal. cbn [Nat.add].
  rewrite seq_from, !map_map.
  apply map_ext. intros i. lia.
Qed.

(** The storage indices that the batches of [create_users] name: batch
    by batch, [count] indices from [startIndex] on. *)
Definition batch_indices (users start_index : Z) : list Z :=
  List.concat
    (map (fun batch_start =>
            map (fun j => start_index + batch_start + j)
              (range (Z.min 50 (users - batch_start))))
       (range_step users 50)).

Lemma batches_tile (users : Z) :
  forall start_index,
    batch_indices users start_index
    = map (fun j => start_index + j) (range users).
Proof.
  pattern users. apply batch_induction; clear users.
  - intros n L start_index. unfold batch_indices.
    rewrite range_step_nonpos, range_nonpos by lia. reflexivity.
  - intros n L IH start_index. unfold batch_indices.
    rewrite (range_step_unfold n L). cbn [map List.concat].
    rewrite map_map.
    assert (E : map (fun x =>
                       map (fun j => start_index + (x + 50) + j)
                         (range (Z.min 50 (n - (x + 50)))))
                  (range_step (n - 50) 50)
                = map (fun x =>
                         map (fun j => start_index + 50 + x + j)
                           (range (Z.min 50 (n - 50 - x))))
                    (range_step (n - 50) 50)).
    { apply map_ext. intros x.
      replace (n - (x + 50)) with (n - 50 - x) by lia.
      apply map_ext. intros j. lia. }
    rewrite E. fold (batch_indices (n - 50) (start_index + 50)).
    rewrite IH, Z.sub_0_r.
    destruct (Z_le_gt_dec n 50) as [S|S].
    + rewrite (range_nonpos (n - 50)) by lia.
      rewrite Z.min_r by lia. cbn [map]. rewrite app_nil_r.
      apply map_ext. intros j. lia.
    + rewrite Z.min_l by lia.
      assert (R : range n
                  = (range 50 ++ map (fun i => i + 50) (range (n - 50)))%list).
      { rewrite <- range_app by lia. f_equal. lia. }
      rewrite R, map_app, map_map. f_equal.
      * apply map_ext. intros j. lia.
      * apply map_ext. intros j. lia.
Qed.

End Schedules.

(* ================================================================== *)
(** * The set-up loops of benchmark_computation.py *)
(* ================================================================== *)

Module SetupLoops.
Import Py Eff Builtins BenchmarkComputation BenchmarkSetup Schedules.

(** The child processes in a log of requests. *)
Definition cli_calls (t : list call) : list call :=
  filter (fun c => match c with Subprocess _ _ => true | _ => false end) t.

(** The request that deposits [count] positions in one transaction. *)
Definition deposit_call (pool_id count : Z) : call :=
  Subprocess
    (Transactions.send_command (TX_PATH ++ "/batch_deposit_to_pool.cdc")
       [str_of_int pool_id; "10.0"; str_of_int count] None 9999) 300.

(** The request that creates the receiver account number [i]. *)
Definition receiver_call (pool_id i : Z) : call :=
  Subprocess
    (Transactions.send_command (TX_PATH ++ "/create_receiver_account.cdc")
       [str_of_int pool_id; "10.0"; key_hex i] None 9999) 300.

Lemma firstn_range (k : nat) (n : Z) :
  (k <= Z.to_nat n)%nat -> firstn k (range n) = range (Z.of_nat k).
Proof.
  intros H. unfold range. rewrite firstn_map. f_equal.
  rewrite Nat2Z.id.
  replace (Z.to_nat n) with (k + (Z.to_nat n - k))%nat by lia.
  rewrite seq_app, firstn_app, length_seq, Nat.sub_diag.
  cbn [firstn]. rewrite app_nil_r. apply firstn_all2.
  rewrite length_seq. lia.
Qed.

Section WithWorld.
Variable S : Type.
Variable exec : S -> call -> outcome * S.
Variable json_loads : string -> option report.

(** [run_transaction] runs one child process, whether it returns or
    raises. *)
Lemma run_transaction_cli (tx_path : string) (args : list string)
    (signer : option string) (limit : Z) (w : world S) :
  cli_calls (trace (snd (run_transaction S exec json_loads tx_path args
                           signer limit w)))
  = Subprocess (Transactions.send_command tx_path args signer limit) 300
    :: cli_calls (trace w).
Proof.
  unfold run_transaction.
  fold (Transactions.send_command tx_path args signer limit).
  unfold bind at 1. unfold run_command, subprocess_run, request.
  destruct (exec (env w) _) as [[rc out err|e] s']; [|reflexivity].
  cbn [stdout stderr returncode].
  destruct (parse_tx_id (out ++ err)) as [[|c t]|]; try reflexivity.
  destruct (classify rc (out ++ err)); [|reflexivity].
  unfold bind at 1. unfold get_transaction_computation. unfold bind at 1.
  match goal with
  | |- context [get_computation_report S exec json_loads ?w1] =>
      pose proof (Transactions.report_logged S exec json_loads w1) as L;
      destruct (get_computation_report S exec json_loads w1) as [[e|r] w2]
  end; cbn [snd] in L; unfold bind, ret; cbn [snd fst trace];
    try rewrite L; reflexivity.
Qed.

Lemma deposit_loop_batches (fuel : nat) :
  forall (pool_id remaining : Z) (result : BenchmarkResult) (total : Z)
         (w : world S),
    (List.length (batch_sizes remaining) <= fuel)%nat ->
    match deposit_loop S exec json_loads fuel pool_id remaining result
            total w with
    | (inr None, _) => False
    | (inr (Some (result', total')), w') =>
        cli_calls (trace w')
        = (rev (map (deposit_call pool_id) (batch_sizes remaining))
           ++ cli_calls (trace w))%list
        /\ exists added,
            deposit_cus result' = (deposit_cus result ++ added)%list
            /\ total' = total + sum added
            /\ Forall (fun c => c <> 0) added
            /\ len added <= len (batch_sizes remaining)
    | (inl _, _) => True
    end.
Proof.
  assert (N : forall (result : BenchmarkResult) (total : Z),
             exists added,
               deposit_cus result = (deposit_cus result ++ added)%list
               /\ total = total + sum added
               /\ Forall (fun c : Z => c <> 0) added
               /\ len added <= len (@nil Z)).
  { intros result total. exists []. rewrite app_nil_r.
    split; [reflexivity |]. split; [cbn; lia |].
    split; [constructor | cbn; lia]. }
  induction fuel as [|k IH]; intros pool_id remaining result total w Hf.
  - assert (R : remaining <= 0).
    { destruct (Z_le_gt_dec remaining 0) as [R|R]; [exact R |].
      rewrite (batch_sizes_unfold remaining) in Hf by lia.
      cbn [List.length] in Hf. lia. }
    cbn [deposit_loop]. apply Z.leb_le in R. rewrite R. apply Z.leb_le in R.
    cbn [ret]. rewrite batch_sizes_nonpos by exact R. cbn [map rev app].
    split; [reflexivity | apply N].
  - cbn [deposit_loop].
    destruct (remaining <=? 0) eqn:R.
    + apply Z.leb_le in R.
      cbn [ret]. rewrite batch_sizes_nonpos by exact R. cbn [map rev app].
      split; [reflexivity | apply N].
    + apply Z.leb_gt in R. unfold bind at 1. unfold batch_deposit.
      pose proof (run_transaction_cli
                    (TX_PATH ++ "/batch_deposit_to_pool.cdc")
                    [str_of_int pool_id; DEFAULT_DEPOSIT_AMOUNT;
                     str_of_int (Z.min 50 remaining)] None 9999 w) as C.
      destruct (run_transaction S exec json_loads _ _ None 9999 w)
        as [[e|res] w1]; [exact I |].
      cbn [snd] in C.
      set (upd :=
             match computation res with
             | Some c =>
                 if c =? 0 then (result, total)
                 else (set_deposit_cus result (deposit_cus result ++ [c]),
                       total + c)
             | None => (result, total)
             end).
      assert (U : exists a1,
                 deposit_cus (fst upd) = (deposit_cus result ++ a1)%list
                 /\ snd upd = total + sum a1
                 /\ Forall (fun c => c <> 0) a1 /\ len a1 <= 1).
      { unfold upd. destruct (computation res) as [c|].
        - destruct (c =? 0) eqn:Z0.
          + destruct (N result total) as (a & N1 & N2 & N3 & N4).
            exists a. cbn in N4. cbn [fst snd]. repeat split; auto. lia.
          + exists [c]. apply Z.eqb_neq in Z0. cbn [fst snd].
            split; [reflexivity |]. split; [cbn; lia |].
            split; [constructor; [exact Z0 | constructor] | cbn; lia].
        - destruct (N result total) as (a & N1 & N2 & N3 & N4).
          exists a. cbn in N4. cbn [fst snd]. repeat split; auto. lia. }
      destruct upd as [result1 total1]. cbn [fst snd] in U.
      destruct U as (a1 & U1 & U2 & U3 & U4).
      assert (B : batch_sizes (remaining - Z.min 50 remaining)
                  = batch_sizes (remaining - 50)).
      { destruct (Z_le_gt_dec remaining 50).
        - rewrite !batch_sizes_nonpos by lia. reflexivity.
        - f_equal. lia. }
      rewrite (batch_sizes_unfold remaining R) in Hf |- *.
      cbn [List.length] in Hf.
      specialize (IH pool_id (remaining - Z.min 50 remaining) result1 total1
                    w1).
      rewrite B in IH. specialize (IH ltac:(lia)).
      destruct (deposit_loop S exec json_loads k pool_id
                  (remaining - Z.min 50 remaining) result1 total1 w1)
        as [[e|[[result' total']|]] w']; [exact I | | exact IH].
      destruct IH as (I1 & added & I5 & I6 & I7 & I8).
      split.
      { rewrite I1, C. cbn [map rev]. rewrite <- app_assoc. reflexivity. }
      exists (a1 ++ added)%list.
      rewrite I5, U1, I6, U2, DrawAccounting.sum_app, <- app_assoc.
      split; [reflexivity |]. split; [lia |].
      split; [apply Forall_app; auto |].
      rewrite DrawAccounting.len_app, DrawAccounting.len_cons. lia.
Qed.

(** X11.  The loop that creates the user positions of
    [run_multi_user_benchmark] ends for every user count: as many
    iterations as there are batches suffice.  When it has ended, the
    deposits sent are exactly one transaction per batch of at most fifty
    positions, in order: the batch sizes lie between 1 and 50, there are
    ceil(user_count / 50) of them and they add up to the user count.  The
    list [deposit_cus] has grown by the computations that were reported
    and are not zero, and the total is their sum. *)
Theorem deposits_cover_users (fuel : nat) (pool_id user_count : Z)
    (result : BenchmarkResult) (w : world S)
    (r : option (BenchmarkResult * Z)) (w' : world S) :
  0 <= user_count ->
  (List.length (batch_sizes user_count) <= fuel)%nat ->
  deposit_loop S exec json_loads fuel pool_id user_count result 0 w
  = (inr r, w') ->
  exists result' total,
    r = Some (result', total)
    /\ cli_calls (trace w')
       = (rev (map (deposit_call pool_id) (batch_sizes user_count))
          ++ cli_calls (trace w))%list
    /\ sum (batch_sizes user_count) = user_count
    /\ Forall (fun c => 1 <= c <= 50) (batch_sizes user_count)
    /\ len (batch_sizes user_count) = Scenarios.ceil_div user_count 50
    /\ exists added,
        deposit_cus result' = (deposit_cus result ++ added)%list
        /\ total = sum added
        /\ Forall (fun c => c <> 0) added
        /\ len added <= len (batch_sizes user_count).
Proof.
  intros Hu Hf H.
  pose proof (deposit_loop_batches fuel pool_id user_count result 0 w Hf)
    as L.
  rewrite H in L. destruct r as [[result' total]|]; [|contradiction].
  destruct L as (L1 & added & L2 & L3 & L4 & L5).
  exists result', total. split; [reflexivity |]. split; [exact L1 |].
  split; [apply batch_sizes_sum; exact Hu |].
  split; [apply batch_sizes_bounds |].
  split; [apply batch_sizes_length; exact Hu |].
  exists added. repeat split; auto.
Qed.

Lemma receivers_loop (indices : list Z) :
  forall (pool_id created failed : Z) (w : world S)
         (created' failed' : Z) (w' : world S),
    0 <= failed <= 3 ->
    create_receivers_loop S exec json_loads indices pool_id created failed w
    = (inr (created', failed'), w') ->
    exists k : nat,
      (k <= List.length indices)%nat
      /\ created' + failed' = created + failed + Z.of_nat k
      /\ created <= created' /\ failed <= failed' <= 4
      /\ (failed' <= 3 -> k = List.length indices)
      /\ cli_calls (trace w')
         = (rev (map (receiver_call pool_id) (firstn k indices))
            ++ cli_calls (trace w))%list.
Proof.
  induction indices as [|i rest IH];
    intros pool_id created failed w created' failed' w' Hf H.
  - cbn in H. injection H as <- <- <-. exists O. cbn.
    repeat split; lia.
  - cbn [create_receivers_loop] in H. unfold bind at 1 in H.
    pose proof (run_transaction_cli
                  (TX_PATH ++ "/create_receiver_account.cdc")
                  [str_of_int pool_id; DEFAULT_DEPOSIT_AMOUNT; key_hex i]
                  None 9999 w) as C.
    destruct (run_transaction S exec json_loads _ _ None 9999 w)
      as [[e|res] w1]; [discriminate |].
    cbn [snd] in C. fold (receiver_call pool_id i) in C.
    destruct (success res).
    + destruct (IH _ _ _ _ _ _ _ Hf H) as (k & K1 & K2 & K3 & K4 & K5 & K6).
      exists (Datatypes.S k). cbn [List.length firstn map rev].
      split; [lia |]. split; [lia |]. split; [lia |]. split; [lia |].
      split; [intros F; rewrite (K5 F); reflexivity |].
      rewrite K6, C, <- app_assoc. reflexivity.
    + destruct (3 <? failed + 1) eqn:F.
      * apply Z.ltb_lt in F. cbn in H. injection H as <- <- <-.
        exists 1%nat. cbn [List.length firstn map rev app].
        split; [lia |]. split; [lia |]. split; [lia |]. split; [lia |].
        split; [lia |]. rewrite C. reflexivity.
      * apply Z.ltb_ge in F.
        assert (Hf' : 0 <= failed + 1 <= 3) by lia.
        destruct (IH _ _ _ _ _ _ _ Hf' H)
          as (k & K1 & K2 & K3 & K4 & K5 & K6).
        exists (Datatypes.S k). cbn [List.length firstn map rev].
        split; [lia |]. split; [lia |]. split; [lia |]. split; [lia |].
        split; [intros F'; rewrite (K5 F'); reflexivity |].
        rewrite K6, C, <- app_assoc. reflexivity.
Qed.

(** X12.  The loop of [find_batch_limit] that creates the receiver
    accounts sends its transactions for the accounts 0, 1, 2, ... in
    order, counts each of them as created or as failed, and gives up
    after the fourth failure: with fewer than four failures every one of
    the [max_users] accounts was attempted. *)
Theorem receivers_until_four_failures (pool_id max_users : Z) (w : world S)
    (created failed : Z) (w' : world S) :
  create_receivers S exec json_loads pool_id max_users w
  = (inr (created, failed), w') ->
  0 <= created /\ 0 <= failed <= 4
  /\ created + failed <= Z.max 0 max_users
  /\ (failed <= 3 -> created + failed = Z.max 0 max_users)
  /\ cli_calls (trace w')
     = (rev (map (receiver_call pool_id) (range (created + failed)))
        ++ cli_calls (trace w))%list.
Proof.
  intros H. unfold create_receivers in H.
  assert (Hf : 0 <= 0 <= 3) by lia.
  destruct (receivers_loop _ _ _ _ _ _ _ _ Hf H)
    as (k & K1 & K2 & K3 & K4 & K5 & K6).
  assert (L : List.length (range max_users) = Z.to_nat max_users).
  { unfold range. rewrite length_map, length_seq. reflexivity. }
  rewrite L in *.
  split; [lia |]. split; [lia |]. split; [lia |].
  split; [intros F; rewrite (K5 F) in K2; lia |].
  rewrite K6. f_equal. f_equal. f_equal.
  replace (created + failed) with (Z.of_nat k) by lia.
  apply firstn_range. lia.
Qed.

End WithWorld.

(** An emulator that seals every transaction under the id abc1 and
    reports the computation [cu] for it. *)
Definition sealing (cu : Z) (s : unit) (c : call) : outcome * unit :=
  match c with
  | Subprocess _ _ => (Returned 0 "Transaction ID: abc1" "", s)
  | UrlOpen _ _ _ => (Returned 0 (str_of_int cu) "", s)
  end.

Lemma deposits_cover_users_witness :
  exists result' total,
    fst (deposit_loop unit (sealing 1000) (Probing.loads_two 1000) 3 1 120
           (BatchLoops.result_for 120 50) 0 Reporting.start)
    = inr (Some (result', total))
    /\ sum (batch_sizes 120) = 120
    /\ len (batch_sizes 120) = 3.
Proof.
  destruct (deposits_cover_users unit (sealing 1000) (Probing.loads_two 1000)
              3 1 120 (BatchLoops.result_for 120 50) Reporting.start
              (match fst (deposit_loop unit (sealing 1000)
                            (Probing.loads_two 1000) 3 1 120
                            (BatchLoops.result_for 120 50) 0 Reporting.start)
               with inr r => r | inl _ => None end)
              (snd (deposit_loop unit (sealing 1000) (Probing.loads_two 1000)
                      3 1 120 (BatchLoops.result_for 120 50) 0
                      Reporting.start)))
    as (result' & total & E & _ & Hs & _ & Hl & _).
  - lia.
  - vm_compute. lia.
  - vm_compute. reflexivity.
  - exists result', total. split; [|split; [exact Hs | exact Hl]].
    rewrite <- E. vm_compute. reflexivity.
Defined.

(** An emulator that rejects every transaction. *)
Definition refusing (s : unit) (c : call) : outcome * unit :=
  (Returned 1 "" "error: rejected", s).

Lemma receivers_until_four_failures_witness :
  exists w',
    create_receivers unit refusing BatchLoops.no_report 1 6 Reporting.start
    = (inr (0, 4), w')
    /\ 0 + 4 <= Z.max 0 6
    /\ cli_calls (trace w')
       = (rev (map (receiver_call 1) (range (0 + 4)))
          ++ cli_calls (trace Reporting.start))%list.
Proof.
  eexists. split; [vm_compute; reflexivity |].
  refine ((fun H => conj (proj1 (proj2 (proj2 H)))
                      (proj2 (proj2 (proj2 (proj2 H))))) _).
  eapply (receivers_until_four_failures unit refusing BatchLoops.no_report
            1 6 Reporting.start 0 4).
  vm_compute. reflexivity.
Defined.

(** ** The keys of the receiver accounts *)

Definition hex_char_value (c : ascii) : Z :=
  let n := Z.of_nat (nat_of_ascii c) in
  if n <? 58 then n - 48 else n - 87.

Fixpoint hex_value (s : string) (acc : Z) : Z :=
  match s with
  | EmptyString => acc
  | String c t => hex_value t (acc * 16 + hex_char_value c)
  end.

Lemma hex_digit_value (n : Z) : hex_char_value (hex_digit n) = n mod 16.
Proof.
  unfold hex_char_value, hex_digit.
  pose proof (Z.mod_pos_bound n 16 ltac:(lia)) as B.
  destruct (Nat.ltb (Z.to_nat (n mod 16)) 10) eqn:E.
  - apply Nat.ltb_lt in E. rewrite nat_ascii_embedding by lia.
    destruct (_ <? 58) eqn:F; [lia |]. apply Z.ltb_ge in F. lia.
  - apply Nat.ltb_ge in E. rewrite nat_ascii_embedding by lia.
    destruct (_ <? 58) eqn:F; [|lia]. apply Z.ltb_lt in F. lia.
Qed.

Lemma hex_digit_is_hex (n : Z) : is_hex (hex_digit n) = true.
Proof.
  unfold is_hex, in_range, hex_digit.
  pose proof (Z.mod_pos_bound n 16 ltac:(lia)) as B.
  destruct (Nat.ltb (Z.to_nat (n mod 16)) 10) eqn:E.
  - apply Nat.ltb_lt in E. rewrite nat_ascii_embedding by lia.
    apply orb_true_iff. left. apply andb_true_iff.
    split; apply Nat.leb_le; lia.
  - apply Nat.ltb_ge in E. rewrite nat_ascii_embedding by lia.
    apply orb_true_iff. right. apply andb_true_iff.
    split; apply Nat.leb_le; lia.
Qed.

Lemma hex_value_app (a b : string) (acc : Z) :
  hex_value (a ++ b) acc = hex_value b (hex_value a acc).
Proof.
  revert acc. induction a as [|c a IH]; intros acc; cbn; [reflexivity |].
  apply IH.
Qed.

Lemma hex_digits_acc (fuel : nat) :
  forall n acc, hex_digits fuel n acc = hex_digits fuel n "" ++ acc.
Proof.
  induction fuel as [|k IH]; intros n acc; cbn [hex_digits]; [reflexivity |].
  destruct (n <? 16); [reflexivity |].
  rewrite (IH (n / 16) (String (hex_digit n) acc)).
  rewrite (IH (n / 16) (String (hex_digit n) "")).
  rewrite TextForms.append_assoc. reflexivity.
Qed.

Lemma hex_digits_value (fuel : nat) :
  forall n, 0 <= n < 2 ^ Z.of_nat fuel ->
            hex_value (hex_digits fuel n "") 0 = n.
Proof.
  induction fuel as [|k IH]; intros n H.
  - change (2 ^ Z.of_nat 0) with 1 in H. assert (n = 0) by lia. subst.
    reflexivity.
  - cbn [hex_digits]. destruct (n <? 16) eqn:E.
    + apply Z.ltb_lt in E. cbn [hex_value]. rewrite hex_digit_value.
      rewrite Z.mod_small by lia. lia.
    + apply Z.ltb_ge in E. rewrite hex_digits_acc, hex_value_app.
      rewrite IH.
      * cbn [hex_value]. rewrite hex_digit_value.
        pose proof (Z.div_mod n 16 ltac:(lia)). lia.
      * split; [apply Z.div_pos; lia |].
        apply Z.div_lt_upper_bound; [lia |].
        rewrite Nat2Z.inj_succ, Z.pow_succ_r in H by lia. lia.
Qed.

Lemma zeros_value (k : nat) (s : string) :
  hex_value (zeros k s) 0 = hex_value s 0.
Proof. induction k as [|k IH]; cbn; [reflexivity | exact IH]. Qed.

Lemma format_064x_value (n : Z) :
  0 <= n -> hex_value (format_064x n) 0 = n.
Proof.
  intros H. unfold format_064x. rewrite zeros_value.
  apply hex_digits_value. split; [exact H |].
  destruct (Z.eq_dec n 0) as [->|N]; [cbn; lia |].
  rewrite Nat2Z.inj_succ, Z2Nat.id by apply Z.log2_nonneg.
  apply Z.log2_spec. lia.
Qed.

Lemma hex_digits_length (fuel : nat) :
  forall (m : nat) n acc,
    n < 16 ^ Z.of_nat m -> (1 <= m)%nat ->
    (String.length (hex_digits fuel n acc) <= m + String.length acc)%nat.
Proof.
  induction fuel as [|k IH]; intros m n acc H Hm; cbn [hex_digits].
  - lia.
  - destruct (n <? 16) eqn:E.
    + cbn [String.length]. lia.
    + apply Z.ltb_ge in E.
      destruct m as [|m]; [lia |].
      destruct m as [|m].
      { change (16 ^ Z.of_nat 1) with 16 in H. lia. }
      specialize (IH (Datatypes.S m) (n / 16) (String (hex_digit n) acc)).
      cbn [String.length] in IH.
      assert (n / 16 < 16 ^ Z.of_nat (Datatypes.S m)).
      { apply Z.div_lt_upper_bound; [lia |].
        rewrite (Nat2Z.inj_succ (Datatypes.S m)), Z.pow_succ_r in H by lia.
        lia. }
      specialize (IH H0 ltac:(lia)). lia.
Qed.

Lemma zeros_length (k : nat) (s : string) :
  String.length (zeros k s) = (k + String.length s)%nat.
Proof. induction k as [|k IH]; cbn; [reflexivity | rewrite IH; lia]. Qed.

Lemma format_064x_length (n : Z) :
  n < 16 ^ 64 -> String.length (format_064x n) = 64%nat.
Proof.
  intros H. unfold format_064x. rewrite zeros_length.
  pose proof (hex_digits_length (Datatypes.S (Z.to_nat (Z.log2 n))) 64 n ""
                H ltac:(lia)) as L.
  cbn [String.length] in L. lia.
Qed.

Lemma append_length (a b : string) :
  String.length (a ++ b) = (String.length a + String.length b)%nat.
Proof. induction a as [|c a IH]; cbn; [reflexivity | rewrite IH; lia]. Qed.

Lemma append_inj (a c b d : string) :
  String.length a = String.length c -> a ++ b = c ++ d -> a = c.
Proof.
  revert c. induction a as [|x a IH]; intros [|y c] L E;
    try discriminate; [reflexivity |].
  cbn in E. injection E as -> E. cbn in L.
  rewrite (IH c); [reflexivity | lia | exact E].
Qed.

(** X13.  The public key that [find_batch_limit] makes up for the
    account number [i] has 128 characters, and two different accounts
    never get the same key (for the account numbers below 16^64 - 4096,
    where the two halves of the key still have 64 digits each). *)
Theorem receiver_keys_unique (i j : Z) :
  0 <= i -> 0 <= j ->
  i + 4096 < 16 ^ 64 -> j + 4096 < 16 ^ 64 ->
  String.length (key_hex i) = 128%nat
  /\ (key_hex i = key_hex j -> i = j).
Proof.
  intros Hi Hj Bi Bj. unfold key_hex. split.
  - rewrite append_length, !format_064x_length by lia. reflexivity.
  - intros E.
    apply append_inj in E;
      [|rewrite !format_064x_length by lia; reflexivity].
    apply (f_equal (fun s => hex_value s 0)) in E.
    rewrite !format_064x_value in E by lia. lia.
Qed.

Lemma receiver_keys_unique_witness :
  String.length (key_hex 7) = 128%nat
  /\ (key_hex 7 = key_hex 199 -> 7 = 199).
Proof.
  apply receiver_keys_unique; try lia;
    (apply Z.ltb_lt; vm_compute; reflexivity).
Defined.

End SetupLoops.

(* ================================================================== *)
(** * The benchmark run of benchmark_complete_draw.py *)
(* ================================================================== *)

Module CompleteDrawFacts.
Import Py Eff Builtins CompleteDrawRun Schedules.

(** The command line of [run_flow_tx]. *)
Definition send_command (tx_path : string) (args : list string)
    (signer : string) (compute_limit : Z) : list string :=
  (["flow"; "transactions"; "send"; tx_path] ++ args
   ++ ["--signer"; signer; "--network"; NETWORK;
       "--compute-limit"; str_of_int compute_limit;
       "--output"; "json"] ++ FLOW_FLAGS)%list.

(** The request for the computation report. *)
Definition report_call : call :=
  Subprocess ["curl"; "-s";
              "http://localhost:" ++ str_of_int EMULATOR_PORT
              ++ "/emulator/computationReport"] 10.

(** The transactions of the file [path] in a log of requests. *)
Definition is_send (path : string) (c : call) : bool :=
  match c with
  | Subprocess (_ :: _ :: verb :: p :: _) _ =>
      (String.eqb verb "send" && String.eqb p path)%bool
  | _ => false
  end.

Definition sends (path : string) (t : list call) : Z :=
  len (filter (is_send path) t).

Lemma sends_cons (path : string) (c : call) (t : list call) :
  sends path (c :: t)
  = (if is_send path c then 1 else 0) + sends path t.
Proof.
  unfold sends. cbn [filter]. destruct (is_send path c); [|lia].
  apply DrawAccounting.len_cons.
Qed.

(** [l] is [m] with some elements left out. *)
Inductive subsequence {A : Type} : list A -> list A -> Prop :=
| sub_nil : subsequence [] []
| sub_skip (x : A) (l m : list A) :
    subsequence l m -> subsequence l (x :: m)
| sub_take (x : A) (l m : list A) :
    subsequence l m -> subsequence (x :: l) (x :: m).

(** [r['phases'].get('completePoolDraw', 0)] *)
Definition computation_read (r : benchmark_result) : Z :=
  match completePoolDraw (phases r) with Some c => c | None => 0 end.

(** The results without an [error] entry. *)
Definition completed (rs : list benchmark_result) : list benchmark_result :=
  filter (fun r => match error r with None => true | Some _ => false end) rs.

Lemma subsequence_nil {A : Type} (m : list A) : subsequence [] m.
Proof. induction m; constructor; assumption. Qed.

Lemma computations_of_view (rs : list benchmark_result) :
  CompleteDraw.computations_of (map summary_view rs)
  = map computation_read rs.
Proof.
  induction rs as [|r rs IH]; [reflexivity |].
  cbn [map CompleteDraw.computations_of summary_view
       CompleteDraw.run_phases].
  unfold computation_read at 1.
  destruct (completePoolDraw (phases r)); rewrite IH; reflexivity.
Qed.

Lemma decimal_value_nonneg (s : string) :
  forall acc, all_digits s = true -> 0 <= acc -> 0 <= decimal_value s acc.
Proof.
  induction s as [|c s IH]; intros acc D A; cbn [decimal_value];
    [exact A |].
  cbn [all_digits] in D. apply andb_true_iff in D. destruct D as (D1 & D2).
  apply IH; [exact D2 |].
  unfold is_digit, in_range in D1. apply andb_true_iff in D1.
  destruct D1 as (L & _). apply Nat.leb_le in L.
  unfold digit_value. lia.
Qed.

Lemma int_of_str_result (s : string) :
  match int_of_str s with
  | inr n => 0 <= n
  | inl e => e = ValueError
  end.
Proof.
  unfold int_of_str. destruct s as [|c s]; [reflexivity |].
  destruct (all_digits (String c s)) eqn:D; [|reflexivity].
  apply decimal_value_nonneg; [exact D | lia].
Qed.

Lemma ints_of_result (parts : list string) :
  match ints_of parts with
  | inr ns => Forall (fun n => 0 <= n) ns
  | inl e => e = ValueError
  end.
Proof.
  induction parts as [|x rest IH]; cbn [ints_of]; [constructor |].
  destruct (strip x) as [|c t] eqn:E; [exact IH |].
  unfold ebind.
  pose proof (int_of_str_result (String c t)) as I.
  destruct (int_of_str (String c t)) as [e|n]; [exact I |].
  destruct (ints_of rest) as [e|ns]; [exact IH |].
  constructor; assumption.
Qed.

(** X20.  The pool id that [create_multi_winner_pool] reads from the
    output of the script is the largest number of the first bracketed
    list in it, and never negative.  There is no id when the output has
    no such list or the list has no number; and a list with an entry
    that is not one number, as in [1 2], raises a [ValueError]. *)
Theorem newest_pool_is_maximum (output : string) :
  match newest_pool output with
  | inr (Some m) =>
      exists g pools,
        search match_pool_list output = Some g
        /\ ints_of (split_on ","%char g) = inr pools
        /\ In m pools
        /\ Forall (fun p => 0 <= p <= m) pools
  | inr None =>
      search match_pool_list output = None
      \/ exists g, search match_pool_list output = Some g
                   /\ ints_of (split_on ","%char g) = inr []
  | inl e => e = ValueError
  end.
Proof.
  unfold newest_pool.
  destruct (search match_pool_list output) as [g|]; [|left; reflexivity].
  unfold ebind.
  pose proof (ints_of_result (split_on ","%char g)) as I.
  destruct (ints_of (split_on ","%char g)) as [e|pools] eqn:E;
    [exact I |].
  destruct pools as [|p pools];
    [right; exists g; split; [reflexivity | exact E] |].
  destruct (max_list (p :: pools)) as [e|m] eqn:M; [discriminate |].
  apply PyFacts.max_list_spec in M. destruct M as (M1 & M2).
  exists g, (p :: pools). split; [reflexivity |]. split; [exact E |].
  split; [exact M1 |].
  apply Forall_forall. intros x Hx. split; [|apply M2; exact Hx].
  rewrite Forall_forall in I. apply I. exact Hx.
Qed.

Section WithWorld.
Variable S : Type.
Variable exec : S -> call -> outcome * S.
Variable json_loads : string -> option json.
Variable json_loads_report : string -> option report.
Variable str_of_exn : exn -> string.
Variable repr : json -> string.
Variable str_of_float : float -> string.

Local Abbreviation run_flow_tx :=
  (run_flow_tx S exec json_loads json_loads_report str_of_exn repr).

Lemma run_command_logged (cmd : list string) (t : Z) (w : world S) :
  trace (snd (run_command S exec str_of_exn cmd t w))
  = Subprocess cmd t :: trace w.
Proof.
  unfold run_command, try_except, subprocess_run, bind, request, ret.
  destruct (exec (env w) (Subprocess cmd t)) as [[rc out err|e] s'];
    [reflexivity |].
  destruct (isinstance_TimeoutExpired e); [reflexivity |].
  destruct (isinstance_Exception e); reflexivity.
Qed.

Lemma curl_report_logged (w : world S) :
  trace (snd (get_computation_report S exec json_loads_report w))
  = report_call :: trace w.
Proof.
  unfold get_computation_report, try_except, subprocess_run, bind, request,
    ret, raise.
  fold report_call.
  destruct (exec (env w) report_call) as [[rc out err|e] s'];
    cbn [returncode stdout].
  - destruct ((rc =? 0) && negb (String.eqb out ""))%bool; [|reflexivity].
    destruct (json_loads_report out); reflexivity.
  - destruct (isinstance_Exception e); reflexivity.
Qed.

Lemma run_flow_tx_trace (tx_path : string) (args : list string)
    (signer : string) (limit : Z) (measure : bool) (w : world S)
    (ok : bool) (output : string) (tx : json) (comp : Z) (w' : world S) :
  run_flow_tx tx_path args signer limit measure w
  = (inr (ok, output, tx, comp), w') ->
  exists lookups,
    trace w'
    = (lookups ++ Subprocess (send_command tx_path args signer limit) 120
       :: trace w)%list
    /\ (lookups = [] \/ lookups = [report_call])
    /\ (lookups <> [] <-> measure = true /\ ok = true /\ truthy tx = true)
    /\ (lookups = [] -> comp = 0).
Proof.
  intros H. unfold CompleteDrawRun.run_flow_tx in H.
  fold (send_command tx_path args signer limit) in H.
  unfold bind at 1 in H.
  pose proof (run_command_logged (send_command tx_path args signer limit)
                120 w) as L.
  destruct (run_command S exec str_of_exn _ 120 w)
    as [[e|[[code out] err]] w1]; [discriminate |].
  cbn [snd] in L.
  assert (Quiet : forall ok' output' tx' w2,
             (@inr exn _ (ok', output', tx', 0), w1)
             = (inr (ok, output, tx, comp), w2) ->
             (ok' = false \/ measure = false \/ truthy tx' = false) ->
             exists lookups,
               trace w2
               = (lookups
                  ++ Subprocess (send_command tx_path args signer limit) 120
                  :: trace w)%list
               /\ (lookups = [] \/ lookups = [report_call])
               /\ (lookups <> [] <->
                   measure = true /\ ok = true /\ truthy tx = true)
               /\ (lookups = [] -> comp = 0)).
  { intros ok' output' tx' w2 E D.
    assert (ok' = ok /\ tx' = tx /\ comp = 0 /\ w1 = w2)
      as (-> & -> & -> & ->).
    { injection E. intros. subst. auto. }
    exists []. split; [exact L |]. split; [auto |]. split; [|auto].
    split; [congruence |]. intros (A & B & C).
    destruct D as [D|[D|D]]; congruence. }
  destruct (json_loads out) as [result|].
  - assert (D : exists d, result = JDict d).
    { destruct result; try (cbn in H; discriminate). eauto. }
    destruct D as (d & ->).
    unfold bind at 1 in H. unfold lift at 1 in H.
    destruct ((d0 <- get (JDict d) "transactionId" JNull ;;
               get (JDict d) "id" d0)%exn) as [e|tx0]; [discriminate |].
    unfold bind at 1 in H. unfold lift at 1 in H.
    destruct (get (JDict d) "status" JNull) as [e|st]; [discriminate |].
    unfold bind at 1 in H.
    match type of H with
    | match ?c w1 with _ => _ end = _ =>
        assert (Sealed : exists b, c w1 = (inr b, w1) )
    end.
    { destruct (eq_str st "SEALED"); [exists true; reflexivity |].
      unfold bind, lift, ret. cbn [get]. eexists; reflexivity. }
    destruct Sealed as (sealed & Sl). rewrite Sl in H. clear Sl.
    unfold bind at 1 in H.
    match type of H with
    | match ?c w1 with _ => _ end = _ =>
        destruct (c w1) as [[e|failure] w2] eqn:F; [discriminate |]
    end.
    assert (w2 = w1) as ->.
    { destruct sealed; [unfold ret in F; congruence |].
      unfold bind, lift, ret in F.
      destruct ((d0 <- get (JDict d) "errorMessage" (JStr "") ;;
                 get (JDict d) "error" d0)%exn) as [e|error];
        [discriminate |].
      destruct (truthy error); congruence. }
    destruct failure as [text|].
    + unfold ret in H. eapply Quiet; [exact H | auto].
    + destruct (measure && truthy tx0)%bool eqn:MT.
      * apply andb_true_iff in MT. destruct MT as (M1 & M2).
        unfold bind at 1 in H.
        pose proof (curl_report_logged w1) as R.
        destruct (get_computation_report S exec json_loads_report w1)
          as [[e|rep] w3]; [discriminate |].
        cbn [snd] in R.
        unfold bind at 1 in H. unfold lift at 1 in H.
        destruct (reported_computation tx0 rep) as [e|c]; [discriminate |].
        unfold ret in H.
        assert (true = ok /\ tx0 = tx /\ w3 = w')
          as (<- & -> & ->).
        { injection H. intros. subst. auto. }
        exists [report_call]. rewrite R, L.
        split; [reflexivity |]. split; [auto |].
        split; [split; [auto | discriminate] | discriminate].
      * unfold ret in H. eapply Quiet; [exact H |].
        apply andb_false_iff in MT. tauto.
  - unfold ret in H. eapply Quiet; [exact H |]. right. right. reflexivity.
Qed.

(** X14.  [run_flow_tx] of benchmark_complete_draw.py runs the CLI once.
    It asks for the computation report at most once, after the CLI, and
    exactly when it was told to measure, the transaction counts as a
    success and its id is not empty; in every other case the computation
    it returns is 0. *)
Theorem flow_tx_report_lookup (tx_path : string) (args : list string)
    (signer : string) (limit : Z) (measure : bool) (w : world S)
    (ok : bool) (output : string) (tx : json) (comp : Z) (w' : world S) :
  run_flow_tx tx_path args signer limit measure w
  = (inr (ok, output, tx, comp), w') ->
  exists lookups,
    trace w'
    = (lookups ++ Subprocess (send_command tx_path args signer limit) 120
       :: trace w)%list
    /\ (lookups = [] \/ lookups = [report_call])
    /\ (lookups <> [] <-> measure = true /\ ok = true /\ truthy tx = true)
    /\ (measure = false \/ ok = false \/ truthy tx = false -> comp = 0).
Proof.
  intros H.
  destruct (run_flow_tx_trace _ _ _ _ _ _ _ _ _ _ _ H)
    as (lookups & T & C & I & Z0).
  exists lookups. split; [exact T |]. split; [exact C |].
  split; [exact I |]. intros D. apply Z0.
  destruct lookups as [|c l]; [reflexivity |].
  assert (N : c :: l <> []) by discriminate.
  apply I in N. destruct N as (A & B & E).
  destruct D as [D|[D|D]]; congruence.
Qed.

(** X15.  For an answer of the CLI that is a JSON object without an error
    message, [run_flow_tx] reports a success whatever the exit status and
    whatever the status in the answer: a transaction that is not sealed
    counts as failed only when the answer carries a message under [error]
    or [errorMessage]. *)
Theorem unsealed_without_message_succeeds (tx_path : string)
    (args : list string) (signer : string) (limit : Z) (w : world S)
    (code : Z) (out err : string) (s' : S) (d : list (string * json)) :
  exec (env w) (Subprocess (send_command tx_path args signer limit) 120)
  = (Returned code out err, s') ->
  json_loads out = Some (JDict d) ->
  truthy (match assoc "error" d with
          | Some v => v
          | None => match assoc "errorMessage" d with
                    | Some v => v
                    | None => JStr ""
                    end
          end) = false ->
  run_flow_tx tx_path args signer limit false w
  = (inr (true, out,
          match assoc "id" d with
          | Some v => v
          | None => match assoc "transactionId" d with
                    | Some v => v
                    | None => JNull
                    end
          end, 0),
     {| env := s';
        trace := Subprocess (send_command tx_path args signer limit) 120
                 :: trace w |}).
Proof.
  intros E J T. unfold CompleteDrawRun.run_flow_tx.
  fold (send_command tx_path args signer limit).
  unfold bind at 1.
  unfold run_command, try_except, subprocess_run, bind at 1, request, ret
    at 1.
  rewrite E. cbn [returncode stdout stderr]. rewrite J.
  unfold bind, lift, ret, get, ebind.
  destruct (eq_str _ "SEALED"); [reflexivity |].
  destruct (eq_str _ "SEALED"); [reflexivity |].
  rewrite T. reflexivity.
Qed.

Lemma unmeasured_trace (tx_path : string) (args : list string)
    (signer : string) (limit : Z) (w : world S)
    (r : bool * string * json * Z) (w' : world S) :
  run_flow_tx tx_path args signer limit false w = (inr r, w') ->
  trace w'
  = Subprocess (send_command tx_path args signer limit) 120 :: trace w.
Proof.
  destruct r as [[[ok output] tx] comp]. intros H.
  destruct (run_flow_tx_trace _ _ _ _ _ _ _ _ _ _ _ H)
    as (lookups & T & _ & I & _).
  destruct lookups as [|c l]; [exact T |].
  assert (N : c :: l <> []) by discriminate.
  apply I in N. destruct N as (A & _). discriminate.
Qed.

(** The transaction that sets up the batch of users starting at
    [batch_start]. *)
Definition setup_call (pool users start_index batch_start : Z) : call :=
  Subprocess
    (send_command TX_SETUP_USERS
       [str_of_int pool; str_of_int (Z.min 50 (users - batch_start));
        "10.0"; str_of_int (start_index + batch_start)]
       ADMIN_ACCOUNT 99999) 120.

Lemma create_users_loop_trace (starts : list Z) :
  forall (pool users start_index : Z) (w : world S) (ok : bool)
         (w' : world S),
    create_users_loop S exec json_loads json_loads_report str_of_exn repr
      starts pool users start_index w = (inr ok, w') ->
    exists k : nat,
      (k <= List.length starts)%nat
      /\ trace w'
         = (rev (map (setup_call pool users start_index) (firstn k starts))
            ++ trace w)%list
      /\ (ok = true -> k = List.length starts)
      /\ (ok = false -> (1 <= k)%nat).
Proof.
  induction starts as [|b rest IH]; intros pool users start_index w ok w' H.
  - cbn in H. injection H as <- <-. exists O. cbn.
    repeat split; [lia | discriminate].
  - cbn [create_users_loop] in H. unfold bind at 1 in H.
    match type of H with
    | match ?c w with _ => _ end = _ =>
        destruct (c w) as [[e|[[[ok1 output] tx] comp]] w1] eqn:R;
          [discriminate |]
    end.
    apply unmeasured_trace in R. fold (setup_call pool users start_index b) in R.
    destruct ok1; cbn [negb] in H.
    + destruct (IH _ _ _ _ _ _ H) as (k & K1 & K2 & K3 & K4).
      exists (Datatypes.S k). cbn [List.length firstn map rev].
      split; [lia |]. split; [rewrite K2, R, <- app_assoc; reflexivity |].
      split; [intros E; rewrite (K3 E); reflexivity | lia].
    + unfold ret in H. injection H as <- <-.
      exists 1%nat. cbn [List.length firstn map rev app].
      split; [lia |]. split; [exact R |]. split; [discriminate | lia].
Qed.

(** X16.  [create_users] sends the set-up transactions batch by batch, in
    order, and stops at the first one that fails: when it returns [True]
    all the batches were sent, when it returns [False] at least one was.
    The batches name [count] storage indices each from their
    [startIndex] on; together these are the indices [start_index],
    [start_index + 1], ... of the [user_count] users, each once. *)
Theorem create_users_batches (pool users start_index : Z) (w : world S)
    (ok : bool) (w' : world S) :
  create_users S exec json_loads json_loads_report str_of_exn repr pool users
    start_index w = (inr ok, w') ->
  (exists k : nat,
      (k <= List.length (range_step users 50))%nat
      /\ trace w'
         = (rev (map (setup_call pool users start_index)
                   (firstn k (range_step users 50)))
            ++ trace w)%list
      /\ (ok = true -> k = List.length (range_step users 50))
      /\ (ok = false -> (1 <= k)%nat))
  /\ batch_indices users start_index
     = map (fun j => start_index + j) (range users)
  /\ Forall (fun c => 1 <= c <= 50) (batch_sizes users).
Proof.
  intros H. split; [apply create_users_loop_trace; exact H |].
  split; [apply batches_tile | apply batch_sizes_bounds].
Qed.

Lemma run_flow_tx_sends (path tx_path : string) (args : list string)
    (signer : string) (limit : Z) (measure : bool) (w : world S)
    (r : bool * string * json * Z) (w' : world S) :
  run_flow_tx tx_path args signer limit measure w = (inr r, w') ->
  sends path (trace w')
  = (if String.eqb tx_path path then 1 else 0) + sends path (trace w).
Proof.
  destruct r as [[[ok output] tx] comp]. intros H.
  destruct (run_flow_tx_trace _ _ _ _ _ _ _ _ _ _ _ H)
    as (lookups & T & [->| ->] & _); rewrite T; cbn [app].
  - rewrite sends_cons. reflexivity.
  - rewrite !sends_cons. reflexivity.
Qed.

Lemma run_flow_script_sends (path script : string) (args : list string)
    (w : world S) :
  sends path (trace (snd (run_flow_script S exec str_of_exn script args w)))
  = sends path (trace w).
Proof.
  unfold run_flow_script. unfold bind at 1.
  match goal with
  | |- context [run_command S exec str_of_exn ?cmd 120 w] =>
      pose proof (run_command_logged cmd 120 w) as L;
      destruct (run_command S exec str_of_exn cmd 120 w)
        as [[e|[[code out] err]] w1]
  end; cbn [snd] in *; unfold ret; cbn [snd]; rewrite L, sends_cons;
    reflexivity.
Qed.

Lemma get_draw_status_sends (path : string) (pool : Z) (w : world S) :
  sends path (trace (snd (get_draw_status S exec str_of_exn pool w)))
  = sends path (trace w).
Proof.
  unfold get_draw_status. unfold bind at 1.
  pose proof (run_flow_script_sends path SCRIPT_DRAW_STATUS
                [str_of_int pool] w) as L.
  destruct (run_flow_script S exec str_of_exn SCRIPT_DRAW_STATUS _ w)
    as [[e|r] w1]; exact L.
Qed.

Lemma process_batches_sends (path : string) (remaining : nat) :
  forall (pool users batch_count total : Z) (w : world S)
         (batch_count' total' : Z) (w' : world S),
    process_batches_loop S exec json_loads json_loads_report str_of_exn repr
      remaining pool users batch_count total w
    = (inr (batch_count', total'), w') ->
    0 <= batch_count' - batch_count <= Z.of_nat remaining
    /\ (0 < Z.of_nat remaining -> 1 <= batch_count' - batch_count)
    /\ sends path (trace w')
       = (if String.eqb TX_PROCESS_BATCH path
          then batch_count' - batch_count else 0)
         + sends path (trace w).
Proof.
  induction remaining as [|k IH];
    intros pool users batch_count total w batch_count' total' w' H.
  - cbn in H. injection H as <- <- <-.
    split; [lia |]. split; [lia |].
    destruct (String.eqb TX_PROCESS_BATCH path); lia.
  - cbn [process_batches_loop] in H. unfold bind at 1 in H.
    match type of H with
    | match ?c w with _ => _ end = _ =>
        destruct (c w) as [[e|[[[ok1 output] tx] comp]] w1] eqn:R;
          [discriminate |]
    end.
    apply (run_flow_tx_sends path) in R.
    destruct ok1; cbn [negb] in H.
    + unfold bind at 1 in H.
      pose proof (get_draw_status_sends path pool w1) as G.
      destruct (get_draw_status S exec str_of_exn pool w1)
        as [[e|status] w2]; [discriminate |].
      cbn [snd] in G.
      destruct (isBatchComplete status).
      * unfold ret in H. injection H as <- <- <-.
        split; [lia |]. split; [lia |]. rewrite G, R.
        destruct (String.eqb TX_PROCESS_BATCH path); lia.
      * destruct (IH _ _ _ _ _ _ _ _ H) as (I1 & I2 & I3).
        split; [lia |]. split; [lia |]. rewrite I3, G, R.
        destruct (String.eqb TX_PROCESS_BATCH path); lia.
    + unfold ret in H. injection H as <- <- <-.
      split; [lia |]. split; [lia |]. rewrite R.
      destruct (String.eqb TX_PROCESS_BATCH path); lia.
Qed.

Lemma phases_1_to_3_shape (pool users winners : Z) (w : world S)
    (p : phase_results) (w' : world S) :
  run_draw_phases_1_to_3 S exec json_loads json_loads_report str_of_exn repr
    str_of_float pool users winners w = (inr p, w') ->
  completePoolDraw p = None
  /\ sends TX_COMPLETE_DRAW (trace w') = sends TX_COMPLETE_DRAW (trace w)
  /\ ((p = no_phases
       /\ sends TX_PROCESS_BATCH (trace w')
          = sends TX_PROCESS_BATCH (trace w))
      \/ (exists start batches,
             startPoolDraw p = Some start
             /\ processDrawBatch p = Some batches
             /\ 1 <= sends TX_PROCESS_BATCH (trace w')
                     - sends TX_PROCESS_BATCH (trace w) <= 100)).
Proof.
  intros H. unfold run_draw_phases_1_to_3 in H.
  unfold bind at 1 in H. unfold lift at 1 in H.
  destruct (float_of_int winners) as [e|wf]; [discriminate |].
  unfold bind at 1 in H. unfold fund_lottery_pool in H.
  unfold bind at 1 in H.
  match type of H with
  | match match ?c w with _ => _ end with _ => _ end = _ =>
      destruct (c w) as [[e|r0] w1] eqn:R0; [discriminate |]
  end.
  pose proof (run_flow_tx_sends TX_COMPLETE_DRAW _ _ _ _ _ _ _ _ R0) as C0.
  pose proof (run_flow_tx_sends TX_PROCESS_BATCH _ _ _ _ _ _ _ _ R0) as B0.
  change (String.eqb TX_FUND_LOTTERY TX_COMPLETE_DRAW) with false in C0. cbv iota in C0.
  change (String.eqb TX_FUND_LOTTERY TX_PROCESS_BATCH) with false in B0. cbv iota in B0.
  unfold ret at 1 in H.
  destruct (fst (fst (fst r0))); cbn [negb] in H.
  2:{ unfold ret in H. injection H as <- <-.
      split; [reflexivity |]. split; [lia |]. left. split; [reflexivity | lia]. }
  unfold bind at 1 in H.
  match type of H with
  | match ?c w1 with _ => _ end = _ =>
      destruct (c w1) as [[e|[[[ok1 out1] tx1] comp1]] w2] eqn:R1;
        [discriminate |]
  end.
  pose proof (run_flow_tx_sends TX_COMPLETE_DRAW _ _ _ _ _ _ _ _ R1) as C1.
  pose proof (run_flow_tx_sends TX_PROCESS_BATCH _ _ _ _ _ _ _ _ R1) as B1.
  change (String.eqb TX_START_DRAW TX_COMPLETE_DRAW) with false in C1. cbv iota in C1.
  change (String.eqb TX_START_DRAW TX_PROCESS_BATCH) with false in B1. cbv iota in B1.
  destruct ok1; cbn [negb] in H.
  2:{ unfold ret in H. injection H as <- <-.
      split; [reflexivity |]. split; [lia |]. left. split; [reflexivity | lia]. }
  unfold bind at 1 in H.
  match type of H with
  | match ?c w2 with _ => _ end = _ =>
      destruct (c w2) as [[e|[bc bt]] w3] eqn:R2; [discriminate |]
  end.
  pose proof (process_batches_sends TX_COMPLETE_DRAW _ _ _ _ _ _ _ _ _ R2)
    as (_ & _ & C2).
  pose proof (process_batches_sends TX_PROCESS_BATCH _ _ _ _ _ _ _ _ _ R2)
    as (B2a & B2b & B2).
  change (String.eqb TX_PROCESS_BATCH TX_COMPLETE_DRAW) with false in C2. cbv iota in C2.
  change (String.eqb TX_PROCESS_BATCH TX_PROCESS_BATCH) with true in B2. cbv iota in B2.
  unfold bind at 1 in H.
  match type of H with
  | match ?c w3 with _ => _ end = _ =>
      destruct (c w3) as [[e|[[[ok3 out3] tx3] comp3]] w4] eqn:R3;
        [discriminate |]
  end.
  pose proof (run_flow_tx_sends TX_COMPLETE_DRAW _ _ _ _ _ _ _ _ R3) as C3.
  pose proof (run_flow_tx_sends TX_PROCESS_BATCH _ _ _ _ _ _ _ _ R3) as B3.
  change (String.eqb TX_REQUEST_RANDOMNESS TX_COMPLETE_DRAW) with false in C3. cbv iota in C3.
  change (String.eqb TX_REQUEST_RANDOMNESS TX_PROCESS_BATCH) with false in B3. cbv iota in B3.
  cbn [snd] in H.
  destruct ok3; cbn [negb] in H; unfold ret in H; injection H as <- <-;
    (split; [reflexivity |]; split; [lia |]; right;
     exists comp1, bt; split; [reflexivity |]; split; [reflexivity |];
     change (Z.of_nat 100) with 100 in *; lia).
Qed.

(** X17.  What [run_draw_phases_1_to_3] returns is empty, or it holds the
    computation of [startPoolDraw] and of [processDrawBatch]; it never
    holds one for [completePoolDraw].  When it is empty no batch
    transaction was sent; otherwise at least one and at most a hundred
    were sent, also when the draw never reports its batches as complete.
    The transaction that completes the draw is never sent. *)
Theorem phases_1_to_3_result (pool users winners : Z) (w : world S)
    (p : phase_results) (w' : world S) :
  run_draw_phases_1_to_3 S exec json_loads json_loads_report str_of_exn repr
    str_of_float pool users winners w = (inr p, w') ->
  completePoolDraw p = None
  /\ sends TX_COMPLETE_DRAW (trace w') = sends TX_COMPLETE_DRAW (trace w)
  /\ ((p = no_phases
       /\ sends TX_PROCESS_BATCH (trace w')
          = sends TX_PROCESS_BATCH (trace w))
      \/ (exists start batches,
             startPoolDraw p = Some start
             /\ processDrawBatch p = Some batches
             /\ 1 <= sends TX_PROCESS_BATCH (trace w')
                     - sends TX_PROCESS_BATCH (trace w) <= 100)).
Proof. apply phases_1_to_3_shape. Qed.

Lemma create_users_loop_sends (path : string) (starts : list Z) :
  String.eqb TX_SETUP_USERS path = false ->
  forall (pool users start_index : Z) (w : world S) (ok : bool)
         (w' : world S),
    create_users_loop S exec json_loads json_loads_report str_of_exn repr
      starts pool users start_index w = (inr ok, w') ->
    sends path (trace w') = sends path (trace w).
Proof.
  intros N.
  induction starts as [|b rest IH]; intros pool users start_index w ok w' H.
  - cbn in H. injection H as <- <-. reflexivity.
  - cbn [create_users_loop] in H. unfold bind at 1 in H.
    match type of H with
    | match ?c w with _ => _ end = _ =>
        destruct (c w) as [[e|[[[ok1 output] tx] comp]] w1] eqn:R;
          [discriminate |]
    end.
    apply (run_flow_tx_sends path) in R. rewrite N in R.
    destruct ok1; cbn [negb] in H.
    + rewrite (IH _ _ _ _ _ _ H). lia.
    + unfold ret in H. injection H as <- <-. lia.
Qed.

Lemma single_benchmark_shape (winners users pool start_index run : Z)
    (w : world S) (r : benchmark_result) (w' : world S) :
  run_single_benchmark S exec json_loads json_loads_report str_of_exn repr
    str_of_float winners users pool start_index run w = (inr r, w') ->
  winner_count r = winners /\ user_count r = users
  /\ pool_id r = pool /\ run_number r = run
  /\ ((exists msg,
          error r = Some msg
          /\ (msg = "Failed to create users"
              \/ msg = "Failed in phases 1-3")
          /\ phases r = no_phases
          /\ computation_per_winner r = None
          /\ exceeded_limit r = None /\ computation_level r = None
          /\ sends TX_COMPLETE_DRAW (trace w')
             = sends TX_COMPLETE_DRAW (trace w))
      \/ (error r = None
          /\ exists start batches comp,
              startPoolDraw (phases r) = Some start
              /\ processDrawBatch (phases r) = Some batches
              /\ completePoolDraw (phases r) = Some comp
              /\ exceeded_limit r = Some (9999 <? comp)
              /\ (5000 < comp <-> computation_level r = Some "HIGH")
              /\ (comp <= 1000 <-> computation_level r = Some "LOW")
              /\ (winners <= 0 -> computation_per_winner r = Some (NInt 0))
              /\ sends TX_COMPLETE_DRAW (trace w')
                 = 1 + sends TX_COMPLETE_DRAW (trace w))).
Proof.
  intros H. unfold run_single_benchmark in H.
  unfold bind at 1 in H.
  match type of H with
  | match ?c w with _ => _ end = _ =>
      destruct (c w) as [[e|created] w1] eqn:R0; [discriminate |]
  end.
  apply (create_users_loop_sends TX_COMPLETE_DRAW) in R0; [|reflexivity].
  destruct created; cbn [negb] in H.
  2:{ unfold ret in H. injection H as <- <-. cbn.
      repeat split. left. eexists. repeat split; auto. }
  unfold bind at 1 in H.
  match type of H with
  | match ?c w1 with _ => _ end = _ =>
      destruct (c w1) as [[e|p] w2] eqn:R1; [discriminate |]
  end.
  destruct (phases_1_to_3_shape _ _ _ _ _ _ R1) as (P1 & P2 & P3).
  destruct (is_empty p) eqn:Em.
  { unfold ret in H. injection H as <- <-. cbn.
    repeat split. left. eexists. repeat split; auto. lia. }
  destruct P3 as [(-> & _)|(start & batches & Ps & Pb & _)];
    [discriminate |].
  unfold bind at 1 in H. unfold run_complete_draw_with_profiling in H.
  unfold bind at 1 in H.
  match type of H with
  | match match ?c w2 with _ => _ end with _ => _ end = _ =>
      destruct (c w2) as [[e|[[[ok4 out4] tx4] comp4]] w3] eqn:R2;
        [discriminate |]
  end.
  pose proof (run_flow_tx_sends TX_COMPLETE_DRAW _ _ _ _ _ _ _ _ R2) as C2.
  change (String.eqb TX_COMPLETE_DRAW TX_COMPLETE_DRAW) with true in C2.
  cbv iota in C2.
  assert (G : forall comp tx,
             (per_winner <-
                (if 0 <? winners
                 then q <- lift (int_truediv comp winners) ;; ret (NFloat q)
                 else ret (NInt 0)) ;;
              ret {| winner_count := winners; user_count := users;
                     pool_id := pool; run_number := run;
                     phases := with_phase_4 p comp;
                     error := None;
                     computation_per_winner := Some per_winner;
                     tx_id := Some tx;
                     exceeded_limit := Some (9999 <? comp);
                     computation_level :=
                       Some (if 5000 <? comp then "HIGH"
                             else if 1000 <? comp then "MEDIUM"
                                  else "LOW") |})%eff w3
             = (inr r, w') ->
             winner_count r = winners /\ user_count r = users
             /\ pool_id r = pool /\ run_number r = run
             /\ error r = None
             /\ exists start batches comp,
                 startPoolDraw (phases r) = Some start
                 /\ processDrawBatch (phases r) = Some batches
                 /\ completePoolDraw (phases r) = Some comp
                 /\ exceeded_limit r = Some (9999 <? comp)
                 /\ (5000 < comp <-> computation_level r = Some "HIGH")
                 /\ (comp <= 1000 <-> computation_level r = Some "LOW")
                 /\ (winners <= 0 ->
                     computation_per_winner r = Some (NInt 0))
                 /\ sends TX_COMPLETE_DRAW (trace w')
                    = 1 + sends TX_COMPLETE_DRAW (trace w)).
  { intros comp tx Hr. unfold bind at 1 in Hr.
    assert (Q : exists pw,
               (inr {| winner_count := winners; user_count := users;
                       pool_id := pool; run_number := run;
                       phases := with_phase_4 p comp;
                       error := None;
                       computation_per_winner := Some pw;
                       tx_id := Some tx;
                       exceeded_limit := Some (9999 <? comp);
                       computation_level :=
                         Some (if 5000 <? comp then "HIGH"
                               else if 1000 <? comp then "MEDIUM"
                                    else "LOW") |}, w3)
               = (@inr exn _ r, w')
               /\ (winners <= 0 -> pw = NInt 0)).
    { destruct (0 <? winners) eqn:W.
      - unfold bind, lift, ret in Hr.
        destruct (int_truediv comp winners) as [e|q]; [discriminate |].
        exists (NFloat q). split; [exact Hr |]. apply Z.ltb_lt in W. lia.
      - unfold ret in Hr. exists (NInt 0). split; [exact Hr | reflexivity]. }
    destruct Q as (pw & Q & Qw). injection Q as <- <-.
    cbn [winner_count user_count pool_id run_number error phases
         with_phase_4 startPoolDraw processDrawBatch completePoolDraw
         exceeded_limit computation_level computation_per_winner].
    repeat (split; [reflexivity |]).
    exists start, batches, comp. rewrite Ps, Pb.
    repeat (split; [reflexivity |]).
    split.
    { destruct (5000 <? comp) eqn:A.
      - apply Z.ltb_lt in A. split; auto.
      - apply Z.ltb_ge in A. split; [lia |].
        destruct (1000 <? comp); discriminate. }
    split.
    { destruct (5000 <? comp) eqn:A.
      - apply Z.ltb_lt in A. split; [lia | discriminate].
      - destruct (1000 <? comp) eqn:B.
        + apply Z.ltb_lt in B. split; [lia | discriminate].
        + apply Z.ltb_ge in B. split; auto. }
    split; [intros Wn; rewrite (Qw Wn); reflexivity |].
    lia. }
  destruct ok4; cbn [negb] in H.
  - unfold bind at 1 in H.
    match type of H with
    | match match ?c w3 with _ => _ end with _ => _ end = _ =>
        assert (Pr : c w3 = (inl OverflowError, w3)
                     \/ c w3 = (inl ZeroDivisionError, w3)
                     \/ c w3 = (inr tt, w3))
    end.
    { destruct (0 <? winners); [|auto].
      unfold bind, lift, ret.
      destruct (int_truediv comp4 winners) as [e|q] eqn:D; [|auto].
      unfold int_truediv in D. destruct winners; [injection D as <-; auto | |];
        (destruct comp4; [discriminate | |];
         destruct (SFdiv _ _ _ _); try discriminate;
         injection D as <-; auto). }
    destruct Pr as [Pr|[Pr|Pr]]; rewrite Pr in H; try discriminate.
    unfold ret at 1 in H.
    destruct (G _ _ H) as (G1 & G2 & G3 & G4 & G5 & G6).
    repeat (split; [assumption |]). right. split; assumption.
  - unfold ret at 1 in H.
    destruct (G _ _ H) as (G1 & G2 & G3 & G4 & G5 & G6).
    repeat (split; [assumption |]). right. split; assumption.
Qed.

(** X18.  A result of [run_single_benchmark] either carries an error
    text, and then no phase, no level and no figure at all, and the
    transaction that completes the draw was not sent; or it carries no
    error, and then the computations of [startPoolDraw], of
    [processDrawBatch] and of [completePoolDraw] (the one of
    [requestDrawRandomness] may be missing), the transaction that
    completes the draw was sent once, the level is HIGH exactly above
    5000 and LOW exactly up to 1000, and the limit counts as exceeded
    above 9999. *)
Theorem single_benchmark_result (winners users pool start_index run : Z)
    (w : world S) (r : benchmark_result) (w' : world S) :
  run_single_benchmark S exec json_loads json_loads_report str_of_exn repr
    str_of_float winners users pool start_index run w = (inr r, w') ->
  winner_count r = winners /\ user_count r = users
  /\ pool_id r = pool /\ run_number r = run
  /\ ((exists msg,
          error r = Some msg
          /\ (msg = "Failed to create users"
              \/ msg = "Failed in phases 1-3")
          /\ phases r = no_phases
          /\ computation_per_winner r = None
          /\ exceeded_limit r = None /\ computation_level r = None
          /\ sends TX_COMPLETE_DRAW (trace w')
             = sends TX_COMPLETE_DRAW (trace w))
      \/ (error r = None
          /\ exists start batches comp,
              startPoolDraw (phases r) = Some start
              /\ processDrawBatch (phases r) = Some batches
              /\ completePoolDraw (phases r) = Some comp
              /\ exceeded_limit r = Some (9999 <? comp)
              /\ (5000 < comp <-> computation_level r = Some "HIGH")
              /\ (comp <= 1000 <-> computation_level r = Some "LOW")
              /\ (winners <= 0 -> computation_per_winner r = Some (NInt 0))
              /\ sends TX_COMPLETE_DRAW (trace w')
                 = 1 + sends TX_COMPLETE_DRAW (trace w))).
Proof. apply single_benchmark_shape. Qed.

Lemma create_pool_sends (path : string) (winners : Z) (w : world S)
    (pool : option Z) (w' : world S) :
  String.eqb TX_CREATE_MULTI_WINNER_POOL path = false ->
  create_multi_winner_pool S exec json_loads json_loads_report str_of_exn
    repr winners w = (inr pool, w') ->
  sends path (trace w') = sends path (trace w).
Proof.
  intros N H. unfold create_multi_winner_pool in H.
  unfold bind at 1 in H.
  match type of H with
  | match ?c w with _ => _ end = _ =>
      destruct (c w) as [[e|[[[ok output] tx] comp]] w1] eqn:R;
        [discriminate |]
  end.
  apply (run_flow_tx_sends path) in R. rewrite N in R.
  destruct ok; cbn [negb] in H.
  - unfold bind at 1 in H.
    pose proof (run_flow_script_sends path SCRIPT_ALL_POOLS [] w1) as L.
    destruct (run_flow_script S exec str_of_exn SCRIPT_ALL_POOLS [] w1)
      as [[e|[ok' output']] w2]; [discriminate |].
    cbn [snd] in L.
    destruct ok'; unfold lift, ret in H; injection H as _ <-; lia.
  - unfold ret in H. injection H as _ <-. lia.
Qed.

Lemma variability_loop_results (winners users : Z) (run_nums : list Z) :
  forall (acc : list benchmark_result) (w : world S)
         (rs : list benchmark_result) (w' : world S),
    variability_loop S exec json_loads json_loads_report str_of_exn repr
      str_of_float run_nums winners users acc w = (inr rs, w') ->
    exists added,
      rs = (acc ++ added)%list
      /\ subsequence (map run_number added) run_nums
      /\ Forall (fun r => winner_count r = winners /\ user_count r = users
                          /\ (error r <> None -> computation_read r = 0))
           added
      /\ sends TX_COMPLETE_DRAW (trace w')
         = len (completed added) + sends TX_COMPLETE_DRAW (trace w).
Proof.
  induction run_nums as [|n rest IH]; intros acc w rs w' H.
  - cbn in H. injection H as <- <-. exists []. rewrite app_nil_r.
    split; [reflexivity |]. split; [constructor |].
    split; [constructor |]. cbn. lia.
  - cbn [variability_loop] in H. unfold bind at 1 in H.
    match type of H with
    | match ?c w with _ => _ end = _ =>
        destruct (c w) as [[e|pool] w1] eqn:R0; [discriminate |]
    end.
    apply (create_pool_sends TX_COMPLETE_DRAW) in R0; [|reflexivity].
    destruct pool as [pool|].
    + unfold bind at 1 in H.
      match type of H with
      | match ?c w1 with _ => _ end = _ =>
          destruct (c w1) as [[e|r] w2] eqn:R1; [discriminate |]
      end.
      destruct (single_benchmark_shape _ _ _ _ _ _ _ _ R1)
        as (A1 & A2 & A3 & A4 & A5).
      destruct (IH _ _ _ _ H) as (added & I1 & I2 & I3 & I4).
      exists (r :: added). rewrite I1, <- app_assoc.
      split; [reflexivity |]. cbn [map]. rewrite A4.
      split; [constructor; exact I2 |].
      split.
      { constructor; [|exact I3]. split; [exact A1 |]. split; [exact A2 |].
        intros E. destruct A5 as [(msg & _ & _ & P & _)|(E' & _)];
          [|contradiction].
        unfold computation_read. rewrite P. reflexivity. }
      unfold completed in *. cbn [filter].
      destruct A5
        as [(msg & E & _ & _ & _ & _ & _ & C)|(E & st & ba & co & C)].
      * rewrite E. lia.
      * destruct C as (_ & _ & _ & _ & _ & _ & _ & C). rewrite E.
        rewrite DrawAccounting.len_cons. lia.
    + destruct (IH _ _ _ _ H) as (added & I1 & I2 & I3 & I4).
      exists added. split; [exact I1 |].
      split; [constructor; exact I2 |]. split; [exact I3 |]. lia.
Qed.

(** X19.  [run_variability_test] returns one result for each run whose
    pool could be created, in the order of the runs and numbered by them;
    a run without a pool leaves no result.  Every result enters the list
    of computations that [print_variability_summary] analyses, a failed
    run with the computation 0, so the statistics are there whenever
    there is a result at all.  The transaction that completes the draw
    was sent once for each result without an error. *)
Theorem variability_results (winners users num_runs : Z) (w : world S)
    (rs : list benchmark_result) (w' : world S) :
  run_variability_test S exec json_loads json_loads_report str_of_exn repr
    str_of_float winners users num_runs w = (inr rs, w') ->
  subsequence (map run_number rs) (map (fun i => i + 1) (range num_runs))
  /\ Forall (fun r => winner_count r = winners /\ user_count r = users
                      /\ (error r <> None -> computation_read r = 0)) rs
  /\ CompleteDraw.computations_of (map summary_view rs)
     = map computation_read rs
  /\ (rs <> [] ->
      CompleteDraw.print_variability_summary (map summary_view rs)
      <> inr None)
  /\ sends TX_COMPLETE_DRAW (trace w')
     = len (completed rs) + sends TX_COMPLETE_DRAW (trace w).
Proof.
  intros H. unfold run_variability_test in H.
  destruct (variability_loop_results _ _ _ _ _ _ _ H)
    as (added & E & I2 & I3 & I4).
  cbn [app] in E. subst added.
  split; [exact I2 |]. split; [exact I3 |].
  split; [apply computations_of_view |]. split; [|exact I4].
  intros N. unfold CompleteDraw.print_variability_summary.
  rewrite computations_of_view.
  destruct rs as [|r rs]; [contradiction |]. cbn [map].
  unfold CompleteDraw.variability_statistics, ebind.
  destruct (min_list _); [discriminate |].
  destruct (max_list _); [discriminate |].
  destruct (int_truediv _ _); [discriminate |].
  destruct (int_truediv _ _); discriminate.
Qed.

End WithWorld.

(** ** A sample emulator

    Every transaction is sealed under the id abc1, the report gives it
    the computation 7000, the script that lists the pools prints two of
    them and the status script reports the batches as complete. *)
Definition sealed_answer : string := "sealed abc1".

Definition loads_answer (s : string) : option json :=
  if String.eqb s sealed_answer
  then Some (JDict [("id", JStr "abc1"); ("status", JStr "SEALED")])
  else None.

Definition sample_emulator (s : unit) (c : call) : outcome * unit :=
  match c with
  | Subprocess (_ :: _ :: verb :: path :: _) _ =>
      if String.eqb verb "send" then (Returned 0 sealed_answer "", s)
      else if String.eqb path SCRIPT_ALL_POOLS
           then (Returned 0 "Result: [0, 1]" "", s)
           else (Returned 0 "isBatchComplete: true" "", s)
  | _ => (Returned 0 (str_of_int 7000) "", s)
  end.

(** A CLI that exits with the status 1 and prints an empty JSON
    object. *)
Definition pending (s : unit) (c : call) : outcome * unit :=
  (Returned 1 "{}" "", s).

Definition loads_empty (s : string) : option json :=
  if String.eqb s "{}" then Some (JDict []) else None.

Lemma flow_tx_report_lookup_witness :
  exists w',
    run_flow_tx unit sample_emulator loads_answer (Probing.loads_two 7000)
      BatchLoops.no_text BatchLoops.no_text TX_COMPLETE_DRAW ["1"]
      ADMIN_ACCOUNT 99999 true Reporting.start
    = (inr (true, sealed_answer, JStr "abc1", 7000), w')
    /\ exists lookups,
        trace w'
        = (lookups
           ++ Subprocess
                (send_command TX_COMPLETE_DRAW ["1"] ADMIN_ACCOUNT 99999) 120
           :: trace Reporting.start)%list
        /\ (lookups = [] \/ lookups = [report_call]).
Proof.
  eexists. split; [vm_compute; reflexivity |].
  refine ((fun H => match H with
                    | ex_intro _ l (conj A (conj B _)) =>
                        ex_intro _ l (conj A B)
                    end) _).
  eapply (flow_tx_report_lookup unit sample_emulator loads_answer
            (Probing.loads_two 7000) BatchLoops.no_text BatchLoops.no_text
            TX_COMPLETE_DRAW ["1"] ADMIN_ACCOUNT 99999 true Reporting.start).
  vm_compute. reflexivity.
Defined.

Lemma unsealed_without_message_succeeds_witness :
  fst (run_flow_tx unit pending loads_empty BatchLoops.no_report
         BatchLoops.no_text BatchLoops.no_text TX_START_DRAW ["1"]
         ADMIN_ACCOUNT 9999 false Reporting.start)
  = inr (true, "{}", JNull, 0).
Proof.
  rewrite (unsealed_without_message_succeeds unit pending loads_empty
             BatchLoops.no_report BatchLoops.no_text BatchLoops.no_text
             TX_START_DRAW ["1"] ADMIN_ACCOUNT 9999 Reporting.start
             1 "{}" "" tt []); reflexivity.
Defined.

Lemma create_users_batches_witness :
  exists w',
    create_users unit sample_emulator loads_answer (Probing.loads_two 7000)
      BatchLoops.no_text BatchLoops.no_text 1 120 1000 Reporting.start
    = (inr true, w')
    /\ batch_indices 120 1000 = map (fun j => 1000 + j) (range 120).
Proof.
  eexists. split; [vm_compute; reflexivity |].
  refine ((fun H => proj1 (proj2 H)) _).
  eapply (create_users_batches unit sample_emulator loads_answer
            (Probing.loads_two 7000) BatchLoops.no_text BatchLoops.no_text
            1 120 1000 Reporting.start).
  vm_compute. reflexivity.
Defined.

Lemma phases_1_to_3_result_witness :
  exists p w',
    run_draw_phases_1_to_3 unit sample_emulator loads_answer
      (Probing.loads_two 7000) BatchLoops.no_text BatchLoops.no_text
      BatchLoops.no_text 1 120 3 Reporting.start
    = (inr p, w')
    /\ requestDrawRandomness p = Some 7000
    /\ completePoolDraw p = None.
Proof.
  eexists. eexists. split; [vm_compute; reflexivity |].
  split; [reflexivity |].
  refine ((fun H => proj1 H) _).
  eapply (phases_1_to_3_result unit sample_emulator loads_answer
            (Probing.loads_two 7000) BatchLoops.no_text BatchLoops.no_text
            BatchLoops.no_text 1 120 3 Reporting.start).
  vm_compute. reflexivity.
Defined.

Lemma single_benchmark_result_witness :
  exists r w',
    run_single_benchmark unit sample_emulator loads_answer
      (Probing.loads_two 7000) BatchLoops.no_text BatchLoops.no_text
      BatchLoops.no_text 3 120 1 1000 1 Reporting.start
    = (inr r, w')
    /\ computation_level r = Some "HIGH"
    /\ winner_count r = 3 /\ user_count r = 120.
Proof.
  eexists. eexists. split; [vm_compute; reflexivity |].
  split; [reflexivity |].
  refine ((fun H => conj (proj1 H) (proj1 (proj2 H))) _).
  eapply (single_benchmark_result unit sample_emulator loads_answer
            (Probing.loads_two 7000) BatchLoops.no_text BatchLoops.no_text
            BatchLoops.no_text 3 120 1 1000 1 Reporting.start).
  vm_compute. reflexivity.
Defined.

Lemma variability_results_witness :
  exists rs w',
    run_variability_test unit sample_emulator loads_answer
      (Probing.loads_two 7000) BatchLoops.no_text BatchLoops.no_text
      BatchLoops.no_text 3 120 2 Reporting.start
    = (inr rs, w')
    /\ map run_number rs = [1; 2]
    /\ CompleteDraw.computations_of (map summary_view rs)
       = map computation_read rs.
Proof.
  eexists. eexists. split; [vm_compute; reflexivity |].
  split; [reflexivity |].
  refine ((fun H => proj1 (proj2 (proj2 H))) _).
  eapply (variability_results unit sample_emulator loads_answer
            (Probing.loads_two 7000) BatchLoops.no_text BatchLoops.no_text
            BatchLoops.no_text 3 120 2 Reporting.start).
  vm_compute. reflexivity.
Defined.

End CompleteDrawFacts.

(* ================================================================== *)
(** * The transactions of benchmark_lazy_users.py *)
(* ================================================================== *)

Module LazyFacts.
Import Py Eff LazyUsers LazyDraw TextForms.
Import CompleteDrawFacts(is_send, sends, sends_cons).

(** The command line of [run_flow_tx]. *)
Definition send_command (tx_path : string) (args : list string)
    (compute_limit : Z) : list string :=
  (["flow"; "transactions"; "send"; tx_path;
    "--network"; "emulator";
    "--compute-limit"; str_of_int compute_limit;
    "--output"; "json"] ++ args)%list.

(** The request for the computation report. *)
Definition report_call : call :=
  Subprocess ["curl"; "-s"; url "/emulator/computationReport"] 10.

Lemma take_all_chars (p : ascii -> bool) (n : nat) (s : string) :
  all_chars p s = true -> all_chars p (take n s) = true.
Proof.
  revert s. induction n as [|n IH]; intros [|c s] H; try reflexivity.
  cbn [take all_chars] in *. apply andb_prop in H. destruct H as [H1 H2].
  rewrite H1, (IH s H2). reflexivity.
Qed.

Lemma take_exact (n : nat) (s : string) :
  (n <= String.length s)%nat -> String.length (take n s) = n.
Proof.
  revert s. induction n as [|n IH]; intros [|c s] H; cbn in *;
    try reflexivity; try lia.
  rewrite IH; [reflexivity | lia].
Qed.

(** X21.  An id that [run_flow_tx] of benchmark_lazy_users.py reads from
    output that is no JSON has exactly 64 characters, all of them
    hexadecimal digits in lower case. *)
Theorem text_id_is_64_hex (output g : string) :
  search match_id_64 output = Some g ->
  String.length g = 64%nat /\ all_chars is_hex g = true.
Proof.
  intros H. apply search_some in H. destruct H as (pre & t & _ & H).
  unfold match_id_64 in H.
  destruct (strip_literal (fun c => c) "ID" t) as [rest|]; [|discriminate].
  destruct (span is_space rest) as [sp rest'].
  pose proof (span_spec is_hex rest') as (_ & A & _).
  destruct (span is_hex rest') as [h tl]. cbn [fst] in A.
  destruct sp; [discriminate |].
  destruct (Nat.leb 64 (String.length h)) eqn:L; [|discriminate].
  assert (G : take 64 h = g) by congruence. rewrite <- G. clear H G.
  apply Nat.leb_le in L.
  split; [apply take_exact; exact L | apply take_all_chars; exact A].
Qed.

Definition sample_text_id : string :=
  "0123456789abcdef0123456789abcdef0123456789abcdef0123456789abcdef".

Lemma text_id_is_64_hex_witness :
  search match_id_64 ("Transaction ID  " ++ sample_text_id ++ " sealed")
  = Some sample_text_id
  /\ String.length sample_text_id = 64%nat
  /\ all_chars is_hex sample_text_id = true.
Proof.
  split; [vm_compute; reflexivity |].
  apply (text_id_is_64_hex
           ("Transaction ID  " ++ sample_text_id ++ " sealed")).
  vm_compute. reflexivity.
Defined.

Section WithWorld.
Variable S : Type.
Variable exec : S -> call -> outcome * S.
Variable json_loads : string -> option json.
Variable json_loads_report : string -> option report.

Local Abbreviation run_flow_tx :=
  (run_flow_tx S exec json_loads json_loads_report).

Lemma computation_for_tx_logged (tx : json) (w : world S) :
  exists c,
    get_computation_for_tx S exec json_loads_report tx w
    = (inr c, snd (get_computation_for_tx S exec json_loads_report tx w))
    /\ trace (snd (get_computation_for_tx S exec json_loads_report tx w))
       = report_call :: trace w.
Proof.
  unfold get_computation_for_tx, try_except, subprocess_run, bind, request,
    ret, raise.
  fold report_call.
  destruct (exec (env w) report_call) as [[rc out err|e] s'];
    cbn [returncode stdout]; [|eexists; split; reflexivity].
  destruct ((rc =? 0) && negb (String.eqb out ""))%bool;
    [|eexists; split; reflexivity].
  destruct (json_loads_report out) as [rep|];
    [|eexists; split; reflexivity].
  destruct (hashable_key tx); [|eexists; split; reflexivity].
  destruct tx; try (eexists; split; reflexivity).
  destruct (assoc s (transactions_of rep));
    eexists; split; reflexivity.
Qed.

(** What [run_flow_tx] leaves in the log, whether it returns or
    raises. *)
Lemma lazy_flow_tx_result (tx_path : string) (args : list string)
    (limit : Z) (w : world S)
    (res : (exn + bool * string * json * Z) * world S) :
  run_flow_tx tx_path args limit w = res ->
  exists lookups,
    trace (snd res)
    = (lookups ++ Subprocess (send_command tx_path args limit) 120
       :: trace w)%list
    /\ (lookups = [] \/ lookups = [report_call])
    /\ forall ok output tx comp,
        fst res = inr (ok, output, tx, comp) ->
        (lookups <> [] -> truthy tx = true)
        /\ (lookups = [] -> comp = 0)
        /\ (ok = true -> truthy tx = true -> lookups <> []).
Proof.
  intros E. unfold LazyUsers.run_flow_tx in E.
  fold (send_command tx_path args limit) in E.
  unfold bind at 1 in E. unfold subprocess_run, request in E.
  destruct (exec (env w) (Subprocess (send_command tx_path args limit) 120))
    as [[rc out err|e] s'].
  2:{ subst res. exists []. cbn [fst snd trace app].
      split; [reflexivity |]. split; [auto |]. intros; discriminate. }
  cbn [returncode stdout stderr] in E.
  set (w1 := {| env := s';
                trace := Subprocess (send_command tx_path args limit) 120
                         :: trace w |}) in *.
  unfold bind at 1 in E.
  match type of E with
  | match ?c w1 with _ => _ end = _ =>
      assert (P : (exists e, c w1 = (inl e, w1))
                  \/ exists tx failed, c w1 = (inr (tx, failed), w1))
  end.
  { destruct (json_loads out) as [data|];
      [|right; eexists; eexists; reflexivity].
    destruct data; try (left; eexists; reflexivity).
    unfold bind, lift, ret, get.
    destruct (truthy _); destruct (truthy _);
      right; eexists; eexists; reflexivity. }
  destruct P as [(e & P)|(tx & failed & P)]; rewrite P in E; clear P.
  { subst res. exists []. cbn [fst snd trace app].
    split; [reflexivity |]. split; [auto |]. intros; discriminate. }
  destruct failed.
  { unfold ret in E. subst res. exists []. cbn [snd fst app].
    split; [reflexivity |]. split; [auto |].
    intros ok output tx' comp E. injection E as <- <- <- <-.
    split; [congruence |]. split; [reflexivity | discriminate]. }
  unfold bind at 1 in E.
  destruct (truthy tx) eqn:T.
  - destruct (computation_for_tx_logged tx w1) as (c & Ec & L).
    rewrite Ec in E. unfold ret in E. subst res. cbn [snd fst].
    exists [report_call]. rewrite L. split; [reflexivity |].
    split; [auto |].
    intros ok output tx' comp E'. injection E' as <- <- <- <-.
    split; [intros _; exact T |]. split; [discriminate |].
    intros _ _. discriminate.
  - unfold ret in E. subst res. cbn [snd fst]. exists [].
    split; [reflexivity |]. split; [auto |].
    intros ok output tx' comp E'. injection E' as <- <- <- <-.
    split; [congruence |]. split; [reflexivity |]. congruence.
Qed.

Lemma lazy_flow_tx_trace (tx_path : string) (args : list string)
    (limit : Z) (w : world S) :
  exists lookups,
    trace (snd (run_flow_tx tx_path args limit w))
    = (lookups ++ Subprocess (send_command tx_path args limit) 120
       :: trace w)%list
    /\ (lookups = [] \/ lookups = [report_call])
    /\ forall ok output tx comp,
        fst (run_flow_tx tx_path args limit w)
        = inr (ok, output, tx, comp) ->
        (lookups <> [] -> truthy tx = true)
        /\ (lookups = [] -> comp = 0)
        /\ (ok = true -> truthy tx = true -> lookups <> []).
Proof. apply lazy_flow_tx_result. reflexivity. Qed.

(** X22.  [run_flow_tx] of benchmark_lazy_users.py runs the CLI once and
    asks for the computation report at most once, after the CLI and only
    for a transaction whose id it could read.  Without that request the
    computation it returns is 0, and a transaction that it reports as a
    success with an id was always looked up. *)
Theorem lazy_flow_tx_lookup (tx_path : string) (args : list string)
    (limit : Z) (w : world S) (ok : bool) (output : string) (tx : json)
    (comp : Z) (w' : world S) :
  run_flow_tx tx_path args limit w = (inr (ok, output, tx, comp), w') ->
  exists lookups,
    trace w'
    = (lookups ++ Subprocess (send_command tx_path args limit) 120
       :: trace w)%list
    /\ (lookups = [] \/ lookups = [report_call])
    /\ (lookups <> [] -> truthy tx = true)
    /\ (lookups = [] -> comp = 0)
    /\ (ok = true -> truthy tx = true -> lookups <> []).
Proof.
  intros H.
  destruct (lazy_flow_tx_trace tx_path args limit w)
    as (lookups & T & C & R).
  rewrite H in T, R. cbn [snd fst] in T, R.
  destruct (R _ _ _ _ eq_refl) as (R1 & R2 & R3).
  exists lookups. auto.
Qed.

Lemma lazy_flow_tx_sends (path tx_path : string) (args : list string)
    (limit : Z) (w : world S) :
  sends path (trace (snd (run_flow_tx tx_path args limit w)))
  = (if String.eqb tx_path path then 1 else 0) + sends path (trace w).
Proof.
  destruct (lazy_flow_tx_trace tx_path args limit w)
    as (lookups & T & [->| ->] & _); rewrite T; cbn [app].
  - rewrite sends_cons. reflexivity.
  - rewrite !sends_cons. reflexivity.
Qed.

Lemma complete_batches_sends (path : string) (remaining : nat) :
  forall (pool_id : Z) (w : world S) (b : bool) (w' : world S),
    complete_batches_loop S exec json_loads json_loads_report remaining
      pool_id w = (inr b, w') ->
    exists k,
      0 <= k <= Z.of_nat remaining
      /\ (0 < Z.of_nat remaining -> 1 <= k)
      /\ sends path (trace w')
         = (if String.eqb TX_PROCESS_BATCH path then k else 0)
           + sends path (trace w).
Proof.
  induction remaining as [|n IH]; intros pool_id w b w' H.
  - cbn in H. injection H as <- <-. exists 0.
    split; [lia |]. split; [cbn; lia |].
    destruct (String.eqb TX_PROCESS_BATCH path); lia.
  - cbn [complete_batches_loop] in H. unfold bind at 1 in H.
    pose proof (lazy_flow_tx_sends path TX_PROCESS_BATCH
                  [str_of_int pool_id; "9999"] COMPUTE_LIMIT w) as R.
    destruct (run_flow_tx TX_PROCESS_BATCH [str_of_int pool_id; "9999"]
                COMPUTE_LIMIT w) as [[e|[[[ok output] tx] comp]] w1];
      [discriminate |].
    cbn [snd] in R.
    destruct ok; cbn [negb] in H.
    + destruct (contains "remaining: 0" (lower output)
                || contains "batch complete" (lower output))%bool.
      * unfold ret in H. injection H as <- <-. exists 1.
        split; [lia |]. split; [lia |]. rewrite R.
        destruct (String.eqb TX_PROCESS_BATCH path); lia.
      * destruct (IH _ _ _ _ H) as (k & K1 & K2 & K3).
        exists (1 + k). split; [lia |]. split; [lia |]. rewrite K3, R.
        destruct (String.eqb TX_PROCESS_BATCH path); lia.
    + unfold ret in H. injection H as <- <-. exists 1.
      split; [lia |]. split; [lia |]. rewrite R.
      destruct (String.eqb TX_PROCESS_BATCH path); lia.
Qed.

(** X23.  [run_complete_draw] sends the transaction that starts the draw
    once and at most a hundred batch transactions; it sends the request
    for randomness and the completing transaction at most once each, the
    completing one only after the request.  When it returns [True] all
    four phases were sent, with at least one batch transaction. *)
Theorem complete_draw_phases (pool_id : Z) (w : world S) (ok : bool)
    (w' : world S) :
  run_complete_draw S exec json_loads json_loads_report pool_id w
  = (inr ok, w') ->
  let sent path := sends path (trace w') - sends path (trace w) in
  sent TX_START_DRAW = 1
  /\ 0 <= sent TX_PROCESS_BATCH <= 100
  /\ 0 <= sent TX_REQUEST_RANDOMNESS <= 1
  /\ 0 <= sent TX_COMPLETE_DRAW <= 1
  /\ (sent TX_COMPLETE_DRAW = 1 ->
      sent TX_REQUEST_RANDOMNESS = 1 /\ 1 <= sent TX_PROCESS_BATCH)
  /\ (ok = true -> sent TX_COMPLETE_DRAW = 1).
Proof.
  intros H sent. subst sent. cbv beta.
  unfold run_complete_draw in H. unfold bind at 1 in H.
  pose proof (fun path =>
                lazy_flow_tx_sends path TX_START_DRAW [str_of_int pool_id]
                  COMPUTE_LIMIT w) as R1.
  destruct (run_flow_tx TX_START_DRAW [str_of_int pool_id] COMPUTE_LIMIT w)
    as [[e|r1] w1]; [discriminate |].
  cbn [snd] in R1.
  pose proof (R1 TX_START_DRAW) as S1. pose proof (R1 TX_PROCESS_BATCH) as B1.
  pose proof (R1 TX_REQUEST_RANDOMNESS) as Q1.
  pose proof (R1 TX_COMPLETE_DRAW) as C1. clear R1.
  change (String.eqb TX_START_DRAW TX_START_DRAW) with true in S1.
  change (String.eqb TX_START_DRAW TX_PROCESS_BATCH) with false in B1.
  change (String.eqb TX_START_DRAW TX_REQUEST_RANDOMNESS) with false in Q1.
  change (String.eqb TX_START_DRAW TX_COMPLETE_DRAW) with false in C1.
  cbv iota in S1, B1, Q1, C1.
  destruct (fst (fst (fst r1))); cbn [negb] in H.
  2:{ unfold ret in H. injection H as <- <-.
      repeat split; try lia; discriminate. }
  unfold bind at 1 in H.
  destruct (complete_batches_loop S exec json_loads json_loads_report 100
              pool_id w1) as [[e|processed] w2] eqn:L; [discriminate |].
  destruct (complete_batches_sends TX_START_DRAW _ _ _ _ _ L)
    as (k0 & _ & _ & S2).
  destruct (complete_batches_sends TX_PROCESS_BATCH _ _ _ _ _ L)
    as (k & K1 & K2 & B2).
  destruct (complete_batches_sends TX_REQUEST_RANDOMNESS _ _ _ _ _ L)
    as (k1 & _ & _ & Q2).
  destruct (complete_batches_sends TX_COMPLETE_DRAW _ _ _ _ _ L)
    as (k2 & _ & _ & C2).
  change (String.eqb TX_PROCESS_BATCH TX_START_DRAW) with false in S2.
  change (String.eqb TX_PROCESS_BATCH TX_PROCESS_BATCH) with true in B2.
  change (String.eqb TX_PROCESS_BATCH TX_REQUEST_RANDOMNESS) with false in Q2.
  change (String.eqb TX_PROCESS_BATCH TX_COMPLETE_DRAW) with false in C2.
  cbv iota in S2, B2, Q2, C2. change (Z.of_nat 100) with 100 in K1.
  destruct processed; cbn [negb] in H.
  2:{ unfold ret in H. injection H as <- <-.
      repeat split; try lia; discriminate. }
  unfold bind at 1 in H.
  pose proof (fun path =>
                lazy_flow_tx_sends path TX_REQUEST_RANDOMNESS
                  [str_of_int pool_id] COMPUTE_LIMIT w2) as R3.
  destruct (run_flow_tx TX_REQUEST_RANDOMNESS [str_of_int pool_id]
              COMPUTE_LIMIT w2) as [[e|r3] w3]; [discriminate |].
  cbn [snd] in R3.
  pose proof (R3 TX_START_DRAW) as S3. pose proof (R3 TX_PROCESS_BATCH) as B3.
  pose proof (R3 TX_REQUEST_RANDOMNESS) as Q3.
  pose proof (R3 TX_COMPLETE_DRAW) as C3. clear R3.
  change (String.eqb TX_REQUEST_RANDOMNESS TX_START_DRAW) with false in S3.
  change (String.eqb TX_REQUEST_RANDOMNESS TX_PROCESS_BATCH) with false in B3.
  change (String.eqb TX_REQUEST_RANDOMNESS TX_REQUEST_RANDOMNESS) with true
    in Q3.
  change (String.eqb TX_REQUEST_RANDOMNESS TX_COMPLETE_DRAW) with false in C3.
  cbv iota in S3, B3, Q3, C3.
  destruct (fst (fst (fst r3))); cbn [negb] in H.
  2:{ unfold ret in H. injection H as <- <-.
      repeat split; try lia; discriminate. }
  unfold bind at 1 in H.
  pose proof (fun path =>
                lazy_flow_tx_sends path TX_COMPLETE_DRAW
                  [str_of_int pool_id] COMPUTE_LIMIT w3) as R4.
  destruct (run_flow_tx TX_COMPLETE_DRAW [str_of_int pool_id]
              COMPUTE_LIMIT w3) as [[e|r4] w4]; [discriminate |].
  cbn [snd] in R4.
  pose proof (R4 TX_START_DRAW) as S4. pose proof (R4 TX_PROCESS_BATCH) as B4.
  pose proof (R4 TX_REQUEST_RANDOMNESS) as Q4.
  pose proof (R4 TX_COMPLETE_DRAW) as C4. clear R4.
  change (String.eqb TX_COMPLETE_DRAW TX_START_DRAW) with false in S4.
  change (String.eqb TX_COMPLETE_DRAW TX_PROCESS_BATCH) with false in B4.
  change (String.eqb TX_COMPLETE_DRAW TX_REQUEST_RANDOMNESS) with false in Q4.
  change (String.eqb TX_COMPLETE_DRAW TX_COMPLETE_DRAW) with true in C4.
  cbv iota in S4, B4, Q4, C4.
  unfold ret in H. injection H as <- <-.
  repeat split; lia.
Qed.

End WithWorld.

Lemma lazy_flow_tx_lookup_witness :
  exists w',
    run_flow_tx unit CompleteDrawFacts.sample_emulator
      CompleteDrawFacts.loads_answer (Probing.loads_two 7000)
      TX_START_DRAW ["1"] COMPUTE_LIMIT Reporting.start
    = (inr (true, CompleteDrawFacts.sealed_answer, JStr "abc1", 7000), w')
    /\ exists lookups,
        trace w'
        = (lookups
           ++ Subprocess (send_command TX_START_DRAW ["1"] COMPUTE_LIMIT) 120
           :: trace Reporting.start)%list
        /\ (lookups = [] \/ lookups = [report_call]).
Proof.
  eexists. split; [vm_compute; reflexivity |].
  refine ((fun H => match H with
                    | ex_intro _ l (conj A (conj B _)) =>
                        ex_intro _ l (conj A B)
                    end) _).
  eapply (lazy_flow_tx_lookup unit CompleteDrawFacts.sample_emulator
            CompleteDrawFacts.loads_answer (Probing.loads_two 7000)
            TX_START_DRAW ["1"] COMPUTE_LIMIT Reporting.start).
  vm_compute. reflexivity.
Defined.

(** With an emulator that never reports that nothing remains, the draw
    is completed after a hundred batch transactions. *)
Lemma complete_draw_phases_witness :
  exists w',
    run_complete_draw unit BatchLoops.silent BatchLoops.no_json
      BatchLoops.no_report 1 Reporting.start = (inr true, w')
    /\ sends TX_PROCESS_BATCH (trace w') = 100
    /\ sends TX_COMPLETE_DRAW (trace w')
       - sends TX_COMPLETE_DRAW (trace Reporting.start) = 1.
Proof.
  eexists. split; [vm_compute; reflexivity |].
  split; [vm_compute; reflexivity |].
  refine ((fun H => proj2 (proj2 (proj2 (proj2 (proj2 H)))) eq_refl) _).
  eapply (complete_draw_phases unit BatchLoops.silent BatchLoops.no_json
            BatchLoops.no_report 1 Reporting.start true).
  vm_compute. reflexivity.
Defined.

End LazyFacts.
